(* ===== verification/_CoqProject ===== *)
-Q . S2P
Prelude.v
Schemas.v
Config.v
Exceptions.v
TextHeuristics.v
Translator.v
TranslationManager.v
FontManager.v
FontCache.v
Layout.v
Ocr.v
Inpaint.v
Base64.v
ImageUtils.v
ServiceStatus.v
Orchestrator.v
Http.v
Health.v
App.v
