(* ===== verification/Prelude.v ===== *)
(** * InkTranslator: a verification development of the image-translation backend

    The program (src/backend/src) translates the text of comic images in four
    stages driven by [TranslationOrchestrator.process_manga_translation]
    (services/orchestrator.py): OCR finds text boxes (services/ocr/), the
    translation stage packs every box into one marker-tagged payload and
    sends it through the [TranslationManager]
    (services/translate/translation_manager.py), which tries its providers
    in a fixed order ([DeepLTranslator], then [GoogleTranslator], both
    subclasses of [BaseTranslator] in services/translate/base.py), the
    inpainting stage erases each box, and the rendering stage lays the
    translated text out with the [FontManager], the [LayoutCalculator] and
    the [TextRenderer] (services/render/).

    ** Files, in dependency order

    - [Prelude] (this file): Python strings as lists of Unicode code points
      with [str.strip], [str.split], [str.join], [str.lower] and decimal
      [str]/[int]; the interface [UnicodeDB] (a class) to the parts of the
      Unicode database the code consults ([str.isalnum], [str.isupper],
      case mapping), with an instance exact on ASCII and on the kana, CJK
      and hangul blocks; the Python exceptions the code raises; a state
      monad [st] whose state survives a raised exception, as Python's
      mutations survive [raise], with its notations in [st_scope]; generic
      lemmas that a computation never raises ([st_safe]) or only moves
      its state forward along a preorder ([st_mono]), with their hint
      databases and tactics; the hint databases [ink] and [ink_rw].
    - [Schemas]: models/schemas.py and config.py (the language enum, text
      direction and font tables, [ProcessingStage], [BoundingBox],
      [TextBox] with [has_translation] and [display_text]) and Python dicts
      as association lists ([dict_get], [dict_set]); the start-up font
      check passes.
    - [Config]: the [Settings] object of config.py with every declared
      field and its default, the properties [font_mappings] and
      [text_directions] and the nested [HealthSettings]; an attribute
      read raises [AttributeError] on a name the class does not declare,
      and the modelled code reads [settings] through it; the [__main__]
      block of main.py.
    - [Exceptions]: the class table of utils/exceptions.py, of the
      translator exceptions and of the built-in, Starlette and FastAPI
      classes the code raises or catches ([Module Cls]), [__mro__] with
      fuel proved enough, [issubclass] and the equivalent rules
      [inherits], and exception objects with their [args] and attributes
      as [__init__] and [__str__] of [MangaTranslatorException] build them.
    - [TextHeuristics]: the pure helpers of services/translate/base.py
      ([normalize_language_code], [is_valuable_text], [repeating_sequence],
      [_is_translation_invalid], [_clean_translation_output] with each of
      its regular-expression substitutions written as a scanner).
    - [Translator]: [BaseTranslator.translate] with its retry loop, the
      rate limiter [_ratelimit_sleep], and the two providers as values of a
      record of operations (their language maps, retry counts, availability
      flags and [_translate] loops over an abstract network [Net]).
    - [TranslationManager]: provider initialisation and the fallback loops
      [translate], [translate_batch], [translate_with_service], and the
      manager's public calls as a step relation ([run_call]) with a
      generic section on state invariants, instantiated for the alignment
      of service names with providers and for [manager_wf]; [async with]
      ([__aenter__]/[__aexit__]), which always closes the manager.
    - [FontManager]: [_wrap_cjk_text], [_wrap_latin_text] with
      [_break_long_word], the binary search [find_optimal_font_size],
      [get_text_layout_info] and [_detect_script], over an abstract font
      metric.
    - [FontCache]: the constructor's [_get_font_paths], [get_font] with
      its cache (a [gmap] keyed by [f"{language}_{size}"]),
      [_get_font_path_for_language] with its language families and
      [get_best_font_for_text]; which files exist and what
      [ImageFont.truetype] loads are parameters.
    - [Layout]: [LayoutCalculator] (font size, positions, vertical
      columns, overlap resolution) and [TextRenderer.render_text] as the
      sequence of [draw.text] calls it makes.
    - [Ocr]: [_merge_nearby_boxes] and its helpers in services/ocr/base.py,
      the box building of [EasyOCRService.extract_text] and
      [MangaOCRService.extract_text] from what the recognisers report, and
      [OCRManager.initialize] / [get_ocr_service] and the manager's
      reports ([get_available_languages] as a strictly sorted set,
      [get_service_status]) on an explicit manager state.
    - [Inpaint]: [MaskGenerator] and [OpenCVInpainter]
      (services/inpaint/): numpy slicing of a box's region, the
      rectangular, combined, smart and adaptive masks with their
      fall-backs, [refine_mask], the inpainting loops,
      [enhance_inpainting_result] and [preview_inpainting_mask];
      [cv2.dilate] with a rectangular kernel is written out exactly, the
      other OpenCV pixel algorithms are the operations of the classes
      [CvOps] and [CvMaskOps].
    - [Base64]: [base64.b64encode] and [base64.b64decode] as CPython's
      [binascii] computes them, bit by bit on [N].
    - [ImageUtils]: utils/image_utils.py over the class [ImageOps] of the
      OpenCV, PIL and numpy calls with its shape laws; [resize_image] in
      Rocq's primitive IEEE doubles.
    - [ServiceStatus]: the reports of the translators ([get_usage_info],
      [get_supported_languages_info],
      [get_usage_stats], [reset_quota_status], [reset_rate_limit]) and of
      the manager ([get_service_status], [get_language_support_matrix]),
      as dicts of Python values; what the DeepL client's [get_usage()]
      answers is a parameter.
    - [Orchestrator]: the reading-order sort, marker packing
      ([_combine_text_for_context]) and unpacking
      ([_distribute_translated_text], a scanner for the regular expression
      [\[(\d+)\](.*?)\[/\1\]]), the sentence-split fallback, the four-stage
      pipeline as a function emitting its status events, the same pipeline
      as a step relation on [ProcessingStage], and the OCR services of
      [Ocr] plugged in as its OCR collaborator.
    - [Http]: the attribute lookups on the [Settings] object of config.py
      (a missing name raises [AttributeError]), routes/dependencies.py
      ([get_client_ip], [rate_limit_dependency] on its
      [rate_limit_storage], a finite map from address to request times,
      the [RateLimiter] wrappers, the API-key and upload checks), the
      [FileSizeLimitMiddleware] of main.py with Python's [int()], the two
      validators of utils/image_utils.py, and the [/translate] endpoint of
      routes/routers/translation.py on an [AppState] made of the
      orchestrator's state and [processing_status]: upload and image
      checks, the language check, the pipeline of [Orchestrator] with the
      session's [status_callback], the PNG encoding and the mapping of
      exceptions to status codes; [/status] and the cleanup task.
    - [Health]: the live [/health] route of routes/routers/health.py (the
      resource check on what psutil measures, the OCR and translation
      checks on the objects they build), the status code each exception
      of the development ends with, and the [lifespan] of main.py.
    - [App]: the application of main.py inside the stack FastAPI builds
      for it: [ServerErrorMiddleware] with the handler for [Exception],
      the user middleware in reverse order of addition ([log_requests],
      [FileSizeLimitMiddleware], [CORSMiddleware]), [ExceptionMiddleware]
      choosing a handler along the raised object's [__mro__], and the
      router (path templates, 404, 405, the 307 of [redirect_slashes])
      with the routes of main.py and routes/routers/.  A layer returns a
      response or raises an exception object ([outcome]); the framework
      code is written from Starlette's and FastAPI's behaviour.

    The collaborators meet through interfaces: the pipeline's theorems are
    proved against the record [Collaborators] (OCR, inpainting and drawing
    of one box), the translators' against the record [TranslatorOps], the
    renderer's against an arbitrary font metric, and every network answer
    comes from the parameter [Net].  The endpoint of [Http] is proved
    against the pipeline's lemmas, and for any image decoder and encoder;
    the application of [App] against the endpoint's lemmas and the class
    table of [Exceptions].

    ** What the theorems show (the claims C1 to C40, see each file)

    - Pipeline (C1, C10-C14): the status events always follow the
      pipeline's state machine; a translation outage still completes the
      run with every box carrying its original text; marker packing then
      unpacking gives each box the provider's text for its index, and a
      reply without markers leaves every box with its original text; a
      rendering failure on one box discards the boxes drawn before it;
      with the real OCR services, two detections whose centres are within
      20 pixels make the run fail at the OCR stage.
    - Endpoint and limiter (C2, C3, C40): on a valid upload, /translate
      answers 200 with the number of OCR boxes (or 500 when encoding
      fails) and leaves the session at [COMPLETED], or answers 422 and
      leaves it at [ERROR]; the sliding-window limiter, which forgets old
      entries, refines a contract stated on the whole history of accepted
      requests (a simulation, [limiter_sim]); after a full window a
      request is accepted again.  Lemmas show that the [settings]
      attributes read in upper case make the limiter, the API-key check
      and [validate_image] fail, that ["default"] passes the language
      check and gives 500, and that the middleware and the dependency
      agree on 413.
    - Application (C4-C9): through the whole stack, POST /api/v1/translate
      answers only 200, 400, 413, 422 or 500 whatever the request,
      collaborators and network (never 429 or 401: no route uses the
      limiter or the API-key check); GET /health answers 500 whatever the
      machine's state, because its OCR check asks a new, never
      initialised [OCRManager]; an exception a route raises ends with the
      status [exception_status] gives it; a [ProcessingError] reaching
      main.py's handler is answered 500, since the handler reads the
      attribute [detail] the class does not have; the CORS header is
      present exactly when the request passes the size check and nothing
      reaches the server, and so is [X-Process-Time].  Examples evaluate
      the 404 and 405 answers and the trailing-slash redirect.
    - Configuration (lemmas): an attribute [Settings] does not declare
      raises [AttributeError] whatever values the environment gives the
      declared fields, so [python main.py] stops before starting the
      server ([main_entry_raises]); the modelled code reads [settings]
      through [getattr], so the missing [default_font_size] and
      [inpaint_padding] come from there.
    - OCR (C15-C17, C36): [_merge_nearby_boxes] is the identity when no
      two boxes are near and raises [AttributeError] otherwise (the merge
      reads the removed field [confidence]); the boxes of both services
      have a text and ordered corners, MangaOCR's also an area (EasyOCR's
      may have width 0, against the data model); a failing MangaOCR
      constructor makes every OCR request fail; [get_available_languages]
      lists each supported language once, in increasing order; lemmas
      show that the
      service returned supports the language and that MangaOCR is
      preferred for Japanese and Chinese.
    - Image utilities (C18, C19): the base64 text [image_to_base64]
      writes in PNG decodes back to the image; [resize_image] returns its
      input or an image of exactly the positive size it computed in
      double precision, resizes whenever it can, and scales both sides by
      [min(max_width / w, max_height / h, 1.0)] (never enlarging), with
      Python's [min] and [<] on doubles proved a strict order
      ([SFltb_trans], [py_min3_spec]); a thin image whose scaled side
      truncates to 0 comes back unresized (see the Examples).  Lemmas
      show that [base64.b64decode] inverts [base64.b64encode] (a fact of
      CPython's library the wrappers rely on) and bound the crops of
      [crop_region] by the image.
    - Translation (C20-C28): [BaseTranslator.translate] never raises
      on supported codes and spaces its attempts by [60000 / rpm] ms,
      while Google sends one request per non-blank query inside one
      attempt;
      the manager returns [None] when every provider fails,
      never raises on supported codes, raises [ValueError] on its own
      default codes ['JPN']/['ENG'], keeps a rate-limited provider
      unavailable through every call but [close], and in every reachable
      state keeps its service names aligned with its providers, holds no
      provider before initialisation and at most one of each class; on
      such a state [get_service_status] and [get_available_services]
      agree on which services are available.  Lemmas show that
      same-language requests make no network call, that [translate]
      keeps the batch's length and its trivial entries, that
      [translate_batch] answers each text, that every pair of the
      support matrix is accepted by [supports_languages], and that
      [async with] always closes the manager.
    - Fonts and layout (C29-C35, C39): CJK wrapping keeps the text and
      fits each line; the font-size search returns a size in [[6, 30]]
      that fits, is exactly the largest fitting size under a monotone
      test (a refinement of a linear scan), returns 6 for CJK text that
      fits nowhere from 12 up, and terminates within its fuel; the font
      cache refines loading each font afresh, because the key
      [f"{language}_{size}"] determines the language and the size;
      overlap resolution either keeps the box or moves it, unchanged in
      size, inside the image and off the other box; when every word fits,
      [_wrap_latin_text] returns the text's words in order.  Lemmas show
      that vertical layout cuts CJK text into columns that concatenate
      back to it, that horizontal rendering draws each wrapped line once
      with four outline copies, that [render_text] raises
      [AttributeError] on blank text (the missing
      [settings.default_font_size]), that the layout's font size is
      clamped to [[6, 30]], and that the pieces of
      [_break_long_word_with_hyphen] give the word back.
    - Inpainting (C37, C38): [inpaint_textbox] never raises and leaves a
      box unchanged unless its region is non-empty and thresholding and
      [cv2.inpaint] succeed (the rectangular fall-back reads the missing
      [settings.inpaint_padding] and raises); lemmas show that
      [inpaint_combined_mask] always falls back to inpainting box by box
      and that an explicitly padded rectangular mask marks the padded box
      clipped to the image; [create_adaptive_mask] raises unless the
      region is non-empty and thresholding succeeds, and its mask stays
      within 8 pixels before the region and 10 after it (two dilations
      compose into one offset range, [dilate_10_twice]); lemmas show
      that [refine_mask] removes exactly the pixels with an edge in their
      3x3 neighbourhood and that [preview_inpainting_mask] raises on any
      box without a thresholded region.
    - Other lemmas: [issubclass] is a partial order on the class table;
      [repeating_sequence] finds a period no longer than the one a
      looping text is built from.

    ** Modelling choices, bounds and fuel

    Characters are Unicode code points ([N]); Python's per-character
    predicates come from [UnicodeDB], [str.isspace] is written out exactly
    (the set is small and fixed).  Integers are [Z]: Python's are unbounded,
    so nothing wraps.  The floating-point products the code truncates with
    [int(...)] are written exactly: [int(x * 0.4)] is [(2x) quot 5],
    [int(x * 0.3)] is [(3x) quot 10] and [int(s * 1.0 * 1.1)] is
    [(11s) quot 10]; the doubles nearest to [0.4] and [1.1] lie above
    [2/5] and [11/10] and the one nearest to [0.3] below [3/10] by a
    relative [4e-17], less than half an ulp of any product of these
    sizes, so the truncation is the rational one.  The distance test of
    [_boxes_nearby] is the exact comparison of the squared distance with
    the squared threshold.
    Times are integers in milliseconds (the only rates in the code are 3
    requests a minute, 20000 ms apart, and the HTTP limiter's windows of
    whole minutes, whose [time.time()] seconds become milliseconds); a network call takes the latency the
    abstract network gives it.  Loops that are not structural carry fuel
    that is proved sufficient: the font-size search gets one round more than
    its interval has sizes ([search_fuel]), and more fuel gives the same
    result (C33); [__mro__] gets 5 rounds, one more than the deepest
    chain of bases ([mro_go_enough]); the marker scanner and the column
    splitter get the length of their input, which each round shortens.
    The network, the OCR recognisers, OpenCV's pixel algorithms, the glyph
    metrics, the font files and the DeepL usage answer are parameters:
    their answers are arbitrary, and every theorem holds for all of them.
    Python's [asyncio.gather] over [translate] in [translate_batch] is
    modelled sequentially: the calls share no state except the providers'
    flags, which the sequential model updates in call order.

    ** Not modelled

    Session ids and the response streaming, the cleanup delay, the
    psutil calls themselves and the commented-out detailed health check,
    configuration loading from the environment and .env (the theorems
    on attributes hold for any values of the declared fields), logging, the CORS response headers other than
    [Access-Control-Allow-Origin] (the preflight answer is modelled for
    its status), the [Allow] header of a 405 and the documentation
    routes of FastAPI, the pixel and codec algorithms of OpenCV, PIL and
    numpy (the class [ImageOps] of ImageUtils states only the shape laws
    the theorems use), the colour-order conversions [convert_pil_to_cv2]
    and [convert_cv2_to_pil], the pixel algorithms of inpainting and mask
    generation (thresholding, morphology other than rectangular
    dilation, Canny, blending), [get_processing_preview] of the
    orchestrator, the recognition models themselves, the
    DeepL client's language listing ([get_supported_languages_info]) and
    [exceptions.py]'s helpers beyond the constructors and [__str__].
    [resize_image] is exact on sizes below [2^53], where every [int] is a
    double; the Examples evaluate it on page sizes.  They are listed in
    the manifest with the reason. *)

From Stdlib Require Import NArith ZArith String Ascii DecimalNat.
From stdpp Require Import base list gmap strings decidable.

Declare Scope ink_scope.
Delimit Scope ink_scope with ink.
Local Open Scope N_scope.

Create HintDb ink.
Create Rewrite HintDb ink_rw.

(** ** Characters and strings *)

(** A Python [str] is a sequence of code points. *)
Abbreviation char := N (only parsing).
Abbreviation text := (list N) (only parsing).

(** [str.isspace] for one character: the code points whose bidirectional
    class is WS, B or S or whose category is Zs (Python's definition). *)
Definition isspace (c : char) : bool :=
  ((9 <=? c) && (c <=? 13)) || ((28 <=? c) && (c <=? 32)) ||
  (c =? 133) || (c =? 160) || (c =? 5760) ||
  ((8192 <=? c) && (c <=? 8202)) || (c =? 8232) || (c =? 8233) ||
  (c =? 8239) || (c =? 8287) || (c =? 12288).

(** An ASCII Rocq string as a Python string (for concrete inputs). *)
Definition str (s : string) : text := map N_of_ascii (list_ascii_of_string s).

Definition ch (a : ascii) : char := N_of_ascii a.

(** [s.lstrip()], [s.rstrip()], [s.strip()] with no argument. *)
Fixpoint lstrip (s : text) : text :=
  match s with
  | [] => []
  | c :: s' => if isspace c then lstrip s' else s
  end.

Definition rstrip (s : text) : text := rev (lstrip (rev s)).

Definition strip (s : text) : text := rstrip (lstrip s).

(** [not s.strip()]: the string is empty or all whitespace. *)
Definition is_blank (s : text) : bool := forallb isspace s.

(** [s.split()] with no argument: maximal runs of non-whitespace. *)
Fixpoint split_ws_go (s : text) (cur : text) : list text :=
  match s with
  | [] => match cur with [] => [] | _ => [rev cur] end
  | c :: s' =>
      if isspace c then
        match cur with
        | [] => split_ws_go s' []
        | _ => rev cur :: split_ws_go s' []
        end
      else split_ws_go s' (c :: cur)
  end.

Definition split_ws (s : text) : list text := split_ws_go s [].

(** [s.split(sep)] for a one-character separator (empty fields kept). *)
Fixpoint split_on (sep : char) (s : text) : list text :=
  match s with
  | [] => [[]]
  | c :: s' =>
      let r := split_on sep s' in
      if c =? sep then [] :: r
      else match r with
           | w :: r' => (c :: w) :: r'
           | [] => [[c]]
           end
  end.

(** [sep.join(l)]. *)
Fixpoint join (sep : text) (l : list text) : text :=
  match l with
  | [] => []
  | [w] => w
  | w :: l' => w ++ sep ++ join sep l'
  end.

(** The longest prefix whose characters satisfy [p], and the rest. *)
Fixpoint span_while (p : char -> bool) (s : text) : text * text :=
  match s with
  | c :: s' => if p c then let '(a, b) := span_while p s' in (c :: a, b) else ([], s)
  | [] => ([], [])
  end.

(** [s.startswith(p)]. *)
Fixpoint starts_with (p s : text) : bool :=
  match p, s with
  | [], _ => true
  | c :: p', d :: s' => (c =? d) && starts_with p' s'
  | _ :: _, [] => false
  end.

(** [p in s] for strings. *)
Fixpoint contains (p s : text) : bool :=
  starts_with p s || match s with [] => false | _ :: s' => contains p s' end.

(** [seq * k] for a string [seq]. *)
Definition repeat_text (s : text) (k : nat) : text := mjoin (replicate k s).

(** ** Decimal numerals: [str(i)] and [int(d)] for digit strings *)

Fixpoint uint_text (u : Decimal.uint) : text :=
  match u with
  | Decimal.Nil => []
  | Decimal.D0 u => 48 :: uint_text u
  | Decimal.D1 u => 49 :: uint_text u
  | Decimal.D2 u => 50 :: uint_text u
  | Decimal.D3 u => 51 :: uint_text u
  | Decimal.D4 u => 52 :: uint_text u
  | Decimal.D5 u => 53 :: uint_text u
  | Decimal.D6 u => 54 :: uint_text u
  | Decimal.D7 u => 55 :: uint_text u
  | Decimal.D8 u => 56 :: uint_text u
  | Decimal.D9 u => 57 :: uint_text u
  end.

(** [str(i)] for a natural number. *)
Definition str_of_nat (n : nat) : text := uint_text (Nat.to_uint n).

(** ** The Unicode database *)

(** The per-character queries the code makes of Python's Unicode
    database: [str.isalnum], [str.isupper], one-character case mapping,
    and the value of a decimal digit (category Nd, what [\d] matches and
    [int()] reads).  The two laws are facts of the database: no
    alphanumeric character is whitespace, and the only ASCII digits are
    [0]..[9], with their usual values. *)
Class UnicodeDB := {
  uc_isalnum : char -> bool;
  uc_isupper : char -> bool;
  uc_lower : char -> char;
  uc_upper : char -> char;
  uc_decimal : char -> option nat;
  uc_alnum_not_space : forall c, uc_isalnum c = true -> isspace c = false;
  uc_decimal_ascii : forall k : nat, (k < 10)%nat -> uc_decimal (48 + N.of_nat k) = Some k;
  uc_decimal_ascii_only : forall c, c < 128 -> is_Some (uc_decimal c) -> 48 <= c <= 57
}.

(** Regular-expression [\w] on a [str] pattern: alphanumeric or [_]. *)
Definition isword `{UnicodeDB} (c : char) : bool := uc_isalnum c || (c =? 95).

(** [\d] on a [str] pattern. *)
Definition isdecimal `{UnicodeDB} (c : char) : bool := bool_decide (is_Some (uc_decimal c)).

(** [int(d)] for a non-empty string of decimal digits (what [\d+]
    matched). *)
Definition int_of_decimal `{UnicodeDB} (d : text) : nat :=
  fold_left (fun acc c => 10 * acc + default 0 (uc_decimal c))%nat d 0%nat.

(** [s.lower()], character by character. *)
Definition lower `{UnicodeDB} (s : text) : text := map uc_lower s.

(** A database exact on ASCII and on hiragana, katakana, CJK unified
    ideographs and hangul syllables, which are letters (category Lo). *)
Definition ascii_cjk_isalnum (c : char) : bool :=
  ((48 <=? c) && (c <=? 57)) || ((65 <=? c) && (c <=? 90)) ||
  ((97 <=? c) && (c <=? 122)) || ((12353 <=? c) && (c <=? 12438)) ||
  ((12449 <=? c) && (c <=? 12538)) || ((19968 <=? c) && (c <=? 40959)) ||
  ((44032 <=? c) && (c <=? 55203)).

(** ASCII digits and the fullwidth digits U+FF10..U+FF19. *)
Definition ascii_cjk_decimal (c : char) : option nat :=
  if (48 <=? c) && (c <=? 57) then Some (N.to_nat (c - 48))
  else if (65296 <=? c) && (c <=? 65305) then Some (N.to_nat (c - 65296))
  else None.

Lemma ascii_cjk_decimal_ascii (k : nat) :
  (k < 10)%nat -> ascii_cjk_decimal (48 + N.of_nat k) = Some k.
Proof.
  intros Hk. unfold ascii_cjk_decimal.
  replace ((48 <=? 48 + N.of_nat k) && (48 + N.of_nat k <=? 57)) with true.
  - f_equal. lia.
  - symmetry. apply andb_true_iff. rewrite !N.leb_le. lia.
Qed.

Lemma ascii_cjk_decimal_ascii_only c :
  c < 128 -> is_Some (ascii_cjk_decimal c) -> 48 <= c <= 57.
Proof.
  unfold ascii_cjk_decimal. intros Hc [v Hv].
  destruct ((48 <=? c) && (c <=? 57)) eqn:E1.
  - apply andb_true_iff in E1 as [E1 E2]. apply N.leb_le in E1, E2. lia.
  - destruct ((65296 <=? c) && (c <=? 65305)) eqn:E2; [|discriminate].
    apply andb_true_iff in E2 as [E2 _]. apply N.leb_le in E2. lia.
Qed.

Definition ascii_cjk_isupper (c : char) : bool := (65 <=? c) && (c <=? 90).

Definition ascii_cjk_lower (c : char) : char :=
  if ascii_cjk_isupper c then c + 32 else c.

Definition ascii_cjk_upper (c : char) : char :=
  if (97 <=? c) && (c <=? 122) then c - 32 else c.

Lemma ascii_cjk_alnum_not_space c : ascii_cjk_isalnum c = true -> isspace c = false.
Proof.
  unfold ascii_cjk_isalnum, isspace. intros H.
  apply not_true_is_false; intros Hc.
  repeat (rewrite orb_true_iff in * || rewrite andb_true_iff in * ||
          rewrite N.leb_le in * || rewrite N.eqb_eq in * ).
  lia.
Qed.

#[export] Instance ascii_cjk_db : UnicodeDB := {
  uc_isalnum := ascii_cjk_isalnum;
  uc_isupper := ascii_cjk_isupper;
  uc_lower := ascii_cjk_lower;
  uc_upper := ascii_cjk_upper;
  uc_decimal := ascii_cjk_decimal;
  uc_alnum_not_space := ascii_cjk_alnum_not_space;
  uc_decimal_ascii := ascii_cjk_decimal_ascii;
  uc_decimal_ascii_only := ascii_cjk_decimal_ascii_only
}.

(** ** Exceptions and the state monad *)

(** The Python exception classes the modelled code raises or catches. *)
Inductive exn : Type :=
  | ValueError
  | TypeError
  | AttributeError
  | RuntimeError
  | GenericException
  | RateLimitException
  | LanguageUnsupportedException
  | MissingAPIKeyException
  | InvalidServerResponse
  | ProcessingError
  | ZeroDivisionError
  | IndexError
  | ImageValidationError                  (** a subclass of [ProcessingError] *)
  | OverflowError
  | FileNotFoundError
  | HTTPException (status_code : Z).

#[export] Instance exn_eq_dec : EqDecision exn.
Proof. solve_decision. Defined.

Inductive res (A : Type) : Type :=
  | Ok (a : A)
  | Raise (e : exn).
Arguments Ok {A} a.
Arguments Raise {A} e.

(** A computation on state [S]: the state reached is returned also when
    an exception is raised, as Python keeps mutations made before a
    [raise]. *)
Definition st (S A : Type) : Type := S -> S * res A.

Definition ret {S A} (a : A) : st S A := fun s => (s, Ok a).
Definition throw {S A} (e : exn) : st S A := fun s => (s, Raise e).
Definition bind {S A B} (m : st S A) (k : A -> st S B) : st S B :=
  fun s => match m s with
           | (s', Ok a) => k a s'
           | (s', Raise e) => (s', Raise e)
           end.
(** [try: m except Exception as e: h(e)]. *)
Definition try_catch {S A} (m : st S A) (h : exn -> st S A) : st S A :=
  fun s => match m s with
           | (s', Ok a) => (s', Ok a)
           | (s', Raise e) => h e s'
           end.
Definition get {S} : st S S := fun s => (s, Ok s).
Definition put {S} (s : S) : st S unit := fun _ => (s, Ok tt).
Definition modify {S} (f : S -> S) : st S unit := fun s => (f s, Ok tt).

Declare Scope st_scope.
Delimit Scope st_scope with st.
Notation "x <- m ;; k" := (bind m (fun x => k))
  (at level 100, m at next level, right associativity) : st_scope.
Notation "m ;;; k" := (bind m (fun _ => k))
  (at level 100, right associativity) : st_scope.

(** A loop over a list in the monad ([for x in l: body(x)]). *)
Fixpoint st_iter {S A} (body : A -> st S unit) (l : list A) : st S unit :=
  match l with
  | [] => ret tt
  | x :: l' => bind (body x) (fun _ => st_iter body l')
  end.

(** [[f(x) for x in l]] where [f] may change the state or raise. *)
Fixpoint st_map {S A B} (f : A -> st S B) (l : list A) : st S (list B) :=
  match l with
  | [] => ret []
  | x :: l' => bind (f x) (fun y => bind (st_map f l') (fun ys => ret (y :: ys)))
  end.

Ltac st_unfold := unfold bind, ret, throw, try_catch, get, put, modify in *.

(** ** Lemmas on strings *)

Lemma lstrip_nil_iff (s : text) : lstrip s = [] <-> is_blank s = true.
Proof.
  induction s as [|c s IH]; simpl; [done|].
  destruct (isspace c); simpl; [done|]. split; discriminate.
Qed.

Lemma is_blank_app (s1 s2 : text) :
  is_blank (s1 ++ s2) = is_blank s1 && is_blank s2.
Proof. apply forallb_app. Qed.

Lemma is_blank_rev (s : text) : is_blank (rev s) = is_blank s.
Proof.
  induction s as [|c s IH]; simpl; [done|].
  rewrite is_blank_app, IH. simpl. rewrite andb_true_r. apply andb_comm.
Qed.

Lemma is_blank_lstrip (s : text) : is_blank (lstrip s) = is_blank s.
Proof.
  induction s as [|c s IH]; simpl; [done|].
  destruct (isspace c) eqn:E; simpl; by rewrite ?E.
Qed.

(** [s.strip()] is empty exactly when [s] is blank. *)
Lemma strip_nil_iff (s : text) : strip s = [] <-> is_blank s = true.
Proof.
  unfold strip, rstrip.
  rewrite <- is_blank_lstrip, <- is_blank_rev, <- lstrip_nil_iff.
  split; intros H.
  - apply (f_equal (@rev N)) in H. by rewrite rev_involutive in H.
  - by rewrite H.
Qed.

Lemma lstrip_not_blank (s : text) :
  is_blank s = false -> exists c s', lstrip s = c :: s' /\ isspace c = false.
Proof.
  induction s as [|c s IH]; simpl; [discriminate|].
  destruct (isspace c) eqn:E; simpl; eauto.
Qed.



Lemma is_blank_strip (s : text) : is_blank (strip s) = is_blank s.
Proof.
  unfold strip, rstrip.
  by rewrite is_blank_rev, is_blank_lstrip, is_blank_rev, is_blank_lstrip.
Qed.

Lemma join_single (sep w : text) : join sep [w] = w.
Proof. done. Qed.

Lemma join_cons (sep w : text) (l : list text) :
  l <> [] -> join sep (w :: l) = w ++ sep ++ join sep l.
Proof. destruct l; [done|reflexivity]. Qed.

(** ** Decimal numerals *)

Section Decimal.
Context `{UnicodeDB}.

Lemma fold_decimal_uint_text (u : Decimal.uint) (acc : nat) :
  fold_left (fun acc c => 10 * acc + default 0 (uc_decimal c))%nat (uint_text u) acc =
  Nat.of_uint_acc u acc.
Proof.
  revert acc.
  induction u; intros acc; simpl; rewrite ?IHu, ?Nat.tail_mul_spec; try reflexivity.
  all: match goal with |- context [uc_decimal ?c] =>
         let k := eval vm_compute in (N.to_nat (c - 48)) in
         replace c with (48 + N.of_nat k) by reflexivity;
         rewrite uc_decimal_ascii by lia; simpl; f_equal; lia
       end.
Qed.

(** [int(str(i)) == i]. *)
Lemma int_of_str_of_nat (n : nat) : int_of_decimal (str_of_nat n) = n.
Proof.
  unfold int_of_decimal, str_of_nat. rewrite fold_decimal_uint_text.
  apply DecimalNat.Unsigned.of_to.
Qed.

Lemma uint_text_decimal (u : Decimal.uint) : Forall (fun c => isdecimal c = true) (uint_text u).
Proof.
  induction u; simpl; constructor; auto.
  all: unfold isdecimal; apply bool_decide_eq_true;
       match goal with |- is_Some (uc_decimal ?c) =>
         let k := eval vm_compute in (N.to_nat (c - 48)) in
         replace c with (48 + N.of_nat k) by reflexivity;
         rewrite uc_decimal_ascii by lia; eauto
       end.
Qed.

Lemma isdecimal_ascii_other c : c < 128 -> (c < 48 \/ 57 < c) -> isdecimal c = false.
Proof.
  intros Hc Hr. unfold isdecimal. apply bool_decide_eq_false. intros Hs.
  pose proof (uc_decimal_ascii_only c Hc Hs). lia.
Qed.

Lemma str_of_nat_decimal (n : nat) : Forall (fun c => isdecimal c = true) (str_of_nat n).
Proof. apply uint_text_decimal. Qed.

End Decimal.

Lemma str_of_nat_nonempty (n : nat) : str_of_nat n <> [].
Proof.
  unfold str_of_nat. intros H.
  pose proof (DecimalNat.Unsigned.of_to n) as E.
  destruct (Nat.to_uint n) eqn:U; try discriminate.
  simpl in E. subst n. discriminate.
Qed.

#[export] Hint Resolve str_of_nat_nonempty str_of_nat_decimal : ink.
#[export] Hint Rewrite int_of_str_of_nat is_blank_app is_blank_rev is_blank_strip : ink_rw.

(** ** Lemmas on the monad *)

Lemma st_map_length {S A B} (f : A -> st S B) (l : list A) s s' ys :
  st_map f l s = (s', Ok ys) -> length ys = length l.
Proof.
  revert s ys. induction l as [|x l IH]; simpl; intros s ys H.
  - st_unfold. by injection H as <- <-.
  - st_unfold. destruct (f x s) as [s1 [y|e]]; [|discriminate].
    destruct (st_map f l s1) as [s2 [zs|e]] eqn:E; [|discriminate].
    injection H as <- <-. simpl. f_equal. eauto.
Qed.

(** A [try] whose handler returns a value never raises. *)
Lemma try_catch_ret_ok {S A} (m : st S A) (v : A) (s : S) :
  exists s' a, try_catch m (fun _ => ret v) s = (s', Ok a).
Proof.
  st_unfold. destruct (m s) as [s' [a|e]]; eauto.
Qed.

Lemma bind_ok {S A B} (m : st S A) (k : A -> st S B) s s' a :
  m s = (s', Ok a) -> bind m k s = k a s'.
Proof. st_unfold. intros ->. reflexivity. Qed.

Lemma bind_raise {S A B} (m : st S A) (k : A -> st S B) s s' e :
  m s = (s', Raise e) -> bind m k s = (s', Raise e).
Proof. st_unfold. intros ->. reflexivity. Qed.

Lemma try_catch_ok {S A} (m : st S A) h s s' a :
  m s = (s', Ok a) -> try_catch m h s = (s', Ok a).
Proof. st_unfold. intros ->. reflexivity. Qed.

Lemma try_catch_raise {S A} (m : st S A) h s s' e :
  m s = (s', Raise e) -> try_catch m h s = h e s'.
Proof. st_unfold. intros ->. reflexivity. Qed.

(** What a [try] raises, its handler raised. *)
Lemma try_catch_raise_inv {S A} (m : st S A) h s s' e :
  try_catch m h s = (s', Raise e) -> exists e1 s1, m s = (s1, Raise e1) /\ h e1 s1 = (s', Raise e).
Proof. st_unfold. destruct (m s) as [s1 [a|e1]]; [by intros [=] | eauto]. Qed.

(** ** Monotone computations

    [st_mono R m]: every run of [m], also one that raises, ends in a state
    above its start for the preorder [R].  Flags that are only ever set,
    clocks that only move forward and invariants of the state are all
    instances. *)
Section Mono.
Context {S : Type} (R : relation S) `{!PreOrder R}.

Definition st_mono {A} (m : st S A) : Prop := forall s s' r, m s = (s', r) -> R s s'.

Lemma st_mono_ret {A} (a : A) : st_mono (ret a).
Proof. intros s s' r [= <- _]. reflexivity. Qed.

Lemma st_mono_throw {A} (e : exn) : st_mono (A:=A) (throw e).
Proof. intros s s' r [= <- _]. reflexivity. Qed.

Lemma st_mono_get : st_mono get.
Proof. intros s s' r [= <- _]. reflexivity. Qed.

Lemma st_mono_modify (f : S -> S) : (forall s, R s (f s)) -> st_mono (modify f).
Proof. intros Hf s s' r [= <- _]. apply Hf. Qed.

Lemma st_mono_bind {A B} (m : st S A) (k : A -> st S B) :
  st_mono m -> (forall a, st_mono (k a)) -> st_mono (bind m k).
Proof.
  intros Hm Hk s s' r. unfold bind. destruct (m s) as [s1 [a|e]] eqn:E.
  - intros H. etrans; [exact (Hm _ _ _ E)|]. exact (Hk a _ _ _ H).
  - intros [= <- _]. exact (Hm _ _ _ E).
Qed.

Lemma st_mono_try_catch {A} (m : st S A) (h : exn -> st S A) :
  st_mono m -> (forall e, st_mono (h e)) -> st_mono (try_catch m h).
Proof.
  intros Hm Hh s s' r. unfold try_catch. destruct (m s) as [s1 [a|e]] eqn:E.
  - intros [= <- _]. exact (Hm _ _ _ E).
  - intros H. etrans; [exact (Hm _ _ _ E)|]. exact (Hh e _ _ _ H).
Qed.

Lemma st_mono_st_map {A B} (f : A -> st S B) (l : list A) :
  (forall x, st_mono (f x)) -> st_mono (st_map f l).
Proof.
  intros Hf. induction l as [|x l IH]; simpl.
  - apply st_mono_ret.
  - apply st_mono_bind; [apply Hf|]. intros y.
    apply st_mono_bind; [exact IH|]. intros ys. apply st_mono_ret.
Qed.

End Mono.

Create HintDb st_mono.
(* [refine] leaves the relation to unification and then resolves its
   [PreOrder] instance, which [apply] and [Hint Resolve] leave open. *)
#[export] Hint Extern 1 (st_mono _ (ret _)) => refine (st_mono_ret _ _) : st_mono.
#[export] Hint Extern 1 (st_mono _ (throw _)) => refine (st_mono_throw _ _) : st_mono.
#[export] Hint Extern 1 (st_mono _ get) => refine (st_mono_get _) : st_mono.

(** Decompose a monotonicity goal along the combinators and the
    branches of the code; what is left is solved by the hints of
    [st_mono] and the hypotheses. *)
Ltac st_mono_solve :=
  repeat (cbv beta; first
    [ progress intros
    | solve [eauto with st_mono]
    | match goal with |- st_mono _ (let _ := _ in _) => cbv zeta end
    | match goal with |- st_mono _ (match ?x with _ => _ end) => destruct x end
    | refine (st_mono_bind _ _ _ _ _) | refine (st_mono_try_catch _ _ _ _ _)
    | refine (st_mono_st_map _ _ _ _) ]).

(** ** Computations that never raise *)

Definition st_safe {S A} (m : st S A) : Prop := forall s, exists s' a, m s = (s', Ok a).

Section Safe.
Context {S : Type}.

Lemma st_safe_ret {A} (a : A) : st_safe (S:=S) (ret a).
Proof. intros s. eauto. Qed.

Lemma st_safe_get : st_safe (S:=S) get.
Proof. intros s. eauto. Qed.

Lemma st_safe_modify (f : S -> S) : st_safe (modify f).
Proof. intros s. eauto. Qed.

Lemma st_safe_bind {A B} (m : st S A) (k : A -> st S B) :
  st_safe m -> (forall a, st_safe (k a)) -> st_safe (bind m k).
Proof.
  intros Hm Hk s. unfold bind. destruct (Hm s) as (s1 & a & ->). apply Hk.
Qed.

(** A [try] is safe when its handler is, whatever its body does. *)
Lemma st_safe_try_catch {A} (m : st S A) (h : exn -> st S A) :
  (forall e, st_safe (h e)) -> st_safe (try_catch m h).
Proof.
  intros Hh s. unfold try_catch. destruct (m s) as [s1 [a|e]]; [eauto|apply Hh].
Qed.

Lemma st_safe_st_map {A B} (f : A -> st S B) (l : list A) :
  (forall x, st_safe (f x)) -> st_safe (st_map f l).
Proof.
  intros Hf. induction l as [|x l IH]; simpl.
  - apply st_safe_ret.
  - apply st_safe_bind; [apply Hf|]. intros y.
    apply st_safe_bind; [exact IH|]. intros ys. apply st_safe_ret.
Qed.

End Safe.

Create HintDb st_safe.
#[export] Hint Resolve st_safe_ret st_safe_get st_safe_modify : st_safe.

Ltac st_safe_solve :=
  repeat (cbv beta; first
    [ progress intros
    | solve [eauto with st_safe]
    | match goal with |- st_safe (let _ := _ in _) => cbv zeta end
    | match goal with |- st_safe (match ?x with _ => _ end) => destruct x end
    | apply st_safe_bind | apply st_safe_try_catch | apply st_safe_st_map ]).

(** Every element [st_map] returns satisfies what each call promises. *)
Lemma st_map_post {S A B} (P : B -> Prop) (f : A -> st S B) (l : list A) s s' ys :
  (forall x s1 s2 y, f x s1 = (s2, Ok y) -> P y) ->
  st_map f l s = (s', Ok ys) -> Forall P ys.
Proof.
  intros Hf. revert s ys. induction l as [|x l IH]; simpl; intros s ys H.
  - st_unfold. by injection H as <- <-.
  - st_unfold. destruct (f x s) as [s1 [y|e]] eqn:Ex; [|discriminate].
    destruct (st_map f l s1) as [s2 [zs|e]] eqn:E; [|discriminate].
    injection H as <- <-. constructor; eauto.
Qed.

(** ** Words of [str.split()] *)

(** A word: not empty and without whitespace. *)
Definition ws_word (w : text) : Prop := w <> [] /\ Forall (fun c => isspace c = false) w.

Lemma split_ws_go_words s cur :
  Forall (fun c => isspace c = false) cur -> Forall ws_word (split_ws_go s cur).
Proof.
  revert cur. induction s as [|c s IH]; intros cur Hc; simpl.
  - destruct cur as [|d cur]; [done|]. constructor; [|done].
    split; [|by apply Forall_rev]. intros Hr. apply (f_equal length) in Hr.
    rewrite length_rev in Hr. discriminate.
  - destruct (isspace c) eqn:E.
    + destruct cur as [|d cur]; [by apply IH|]. constructor; [|by apply IH].
      split; [|by apply Forall_rev]. intros Hr. apply (f_equal length) in Hr.
      rewrite length_rev in Hr. discriminate.
    + apply IH. by constructor.
Qed.

Lemma split_ws_words s : Forall ws_word (split_ws s).
Proof. by apply split_ws_go_words. Qed.

Lemma ws_word_not_blank w : ws_word w -> is_blank w = false.
Proof.
  intros [Hne Hw]. destruct w as [|c w]; [done|]. simpl.
  apply Forall_cons_1 in Hw as [-> _]. done.
Qed.

Lemma split_ws_go_nonempty s cur :
  (cur <> [] \/ is_blank s = false) -> split_ws_go s cur <> [].
Proof.
  revert cur. induction s as [|c s IH]; intros cur H; simpl.
  - destruct cur; [|done]. destruct H as [H|H]; done.
  - destruct (isspace c) eqn:E.
    + destruct cur as [|d cur]; [|done]. apply IH. destruct H as [H|H]; [done|].
      right. simpl in H. by rewrite E in H.
    + apply IH. by left.
Qed.

Lemma split_ws_nonempty s : is_blank s = false -> split_ws s <> [].
Proof. intros H. apply split_ws_go_nonempty. by right. Qed.

(** Whitespace separates words: what comes after a whitespace character
    is split on its own. *)
Lemma split_ws_go_app_space s1 s2 cur c :
  isspace c = true -> split_ws_go (s1 ++ c :: s2) cur = split_ws_go s1 cur ++ split_ws s2.
Proof.
  intros Hc. revert cur. induction s1 as [|d s1 IH]; intros cur; simpl.
  - rewrite Hc. by destruct cur.
  - destruct (isspace d); [destruct cur; rewrite IH; done | apply IH].
Qed.

Lemma split_ws_go_blank w : is_blank w = true -> split_ws_go w [] = [].
Proof.
  induction w as [|c w IH]; [done|]. simpl. intros [Hc Hw]%andb_true_iff.
  rewrite Hc. by apply IH.
Qed.

Lemma split_ws_go_app_blank s w cur :
  is_blank w = true -> split_ws_go (s ++ w) cur = split_ws_go s cur.
Proof.
  destruct w as [|c w]; [by rewrite app_nil_r|]. simpl. intros [Hc Hw]%andb_true_iff.
  rewrite split_ws_go_app_space by done. unfold split_ws. rewrite split_ws_go_blank by done.
  apply app_nil_r.
Qed.

Lemma split_ws_blank_app w s : is_blank w = true -> split_ws (w ++ s) = split_ws s.
Proof.
  induction w as [|c w IH]; [done|]. simpl. intros [Hc Hw]%andb_true_iff.
  unfold split_ws in *. simpl. rewrite Hc. by apply IH.
Qed.

Lemma lstrip_blank_prefix s : exists w, s = w ++ lstrip s /\ is_blank w = true.
Proof.
  induction s as [|c s (w & Hw & Hb)]; [by exists []|]. simpl.
  destruct (isspace c) eqn:Hc; [|by exists []].
  exists (c :: w). simpl. rewrite Hc, Hb. by rewrite <- Hw.
Qed.

Lemma split_ws_strip s : split_ws (strip s) = split_ws s.
Proof.
  assert (Hl : forall s, split_ws (lstrip s) = split_ws s).
  { intros t. destruct (lstrip_blank_prefix t) as (w & Hw & Hb).
    rewrite Hw at 2. by rewrite split_ws_blank_app. }
  unfold strip, rstrip. rewrite <- (Hl s). generalize (lstrip s) as u. intros u.
  destruct (lstrip_blank_prefix (rev u)) as (w & Hw & Hb).
  assert (Hu : u = rev (lstrip (rev u)) ++ rev w).
  { rewrite <- rev_app_distr, <- Hw. symmetry. apply rev_involutive. }
  assert (Hs : split_ws u = split_ws (rev (lstrip (rev u)) ++ rev w)) by (f_equal; exact Hu).
  rewrite Hs. unfold split_ws. rewrite split_ws_go_app_blank; [done|]. by rewrite is_blank_rev.
Qed.

Lemma split_ws_go_word w cur :
  Forall (fun c => isspace c = false) w -> split_ws_go w cur = match rev w ++ cur with [] => [] | _ => [rev (rev w ++ cur)] end.
Proof.
  revert cur. induction w as [|c w IH]; intros cur Hw; [done|].
  apply Forall_cons_1 in Hw as [Hc Hw]. simpl. rewrite Hc, IH by done.
  by rewrite <- app_assoc.
Qed.

Lemma split_ws_word w : ws_word w -> split_ws w = [w].
Proof.
  intros [Hne Hw]. unfold split_ws. rewrite split_ws_go_word by done.
  rewrite app_nil_r, rev_involutive. destruct (rev w) as [|c r] eqn:E; [|done].
  exfalso. apply Hne. by rewrite <- (rev_involutive w), E.
Qed.

(** Words joined by single spaces split back into the same words. *)
Lemma split_ws_join l : Forall ws_word l -> split_ws (join (str " ") l) = l.
Proof.
  induction l as [|w [|w' l] IH]; intros Hl; [done| |].
  - apply Forall_cons_1 in Hl as [Hw _]. by apply split_ws_word.
  - apply Forall_cons_1 in Hl as [Hw Hl]. cbn [join]. unfold str; simpl.
    unfold split_ws. rewrite split_ws_go_app_space by reflexivity.
    fold (split_ws w). rewrite split_ws_word by done. simpl. f_equal. by apply IH.
Qed.

(** ** Repetitions and searches over ranges *)

Lemma repeat_text_S (s : text) (k : nat) : repeat_text s (S k) = s ++ repeat_text s k.
Proof. reflexivity. Qed.

Lemma length_repeat_text (s : text) (k : nat) : length (repeat_text s k) = (k * length s)%nat.
Proof. induction k as [|k IH]; [done|]. rewrite repeat_text_S, length_app, IH. lia. Qed.

(** [next(i for i in range(a, a + m) if p(i))] finds an index no larger
    than any index of the range that satisfies [p]. *)
Lemma find_seq_first (p : nat -> bool) (a m k : nat) :
  k ∈ seq a m -> p k = true ->
  exists k', List.find p (seq a m) = Some k' /\ (a <= k' <= k)%nat /\ p k' = true.
Proof.
  revert a. induction m as [|m IH]; intros a Hk Hp; [by apply not_elem_of_nil in Hk|].
  cbn [seq List.find]. destruct (p a) eqn:Ha.
  - exists a. apply elem_of_seq in Hk. split_and!; auto with lia.
  - apply elem_of_cons in Hk as [->|Hk]; [congruence|].
    destruct (IH (S a) Hk Hp) as (k' & Hf & Hb & Hpk). exists k'. split_and!; auto with lia.
Qed.
