(* ===== verification/Schemas.v ===== *)
(** * Schemas: the data model (models/schemas.py, config.py)

    The language enumeration with its direction and font tables from
    [Settings], the pipeline's [ProcessingStage], and the [BoundingBox] and
    [TextBox] records with their derived properties.  The startup check of
    models/schemas.py (every language has a font) is a theorem here. *)

From Stdlib Require Import NArith ZArith String Ascii.
From stdpp Require Import base list strings decidable.
From S2P Require Import Prelude.

Local Open Scope string_scope.

(** ** Languages and directions *)

Inductive Language : Type :=
  | JAPANESE | SIM_CHINESE | TRAD_CHINESE | KOREAN | ENGLISH | VIETNAMESE.

#[export] Instance Language_eq_dec : EqDecision Language.
Proof. solve_decision. Defined.

(** [Language(...).value]. *)
Definition language_value (l : Language) : string :=
  match l with
  | JAPANESE => "japanese"
  | SIM_CHINESE => "sim_chinese"
  | TRAD_CHINESE => "trad_chinese"
  | KOREAN => "korean"
  | ENGLISH => "english"
  | VIETNAMESE => "vietnamese"
  end.

(** Iteration order of [for lang in Language]. *)
Definition all_languages : list Language :=
  [JAPANESE; SIM_CHINESE; TRAD_CHINESE; KOREAN; ENGLISH; VIETNAMESE].

(** [Language(s)]: the member whose value is [s], or [ValueError]. *)
Definition language_of_value (s : string) : res Language :=
  match List.find (fun l => String.eqb (language_value l) s) all_languages with
  | Some l => Ok l
  | None => Raise ValueError
  end.

Inductive TextDirection : Type := LTR | TTB.

#[export] Instance TextDirection_eq_dec : EqDecision TextDirection.
Proof. solve_decision. Defined.

Definition direction_of_value (s : string) : res TextDirection :=
  if String.eqb s "ltr" then Ok LTR
  else if String.eqb s "ttb" then Ok TTB
  else Raise ValueError.

(** A Python dict with string keys, as its items in insertion order. *)
Definition dict (V : Type) := list (string * V).

(** [d.get(k)]. *)
Definition dict_get {V} (d : dict V) (k : string) : option V :=
  snd <$> List.find (fun kv => String.eqb (fst kv) k) d.

(** [d.get(k, d["default"])]; a missing ["default"] raises [KeyError],
    which is [ValueError] here. *)
Definition dict_get_default {V} (d : dict V) (k : string) : res V :=
  match dict_get d k with
  | Some v => Ok v
  | None => match dict_get d "default" with
            | Some v => Ok v
            | None => Raise ValueError
            end
  end.

(** [d[k] = v]: an existing key keeps its place. *)
Fixpoint dict_set {V} (d : dict V) (k : string) (v : V) : dict V :=
  match d with
  | [] => [(k, v)]
  | (k', v') :: d' => if String.eqb k' k then (k, v) :: d' else (k', v') :: dict_set d' k v
  end.

(** [Settings.font_mappings]. *)
Definition font_mappings : dict string :=
  [("english", "fonts/CCMonologousTeddyBear.ttf");
   ("japanese", "fonts/GenEiAntique.ttf");
   ("sim_chinese", "fonts/SCNotoSerifCJK.otf");
   ("korean", "fonts/KRNotoSerifCJK.otf");
   ("trad_chinese", "fonts/TCNotoSerifCJK.otf");
   ("vietnamese", "fonts/CCMonologousTeddyBear.ttf");
   ("default", "fonts/CCMonologousTeddyBear.ttf")].

(** [Settings.text_directions]. *)
Definition text_directions : dict string :=
  [("english", "ltr"); ("japanese", "ttb"); ("sim_chinese", "ttb");
   ("trad_chinese", "ttb"); ("korean", "ltr"); ("vietnamese", "ltr");
   ("default", "ltr")].

(** [_missing_fonts], computed when models/schemas.py is imported; a
    non-empty list raises [ValueError] at startup. *)
Definition missing_fonts : list string :=
  map language_value
      (filter (fun l => bool_decide (dict_get font_mappings (language_value l) = None))
              all_languages).

Definition get_font_for_language (l : Language) : res string :=
  dict_get_default font_mappings (language_value l).

Definition get_text_direction_for_language (l : Language) : res TextDirection :=
  match dict_get_default text_directions (language_value l) with
  | Ok d => direction_of_value d
  | Raise e => Raise e
  end.

(** The CJK test shared by [FontManager], [LayoutCalculator] and
    [TextRenderer]: [language.lower() in ['japanese', ...]]. *)
Definition is_cjk_language (l : string) : bool :=
  bool_decide (l ∈ ["japanese"; "sim_chinese"; "trad_chinese"; "korean"]).

(** ** Processing stages *)

Inductive ProcessingStage : Type :=
  | INITIALIZED | OCR | TRANSLATION | INPAINTING | RENDERING | COMPLETED | ERROR.

#[export] Instance ProcessingStage_eq_dec : EqDecision ProcessingStage.
Proof. solve_decision. Defined.

(** ** Boxes *)

Record BoundingBox : Type := mkBox {
  x1 : Z; y1 : Z; x2 : Z; y2 : Z
}.

#[export] Instance BoundingBox_eq_dec : EqDecision BoundingBox.
Proof. solve_decision. Defined.

Definition width (b : BoundingBox) : Z := (x2 b - x1 b)%Z.
Definition height (b : BoundingBox) : Z := (y2 b - y1 b)%Z.
Definition center_x (b : BoundingBox) : Z := ((x1 b + x2 b) / 2)%Z.
Definition center_y (b : BoundingBox) : Z := ((y1 b + y2 b) / 2)%Z.

Record TextBox : Type := mkTextBox {
  tb_text : text;
  tb_bbox : BoundingBox;
  translated_text : text
}.

#[export] Instance TextBox_eq_dec : EqDecision TextBox.
Proof. solve_decision. Defined.

(** [TextBox(text=t, bbox=b)]: [translated_text] defaults to [""]. *)
Definition new_text_box (t : text) (b : BoundingBox) : TextBox := mkTextBox t b [].

Definition set_translated (tb : TextBox) (t : text) : TextBox :=
  mkTextBox (tb_text tb) (tb_bbox tb) t.

Definition has_translation (tb : TextBox) : bool := negb (is_blank (translated_text tb)).

Definition display_text (tb : TextBox) : text :=
  if has_translation tb then translated_text tb else tb_text tb.

(** ** The startup checks *)

(** The check of models/schemas.py passes: every language has a font. *)
Lemma missing_fonts_nil : missing_fonts = [].
Proof. vm_compute. reflexivity. Qed.

(** So the lookups of the font and direction tables never raise. *)
Lemma get_font_for_language_ok l : exists f, get_font_for_language l = Ok f.
Proof. destruct l; eexists; reflexivity. Qed.

Lemma get_text_direction_for_language_ok l : exists d, get_text_direction_for_language l = Ok d.
Proof. destruct l; eexists; reflexivity. Qed.

Lemma dict_get_set_eq {V} (d : dict V) k v : dict_get (dict_set d k v) k = Some v.
Proof.
  unfold dict_get. induction d as [|[k' v'] d IH]; cbn; [by rewrite String.eqb_refl|].
  destruct (String.eqb k' k) eqn:E; cbn; [by rewrite String.eqb_refl|]. by rewrite E.
Qed.

Lemma dict_get_set_ne {V} (d : dict V) k k' v :
  k <> k' -> dict_get (dict_set d k v) k' = dict_get d k'.
Proof.
  intros Hne. unfold dict_get. induction d as [|[k0 v0] d IH]; cbn.
  - by destruct (String.eqb_spec k k').
  - destruct (String.eqb k0 k) eqn:E; cbn.
    + apply String.eqb_eq in E as ->. by destruct (String.eqb_spec k k').
    + by destruct (String.eqb k0 k').
Qed.
