(* ===== verification/Config.v ===== *)
(** * Config: the [Settings] object of config.py

    [settings = Settings()] as a dict from field name to value, in the
    order config.py declares the fields, with the two properties
    [font_mappings] and [text_directions] and the nested
    [HealthSettings].  An attribute read [settings.<name>] is [getattr]:
    names are case-sensitive, and a name the class does not declare
    raises [AttributeError].  The environment may change the values of
    the fields, never their names: the theorems on missing attributes
    hold for every settings object with the declared names.  The
    [__main__] block of main.py, which reads [settings.HOST],
    [settings.PORT] and [settings.DEBUG], is modelled here. *)

From Stdlib Require Import NArith ZArith String Ascii Floats.
From stdpp Require Import base list decidable.
From S2P Require Import Prelude Schemas.

Local Open Scope Z_scope.
Local Open Scope string_scope.

(** ** Values and attribute reads *)

(** The values of the fields, by their declared type. *)
Inductive SettingValue : Type :=
  | SBool (b : bool)
  | SInt (z : Z)
  | SFloat (f : float)
  | SStr (s : string)
  | STexts (l : list text)
  | SDict (d : dict string)
  | SObj (fields : dict SettingValue).

(** [settings.<name>] on a settings object [cfg]: a name it does not
    declare raises [AttributeError]. *)
Definition getattr (cfg : dict SettingValue) (name : string) : res SettingValue :=
  match dict_get cfg name with
  | Some v => Ok v
  | None => Raise AttributeError
  end.

Definition getattr_bool (cfg : dict SettingValue) (name : string) : res bool :=
  match getattr cfg name with
  | Ok (SBool b) => Ok b
  | Ok _ => Raise TypeError
  | Raise e => Raise e
  end.

Definition getattr_int (cfg : dict SettingValue) (name : string) : res Z :=
  match getattr cfg name with
  | Ok (SInt z) => Ok z
  | Ok _ => Raise TypeError
  | Raise e => Raise e
  end.

Definition getattr_str (cfg : dict SettingValue) (name : string) : res string :=
  match getattr cfg name with
  | Ok (SStr s) => Ok s
  | Ok _ => Raise TypeError
  | Raise e => Raise e
  end.

Definition getattr_texts (cfg : dict SettingValue) (name : string) : res (list text) :=
  match getattr cfg name with
  | Ok (STexts l) => Ok l
  | Ok _ => Raise TypeError
  | Raise e => Raise e
  end.

(** ** The declared fields *)

(** [HealthSettings()]. *)
Definition health_settings_fields : dict SettingValue :=
  [("max_memory_percent", SInt 90); ("max_disk_percent", SInt 90);
   ("max_cpu_percent", SInt 90); ("min_memory_gb", SInt 1); ("min_disk_gb", SInt 1);
   ("test_text", SStr "Hello world"); ("test_source_lang", SStr "en");
   ("test_target_lang", SStr "ja")]%string.

(** The font fields the property [font_mappings] reads. *)
Definition font_fields : dict SettingValue :=
  [("fonts_dir", SStr "fonts/");
   ("english_font", SStr "fonts/CCMonologousTeddyBear.ttf");
   ("japanese_font", SStr "fonts/GenEiAntique.ttf");
   ("sim_chinese_font", SStr "fonts/SCNotoSerifCJK.otf");
   ("korean_font", SStr "fonts/KRNotoSerifCJK.otf");
   ("trad_chinese_font", SStr "fonts/TCNotoSerifCJK.otf");
   ("vietnamese_font", SStr "fonts/CCMonologousTeddyBear.ttf");
   ("default_font", SStr "fonts/CCMonologousTeddyBear.ttf")]%string.

(** [Settings.font_mappings], computed from the fields of [cfg] as the
    property does. *)
Definition font_mappings_of (cfg : dict SettingValue) : res (dict string) :=
  match getattr_str cfg "english_font", getattr_str cfg "japanese_font",
        getattr_str cfg "sim_chinese_font", getattr_str cfg "korean_font",
        getattr_str cfg "trad_chinese_font", getattr_str cfg "vietnamese_font",
        getattr_str cfg "default_font" with
  | Ok en, Ok ja, Ok sc, Ok ko, Ok tc, Ok vi, Ok df =>
      Ok [("english", en); ("japanese", ja); ("sim_chinese", sc); ("korean", ko);
          ("trad_chinese", tc); ("vietnamese", vi); ("default", df)]%string
  | Raise e, _, _, _, _, _, _ | _, Raise e, _, _, _, _, _ | _, _, Raise e, _, _, _, _
  | _, _, _, Raise e, _, _, _ | _, _, _, _, Raise e, _, _ | _, _, _, _, _, Raise e, _
  | _, _, _, _, _, _, Raise e => Raise e
  end.

(** [Settings()] with the defaults of config.py, field by field in
    declaration order; the properties [font_mappings] and
    [text_directions] are read like fields. *)
Definition settings_fields : dict SettingValue :=
  List.app [("app_name", SStr "Ink Translator API"); ("app_version", SStr "0.0.0");
   ("app_description", SStr "API for MTL of text in manga/manhwa/manhua images");
   ("debug", SBool false); ("host", SStr "0.0.0.0"); ("port", SInt 8000);
   ("enable_cors", SBool true); ("allowed_origins", STexts []);
   ("enable_rate_limiting", SBool true);
   ("translation_rate_limit_requests", SInt 10);
   ("translation_rate_limit_window", SInt 5);
   ("preview_rate_limit_requests", SInt 20);
   ("preview_rate_limit_window", SInt 5);
   ("batch_rate_limit_requests", SInt 2);
   ("batch_rate_limit_window", SInt 10);
   ("max_file_size_mb", SInt 10);
   ("allowed_mime_types", STexts [str "image/jpeg"; str "image/jpg"; str "image/png"]);
   ("allowed_extensions", STexts [str ".jpeg"; str ".jpg"; str ".png"]);
   ("ocr_confidence_threshold", SFloat 0x1.3333333333333p-2%float (* 0.3 *)); ("manga_ocr_enabled", SBool true);
   ("easyocr_gpu", SBool false); ("merge_nearby_textboxes", SBool true);
   ("google_translate_enabled", SBool true); ("deepl_enabled", SBool false);
   ("google_translate_api_key", SStr ""); ("deepl_api_key", SStr ""); ("deepl_api_url", SStr "");
   ("translation_timeout", SInt 30); ("translation_max_retries", SInt 2);
   ("translation_retry_delay", SFloat 1.0%float);
   ("inpaint_radius", SInt 3); ("inpaint_method", SStr "telea"); ("mask_padding", SInt 3);
   ("font_size_min", SInt 6); ("font_size_max", SInt 30);
   ("font_size_multiplier", SFloat 1.0%float); ("font_size_multiplier_min", SFloat 0.5%float);
   ("font_size_multiplier_max", SFloat 2.0%float); ("text_outline_width", SInt 1);
   ("text_outline_color", SStr "white"); ("text_color", SStr "black")]
  (List.app font_fields
  [("font_mappings", SDict font_mappings); ("text_directions", SDict text_directions);
   ("log_level", SStr "INFO"); ("log_to_file", SBool true);
   ("log_file_path", SStr "ink_translator.log"); ("log_max_size_mb", SInt 100);
   ("log_backup_count", SInt 5); ("max_workers", SInt 4); ("async_timeout", SInt 300);
   ("health", SObj health_settings_fields); ("enable_docs", SBool true); ("reload", SBool false)]).

(** A settings object as the environment may make it: the declared
    names, in order, with any values. *)
Definition settings_like (cfg : dict SettingValue) : Prop :=
  map fst cfg = map fst settings_fields.

(** ** The [__main__] block of main.py *)

(** What it passes to [uvicorn.run]: host, port and [reload]. *)
Definition main_entry (cfg : dict SettingValue) : res (string * Z * bool) :=
  match getattr_str cfg "HOST" with
  | Raise e => Raise e
  | Ok host =>
      match getattr_int cfg "PORT" with
      | Raise e => Raise e
      | Ok port =>
          match getattr_bool cfg "DEBUG" with
          | Raise e => Raise e
          | Ok debug => Ok (host, port, debug)
          end
      end
  end.

(** ** Theorems *)

(** Membership of a closed name in a closed list, by evaluation. *)
Ltac decide_mem := apply (bool_decide_unpack _); vm_compute; reflexivity.

Lemma dict_get_none {V} (d : dict V) k : dict_get d k = None <-> k ∉ map fst d.
Proof.
  induction d as [|[k' v] d IH]; cbn; [split; [intros _; apply not_elem_of_nil|done]|].
  rewrite not_elem_of_cons. unfold dict_get in *. cbn.
  destruct (String.eqb_spec k' k) as [->|Hne]; cbn; [naive_solver|].
  rewrite IH. naive_solver.
Qed.

Lemma dict_get_same_keys {V W} (d : dict V) (d' : dict W) k :
  map fst d = map fst d' -> dict_get d k = None <-> dict_get d' k = None.
Proof. intros E. by rewrite !dict_get_none, E. Qed.

Lemma getattr_declared cfg name :
  settings_like cfg -> name ∈ map fst settings_fields -> exists v, getattr cfg name = Ok v.
Proof.
  unfold settings_like, getattr. intros E Hin.
  destruct (dict_get cfg name) as [v|] eqn:Hg; [by exists v|].
  apply dict_get_none in Hg. by rewrite E in Hg.
Qed.

Lemma getattr_undeclared cfg name :
  settings_like cfg -> name ∉ map fst settings_fields -> getattr cfg name = Raise AttributeError.
Proof.
  unfold settings_like, getattr. intros E Hn.
  by rewrite (proj2 (dict_get_none cfg name)) by (by rewrite E).
Qed.


(** [python main.py] stops with [AttributeError] before starting the
    server, whatever the environment: [Settings] declares [host], [port]
    and [debug], and the block reads [HOST]. *)
Lemma main_entry_raises cfg : settings_like cfg -> main_entry cfg = Raise AttributeError.
Proof.
  intros Hcfg. unfold main_entry, getattr_str.
  rewrite (getattr_undeclared cfg "HOST" Hcfg); [done | decide_mem].
Qed.

(** The property [font_mappings] of the default settings is the table
    the rest of the development reads. *)
Lemma font_mappings_of_settings : font_mappings_of settings_fields = Ok font_mappings.
Proof. reflexivity. Qed.

(** ** Witnesses *)


Lemma main_entry_raises_witness :
  settings_like settings_fields /\ main_entry settings_fields = Raise AttributeError.
Proof.
  assert (H1 : settings_like settings_fields) by reflexivity.
  split; [exact H1 | exact (main_entry_raises _ H1)].
Defined.
