(* ===== verification/Exceptions.v ===== *)
(** * Exceptions: the exception classes and their objects

    The class table of utils/exceptions.py (the [MangaTranslatorException]
    hierarchy), of the translator exceptions of
    services/translate/base.py and of the built-in, Starlette and FastAPI
    classes the code raises or catches, with single inheritance as the
    sources declare it.  A class's [__mro__] is its chain of bases
    ([object] left out: nothing registers a handler for it), and
    [issubclass] is membership in it; [inherits] is the same relation by
    rules, and the two agree.  An exception object is its class, its
    [args] and its instance attributes; [__init__] and [__str__] of
    [MangaTranslatorException] and [LanguageUnsupportedException] build
    and print them. *)

From Stdlib Require Import String ZArith Floats.
From stdpp Require Import base list decidable.
From S2P Require Import Prelude Schemas.

Local Open Scope N_scope.

(** ** The class table *)

Module Cls.
(** The classes, by the module that declares them. *)
Inductive PyClass : Type :=
  (* builtins *)
  | BaseException | Exception | ValueError | TypeError | AttributeError
  | RuntimeError | ArithmeticError | ZeroDivisionError | OverflowError
  | LookupError | IndexError | ImportError | OSError | FileNotFoundError
  (* services/translate/base.py *)
  | TranslationException | InvalidServerResponse | MissingAPIKeyException
  | LanguageUnsupportedException | RateLimitException
  (* starlette.exceptions, fastapi.exceptions *)
  | StarletteHTTPException | HTTPException | ValidationException
  | RequestValidationError
  (* utils/exceptions.py *)
  | MangaTranslatorException | ProcessingError | OCRError | TranslationError
  | InpaintingError | RenderingError | ImageValidationError
  | FontNotFoundError | LayoutError | ConfigurationError
  | ServiceUnavailableError | RateLimitError | InvalidLanguageError
  | TextBoxError | MaskGenerationError | ValidationError
  | FileValidationError | ParameterValidationError.
End Cls.

Import Cls (PyClass).

#[export] Instance PyClass_eq_dec : EqDecision PyClass.
Proof. solve_decision. Defined.

(** The base class each [class C(B)] statement names. *)
Definition parent (c : PyClass) : option PyClass :=
  match c with
  | Cls.BaseException => None
  | Cls.Exception => Some Cls.BaseException
  | Cls.ZeroDivisionError | Cls.OverflowError => Some Cls.ArithmeticError
  | Cls.IndexError => Some Cls.LookupError
  | Cls.FileNotFoundError => Some Cls.OSError
  | Cls.InvalidServerResponse | Cls.MissingAPIKeyException
  | Cls.LanguageUnsupportedException | Cls.RateLimitException => Some Cls.TranslationException
  | Cls.HTTPException => Some Cls.StarletteHTTPException
  | Cls.RequestValidationError => Some Cls.ValidationException
  | Cls.ProcessingError | Cls.ConfigurationError | Cls.ServiceUnavailableError
  | Cls.RateLimitError | Cls.InvalidLanguageError | Cls.ValidationError =>
      Some Cls.MangaTranslatorException
  | Cls.OCRError | Cls.TranslationError | Cls.InpaintingError | Cls.RenderingError
  | Cls.ImageValidationError | Cls.TextBoxError => Some Cls.ProcessingError
  | Cls.FontNotFoundError | Cls.LayoutError => Some Cls.RenderingError
  | Cls.MaskGenerationError => Some Cls.InpaintingError
  | Cls.FileValidationError | Cls.ParameterValidationError => Some Cls.ValidationError
  | _ => Some Cls.Exception
  end.

(** [C.__name__]. *)
Definition type_name (c : PyClass) : string :=
  match c with
  | Cls.BaseException => "BaseException" | Cls.Exception => "Exception"
  | Cls.ValueError => "ValueError" | Cls.TypeError => "TypeError"
  | Cls.AttributeError => "AttributeError" | Cls.RuntimeError => "RuntimeError"
  | Cls.ArithmeticError => "ArithmeticError" | Cls.ZeroDivisionError => "ZeroDivisionError"
  | Cls.OverflowError => "OverflowError" | Cls.LookupError => "LookupError"
  | Cls.IndexError => "IndexError" | Cls.ImportError => "ImportError"
  | Cls.OSError => "OSError" | Cls.FileNotFoundError => "FileNotFoundError"
  | Cls.TranslationException => "TranslationException"
  | Cls.InvalidServerResponse => "InvalidServerResponse"
  | Cls.MissingAPIKeyException => "MissingAPIKeyException"
  | Cls.LanguageUnsupportedException => "LanguageUnsupportedException"
  | Cls.RateLimitException => "RateLimitException"
  | Cls.StarletteHTTPException | Cls.HTTPException => "HTTPException"
  | Cls.ValidationException => "ValidationException"
  | Cls.RequestValidationError => "RequestValidationError"
  | Cls.MangaTranslatorException => "MangaTranslatorException"
  | Cls.ProcessingError => "ProcessingError" | Cls.OCRError => "OCRError"
  | Cls.TranslationError => "TranslationError" | Cls.InpaintingError => "InpaintingError"
  | Cls.RenderingError => "RenderingError" | Cls.ImageValidationError => "ImageValidationError"
  | Cls.FontNotFoundError => "FontNotFoundError" | Cls.LayoutError => "LayoutError"
  | Cls.ConfigurationError => "ConfigurationError"
  | Cls.ServiceUnavailableError => "ServiceUnavailableError"
  | Cls.RateLimitError => "RateLimitError" | Cls.InvalidLanguageError => "InvalidLanguageError"
  | Cls.TextBoxError => "TextBoxError" | Cls.MaskGenerationError => "MaskGenerationError"
  | Cls.ValidationError => "ValidationError" | Cls.FileValidationError => "FileValidationError"
  | Cls.ParameterValidationError => "ParameterValidationError"
  end.

(** [__mro__] follows the bases; the longest chain, from
    [FontNotFoundError] up to [BaseException], has five steps, so
    [mro_fuel] rounds reach the root of every class ([mro_go_enough]). *)
Fixpoint mro_go (fuel : nat) (c : PyClass) : list PyClass :=
  c :: match fuel, parent c with
       | S f, Some p => mro_go f p
       | _, _ => []
       end.

Definition mro_fuel : nat := 5.

Definition mro (c : PyClass) : list PyClass := mro_go mro_fuel c.

(** [issubclass(c, d)]. *)
Definition issubclass (c d : PyClass) : bool := bool_decide (d ∈ mro c).

(** The subclass relation by rules: a class inherits from itself and
    from what its base inherits from. *)
Inductive inherits : PyClass -> PyClass -> Prop :=
  | inherits_refl c : inherits c c
  | inherits_base c p d : parent c = Some p -> inherits p d -> inherits c d.

(** The length of the MRO: a class is deeper than its base. *)
Definition depth (c : PyClass) : nat := length (mro c).

(** ** Exception objects *)

(** Attribute and JSON values. *)
#[warnings="-register-all"]
Inductive PyVal : Type :=
  | VNone
  | VBool (b : bool)
  | VStr (s : text)
  | VInt (z : Z)
  | VFloat (f : float)
  | VList (l : list PyVal)
  | VDict (d : list (string * PyVal)).

(** An exception object: [type(e)], [e.args] and [e.__dict__]. *)
Record PyExc : Type := mkPyExc {
  exc_type : PyClass;
  exc_args : list text;
  exc_attrs : dict PyVal
}.

(** [e.name] for an instance attribute; a missing one raises
    [AttributeError]. *)
Definition exc_getattr (e : PyExc) (name : string) : res PyVal :=
  match dict_get (exc_attrs e) name with
  | Some v => Ok v
  | None => Raise AttributeError
  end.

(** Python's truth value of an attribute. *)
Definition py_truthy (v : PyVal) : bool :=
  match v with
  | VNone => false
  | VStr s => negb (bool_decide (s = []))
  | VBool b => b
  | VInt z => negb (z =? 0)%Z
  | VFloat f => negb (PrimFloat.eqb f 0%float)
  | VList l => negb (Nat.eqb (length l) 0)
  | VDict d => negb (Nat.eqb (length d) 0)
  end.

(** [MangaTranslatorException.__init__(message, details=None)] for the
    class [c] of the hierarchy: the two attributes, and [args] set by
    [super().__init__(self.message)]. *)
Definition MangaTranslatorException_init (c : PyClass) (message : text) (details : option text)
  : PyExc :=
  mkPyExc c [message]
    [("message", VStr message); ("details", match details with Some d => VStr d | None => VNone end)]%string.

(** A built-in or translator exception raised with positional arguments. *)
Definition exception_init (c : PyClass) (args : list text) : PyExc := mkPyExc c args [].

(** The double quote. *)
Definition dq : text := [34].

(** [LanguageUnsupportedException.__init__]: the message it passes to
    [Exception.__init__]. *)
Definition LanguageUnsupportedException_init (language_code : text) (translator : option text)
    (supported_languages : list text) : PyExc :=
  let who := match translator with Some (c :: cs) => c :: cs | _ => str "chosen translator" end in
  let error := str "Language not supported for " ++ who ++ str ": " ++ dq ++ language_code ++ dq in
  let error := match supported_languages with
               | [] => error
               | _ => error ++ str ". Supported languages: " ++ dq ++ join (str ", ") supported_languages ++ dq
               end in
  exception_init Cls.LanguageUnsupportedException [error].

(** [BaseException.__str__]: the single argument, or the empty string
    without one; several arguments print as their tuple, each in single
    quotes. *)
Definition base_str (args : list text) : text :=
  match args with
  | [] => []
  | [a] => a
  | _ => str "(" ++ join (str ", ") (map (fun a => [39] ++ a ++ [39]) args) ++ str ")"
  end.

(** [str(e)]: [MangaTranslatorException.__str__] for its subclasses,
    which appends the details when they are truthy. *)
Definition exc_str (e : PyExc) : text :=
  if issubclass (exc_type e) Cls.MangaTranslatorException then
    match exc_getattr e "message", exc_getattr e "details" with
    | Ok (VStr m), Ok (VStr d) => if py_truthy (VStr d) then m ++ str ": " ++ d else m
    | Ok (VStr m), Ok _ => m
    | _, _ => base_str (exc_args e)
    end
  else base_str (exc_args e).

(** The class of each exception the rest of the development raises. *)
Definition exn_class (e : exn) : PyClass :=
  match e with
  | ValueError => Cls.ValueError
  | TypeError => Cls.TypeError
  | AttributeError => Cls.AttributeError
  | RuntimeError => Cls.RuntimeError
  | GenericException => Cls.Exception
  | RateLimitException => Cls.RateLimitException
  | LanguageUnsupportedException => Cls.LanguageUnsupportedException
  | MissingAPIKeyException => Cls.MissingAPIKeyException
  | InvalidServerResponse => Cls.InvalidServerResponse
  | ProcessingError => Cls.ProcessingError
  | ZeroDivisionError => Cls.ZeroDivisionError
  | IndexError => Cls.IndexError
  | ImageValidationError => Cls.ImageValidationError
  | OverflowError => Cls.OverflowError
  | FileNotFoundError => Cls.FileNotFoundError
  | HTTPException _ => Cls.HTTPException
  end.

(** ** The MRO and the subclass relation *)

Lemma mro_go_enough c : mro_go (S mro_fuel) c = mro c.
Proof. by destruct c. Qed.

Lemma mro_base c p : parent c = Some p -> mro c = c :: mro p.
Proof. intros Hp. rewrite <- mro_go_enough. cbn [mro_go]. by rewrite Hp. Qed.

Lemma mro_root c : parent c = None -> mro c = [c].
Proof. by destruct c. Qed.

Lemma mro_go_sound n c d : d ∈ mro_go n c -> inherits c d.
Proof.
  revert c. induction n as [|n IH]; intros c Hd; cbn in Hd.
  - apply list_elem_of_singleton in Hd as ->. constructor.
  - destruct (parent c) as [p|] eqn:Hp.
    + apply elem_of_cons in Hd as [->|Hd]; [constructor|].
      econstructor; [exact Hp|]. by apply IH.
    + apply list_elem_of_singleton in Hd as ->. constructor.
Qed.

Lemma mro_complete c d : inherits c d -> d ∈ mro c.
Proof.
  induction 1 as [c|c p d Hp _ IH].
  - rewrite <- mro_go_enough. cbn. by left.
  - rewrite (mro_base _ _ Hp). by right.
Qed.

Lemma issubclass_true c d : issubclass c d = true <-> inherits c d.
Proof.
  unfold issubclass. rewrite bool_decide_eq_true. split.
  - apply mro_go_sound.
  - apply mro_complete.
Qed.

#[export] Instance inherits_dec c d : Decision (inherits c d).
Proof. refine (cast_if (decide (issubclass c d = true))); by rewrite <- issubclass_true. Defined.

Lemma depth_base c p : parent c = Some p -> (depth p < depth c)%nat.
Proof. intros Hp. unfold depth. rewrite (mro_base _ _ Hp). cbn. lia. Qed.

Lemma inherits_depth c d : inherits c d -> (depth d <= depth c)%nat.
Proof. induction 1 as [|c p d Hp _ IH]; [lia|]. pose proof (depth_base _ _ Hp). lia. Qed.

#[export] Instance inherits_po : PartialOrder inherits.
Proof.
  split; [split|].
  - intros c. constructor.
  - intros a b c Hab. induction Hab; [done|]. econstructor; eauto.
  - intros c d Hcd Hdc. destruct Hcd as [|c p d Hp Hpd]; [done|].
    apply inherits_depth in Hpd, Hdc. pose proof (depth_base _ _ Hp). lia.
Qed.

Lemma inherits_exception c : c <> Cls.BaseException -> inherits c Cls.Exception.
Proof. intros Hc. apply issubclass_true. by destruct c. Qed.

#[export] Hint Resolve mro_complete inherits_exception : ink.
#[export] Hint Constructors inherits : ink.

(** [issubclass] on the class table is a partial order: every class
    is its own subclass, subclassing is transitive, and no two distinct
    classes are subclasses of each other, so the bases the sources
    declare have no cycle. *)
Theorem issubclass_partial_order : PartialOrder (fun c d => issubclass c d = true).
Proof.
  split; [split|].
  - intros c. apply issubclass_true. reflexivity.
  - intros a b c Hab Hbc. apply issubclass_true.
    apply issubclass_true in Hab, Hbc. by transitivity b.
  - intros c d Hcd Hdc. apply issubclass_true in Hcd, Hdc. by apply (anti_symm inherits).
Qed.

(** [except ProcessingError] catches exactly the development's
    [ProcessingError] and [ImageValidationError]. *)
Lemma except_processing_error e :
  issubclass (exn_class e) Cls.ProcessingError = true <-> e = ProcessingError \/ e = ImageValidationError.
Proof.
  destruct e; split; intros H;
    first [reflexivity | by left | by right | discriminate H | by destruct H as [[=]|[=]]].
Qed.

(** [str(e)] of a [MangaTranslatorException] appends non-empty details. *)
Lemma exc_str_init c m d :
  issubclass c Cls.MangaTranslatorException = true ->
  exc_str (MangaTranslatorException_init c m d) =
  match d with Some (x :: xs) => m ++ str ": " ++ x :: xs | _ => m end.
Proof. intros Hc. unfold exc_str. cbn. rewrite Hc. by destruct d as [[|x xs]|]. Qed.
