(* ===== verification/TextHeuristics.v ===== *)
(** * TextHeuristics: the pure helpers of services/translate/base.py

    Language-code normalisation, the "valuable text" filter, the shortest
    repeating sequence, the base and Google invalid-translation tests, the
    Google query rewrite, and [_clean_translation_output], whose five
    [re.sub] calls are each written as a left-to-right scanner with the
    semantics of Python's [re] (lookbehind reads the original string, a
    match is consumed before scanning resumes, failed matches backtrack).
    Everything is parametric in the Unicode database [UnicodeDB]. *)

From Stdlib Require Import NArith ZArith String Ascii Arith.
From stdpp Require Import base list strings decidable.
From S2P Require Import Prelude Schemas.

(** ** Language codes *)

Local Open Scope string_scope.

(** [LanguageCode] values and [SUPPORTED_LANGUAGES]. *)
Definition SUPPORTED_LANGUAGES : dict string :=
  [("sim_chinese", "Chinese (Simplified)");
   ("trad_chinese", "Chinese (Traditional)");
   ("korean", "Korean"); ("vietnamese", "Vietnamese");
   ("japanese", "Japanese"); ("english", "English")].

Definition LEGACY_LANGUAGE_MAP : dict string :=
  [("JPN", "japanese"); ("ENG", "english"); ("KOR", "korean");
   ("VIN", "vietnamese"); ("CHI", "sim_chinese"); ("CHT", "trad_chinese")].

Definition supported (code : string) : bool :=
  bool_decide (is_Some (dict_get SUPPORTED_LANGUAGES code)).

Definition normalize_language_code (code : string) : string :=
  match dict_get LEGACY_LANGUAGE_MAP code with
  | Some c => c
  | None => code
  end.

Local Close Scope string_scope.
Local Open Scope N_scope.

Section Heuristics.
Context `{UnicodeDB}.

(** ** [is_valuable_text] *)

Definition count_alnum (s : text) : nat := length (filter (fun c => uc_isalnum c = true) s).

(** [alphanumeric_count < len(cleaned) * 0.3] is [10 * a < 3 * n]: for
    every length below 2^50 the float product rounds to the exact value
    when that value is an integer and stays on the same side of every
    integer otherwise. *)
Definition is_valuable_text (t : text) : bool :=
  if is_blank t then false
  else
    let cleaned := filter (fun c => isspace c = false) t in
    if (length cleaned <? 2)%nat then false
    else if (10 * count_alnum cleaned <? 3 * length cleaned)%nat then false
    else true.

(** ** [repeating_sequence] *)

(** [sequence * repeats == text[:repeats * seq_len]] for [seq_len = k]. *)
Definition repeats_with (t : text) (k : nat) : bool :=
  let r := (length t / k)%nat in
  bool_decide (repeat_text (take k t) r = take (r * k) t).

Definition repeating_sequence (t : text) : text :=
  match t with
  | [] => []
  | _ =>
      match List.find (repeats_with t) (seq 1 (length t / 2)) with
      | Some k => take k t
      | None => t
      end
  end.

(** ** Invalid translations *)

(** [len(set(s))]. *)
Definition distinct_count (s : text) : nat := length (remove_dups s).

Definition base_is_translation_invalid (query translation : text) : bool :=
  if bool_decide (translation = []) && negb (bool_decide (query = [])) then true
  else if bool_decide (query = []) || bool_decide (translation = []) then false
  else
    let qu := distinct_count query in
    let tu := distinct_count translation in
    (6 <? qu)%nat && (tu <? 6)%nat && (4 * tu <? length translation)%nat.

Definition google_error_patterns : list text :=
  [str "translation error"; str "service unavailable"; str "quota exceeded"].

(** [GoogleTranslator._is_translation_invalid]. *)
Definition google_is_translation_invalid (query translation : text) : bool :=
  if base_is_translation_invalid query translation then true
  else if negb (bool_decide (translation = [])) && negb (bool_decide (query = [])) then
    bool_decide (lower (strip translation) = lower (strip query)) ||
    existsb (fun p => contains p (lower translation)) google_error_patterns
  else false.

(** [GoogleTranslator._modify_invalid_translation_query]. *)
Definition google_modify_query (query : text) : text :=
  if (length (split_ws query) =? 1)%nat then str "Word: " ++ query
  else str "Text: " ++ query.

(** ** The substitutions of [_clean_translation_output] *)

Definition is_punct (c : char) : bool :=
  (c =? 46) || (c =? 44) || (c =? 59) || (c =? 33) || (c =? 63).

(** [re.sub(r'\s+', ' ', t)]. *)
Fixpoint collapse_ws (in_run : bool) (t : text) : text :=
  match t with
  | [] => []
  | c :: t' =>
      if isspace c then (if in_run then collapse_ws true t' else 32 :: collapse_ws true t')
      else c :: collapse_ws false t'
  end.

(** [re.sub(r'(?<![.,;!?])([.,;!?])(?=\w)', r'\1 ', t)]: [prev] is the
    character before the scan position in the original string. *)
Fixpoint space_after_punct (prev : option char) (t : text) : text :=
  match t with
  | [] => []
  | c :: t' =>
      let next_word := match t' with d :: _ => isword d | [] => false end in
      let prev_punct := match prev with Some p => is_punct p | None => false end in
      if is_punct c && negb prev_punct && next_word
      then c :: 32 :: space_after_punct (Some c) t'
      else c :: space_after_punct (Some c) t'
  end.

(** [re.sub(r'([.,;!?])\s+(?=[.,;!?]|$)', r'\1', t)]: [pend = Some buf]
    after a punctuation mark followed by the whitespace [buf] (reversed),
    which is dropped when the run ends at punctuation or at the end. *)
Fixpoint drop_ws_between_punct (pend : option text) (t : text) : text :=
  match t with
  | [] => match pend with Some buf => [] | None => [] end
  | c :: t' =>
      match pend with
      | Some buf =>
          if isspace c then drop_ws_between_punct (Some (c :: buf)) t'
          else if is_punct c then c :: drop_ws_between_punct (Some []) t'
          else rev buf ++ c :: drop_ws_between_punct None t'
      | None =>
          if is_punct c then c :: drop_ws_between_punct (Some []) t'
          else c :: drop_ws_between_punct None t'
      end
  end.

(** [re.sub(r'(?<=[.,;!?\w])\s+([.,;!?])', r'\1', t)]: [prev] is the
    previous character of the original string; [pend = Some buf] inside a
    whitespace run that follows punctuation or a word character. *)
Fixpoint drop_ws_before_punct (prev : option char) (pend : option text) (t : text) : text :=
  match t with
  | [] => match pend with Some buf => rev buf | None => [] end
  | c :: t' =>
      match pend with
      | Some buf =>
          if isspace c then drop_ws_before_punct (Some c) (Some (c :: buf)) t'
          else if is_punct c then c :: drop_ws_before_punct (Some c) None t'
          else rev buf ++ c :: drop_ws_before_punct (Some c) None t'
      | None =>
          let prev_ok := match prev with Some p => is_punct p || isword p | None => false end in
          if isspace c && prev_ok then drop_ws_before_punct (Some c) (Some [c]) t'
          else c :: drop_ws_before_punct (Some c) None t'
      end
  end.

(** The scanner state of [re.sub(r'((?:\s|^)\.+)\s+(?=\w)', r'\1', t)]:
    no candidate; a candidate start (the whitespace character, or nothing
    at the start of the string); a start followed by dots; a start, dots
    and a whitespace run.  Buffers are kept in order. *)
Inductive ellipsis_state : Type :=
  | EIdle
  | ECand (start : text)
  | EDots (start_dots : text)
  | ERun (start_dots : text) (run : text).

Definition ellipsis_flush (s : ellipsis_state) : text :=
  match s with
  | EIdle => []
  | ECand b | EDots b => b
  | ERun b r => b ++ r
  end.

Fixpoint drop_ws_after_ellipsis (s : ellipsis_state) (t : text) : text :=
  match t with
  | [] => ellipsis_flush s
  | c :: t' =>
      match s with
      | EIdle =>
          if isspace c then drop_ws_after_ellipsis (ECand [c]) t'
          else c :: drop_ws_after_ellipsis EIdle t'
      | ECand b =>
          if c =? 46 then drop_ws_after_ellipsis (EDots (b ++ [c])) t'
          else if isspace c then b ++ drop_ws_after_ellipsis (ECand [c]) t'
          else b ++ c :: drop_ws_after_ellipsis EIdle t'
      | EDots b =>
          if c =? 46 then drop_ws_after_ellipsis (EDots (b ++ [c])) t'
          else if isspace c then drop_ws_after_ellipsis (ERun b [c]) t'
          else b ++ c :: drop_ws_after_ellipsis EIdle t'
      | ERun b r =>
          if isspace c then drop_ws_after_ellipsis (ERun b (r ++ [c])) t'
          else if isword c then b ++ c :: drop_ws_after_ellipsis EIdle t'
          (* the match fails; scanning resumes one character after its
             start, where only the last blank of the run can start a new
             match, and only when [c] is a dot *)
          else if c =? 46 then
            b ++ removelast r ++ drop_ws_after_ellipsis (EDots [last r 32; c]) t'
          else b ++ r ++ c :: drop_ws_after_ellipsis EIdle t'
      end
  end.

(** The five substitutions in the order of the code. *)
Definition normalize_spacing (t : text) : text :=
  drop_ws_after_ellipsis (ECand [])
    (drop_ws_before_punct None None
       (drop_ws_between_punct None
          (space_after_punct None (collapse_ws false t)))).

(** The repair of looping output: tile [seq] to the query's length and
    copy the query's capitals position by position. *)
Definition transfer_case (query t : text) : text :=
  zip_with (fun c q => if uc_isupper q then uc_upper c else c) t query.

Definition repair_repetition (query t : text) : text :=
  let seq := repeating_sequence (lower t) in
  if (length t <? length query)%nat && (2 * length seq <? length t)%nat then
    let tiled := repeat_text seq (Nat.max (length query / length seq) 1) in
    transfer_case query tiled
  else t.

(** [BaseTranslator._clean_translation_output]. *)
Definition clean_translation_output (query translation : text) : text :=
  if bool_decide (query = []) || bool_decide (translation = []) then []
  else strip (repair_repetition query (normalize_spacing translation)).

End Heuristics.

(** ** Lemmas *)

Section HeuristicsLemmas.
Context `{UnicodeDB}.

Lemma valuable_not_blank t : is_valuable_text t = true -> is_blank t = false.
Proof. unfold is_valuable_text. by destruct (is_blank t). Qed.

End HeuristicsLemmas.

(** [repeating_sequence] finds a period no longer than the one the
    text is built from: for [n >= 2] copies of a non-empty [p] it
    returns a non-empty prefix of the text of at most [length p]
    characters, so [_clean_translation_output] sees the loop. *)
Theorem repeating_sequence_period p n :
  p <> [] -> (2 <= n)%nat ->
  exists k, (1 <= k <= length p)%nat /\ repeating_sequence (repeat_text p n) = take k (repeat_text p n).
Proof.
  intros Hp Hn. remember (repeat_text p n) as t eqn:Et.
  assert (Hl : length t = (n * length p)%nat) by (subst; apply length_repeat_text).
  assert (Hlp : (1 <= length p)%nat) by (destruct p; [done | simpl; lia]).
  assert (Hrep : repeats_with t (length p) = true).
  { unfold repeats_with. rewrite Hl, Nat.div_mul by lia. apply bool_decide_eq_true.
    destruct n as [|n']; [lia|]. rewrite (take_ge t (S n' * length p)) by (rewrite Hl; lia). subst t.
    assert (Htk : take (length p) (repeat_text p (S n')) = p)
      by (rewrite repeat_text_S; apply take_app_length).
    by rewrite Htk. }
  assert (Hin : length p ∈ seq 1 (length t / 2)).
  { apply elem_of_seq. split; [lia|]. cut (length p <= length t / 2)%nat; [lia|].
    apply Nat.div_le_lower_bound; [lia|]. rewrite Hl. nia. }
  destruct (find_seq_first _ _ _ _ Hin Hrep) as (k & Hf & Hk & _).
  exists k. split; [lia|]. unfold repeating_sequence.
  destruct t as [|c cs]; [simpl in Hl; nia|]. by rewrite Hf.
Qed.

Lemma supported_cases c :
  supported c = true ->
  c = "sim_chinese"%string \/ c = "trad_chinese"%string \/ c = "korean"%string \/
  c = "vietnamese"%string \/ c = "japanese"%string \/ c = "english"%string.
Proof.
  unfold supported, dict_get, SUPPORTED_LANGUAGES. cbn [List.find fst].
  repeat match goal with |- context [String.eqb ?a ?b] =>
    destruct (String.eqb_spec a b) as [<-|_]; [tauto|] end.
  intros Hc. apply bool_decide_eq_true_1 in Hc. by destruct Hc.
Qed.

(** The canonical codes are their own normal form. *)
Lemma normalize_supported c : supported c = true -> normalize_language_code c = c.
Proof.
  intros Hc. destruct (supported_cases c Hc) as [->|[->|[->|[->|[->| ->]]]]]; reflexivity.
Qed.

Lemma repeating_sequence_period_witness :
  str "ab" <> [] /\ (2 <= 3)%nat /\
  exists k, (1 <= k <= length (str "ab"))%nat /\
            repeating_sequence (repeat_text (str "ab") 3) = take k (repeat_text (str "ab") 3).
Proof.
  split; [discriminate|]. split; [lia|].
  apply repeating_sequence_period; [discriminate | lia].
Defined.
