(* ===== verification/Translator.v ===== *)
(** * Translator: [BaseTranslator] and its two providers

    services/translate/base.py, deepl_translator.py, google_translator.py.
    A translator object is a [TState] (its request timestamp and counter,
    and the availability flags of its class); the process-wide [World]
    holds the clock, the number of network requests made and their log.
    The network is a parameter [Net]: for the n-th request it gives an
    answer (a text, a rate-limit refusal, an authorisation failure or any
    other failure) and a latency.  Each provider's class attributes and
    overridden methods form a [TranslatorOps] record; [translate] is
    [BaseTranslator.translate] written once against that record. *)

From Stdlib Require Import NArith ZArith String Ascii Arith.
From stdpp Require Import base list strings decidable.
From S2P Require Import Prelude Schemas TextHeuristics.

Local Open Scope st_scope.

Inductive Provider : Type := DeepL | Google.

#[export] Instance Provider_eq_dec : EqDecision Provider.
Proof. solve_decision. Defined.

(** What the service answers to one request of [_translate_single]. *)
Inductive net_answer : Type :=
  | NetText (t : text)
  | NetRateLimit
  | NetAuthError
  | NetFailure.

(** The network: the answer and the latency of the n-th request. *)
Record Net : Type := {
  net_reply : nat -> Provider -> option string -> option string -> text -> net_answer;
  net_latency : nat -> N
}.

Record World : Type := mkWorld {
  clock : Z;                       (** [time.time()], in milliseconds *)
  calls : nat;                     (** requests sent so far *)
  sent : list (Provider * Z)       (** the requests, latest first, with their send time *)
}.

(** The attributes of one translator object. [quota_exceeded],
    [auth_failed] and [client_ready] ([self.translator is not None]) are
    DeepL's; [rate_limited] is Google's. *)
Record TState : Type := mkTState {
  kind : Provider;
  last_request_ts : Z;
  request_count : nat;
  rate_limited : bool;
  quota_exceeded : bool;
  auth_failed : bool;
  client_ready : bool
}.

Definition TW : Type := World * TState.

(** ** State updates *)

Definition set_last_ts (v : Z) (t : TState) : TState :=
  mkTState (kind t) v (request_count t) (rate_limited t) (quota_exceeded t)
           (auth_failed t) (client_ready t).
Definition incr_count (t : TState) : TState :=
  mkTState (kind t) (last_request_ts t) (S (request_count t)) (rate_limited t)
           (quota_exceeded t) (auth_failed t) (client_ready t).
Definition set_rate_limited (t : TState) : TState :=
  mkTState (kind t) (last_request_ts t) (request_count t) true (quota_exceeded t)
           (auth_failed t) (client_ready t).
Definition set_quota_exceeded (t : TState) : TState :=
  mkTState (kind t) (last_request_ts t) (request_count t) (rate_limited t) true
           (auth_failed t) (client_ready t).
Definition set_auth_failed (t : TState) : TState :=
  mkTState (kind t) (last_request_ts t) (request_count t) (rate_limited t)
           (quota_exceeded t) true (client_ready t).

Definition advance (ms : Z) (w : World) : World :=
  mkWorld (clock w + ms) (calls w) (sent w).

Definition tmod (f : TState -> TState) : st TW unit := modify (fun '(w, t) => (w, f t)).
Definition wmod (f : World -> World) : st TW unit := modify (fun '(w, t) => (f w, t)).

(** [await asyncio.sleep(ms / 1000)]. *)
Definition sleep (ms : Z) : st TW unit := wmod (advance ms).

Section WithNet.
Variable net : Net.

(** One HTTP request: the answer is the network's, the clock moves by
    the latency, and the request is logged with its send time. *)
Definition net_request (p : Provider) (src dst : option string) (q : text) : st TW net_answer :=
  fun '(w, t) =>
    let a := net_reply net (calls w) p src dst q in
    let w' := mkWorld (clock w + Z.of_N (net_latency net (calls w))) (S (calls w))
                      ((p, clock w) :: sent w) in
    ((w', t), Ok a).

(** ** [BaseTranslator._ratelimit_sleep] *)

Definition ratelimit_sleep (max_rpm : Z) : st TW unit :=
  fun '(w, t) =>
    if (0 <? max_rpm)%Z then
      let now := clock w in
      let min_interval := (60000 / max_rpm)%Z in
      let since := (now - last_request_ts t)%Z in
      let w' := if (since <? min_interval)%Z then advance (min_interval - since) w else w in
      ((w', set_last_ts (clock w') t), Ok tt)
    else ((w, t), Ok tt).

(** ** The operations a provider class defines or overrides *)

Record TranslatorOps : Type := {
  LANGUAGE_CODE_MAP : dict string;
  INVALID_REPEAT_COUNT : nat;
  MAX_REQUESTS_PER_MINUTE : Z;
  is_available : TState -> bool;
  (** the check [supports_languages] makes before the base one, with
      [fatal]: [Some e] refuses the pair *)
  supports_override : string -> string -> bool -> option (res bool);
  is_translation_invalid : text -> text -> bool;
  modify_invalid_translation_query : text -> text -> text;
  raw_translate : option string -> option string -> list text -> st TW (list text)
}.

Section Base.
Context `{UnicodeDB}.
Variable ops : TranslatorOps.

(** [BaseTranslator.supports_languages] (with the subclass's override
    first). *)
Definition base_supports_languages (src dst : string) (fatal : bool) : res bool :=
  let src := normalize_language_code src in
  let dst := normalize_language_code dst in
  let known c := bool_decide (is_Some (dict_get (LANGUAGE_CODE_MAP ops) c)) in
  let unsupported := if negb (known src) then src else if negb (known dst) then dst else ""%string in
  (* [if unsupported_lang:]: [None] and [""] are both falsy *)
  if negb (String.eqb unsupported "") then
    (if fatal then Raise LanguageUnsupportedException else Ok false)
  else Ok true.

Definition supports_languages (src dst : string) (fatal : bool) : res bool :=
  match supports_override ops src dst fatal with
  | Some r => r
  | None => base_supports_languages src dst fatal
  end.

(** [BaseTranslator.parse_language_codes]. *)
Definition parse_language_codes (src dst : string) (fatal : bool)
  : res (option string * option string) :=
  let src := normalize_language_code src in
  let dst := normalize_language_code dst in
  match supports_languages src dst fatal with
  | Raise e => Raise e
  | Ok false => Ok (None, None)
  | Ok true => Ok (dict_get (LANGUAGE_CODE_MAP ops) src, dict_get (LANGUAGE_CODE_MAP ops) dst)
  end.

Definition lift_res {A} (r : res A) : st TW A :=
  match r with Ok a => ret a | Raise e => throw e end.

(** Pad with [''] or truncate to [n] entries. *)
Definition fit_length (n : nat) (l : list text) : list text :=
  take n (l ++ replicate (n - length l) []).

(** [for j in idx: translations[j] = new[j]]. *)
Definition update_at (idx : list nat) (trs new : list text) : list text :=
  imap (fun j t => if bool_decide (j ∈ idx) then default [] (new !! j) else t) trs.

(** [queries[j] = modify(queries[j], translations[j])] for [j] in [idx]. *)
Definition modify_at (idx : list nat) (qs trs : list text) : list text :=
  imap (fun j q => if bool_decide (j ∈ idx)
                   then modify_invalid_translation_query ops q (default [] (trs !! j))
                   else q) qs.

(** The body of [for attempt in range(1 + _INVALID_REPEAT_COUNT)]:
    [k] iterations remain; the result is the final queries and
    translations ([break] returns them as they are). *)
Fixpoint attempt_loop (src dst : string) (k attempt : nat) (qs trs : list text)
    (untranslated : list nat) : st TW (list text * list text) :=
  match k with
  | O => ret (qs, trs)
  | S k' =>
      (if (0 <? attempt)%nat then sleep 100 else ret tt) ;;;
      ratelimit_sleep (MAX_REQUESTS_PER_MINUTE ops) ;;;
      r <- try_catch
             (codes <- lift_res (parse_language_codes src dst true) ;;
              out <- raw_translate ops (fst codes) (snd codes) qs ;;
              ret (Some out))
             (fun _ => ret None) ;;
      match r with
      | None => ret (qs, trs)
      | Some out =>
          let out := fit_length (length qs) out in
          let trs' := update_at untranslated trs out in
          if (INVALID_REPEAT_COUNT ops =? 0)%nat then ret (qs, trs')
          else
            let bad := filter (fun j => is_translation_invalid ops
                                          (default [] (qs !! j)) (default [] (trs' !! j)))
                              untranslated in
            let qs' := modify_at bad qs trs' in
            match bad with
            | [] => ret (qs', trs')
            | _ => attempt_loop src dst k' (S attempt) qs' trs' bad
            end
      end
  end.

(** Put the cleaned translations back at the positions of the valuable
    queries; trivial queries stay as they are. *)
Fixpoint merge_back (queries cleaned : list text) : list text :=
  match queries with
  | [] => []
  | q :: qs =>
      if is_valuable_text q then
        match cleaned with
        | c :: cs => c :: merge_back qs cs
        | [] => q :: merge_back qs []
        end
      else q :: merge_back qs cleaned
  end.

(** [BaseTranslator.translate]. *)
Definition translate (src dst : string) (queries : list text) : st TW (list text) :=
  let src := normalize_language_code src in
  let dst := normalize_language_code dst in
  if negb (supported dst) then throw ValueError
  else if negb (supported src) then throw ValueError
  else if String.eqb src dst then ret queries
  else
    let to_translate := filter (fun q => is_valuable_text q = true) queries in
    match to_translate with
    | [] => ret queries
    | _ =>
        res <- attempt_loop src dst (S (INVALID_REPEAT_COUNT ops)) 0 to_translate
                 (replicate (length to_translate) []) (seq 0 (length to_translate)) ;;
        let '(qs, trs) := res in
        let cleaned := zip_with clean_translation_output qs trs in
        ret (merge_back queries cleaned)
    end.

End Base.

(** ** The providers *)

Section Providers.
Context `{UnicodeDB}.

Local Open Scope string_scope.

Definition deepl_code_map : dict string :=
  [("sim_chinese", "zh"); ("trad_chinese", "zh-hant"); ("korean", "ko");
   ("japanese", "ja"); ("english", "en")].

Definition google_code_map : dict string :=
  [("sim_chinese", "zh-cn"); ("trad_chinese", "zh-tw"); ("korean", "ko");
   ("vietnamese", "vi"); ("japanese", "ja"); ("english", "en")].

Local Close Scope string_scope.

(** [DeepLTranslator._translate_single]: [None] for an empty answer. *)
Definition deepl_translate_single (src dst : option string) (q : text) : st TW (option text) :=
  a <- net_request DeepL src dst q ;;
  match a with
  | NetText t =>
      if bool_decide (t = []) then ret None else tmod incr_count ;;; ret (Some t)
  | NetRateLimit => tmod set_quota_exceeded ;;; throw RateLimitException
  | NetAuthError => tmod set_auth_failed ;;; throw MissingAPIKeyException
  | NetFailure => throw GenericException
  end.

(** [DeepLTranslator._translate]: every failure of one query gives [''],
    and the loop goes on with the next query. *)
Definition deepl_raw_translate (src dst : option string) (qs : list text) : st TW (list text) :=
  s <- get ;;
  if negb (client_ready (snd s)) then throw GenericException
  else match qs with
       | [] => ret []
       | _ => st_map (fun q =>
                if is_blank q then ret []
                else try_catch (r <- deepl_translate_single src dst q ;; ret (default [] r))
                               (fun _ => ret [])) qs
       end.

Definition deepl_ops : TranslatorOps := {|
  LANGUAGE_CODE_MAP := deepl_code_map;
  INVALID_REPEAT_COUNT := 0;
  MAX_REQUESTS_PER_MINUTE := 3;
  is_available t := client_ready t && negb (quota_exceeded t) && negb (auth_failed t);
  supports_override src dst fatal :=
    if String.eqb src "VIN" || String.eqb dst "VIN"
    then Some (if fatal then Raise LanguageUnsupportedException else Ok false)
    else None;
  is_translation_invalid := base_is_translation_invalid;
  modify_invalid_translation_query q _ := q;
  raw_translate := deepl_raw_translate
|}.

(** [GoogleTranslator._translate_single]. *)
Definition google_translate_single (src dst : option string) (q : text) : st TW text :=
  a <- net_request Google src dst q ;;
  match a with
  | NetText t =>
      if bool_decide (t = []) then throw InvalidServerResponse
      else tmod incr_count ;;; ret t
  | NetRateLimit => throw RateLimitException
  | NetAuthError | NetFailure => throw InvalidServerResponse
  end.

(** [GoogleTranslator._translate]: a rate limit sets [rate_limited] and
    aborts the loop; other failures give [''] for that query. *)
Definition google_raw_translate (src dst : option string) (qs : list text) : st TW (list text) :=
  match qs with
  | [] => ret []
  | _ => st_map (fun q =>
           if is_blank q then ret []
           else try_catch (google_translate_single src dst q)
                  (fun e => if bool_decide (e = RateLimitException)
                            then tmod set_rate_limited ;;; throw RateLimitException
                            else ret [])) qs
  end.

Definition google_ops : TranslatorOps := {|
  LANGUAGE_CODE_MAP := google_code_map;
  INVALID_REPEAT_COUNT := 1;
  MAX_REQUESTS_PER_MINUTE := 3;
  is_available t := negb (rate_limited t);
  supports_override _ _ _ := None;
  is_translation_invalid := google_is_translation_invalid;
  modify_invalid_translation_query q _ := google_modify_query q;
  raw_translate := google_raw_translate
|}.

Definition ops_of (p : Provider) : TranslatorOps :=
  match p with DeepL => deepl_ops | Google => google_ops end.

End Providers.

End WithNet.

(** ** Concrete networks and states

    [echo_net] answers every request with the query itself after 5 ms;
    [silent_net] fails every request.  A translator starts with its
    timestamp at 0, as [BaseTranslator.__init__] sets it. *)
Definition echo_net : Net :=
  {| net_reply := fun _ _ _ _ q => NetText q; net_latency := fun _ => 5%N |}.

Definition silent_net : Net :=
  {| net_reply := fun _ _ _ _ _ => NetFailure; net_latency := fun _ => 0%N |}.

Definition start_world : World := mkWorld 100000 0 [].

Definition fresh_state (p : Provider) : TState := mkTState p 0 0 false false false true.

(** ** The order on translator states

    Along any run the clock and the request counter only move forward,
    a translator keeps its class and its client, and its failure flags
    are only ever set. *)

Definition tflags_le (t t' : TState) : Prop :=
  kind t' = kind t /\ client_ready t' = client_ready t /\
  (rate_limited t = true -> rate_limited t' = true) /\
  (quota_exceeded t = true -> quota_exceeded t' = true) /\
  (auth_failed t = true -> auth_failed t' = true).

Definition world_le (w w' : World) : Prop := (clock w <= clock w')%Z /\ calls w <= calls w'.

Definition tw_le (s s' : TW) : Prop := world_le s.1 s'.1 /\ tflags_le s.2 s'.2.

#[export] Instance tflags_le_preorder : PreOrder tflags_le.
Proof.
  split.
  - intros t. repeat split; auto.
  - intros t1 t2 t3 (? & ? & ? & ? & ?) (? & ? & ? & ? & ?).
    repeat split; congruence || auto.
Qed.

#[export] Instance world_le_preorder : PreOrder world_le.
Proof. split; [intros w; split; lia|intros w1 w2 w3 [] []; split; lia]. Qed.

#[export] Instance tw_le_preorder : PreOrder tw_le.
Proof.
  split.
  - intros s. split; reflexivity.
  - intros s1 s2 s3 [] []. split; etrans; eauto.
Qed.

Section GrowsLemmas.
Context `{UnicodeDB}.
Variable net : Net.

Lemma tflags_le_set_last_ts v t : tflags_le t (set_last_ts v t).
Proof. repeat split; auto. Qed.
Lemma tflags_le_incr_count t : tflags_le t (incr_count t).
Proof. repeat split; auto. Qed.
Lemma tflags_le_set_rate_limited t : tflags_le t (set_rate_limited t).
Proof. repeat split; auto. Qed.
Lemma tflags_le_set_quota_exceeded t : tflags_le t (set_quota_exceeded t).
Proof. repeat split; auto. Qed.
Lemma tflags_le_set_auth_failed t : tflags_le t (set_auth_failed t).
Proof. repeat split; auto. Qed.

Lemma tmod_grows f : (forall t, tflags_le t (f t)) -> st_mono tw_le (tmod f).
Proof.
  intros Hf. refine (st_mono_modify _ _ _). intros [w t]. split; [reflexivity|apply Hf].
Qed.

Lemma sleep_grows ms : (0 <= ms)%Z -> st_mono tw_le (sleep ms).
Proof.
  intros Hms. refine (st_mono_modify _ _ _). intros [w t]. split; [|reflexivity].
  unfold world_le, advance; simpl; lia.
Qed.

Lemma net_request_grows p src dst q : st_mono tw_le (net_request net p src dst q).
Proof.
  intros [w t] s' r [= <- _]. split; [|reflexivity].
  unfold world_le; simpl; lia.
Qed.

Lemma ratelimit_sleep_grows rpm : st_mono tw_le (ratelimit_sleep rpm).
Proof.
  intros [w t] s' r. unfold ratelimit_sleep.
  destruct (0 <? rpm)%Z; intros [= <- _]; [|reflexivity].
  split; [|apply tflags_le_set_last_ts].
  case_match; unfold world_le, advance; simpl; [rewrite Z.ltb_lt in *|]; lia.
Qed.

Lemma lift_res_grows {A} (r : res A) : st_mono tw_le (lift_res r).
Proof. destruct r; simpl; auto with st_mono. Qed.

End GrowsLemmas.

#[export] Hint Resolve tflags_le_set_last_ts tflags_le_incr_count tflags_le_set_rate_limited
  tflags_le_set_quota_exceeded tflags_le_set_auth_failed tmod_grows net_request_grows
  ratelimit_sleep_grows lift_res_grows : st_mono.
#[export] Hint Extern 1 (st_mono tw_le (sleep _)) => apply sleep_grows; lia : st_mono.

Section Grows.
Context `{UnicodeDB}.
Variable net : Net.

(** A provider whose [_translate] respects the order gives a
    [translate] that does. *)
Section WithOps.
Variable ops : TranslatorOps.
Hypothesis raw_grows : forall src dst qs, st_mono tw_le (raw_translate ops src dst qs).

Lemma attempt_loop_grows src dst k attempt qs trs u :
  st_mono tw_le (attempt_loop ops src dst k attempt qs trs u).
Proof.
  revert attempt qs trs u. induction k as [|k IH]; intros; simpl; st_mono_solve.
Qed.

Lemma translate_grows src dst qs : st_mono tw_le (translate ops src dst qs).
Proof. unfold translate. pose proof attempt_loop_grows. st_mono_solve. Qed.

End WithOps.

Lemma deepl_raw_translate_grows src dst qs :
  st_mono tw_le (deepl_raw_translate net src dst qs).
Proof. unfold deepl_raw_translate, deepl_translate_single. st_mono_solve. Qed.

Lemma google_raw_translate_grows src dst qs :
  st_mono tw_le (google_raw_translate net src dst qs).
Proof. unfold google_raw_translate, google_translate_single. st_mono_solve. Qed.

Lemma ops_of_grows p src dst qs : st_mono tw_le (raw_translate (ops_of net p) src dst qs).
Proof.
  destruct p; simpl; auto using deepl_raw_translate_grows, google_raw_translate_grows.
Qed.

Lemma translate_ops_of_grows p src dst qs :
  st_mono tw_le (translate (ops_of net p) src dst qs).
Proof. apply translate_grows, ops_of_grows. Qed.

End Grows.

(** ** Lemmas on [translate] *)

Section TranslateLemmas.
Context `{UnicodeDB}.

Lemma merge_back_length qs cs : length (merge_back qs cs) = length qs.
Proof.
  revert cs. induction qs as [|q qs IH]; intros cs; simpl; [done|].
  repeat case_match; simpl; by rewrite IH.
Qed.

Lemma merge_back_trivial qs cs i q :
  qs !! i = Some q -> is_valuable_text q = false -> merge_back qs cs !! i = Some q.
Proof.
  revert cs i. induction qs as [|q' qs IH]; intros cs i Hi Hv; [done|].
  destruct i as [|i]; simpl in *.
  - injection Hi as ->. by rewrite Hv.
  - repeat case_match; simpl; auto.
Qed.

(** The valuable queries receive the cleaned translations, in order. *)
Lemma merge_back_valuable qs cs :
  length cs = length (filter (fun q => is_valuable_text q = true) qs) ->
  omap (fun qo => if is_valuable_text qo.1 then Some qo.2 else None)
       (zip qs (merge_back qs cs)) = cs.
Proof.
  revert cs. induction qs as [|q qs IH]; intros cs Hl; simpl in *.
  - by destruct cs.
  - rewrite filter_cons in Hl. destruct (is_valuable_text q) eqn:Hq; simpl in *.
    + destruct cs as [|c cs]; simpl in *; [lia|]. rewrite Hq. f_equal. apply IH. lia.
    + rewrite Hq. apply IH. lia.
Qed.

Lemma ratelimit_sleep_safe rpm : st_safe (ratelimit_sleep rpm).
Proof. intros [w t]. unfold ratelimit_sleep. case_match; eauto. Qed.

Lemma sleep_safe ms : st_safe (sleep ms).
Proof. apply st_safe_modify. Qed.

End TranslateLemmas.

#[export] Hint Resolve ratelimit_sleep_safe sleep_safe : st_safe.

(** ** Theorems on [BaseTranslator.translate] *)

Section TranslateTheorems.
Context `{UnicodeDB}.
Variable ops : TranslatorOps.

Lemma attempt_loop_safe src dst k attempt qs trs u :
  st_safe (attempt_loop ops src dst k attempt qs trs u).
Proof.
  revert attempt qs trs u. induction k as [|k IH]; intros; simpl; st_safe_solve.
Qed.

(** C20. [BaseTranslator.translate] never raises once both language codes
    are supported: every failure of the provider, a rate limit included,
    is caught inside the retry loop.  The [except RateLimitException] of
    [TranslationManager.translate] can therefore never fire. *)
Theorem translate_safe src dst qs :
  supported (normalize_language_code src) = true ->
  supported (normalize_language_code dst) = true ->
  st_safe (translate ops src dst qs).
Proof.
  intros Hs Hd. unfold translate. rewrite Hs, Hd. simpl.
  pose proof attempt_loop_safe. st_safe_solve.
Qed.

(** [translate] returns one entry per query, and every query without
    valuable text comes back verbatim. *)
Theorem translate_shape src dst qs s s' out :
  translate ops src dst qs s = (s', Ok out) ->
  length out = length qs /\
  forall i q, qs !! i = Some q -> is_valuable_text q = false -> out !! i = Some q.
Proof.
  unfold translate. st_unfold. intros E.
  repeat (case_match; simplify_eq/=); try done;
    split; auto using merge_back_length, merge_back_trivial.
Qed.

(** A request whose languages normalise to the same code, or whose
    queries are all trivial, is answered with the queries themselves and
    leaves the translator and the network untouched. *)
Theorem translate_passthrough src dst qs s :
  supported (normalize_language_code src) = true ->
  supported (normalize_language_code dst) = true ->
  (normalize_language_code src = normalize_language_code dst \/
   Forall (fun q => is_valuable_text q = false) qs) ->
  translate ops src dst qs s = (s, Ok qs).
Proof.
  intros Hs Hd Hc. unfold translate. rewrite Hs, Hd. simpl.
  destruct Hc as [->|Hf]; [by rewrite String.eqb_refl|].
  case_match; [reflexivity|].
  replace (filter _ qs) with (@nil text); [reflexivity|].
  induction Hf as [|q qs Hq _ IH]; [done|]. by rewrite filter_cons, Hq.
Qed.

End TranslateTheorems.

(** ** A provider that never answers *)

Section Silent.
Context `{UnicodeDB}.
Variable ops : TranslatorOps.

(** [_translate] of the provider only ever produces empty strings. *)
Hypothesis raw_silent : forall a b qs s s' l,
  raw_translate ops a b qs s = (s', Ok l) -> Forall (fun t => t = []) l.

Lemma update_at_length idx trs new : length (update_at idx trs new) = length trs.
Proof. apply length_imap. Qed.

Lemma modify_at_length idx qs trs : length (modify_at ops idx qs trs) = length qs.
Proof. apply length_imap. Qed.

Lemma fit_length_blank n l :
  Forall (fun t => t = []) l -> Forall (fun t : text => t = []) (fit_length n l).
Proof.
  intros Hl. unfold fit_length. apply Forall_take, Forall_app. split; [done|].
  apply Forall_replicate. done.
Qed.

Lemma update_at_blank idx trs new :
  Forall (fun t => t = []) trs -> Forall (fun t => t = []) new ->
  Forall (fun t : text => t = []) (update_at idx trs new).
Proof.
  intros Ht Hn. apply Forall_lookup. intros j x. unfold update_at.
  rewrite list_lookup_imap. destruct (trs !! j) as [t|] eqn:E; [|done].
  intros [= <-]. case_bool_decide; [|exact (Forall_lookup_1 _ _ _ _ Ht E)].
  destruct (new !! j) eqn:En; simpl; [exact (Forall_lookup_1 _ _ _ _ Hn En)|done].
Qed.

#[local] Hint Resolve fit_length_blank update_at_blank : core.
#[local] Hint Rewrite update_at_length modify_at_length @length_replicate length_seq : ink_rw.

Lemma attempt_loop_silent src dst k attempt qs trs u s s' qs' trs' :
  attempt_loop ops src dst k attempt qs trs u s = (s', Ok (qs', trs')) ->
  length trs = length qs -> Forall (fun t => t = []) trs ->
  length qs' = length qs /\ length trs' = length qs /\ Forall (fun t => t = []) trs'.
Proof.
  revert attempt qs trs u s. induction k as [|k IH]; intros attempt qs trs u s E Hl Hf;
    simpl in E; st_unfold; [simplify_eq; auto|].
  repeat (case_match; simplify_eq/=); try (by auto);
    try (apply IH in E; autorewrite with ink_rw in *; [naive_solver|lia|eauto]);
    repeat split; autorewrite with ink_rw; eauto.
Qed.

Lemma merge_back_blank qs cs i q :
  Forall (fun t => t = []) cs ->
  length cs = length (filter (fun q => is_valuable_text q = true) qs) ->
  qs !! i = Some q -> is_valuable_text q = true -> merge_back qs cs !! i = Some [].
Proof.
  revert cs i. induction qs as [|q' qs IH]; intros cs i Hc Hl Hi Hv; [done|].
  rewrite filter_cons in Hl. destruct i as [|i]; simpl in *.
  - injection Hi as ->. rewrite Hv in *. destruct cs as [|c cs]; simpl in *; [lia|].
    inversion Hc; subst. done.
  - destruct (is_valuable_text q') eqn:Hq'; simpl in *; [|by apply IH].
    destruct cs as [|c cs]; simpl in *; [lia|]. inversion Hc; subst.
    apply IH; auto.
Qed.

Lemma clean_blank qs trs :
  Forall (fun t => t = []) trs ->
  Forall (fun t : text => t = []) (zip_with clean_translation_output qs trs).
Proof.
  revert qs. induction trs as [|t trs IH]; intros qs Ht; destruct qs; simpl; try done.
  inversion Ht; subst. constructor; [|by apply IH].
  unfold clean_translation_output. by rewrite (bool_decide_eq_true_2 ([] = [])), orb_true_r.
Qed.

(** With a provider that never answers, every valuable query of a real
    translation request comes back empty. *)
Lemma translate_silent src dst qs s s' out i q :
  normalize_language_code src <> normalize_language_code dst ->
  translate ops src dst qs s = (s', Ok out) ->
  qs !! i = Some q -> is_valuable_text q = true -> out !! i = Some [].
Proof.
  intros Hne E Hi Hv. unfold translate in E.
  destruct (supported _) in E; cbn -[attempt_loop] in E; [|discriminate].
  destruct (supported _) in E; cbn -[attempt_loop] in E; [|discriminate].
  apply String.eqb_neq in Hne. rewrite Hne in E.
  destruct (filter _ qs) as [|x xs] eqn:Hf.
  - exfalso. assert (Hin : q ∈ filter (fun q => is_valuable_text q = true) qs)
      by (apply list_elem_of_filter; split; [done|eapply list_elem_of_lookup_2; eauto]).
    rewrite Hf in Hin. by apply not_elem_of_nil in Hin.
  - match type of E with context [attempt_loop ?o ?a ?b ?c ?d ?e ?f ?g] =>
      destruct (attempt_loop o a b c d e f g s) as [s1 [[qs' trs']|e']] eqn:El end;
      unfold bind in E; rewrite El in E; [|discriminate].
    injection E as <- <-. rewrite <- Hf in El.
    apply attempt_loop_silent in El as (Hq & Ht & Hb);
      [|by rewrite length_replicate|apply Forall_replicate; done].
    apply merge_back_blank with q; auto using clean_blank.
    rewrite length_zip_with. lia.
Qed.

End Silent.

Section SilentProviders.
Context `{UnicodeDB}.

Lemma silent_raw p a b qs s s' l :
  raw_translate (ops_of silent_net p) a b qs s = (s', Ok l) -> Forall (fun t => t = []) l.
Proof.
  destruct p; simpl.
  - unfold deepl_raw_translate. st_unfold. destruct s as [w t]; simpl.
    destruct (client_ready t); simpl; [|discriminate].
    destruct qs as [|q qs]; [by intros [= _ <-]|].
    apply st_map_post. intros x s1 s2 y. st_unfold.
    destruct (is_blank x); [by intros [= _ <-]|].
    destruct s1 as [w1 t1]. simpl. by intros [= _ <-].
  - unfold google_raw_translate. destruct qs as [|q qs]; [st_unfold; by intros [= _ <-]|].
    apply st_map_post. intros x s1 s2 y. st_unfold.
    destruct (is_blank x); [by intros [= _ <-]|].
    destruct s1 as [w1 t1]. simpl. by intros [= _ <-].
Qed.

End SilentProviders.

(** ** The rate limiter *)

(** C21. [_ratelimit_sleep] with a positive limit waits until
    [60000 / rpm] ms have passed since the last recorded request and then
    records the current time: the attempts of one translator start at
    least [60000 / rpm] ms apart. *)
Theorem ratelimit_spacing rpm w t w' t' r :
  (0 < rpm)%Z ->
  ratelimit_sleep rpm (w, t) = ((w', t'), r) ->
  r = Ok tt /\ last_request_ts t' = clock w' /\
  clock w' = Z.max (clock w) (last_request_ts t + 60000 / rpm).
Proof.
  intros Hr. unfold ratelimit_sleep. apply Z.ltb_lt in Hr as ->.
  case_match eqn:Hlt; intros [= <- <- <-]; simpl; (split; [done|split; [done|]]).
  - apply Z.ltb_lt in Hlt. lia.
  - apply Z.ltb_ge in Hlt. lia.
Qed.

(** ** The requests of [GoogleTranslator._translate] *)

Section GoogleRequests.
Context `{UnicodeDB}.
Variable net : Net.
Variables src dst : option string.
Hypothesis no_rate_limit : forall n q, net_reply net n Google src dst q <> NetRateLimit.

Lemma google_query_request q w t :
  is_blank q = false ->
  exists w' t' y,
    (try_catch (google_translate_single net src dst q)
       (fun e => if bool_decide (e = RateLimitException)
                 then tmod set_rate_limited ;;; throw RateLimitException
                 else ret [])) (w, t) = ((w', t'), Ok y) /\
    calls w' = S (calls w).
Proof.
  intros _. unfold google_translate_single, net_request. st_unfold. unfold tmod, modify.
  pose proof (no_rate_limit (calls w) q) as Hn.
  destruct (net_reply net (calls w) Google src dst q) as [a| | |]; [|done| |];
    [destruct (bool_decide (a = [])) |..]; cbn; do 3 eexists; split; reflexivity.
Qed.

(** C22. [GoogleTranslator._translate] sends one request per non-blank
    query, all in the one rate-limit slot [_ratelimit_sleep] grants to
    the batch: when the service never refuses with a rate limit, the
    call returns an answer per query and the network counts exactly as
    many requests as there are non-blank queries. *)
Theorem google_requests_per_query qs w t :
  exists w' t' out,
    google_raw_translate net src dst qs (w, t) = ((w', t'), Ok out) /\
    calls w' = (calls w + length (filter (fun q => is_blank q = false) qs))%nat /\
    length out = length qs.
Proof.
  unfold google_raw_translate. destruct qs as [|q0 qs0]; [do 3 eexists; split; [reflexivity|simpl; lia]|].
  generalize (q0 :: qs0) as l. intros l. revert w t.
  induction l as [|q l IH]; intros w t; [do 3 eexists; split; [reflexivity|simpl; lia]|].
  cbn [st_map]. destruct (is_blank q) eqn:Hb.
  - destruct (IH w t) as (w' & t' & out & Hm & Hc & Hl).
    erewrite bind_ok by reflexivity. erewrite bind_ok by exact Hm.
    do 3 eexists. split; [reflexivity|].
    rewrite filter_cons_False by (rewrite Hb; done). simpl. lia.
  - destruct (google_query_request q w t Hb) as (w1 & t1 & y & Hq & Hc1).
    destruct (IH w1 t1) as (w' & t' & out & Hm & Hc & Hl).
    erewrite bind_ok by exact Hq. erewrite bind_ok by exact Hm.
    do 3 eexists. split; [reflexivity|].
    rewrite filter_cons_True by done. simpl. lia.
Qed.

End GoogleRequests.

(** ** Concrete runs *)

Lemma translate_safe_witness :
  supported (normalize_language_code "JPN"%string) = true /\
  supported (normalize_language_code "english"%string) = true /\
  exists s' out, translate (google_ops silent_net) "JPN"%string "english"%string
                   [str "Hello there"] (start_world, fresh_state Google) = (s', Ok out).
Proof.
  split; [reflexivity|]. split; [reflexivity|].
  apply (translate_safe (google_ops silent_net)); reflexivity.
Defined.

Lemma translate_shape_witness :
  exists s' out,
    translate (google_ops echo_net) "japanese"%string "english"%string
      [str "Good morning"; str "!!"] (start_world, fresh_state Google) = (s', Ok out) /\
    length out = 2%nat /\ out !! 1%nat = Some (str "!!").
Proof.
  destruct (translate (google_ops echo_net) "japanese"%string "english"%string
              [str "Good morning"; str "!!"] (start_world, fresh_state Google))
    as [s' [out|e]] eqn:E; [|vm_compute in E; discriminate].
  exists s', out. split; [reflexivity|].
  destruct (translate_shape _ _ _ _ _ _ _ E) as [Hl Ht]. split; [exact Hl|].
  apply Ht; reflexivity.
Defined.

Lemma translate_passthrough_witness :
  translate (deepl_ops echo_net) "JPN"%string "japanese"%string [str "Hello"]
    (start_world, fresh_state DeepL) = ((start_world, fresh_state DeepL), Ok [str "Hello"]).
Proof. apply translate_passthrough; [reflexivity|reflexivity|left; reflexivity]. Defined.

Lemma ratelimit_spacing_witness :
  exists w' t',
    ratelimit_sleep 3 (start_world, set_last_ts 90000 (fresh_state Google)) = ((w', t'), Ok tt) /\
    last_request_ts t' = clock w' /\ clock w' = 110000%Z.
Proof.
  destruct (ratelimit_sleep 3 (start_world, set_last_ts 90000 (fresh_state Google)))
    as [[w' t'] r] eqn:E.
  destruct (ratelimit_spacing 3 _ _ w' t' r ltac:(lia) E) as (-> & Hl & Hc).
  exists w', t'. split; [reflexivity|]. split; [exact Hl|]. rewrite Hc. reflexivity.
Defined.

Lemma google_requests_per_query_witness :
  (forall n q, net_reply echo_net n Google (Some "ja"%string) (Some "en"%string) q <> NetRateLimit) /\
  exists w' t' out,
    google_raw_translate echo_net (Some "ja"%string) (Some "en"%string) [str "a"; str " "; str "b"]
      (start_world, fresh_state Google) = ((w', t'), Ok out) /\
    calls w' = (calls start_world + length (filter (fun q => is_blank q = false) [str "a"; str " "; str "b"]))%nat /\
    length out = length [str "a"; str " "; str "b"].
Proof.
  assert (Hn : forall n q, net_reply echo_net n Google (Some "ja"%string) (Some "en"%string) q <> NetRateLimit)
    by (intros; discriminate).
  split; [exact Hn | exact (google_requests_per_query echo_net _ _ Hn _ _ _)].
Defined.
