(* ===== verification/TranslationManager.v ===== *)
(** * TranslationManager: provider initialisation and fallback

    services/translate/translation_manager.py.  The manager's state is
    its list of translator objects, in priority order, with their service
    names and the [_initialized] flag; a call on one translator runs that
    translator's [TState] in place ([at_translator]), as the Python list
    holds the objects themselves.  The outcome of DeepL's start-up
    handshake ([DeepLTranslator._initialize_translator] asks the service
    for its usage) is a parameter, like the network. *)

From Stdlib Require Import NArith ZArith String Ascii Arith.
From stdpp Require Import base list strings decidable.
From S2P Require Import Prelude Schemas TextHeuristics Translator.

Local Open Scope st_scope.

Record MState : Type := mkMState {
  translators : list TState;
  service_priority : list string;
  initialized : bool;
  deepl_api_key : string          (** [""] when no key was given *)
}.

Definition MW : Type := World * MState.

(** What constructing [DeepLTranslator(key)] gives: a working client,
    a refused key, another failure of the usage query, or the [deepl]
    package missing ([ImportError], caught by the manager). *)
Inductive DeepLInit : Type := DInitOk | DInitAuthFailed | DInitFailed | DInitImportError.

(** [TranslationManager(deepl_api_key)]. *)
Definition new_manager (key : string) : MState := mkMState [] [] false key.

Definition fresh_translator (p : Provider) (ready auth : bool) : TState :=
  mkTState p 0 0 false false auth ready.

(** [_initialize_sync] (and [initialize], which does the same). *)
Definition initialize_sync (di : DeepLInit) (m : MState) : MState :=
  if initialized m then m
  else
    let deepl :=
      if String.eqb (deepl_api_key m) "" then []
      else match di with
           | DInitOk => [(fresh_translator DeepL true false, "DeepL"%string)]
           | _ => []        (* not available, or the constructor raised *)
           end in
    let ts := deepl ++ [(fresh_translator Google true false, "Google"%string)] in
    mkMState (translators m ++ map fst ts) (service_priority m ++ map snd ts) true
             (deepl_api_key m).

Definition class_name (p : Provider) : string :=
  match p with DeepL => "DeepL" | Google => "Google" end.

(** [_validate_languages]: the codes are not normalised here. *)
Definition validate_languages (src dst : string) : res bool :=
  if negb (supported src) then Raise ValueError
  else if negb (supported dst) then Raise ValueError
  else Ok (negb (String.eqb src dst)).

Section WithEnv.
Context `{UnicodeDB}.
Variable net : Net.
Variable deepl_init : DeepLInit.

Definition ensure_initialized : st MW unit :=
  modify (fun '(w, m) => (w, initialize_sync deepl_init m)).

Definition lift_res_m {A} (r : res A) : st MW A :=
  match r with Ok a => ret a | Raise e => throw e end.

(** Run an operation of the translator at position [i] on its own
    object. *)
Definition at_translator {A} (i : nat) (m : st TW A) : st MW A :=
  fun '(w, ms) =>
    match translators ms !! i with
    | Some t =>
        let '((w', t'), r) := m (w, t) in
        ((w', mkMState (<[i:=t']> (translators ms)) (service_priority ms)
                       (initialized ms) (deepl_api_key ms)), r)
    | None => ((w, ms), Raise RuntimeError)
    end.

Definition translator_at (i : nat) : st MW (option TState) :=
  fun '(w, ms) => ((w, ms), Ok (translators ms !! i)).

(** The body of [for translator in self.translators] in [translate]. *)
Fixpoint try_translators (q : text) (src dst : string) (idx : list nat) : st MW (option text) :=
  match idx with
  | [] => ret None
  | i :: idx' =>
      ot <- translator_at i ;;
      match ot with
      | None => try_translators q src dst idx'
      | Some t =>
          let ops := ops_of net (kind t) in
          if negb (is_available ops t) then try_translators q src dst idx'
          else
            sup <- lift_res_m (supports_languages ops src dst false) ;;
            if negb sup then try_translators q src dst idx'
            else
              r <- try_catch (out <- at_translator i (translate ops src dst [q]) ;;
                              ret (Some out))
                             (fun _ => ret None) ;;
              match r with
              | Some (r0 :: _) =>
                  if negb (is_blank r0) then ret (Some r0)
                  else try_translators q src dst idx'
              | _ => try_translators q src dst idx'
              end
      end
  end.

Definition n_translators : st MW nat := fun '(w, ms) => ((w, ms), Ok (length (translators ms))).

(** [TranslationManager.translate]: [None] when every service failed. *)
Definition manager_translate (q : text) (src dst : string) : st MW (option text) :=
  ensure_initialized ;;;
  if is_blank q then ret (Some q)
  else
    needs <- lift_res_m (validate_languages src dst) ;;
    if negb needs then ret (Some q)
    else
      n <- n_translators ;;
      try_translators q src dst (seq 0 n).

(** [TranslationManager.translate_batch], with the [gather] of the
    per-text calls run in list order; an exception of one call gives
    [None] at its position. *)
Definition translate_batch (texts : list text) (src dst : string) : st MW (list (option text)) :=
  ensure_initialized ;;;
  match texts with
  | [] => ret []
  | _ =>
      needs <- lift_res_m (validate_languages src dst) ;;
      if negb needs then ret (map Some texts)
      else st_map (fun t => try_catch (manager_translate t src dst) (fun _ => ret None)) texts
  end.

(** The index of the first translator whose class is [name]. *)
Definition find_service (name : string) (ts : list TState) : option nat :=
  fst <$> List.find (fun it => String.eqb (class_name (kind (snd it))) name)
                    (imap pair ts).

(** [TranslationManager.translate_with_service]. *)
Definition translate_with_service (q : text) (name src dst : string)
  : st MW (option text) :=
  ensure_initialized ;;;
  if is_blank q then ret (Some q)
  else
    s <- get ;;
    match find_service name (translators (snd s)) with
    | None => throw ValueError
    | Some i =>
        ot <- translator_at i ;;
        match ot with
        | None => throw ValueError
        | Some t =>
            let ops := ops_of net (kind t) in
            if negb (is_available ops t) then throw GenericException
            else
              needs <- lift_res_m (validate_languages src dst) ;;
              if negb needs then ret (Some q)
              else
                sup <- lift_res_m (supports_languages ops src dst false) ;;
                if negb sup then throw GenericException
                else
                  out <- at_translator i (translate ops src dst [q]) ;;
                  match out with
                  | r0 :: _ => ret (if bool_decide (r0 = []) then None else Some r0)
                  | [] => ret None
                  end
        end
    end.

(** [get_available_services]. *)
Definition get_available_services : st MW (list string) :=
  ensure_initialized ;;;
  s <- get ;;
  ret (map (fun t => class_name (kind t))
           (filter (fun t => is_available (ops_of net (kind t)) t = true) (translators (snd s)))).

(** [initialize], the coroutine: it repeats the body of
    [_initialize_sync]. *)
Definition manager_initialize : st MW unit :=
  modify (fun '(w, m) => (w, initialize_sync deepl_init m)).

(** The loop of [health_check]: each translator translates ['test']
    from ['JPN'] to ['ENG']; a non-empty first answer is healthy, an
    exception is not. *)
Fixpoint health_loop (idx : list nat) (health : dict bool) : st MW (dict bool) :=
  match idx with
  | [] => ret health
  | i :: idx' =>
      ot <- translator_at i ;;
      match ot with
      | None => health_loop idx' health
      | Some t =>
          ok <- try_catch (out <- at_translator i (translate (ops_of net (kind t)) "JPN" "ENG" [str "test"]) ;;
                           ret (match out with r0 :: _ => negb (bool_decide (r0 = [])) | [] => false end))
                          (fun _ => ret false) ;;
          health_loop idx' (dict_set health (class_name (kind t)) ok)
      end
  end.

(** [health_check]. *)
Definition manager_health_check : st MW (dict bool) :=
  ensure_initialized ;;;
  n <- n_translators ;;
  health_loop (seq 0 n) [].

(** [close]: the translators' own [close] only releases their HTTP
    sessions, and its errors are logged. *)
Definition manager_close : st MW unit :=
  modify (fun '(w, ms) => (w, mkMState [] [] false (deepl_api_key ms))).

(** [async with manager as tm: body]: [__aenter__] awaits [initialize()]
    and [__aexit__] awaits [close()] whether the body returns or raises;
    [__aexit__] returns [None], so the body's exception propagates. *)
Definition async_with {A} (body : st MW A) : st MW A :=
  manager_initialize ;;;
  try_catch (x <- body ;; manager_close ;;; ret x) (fun e => manager_close ;;; throw e).

(** ** The manager as a state machine

    The public coroutines a client can call, each run to completion; the
    state after a call is the state the next call starts from, whether
    the call returned or raised. *)
Inductive manager_call : Type :=
  | CTranslate (q : text) (src dst : string)
  | CTranslateBatch (qs : list text) (src dst : string)
  | CTranslateWithService (q : text) (name src dst : string)
  | CGetAvailableServices
  | CHealthCheck
  | CInitialize
  | CClose.

Definition run_call (c : manager_call) (s : MW) : MW :=
  match c with
  | CTranslate q src dst => fst (manager_translate q src dst s)
  | CTranslateBatch qs src dst => fst (translate_batch qs src dst s)
  | CTranslateWithService q name src dst => fst (translate_with_service q name src dst s)
  | CGetAvailableServices => fst (get_available_services s)
  | CHealthCheck => fst (manager_health_check s)
  | CInitialize => fst (manager_initialize s)
  | CClose => fst (manager_close s)
  end.

(** The calls that keep the manager's translators: all but [close]. *)
Definition keeps_translators (c : manager_call) : bool :=
  match c with CClose => false | _ => true end.

(** The states of a manager built by [TranslationManager(key)] after any
    sequence of calls. *)
Inductive reachable (key : string) : MW -> Prop :=
  | reachable_init w : reachable key (w, new_manager key)
  | reachable_call s c : reachable key s -> reachable key (run_call c s).

End WithEnv.

(** A manager whose only translator is a rate-limited Google. *)
Definition google_limited : MState :=
  mkMState [mkTState Google 0 0 true false false true] ["Google"%string] true "".

(** [run_call] over a sequence of calls, in order. *)
Definition run_calls (net : Net) (di : DeepLInit) `{UnicodeDB} (cs : list manager_call) (s : MW) : MW :=
  fold_left (fun s c => run_call net di c s) cs s.

(** [service_priority] names the class of each translator, in order. *)
Definition services_aligned (ms : MState) : Prop :=
  service_priority ms = map (fun t => class_name (kind t)) (translators ms).


(** ** The order on manager states

    The world only moves forward and every translator the manager holds
    stays at its position with its flags only ever set; initialisation
    only appends translators. *)

Definition mw_le (s s' : MW) : Prop :=
  world_le s.1 s'.1 /\
  forall i t, translators s.2 !! i = Some t ->
    exists t', translators s'.2 !! i = Some t' /\ tflags_le t t'.

#[export] Instance mw_le_preorder : PreOrder mw_le.
Proof.
  split.
  - intros s. split; [reflexivity|]. intros i t Ht. exists t. split; [done|reflexivity].
  - intros s1 s2 s3 [Hw1 H1] [Hw2 H2]. split; [etrans; eauto|].
    intros i t Ht. destruct (H1 i t Ht) as (t2 & Ht2 & Hle2).
    destruct (H2 i t2 Ht2) as (t3 & Ht3 & Hle3). exists t3. split; [done|etrans; eauto].
Qed.

Section ManagerGrows.
Context `{UnicodeDB}.
Variable net : Net.
Variable deepl_init : DeepLInit.

Lemma initialize_sync_lookup di m i t :
  translators m !! i = Some t -> translators (initialize_sync di m) !! i = Some t.
Proof.
  unfold initialize_sync. case_match; [done|]. simpl. intros Ht.
  by apply lookup_app_l_Some.
Qed.

Lemma ensure_initialized_grows : st_mono mw_le (ensure_initialized deepl_init).
Proof.
  refine (st_mono_modify _ _ _). intros [w m]. split; [reflexivity|].
  intros i t Ht. exists t. split; [by apply initialize_sync_lookup|reflexivity].
Qed.

Lemma at_translator_grows {A} i (m : st TW A) :
  st_mono tw_le m -> st_mono mw_le (at_translator i m).
Proof.
  intros Hm [w ms] s' r. unfold at_translator.
  destruct (translators ms !! i) as [t|] eqn:Ht; [|intros [= <- _]; reflexivity].
  destruct (m (w, t)) as [[w' t'] r'] eqn:E. intros [= <- _].
  destruct (Hm _ _ _ E) as [Hw Hle]. split; [exact Hw|]. simpl.
  intros j u Hu. destruct (decide (i = j)) as [<-|Hij].
  - rewrite Ht in Hu. injection Hu as <-. exists t'.
    split; [apply list_lookup_insert_eq; eauto using lookup_lt_Some|exact Hle].
  - exists u. split; [by rewrite list_lookup_insert_ne|reflexivity].
Qed.

Lemma translator_at_grows i : st_mono mw_le (translator_at i).
Proof. intros [w ms] s' r [= <- _]. reflexivity. Qed.

Lemma n_translators_grows : st_mono mw_le n_translators.
Proof. intros [w ms] s' r [= <- _]. reflexivity. Qed.

Lemma lift_res_m_grows {A} (r : res A) : st_mono mw_le (lift_res_m r).
Proof. destruct r; simpl; auto with st_mono. Qed.

End ManagerGrows.

#[export] Hint Resolve ensure_initialized_grows translator_at_grows n_translators_grows
  lift_res_m_grows : st_mono.
#[export] Hint Extern 1 (st_mono mw_le (at_translator _ (translate (ops_of _ _) _ _ _))) =>
  apply at_translator_grows, translate_ops_of_grows : st_mono.

Section ManagerOps.
Context `{UnicodeDB}.
Variable net : Net.
Variable deepl_init : DeepLInit.

Lemma try_translators_grows q src dst idx :
  st_mono mw_le (try_translators net q src dst idx).
Proof. induction idx as [|i idx IH]; simpl; st_mono_solve. Qed.

#[local] Hint Resolve try_translators_grows : st_mono.

Lemma manager_translate_grows q src dst :
  st_mono mw_le (manager_translate net deepl_init q src dst).
Proof. unfold manager_translate. st_mono_solve. Qed.

#[local] Hint Resolve manager_translate_grows : st_mono.

Lemma translate_batch_grows texts src dst :
  st_mono mw_le (translate_batch net deepl_init texts src dst).
Proof. unfold translate_batch. st_mono_solve. Qed.

Lemma translate_with_service_grows q name src dst :
  st_mono mw_le (translate_with_service net deepl_init q name src dst).
Proof. unfold translate_with_service. st_mono_solve. Qed.

Lemma get_available_services_grows :
  st_mono mw_le (get_available_services net deepl_init).
Proof. unfold get_available_services. st_mono_solve. Qed.

End ManagerOps.

(** [async with] always leaves the manager closed (no translator, not
    initialised, the key kept), and gives what the body gives on the
    initialised manager, its exception included. *)
Lemma async_with_spec {A} di (body : st MW A) s :
  let s1 := fst (manager_initialize di s) in
  (async_with di body s).2 = (body s1).2 /\
  translators (async_with di body s).1.2 = [] /\ initialized (async_with di body s).1.2 = false /\
  deepl_api_key (async_with di body s).1.2 = deepl_api_key (body s1).1.2.
Proof.
  intros s1. subst s1. unfold async_with, try_catch, bind, manager_close, manager_initialize, modify, throw, ret.
  destruct s as [w m]. cbn. destruct (body _) as [[w' ms] [x|e]]; done.
Qed.

(** ** Lemmas on the manager's loops *)

Section ManagerLemmas.
Context `{UnicodeDB}.

Lemma supports_languages_nonfatal net p src dst :
  exists b, supports_languages (ops_of net p) src dst false = Ok b.
Proof.
  destruct p; unfold supports_languages; simpl.
  - destruct (String.eqb src "VIN" || String.eqb dst "VIN")%string; [by eexists|].
    unfold base_supports_languages. case_match; eauto.
  - unfold base_supports_languages. case_match; eauto.
Qed.

Lemma at_translator_ok {A} i (m : st TW A) s s' a :
  at_translator i m s = (s', Ok a) ->
  exists t x, translators s.2 !! i = Some t /\ m (s.1, t) = (x, Ok a).
Proof.
  destruct s as [w ms]. unfold at_translator. simpl.
  destruct (translators ms !! i) as [t|]; [|discriminate].
  destruct (m (w, t)) as [[w' t'] r] eqn:E. intros [= _ ->]. eauto.
Qed.

Lemma try_translators_silent q src dst idx s :
  is_valuable_text q = true ->
  normalize_language_code src <> normalize_language_code dst ->
  exists s', try_translators silent_net q src dst idx s = (s', Ok None).
Proof.
  intros Hq Hne. revert s. induction idx as [|i idx IH]; intros [w ms]; [by eexists|].
  cbn -[translate at_translator supports_languages is_available].
  destruct (translators ms !! i) as [t|]; [|apply IH].
  destruct (is_available _ t); simpl; [|apply IH].
  destruct (supports_languages_nonfatal silent_net (kind t) src dst) as [b ->].
  destruct b; cbn [lift_res_m]; st_unfold; cbv beta iota delta [negb]; [|apply IH].
  match goal with |- context [at_translator ?j ?m ?st] =>
    destruct (at_translator j m st) as [s1 [out|e]] eqn:E end; simpl; [|apply IH].
  destruct (at_translator_ok _ _ _ _ _ E) as (t' & x & _ & Et).
  destruct out as [|r0 rs]; [apply IH|].
  pose proof (translate_silent _ (silent_raw (kind t)) _ _ _ _ _ _ 0 q Hne Et eq_refl Hq) as Hr.
  injection Hr as ->. apply IH.
Qed.

End ManagerLemmas.

(** ** Invariants of the manager state

    A property of [MState] that initialisation keeps, that replacing a
    translator by one of the same class keeps, and that holds of the
    state [close] leaves, holds after every call. *)

Definition inv_le (P : MState -> Prop) (s s' : MW) : Prop := P s.2 -> P s'.2.

#[export] Instance inv_le_preorder P : PreOrder (inv_le P).
Proof. unfold inv_le. split; [intros s H1; exact H1|intros s1 s2 s3 H12 H23 H1; auto]. Qed.

Section Invariant.
Context `{UnicodeDB}.
Variable net : Net.
Variable deepl_init : DeepLInit.
Variable P : MState -> Prop.
Hypothesis P_init : forall di m, P m -> P (initialize_sync di m).
Hypothesis P_insert : forall m i t t', translators m !! i = Some t -> kind t' = kind t -> P m ->
  P (mkMState (<[i:=t']> (translators m)) (service_priority m) (initialized m) (deepl_api_key m)).
Hypothesis P_close : forall m, P (mkMState [] [] false (deepl_api_key m)).

Lemma ensure_initialized_inv : st_mono (inv_le P) (ensure_initialized deepl_init).
Proof. refine (st_mono_modify _ _ _). intros [w m]. exact (P_init deepl_init m). Qed.

Lemma at_translator_inv {A} i (m : st TW A) :
  st_mono tw_le m -> st_mono (inv_le P) (at_translator i m).
Proof.
  intros Hm [w ms] s' r. unfold at_translator.
  destruct (translators ms !! i) as [t|] eqn:Ht; [|by intros [= <- _]].
  destruct (m (w, t)) as [[w' t'] r'] eqn:E. intros [= <- _].
  destruct (Hm _ _ _ E) as [_ [Hk _]]. exact (P_insert ms i t t' Ht Hk).
Qed.

Lemma translator_at_inv i : st_mono (inv_le P) (translator_at i).
Proof. intros [w ms] s' r [= <- _]. by intros ?. Qed.

Lemma n_translators_inv : st_mono (inv_le P) n_translators.
Proof. intros [w ms] s' r [= <- _]. by intros ?. Qed.

Lemma lift_res_m_inv {A} (r : res A) : st_mono (inv_le P) (lift_res_m r).
Proof. destruct r; simpl; auto with st_mono. Qed.

#[local] Hint Resolve ensure_initialized_inv translator_at_inv n_translators_inv lift_res_m_inv : st_mono.
#[local] Hint Extern 1 (st_mono (inv_le P) (at_translator _ (translate (ops_of _ _) _ _ _))) =>
  apply at_translator_inv, translate_ops_of_grows : st_mono.

Lemma try_translators_inv q src dst idx : st_mono (inv_le P) (try_translators net q src dst idx).
Proof. induction idx as [|i idx IH]; simpl; st_mono_solve. Qed.

#[local] Hint Resolve try_translators_inv : st_mono.

Lemma manager_translate_inv q src dst : st_mono (inv_le P) (manager_translate net deepl_init q src dst).
Proof. unfold manager_translate. st_mono_solve. Qed.

#[local] Hint Resolve manager_translate_inv : st_mono.

Lemma health_loop_inv idx acc : st_mono (inv_le P) (health_loop net idx acc).
Proof. revert acc. induction idx as [|i idx IH]; intros acc; simpl; st_mono_solve. Qed.

#[local] Hint Resolve health_loop_inv : st_mono.

Lemma manager_close_inv : st_mono (inv_le P) manager_close.
Proof. refine (st_mono_modify _ _ _). intros [w m] _. apply P_close. Qed.

#[local] Hint Resolve manager_close_inv : st_mono.

Lemma run_call_inv c s : inv_le P s (run_call net deepl_init c s).
Proof.
  destruct c; unfold run_call;
    [| unfold translate_batch | unfold translate_with_service | unfold get_available_services
     | unfold manager_health_check | change (manager_initialize deepl_init) with (ensure_initialized deepl_init) | ];
    match goal with |- inv_le P s (fst (?m s)) =>
      assert (Hm : st_mono (inv_le P) m) by st_mono_solve;
      destruct (m s) eqn:E; exact (Hm _ _ _ E) end.
Qed.

Lemma reachable_inv key s : P (new_manager key) -> reachable net deepl_init key s -> P s.2.
Proof. intros H0. induction 1 as [w|s c _ IH]; [exact H0|]. exact (run_call_inv c s IH). Qed.

End Invariant.

Section ManagerMono.
Context `{UnicodeDB}.
Variable net : Net.
Variable deepl_init : DeepLInit.

Lemma health_loop_grows idx acc : st_mono mw_le (health_loop net idx acc).
Proof. revert acc. induction idx as [|i idx IH]; intros acc; simpl; st_mono_solve. Qed.

#[local] Hint Resolve health_loop_grows : st_mono.

Lemma run_call_grows c s : keeps_translators c = true -> mw_le s (run_call net deepl_init c s).
Proof.
  destruct c; unfold run_call; intros Hk; try discriminate Hk;
    [| unfold translate_batch | unfold translate_with_service | unfold get_available_services
     | unfold manager_health_check | change (manager_initialize deepl_init) with (ensure_initialized deepl_init)];
    match goal with |- mw_le s (fst (?m s)) =>
      assert (Hm : st_mono mw_le m)
        by (pose proof manager_translate_grows; st_mono_solve);
      destruct (m s) eqn:E; exact (Hm _ _ _ E) end.
Qed.

End ManagerMono.

(** ** The two invariants *)

Lemma initialize_sync_aligned di m :
  services_aligned m -> services_aligned (initialize_sync di m).
Proof.
  intros Hm. unfold services_aligned, initialize_sync in *. case_match; [exact Hm|].
  simpl. rewrite Hm, !map_app. f_equal. case_match; [reflexivity|destruct di; reflexivity].
Qed.

Lemma kinds_insert (ts : list TState) i t t' :
  ts !! i = Some t -> kind t' = kind t -> kind <$> <[i:=t']> ts = kind <$> ts.
Proof.
  intros Ht Hk. rewrite list_fmap_insert, Hk. apply list_insert_id. by rewrite list_lookup_fmap, Ht.
Qed.

Lemma services_aligned_insert m i t t' :
  translators m !! i = Some t -> kind t' = kind t -> services_aligned m ->
  services_aligned (mkMState (<[i:=t']> (translators m)) (service_priority m) (initialized m) (deepl_api_key m)).
Proof.
  intros Ht Hk Hm. unfold services_aligned in *. cbn. rewrite Hm.
  change (map (fun t0 => class_name (kind t0)) ?l) with ((fun t0 => class_name (kind t0)) <$> l).
  rewrite list_fmap_insert. cbn beta. rewrite Hk, list_insert_id; [done|]. by rewrite list_lookup_fmap, Ht.
Qed.

(** [manager_wf]: no translator before initialisation, and at most one
    of each class. *)
Definition manager_wf (ms : MState) : Prop :=
  (initialized ms = false -> translators ms = []) /\ NoDup (kind <$> translators ms).

Lemma initialize_sync_wf di m : manager_wf m -> manager_wf (initialize_sync di m).
Proof.
  intros Hwf. unfold initialize_sync. destruct (initialized m) eqn:E; [exact Hwf|].
  destruct Hwf as [Hi _]. rewrite (Hi E). split; [discriminate|]. cbn.
  destruct (String.eqb _ _); [|destruct di]; by apply (bool_decide_unpack _).
Qed.

Lemma manager_wf_insert m i t t' :
  translators m !! i = Some t -> kind t' = kind t -> manager_wf m ->
  manager_wf (mkMState (<[i:=t']> (translators m)) (service_priority m) (initialized m) (deepl_api_key m)).
Proof.
  intros Ht Hk [Hi Hn]. split; cbn.
  - intros Hf. by rewrite (Hi Hf) in Ht.
  - by rewrite (kinds_insert _ i t t').
Qed.


(** ** Theorems on the manager *)

Lemma validate_ok src dst :
  supported src = true -> supported dst = true ->
  validate_languages src dst = Ok (negb (String.eqb src dst)).
Proof. intros Hs Hd. unfold validate_languages. by rewrite Hs, Hd. Qed.

Lemma tflags_le_unavailable `{UnicodeDB} net t t' :
  tflags_le t t' -> is_available (ops_of net (kind t)) t = false ->
  is_available (ops_of net (kind t')) t' = false.
Proof.
  intros (Hk & Hc & Hr & Hq & Ha). rewrite Hk.
  destruct (kind t); simpl; rewrite ?Hc;
    destruct (rate_limited t), (quota_exceeded t), (auth_failed t), (client_ready t),
      (rate_limited t'), (quota_exceeded t'), (auth_failed t'); naive_solver.
Qed.

Section ManagerTheorems.
Context `{UnicodeDB}.

Lemma run_calls_grows net di cs s :
  forallb keeps_translators cs = true -> mw_le s (run_calls net di cs s).
Proof.
  revert s. induction cs as [|c cs IH]; intros s Hk; simpl in *; [reflexivity|].
  apply andb_true_iff in Hk as [Hc Hk]. etrans; [by apply run_call_grows|by apply IH].
Qed.

(** C23. When no translation service answers, [TranslationManager.translate]
    of a valuable text between two different supported languages returns
    [None], whatever providers the manager holds and whatever their
    state. *)
Theorem manager_outage di q src dst s :
  supported src = true -> supported dst = true -> src <> dst ->
  is_valuable_text q = true ->
  exists s', manager_translate silent_net di q src dst s = (s', Ok None).
Proof.
  intros Hs Hd Hne Hq. destruct s as [w ms]. unfold manager_translate. st_unfold.
  cbv beta iota. rewrite (valuable_not_blank q Hq), (validate_ok src dst Hs Hd).
  apply String.eqb_neq in Hne as Hb. rewrite Hb. simpl.
  apply try_translators_silent; [done|]. by rewrite !normalize_supported.
Qed.

Lemma translator_at_safe i : st_safe (translator_at i).
Proof. intros [w ms]. eauto. Qed.

Lemma n_translators_safe : st_safe n_translators.
Proof. intros [w ms]. eauto. Qed.

Lemma lift_res_m_supports_safe net p src dst :
  st_safe (lift_res_m (supports_languages (ops_of net p) src dst false)).
Proof.
  destruct (supports_languages_nonfatal net p src dst) as [b ->]. apply st_safe_ret.
Qed.

#[local] Hint Resolve translator_at_safe n_translators_safe lift_res_m_supports_safe : st_safe.

Lemma try_translators_safe net q src dst idx : st_safe (try_translators net q src dst idx).
Proof. induction idx as [|i idx IH]; simpl; st_safe_solve. Qed.

#[local] Hint Resolve try_translators_safe : st_safe.

(** C24. [TranslationManager.translate] never raises when both codes are
    canonical supported codes: an unsupported pair is skipped, a failing
    provider is caught, and the loop ends in [None] at worst. *)
Theorem manager_translate_safe net di q src dst :
  supported src = true -> supported dst = true ->
  st_safe (manager_translate net di q src dst).
Proof.
  intros Hs Hd. unfold manager_translate. rewrite (validate_ok src dst Hs Hd). simpl.
  st_safe_solve.
Qed.

(** C25. The default language codes of [TranslationManager.translate]
    ([from_lang='JPN'], [to_lang='ENG']) are legacy codes that
    [_validate_languages] rejects without normalising them: a call that
    relies on the defaults raises [ValueError] for every non-blank text. *)
Theorem manager_default_codes_rejected net di q s :
  is_blank q = false ->
  exists s', manager_translate net di q "JPN"%string "ENG"%string s = (s', Raise ValueError).
Proof.
  intros Hq. destruct s as [w ms]. unfold manager_translate. st_unfold. cbv beta iota.
  rewrite Hq. by eexists.
Qed.

(** C26. A translator that is unavailable (DeepL out of quota or refused,
    Google rate-limited) stays unavailable through every later sequence
    of manager calls other than [close]: nothing else in the manager
    clears the flags. *)
Theorem unavailable_persists net di cs s i t :
  forallb keeps_translators cs = true ->
  translators s.2 !! i = Some t -> is_available (ops_of net (kind t)) t = false ->
  exists t', translators (run_calls net di cs s).2 !! i = Some t' /\ kind t' = kind t /\
             is_available (ops_of net (kind t')) t' = false.
Proof.
  intros Hk Ht Hu. destruct (run_calls_grows net di cs s Hk) as [_ Hle].
  destruct (Hle i t Ht) as (t' & Ht' & Hf). exists t'.
  split; [done|]. split; [apply Hf|]. exact (tflags_le_unavailable net t t' Hf Hu).
Qed.

(** In every reachable manager state, [service_priority] lists the
    class name of each translator of [translators], in the same order. *)
Theorem reachable_aligned net di key s :
  reachable net di key s -> services_aligned s.2.
Proof.
  apply (reachable_inv net di services_aligned initialize_sync_aligned services_aligned_insert); done.
Qed.

(** C27. In every reachable manager state the manager holds no
    translator before it is initialised and at most one translator of
    each class, whatever the calls, the network and the DeepL start-up:
    [close] empties the list, and initialisation only runs on an empty
    one. *)
Theorem reachable_wf net di key s : reachable net di key s -> manager_wf s.2.
Proof.
  apply (reachable_inv net di manager_wf initialize_sync_wf manager_wf_insert).
  - intros m. split; [done | constructor].
  - split; [done | constructor].
Qed.

(** [translate_batch] on supported codes returns one result per
    text. *)
Theorem translate_batch_length net di texts src dst s s' rs :
  supported src = true -> supported dst = true ->
  translate_batch net di texts src dst s = (s', Ok rs) -> length rs = length texts.
Proof.
  intros Hs Hd. destruct s as [w ms]. unfold translate_batch, ensure_initialized.
  st_unfold. cbv beta iota.
  destruct texts as [|t ts]; [by intros [= _ <-]|].
  rewrite (validate_ok src dst Hs Hd). cbn [lift_res_m]. st_unfold. cbv beta iota.
  destruct (negb (negb _)).
  - intros [= _ <-]. exact (length_map Some (t :: ts)).
  - intros E. by apply st_map_length in E.
Qed.

End ManagerTheorems.

(** A manager built without a key, as [TranslationOrchestrator] and
    [lifespan] build theirs, holds Google alone once initialised,
    whatever DeepL would have answered. *)
Lemma no_key_google_only di :
  map kind (translators (initialize_sync di (new_manager ""))) = [Google] /\
  service_priority (initialize_sync di (new_manager "")) = ["Google"%string].
Proof. split; reflexivity. Qed.

(** ** Concrete runs *)

Lemma manager_outage_witness :
  exists s', manager_translate silent_net DInitOk (str "Hello there") "japanese"%string
               "english"%string (start_world, new_manager "key"%string) = (s', Ok None).
Proof.
  apply manager_outage; [reflexivity|reflexivity|discriminate|reflexivity].
Defined.

Lemma manager_translate_safe_witness :
  exists s' r, manager_translate echo_net DInitOk (str "Hello there") "japanese"%string
                 "english"%string (start_world, new_manager "key"%string) = (s', Ok r).
Proof. apply manager_translate_safe; reflexivity. Defined.

Lemma manager_default_codes_rejected_witness :
  exists s', manager_translate echo_net DInitOk (str "Hello") "JPN"%string "ENG"%string
               (start_world, new_manager ""%string) = (s', Raise ValueError).
Proof. apply manager_default_codes_rejected. reflexivity. Defined.

Lemma unavailable_persists_witness :
  exists t', translators (run_calls echo_net DInitOk
                [CTranslate (str "Hello there") "japanese" "english"; CHealthCheck; CGetAvailableServices]
                (start_world, google_limited)).2 !! 0%nat = Some t' /\
             kind t' = Google /\ is_available (ops_of echo_net (kind t')) t' = false.
Proof. apply (unavailable_persists _ _ _ _ 0 (mkTState Google 0 0 true false false true)); reflexivity. Defined.

Lemma reachable_aligned_witness :
  services_aligned (run_call echo_net DInitOk (CTranslate (str "Hi there") "korean" "english")
                      (start_world, new_manager "key"%string)).2.
Proof.
  apply (reachable_aligned echo_net DInitOk "key"%string).
  apply reachable_call, reachable_init.
Defined.

Lemma reachable_wf_witness :
  manager_wf (run_call echo_net DInitOk CClose
                (run_call echo_net DInitOk (CTranslate (str "Hi there") "korean" "english")
                   (start_world, new_manager "key"%string))).2.
Proof.
  apply (reachable_wf echo_net DInitOk "key"%string).
  apply reachable_call, reachable_call, reachable_init.
Defined.

Lemma translate_batch_length_witness :
  exists s' rs, translate_batch echo_net DInitFailed [str "Hello there"; str "!!"]
                  "japanese"%string "english"%string (start_world, new_manager ""%string)
                = (s', Ok rs) /\ length rs = 2%nat.
Proof.
  destruct (translate_batch echo_net DInitFailed [str "Hello there"; str "!!"]
              "japanese"%string "english"%string (start_world, new_manager ""%string))
    as [s' [rs|e]] eqn:E; [|vm_compute in E; discriminate].
  exists s', rs. split; [reflexivity|].
  exact (translate_batch_length echo_net DInitFailed _ "japanese"%string "english"%string
           _ _ _ eq_refl eq_refl E).
Defined.

(** [close] is the one call that forgets a rate limit: the manager
    builds a fresh [GoogleTranslator] on its next use. *)
Example close_resets_availability :
  exists t', translators (run_calls echo_net DInitOk [CClose; CGetAvailableServices]
                            (start_world, google_limited)).2 !! 0%nat = Some t' /\
             kind t' = Google /\ is_available (ops_of echo_net (kind t')) t' = true.
Proof. eexists. split_and!; reflexivity. Qed.

(** [health_check] calls [translate] on every translator without
    asking [is_available]: with a network that never answers every
    service is unhealthy, but a rate-limited Google whose network
    answers is reported healthy while [get_available_services] leaves
    it out. *)
Example health_check_probes_unavailable :
  (manager_health_check silent_net DInitOk (start_world, new_manager "key"%string)).2
    = Ok [("DeepL"%string, false); ("Google"%string, false)] /\
  (manager_health_check echo_net DInitOk (start_world, google_limited)).2 = Ok [("Google"%string, true)] /\
  (get_available_services echo_net DInitOk (start_world, google_limited)).2 = Ok [].
Proof. split_and!; vm_compute; reflexivity. Qed.
