(* ===== verification/FontManager.v ===== *)
(** * FontManager: line wrapping and the font-size search

    services/render/font_manager.py.  A font is seen through
    [measure_text]: it gives the width and height of a string.  The
    glyph metrics come from PIL and are a parameter ([Font]); every
    theorem holds for every font.  [get_font] is total here: the
    constructor of [FontManager] raises at start-up when a font file is
    missing, so a running manager has a font for every language. *)

From Stdlib Require Import NArith ZArith String Ascii List.
From stdpp Require Import base list decidable.
From S2P Require Import Prelude Schemas.

Local Open Scope Z_scope.

(** [measure_text(s, font, language)] for one font and language. *)
Definition Font : Type := text -> Z * Z.

Definition text_width (f : Font) (s : text) : Z := fst (f s).
Definition text_height (f : Font) (s : text) : Z := snd (f s).

Definition hyphen : char := 45%N.
Definition space : char := 32%N.

(** The probe strings of the height measurement: ["测"] (U+6D4B) for CJK,
    ["A"] otherwise. *)
Definition cjk_probe : text := [27979%N].
Definition latin_probe : text := [65%N].

(** [settings.font_size_min] and [settings.font_size_max]. *)
Definition font_size_min : Z := 6.
Definition font_size_max : Z := 30.

(** [int(x * 0.4)] and [int(x * 0.3)]: the double nearest to [0.4] is
    above [2/5] and the one nearest to [0.3] is below [3/10] by a relative
    [4e-17], less than half an ulp of any product that is an integer, so
    the truncated float product is the truncated rational one. *)
Definition int_mul_04 (x : Z) : Z := Z.quot (2 * x) 5.
Definition int_mul_03 (x : Z) : Z := Z.quot (3 * x) 10.

(** ** Wrapping *)

(** Close the line being built ([if current_line: lines.append(...)]). *)
Definition flush (st : list text * text) : list text :=
  let '(lines, cur) := st in
  match cur with [] => lines | _ => lines ++ [cur] end.

(** One character of [_wrap_cjk_text]. *)
Definition cjk_step (f : Font) (tw : Z) (st : list text * text) (c : char) : list text * text :=
  let '(lines, cur) := st in
  let test := cur ++ [c] in
  if text_width f test <=? tw then (lines, test)
  else (match cur with [] => lines | _ => lines ++ [cur] end, [c]).

(** [_wrap_cjk_text]. *)
Definition wrap_cjk_text (f : Font) (tw : Z) (t : text) : list text :=
  flush (fold_left (cjk_step f tw) t ([], [])).

(** One character of [_break_long_word_with_hyphen]: the width is
    measured with a hyphen appended. *)
Definition break_step (f : Font) (mw : Z) (st : list text * text) (c : char) : list text * text :=
  let '(parts, cur) := st in
  let test := cur ++ [c] in
  if text_width f (test ++ [hyphen]) <=? mw then (parts, test)
  else (match cur with [] => parts | _ => parts ++ [cur ++ [hyphen]] end, [c]).

(** [_break_long_word_with_hyphen]: [parts if parts else [word]]. *)
Definition break_long_word (f : Font) (mw : Z) (word : text) : list text :=
  match flush (fold_left (break_step f mw) word ([], [])) with
  | [] => [word]
  | parts => parts
  end.

(** One word of [_wrap_latin_text]. *)
Definition latin_step (f : Font) (tw : Z) (st : list text * text) (word : text) : list text * text :=
  let '(lines, cur) := st in
  let test := strip (cur ++ [space] ++ word) in
  if text_width f test <=? tw then (lines, test)
  else
    let lines := match cur with [] => lines | _ => lines ++ [cur] end in
    if tw <? text_width f word then
      let broken := break_long_word f tw word in
      (lines ++ removelast broken, last broken [])
    else (lines, word).

(** The "bottom-line rule" of [_wrap_latin_text]: a last line of several
    words whose last word has at most 10 characters gives that word a
    line of its own.  [last_line.split()[-1]] raises [IndexError] on a
    blank line. *)
Definition bottom_line_rule (lines : list text) : res (list text) :=
  if (1 <? length lines)%nat then
    let last_line := last lines [] in
    match split_ws last_line with
    | [] => Raise IndexError
    | ws =>
        let last_word := last ws [] in
        if (length last_word <=? 10)%nat && bool_decide (space ∈ last_line) then
          let rest := join [space] (removelast ws) in
          if is_blank rest then Ok (removelast lines ++ [last_word])
          else Ok (removelast lines ++ [rest; last_word])
        else Ok lines
    end
  else Ok lines.

(** [_wrap_latin_text]. *)
Definition wrap_latin_text (f : Font) (tw : Z) (t : text) : res (list text) :=
  bottom_line_rule (flush (fold_left (latin_step f tw) (split_ws t) ([], []))).

(** [wrap_text_for_size].  The callers pass [Language] values, which are
    lower case, so [language.lower()] is the identity on them. *)
Definition wrap_text_for_size (f : Font) (tw : Z) (t : text) (lang : string) : res (list text) :=
  if is_blank t then Ok []
  else if is_cjk_language lang then Ok (wrap_cjk_text f tw t)
  else wrap_latin_text f tw t.

(** ** The font-size search *)

(** [len(lines) * line_height + (len(lines) - 1) * line_spacing]. *)
Definition total_height (n : nat) (lh sp : Z) : Z := Z.of_nat n * lh + (Z.of_nat n - 1) * sp.

Definition search_line_spacing (cjk : bool) (lh : Z) : Z :=
  if cjk then Z.max 8 (int_mul_04 lh) else Z.max 5 (int_mul_04 lh).

(** The [while left <= right] loop of [find_optimal_font_size_multiline]
    over a test [p] of one size ([None] for [max_lines]).  Each round
    shrinks [right - left + 1], so [fuel] above it is enough. *)
Section BinarySearch.
Variable p : Z -> res bool.

Fixpoint bsearch (fuel : nat) (left right best : Z) : res Z :=
  match fuel with
  | O => Ok best
  | S n =>
      if left <=? right then
        let mid := (left + right) / 2 in
        match p mid with
        | Raise e => Raise e
        | Ok true => bsearch n (mid + 1) right mid
        | Ok false => bsearch n left (mid - 1) best
        end
      else Ok best
  end.

End BinarySearch.

Definition search_fuel (left right : Z) : nat := S (Z.to_nat (right - left + 1)).

Section FontSearch.
(** [get_font(language, size)], measured in [language]. *)
Variable font_at : Z -> Font.

(** The body of the loop for [mid_size]: do the wrapped lines fit the
    height? *)
Definition fits_height (t : text) (tw th : Z) (lang : string) (size : Z) : res bool :=
  let f := font_at size in
  match wrap_text_for_size f tw t lang with
  | Raise e => Raise e
  | Ok lines =>
      let cjk := is_cjk_language lang in
      let lh := text_height f (if cjk then cjk_probe else latin_probe) in
      Ok (total_height (length lines) lh (search_line_spacing cjk lh) <=? th)
  end.

(** [find_optimal_font_size_multiline] (and [find_optimal_font_size],
    which calls it): [best_size] starts at [font_size_min] before the CJK
    lower bound of 12 is applied to [left]. *)
Definition find_optimal_font_size (t : text) (tw th : Z) (lang : string) : res Z :=
  let left := if is_cjk_language lang then Z.max font_size_min 12 else font_size_min in
  bsearch (fits_height t tw th lang) (search_fuel left font_size_max) left font_size_max
          font_size_min.

(** [get_text_layout_info]: the size found, its lines and their total
    height with the spacing of this function (0.3 of the line height for
    Korean and Latin text, 0.4 for Japanese and Chinese). *)
Definition get_text_layout_info (t : text) (tw th : Z) (lang : string)
  : res (Z * list text * Z) :=
  match find_optimal_font_size t tw th lang with
  | Raise e => Raise e
  | Ok size =>
      let f := font_at size in
      match wrap_text_for_size f tw t lang with
      | Raise e => Raise e
      | Ok lines =>
          let lh := text_height f (if is_cjk_language lang then cjk_probe else latin_probe) in
          let sp := if String.eqb lang "korean" then Z.max 4 (int_mul_03 lh)
                    else if bool_decide (lang ∈ ["japanese"; "sim_chinese"; "trad_chinese"]%string)
                    then Z.max 8 (int_mul_04 lh)
                    else Z.max 4 (int_mul_03 lh) in
          Ok (size, lines, total_height (length lines) lh sp)
      end
  end.

End FontSearch.

(** ** Script detection ([_detect_script]) *)

Definition in_range (lo hi : N) (c : char) : bool := (lo <=? c)%N && (c <=? hi)%N.

Definition count (p : char -> bool) (t : text) : Z := Z.of_nat (length (filter (fun c => p c = true) t)).

Definition is_ascii_alpha (c : char) : bool := in_range 65 90 c || in_range 97 122 c.

(** [x / total > r] for [r = num/10] is [10 x > num * total]: the
    quotient and the constant are rounded to the same side of every
    ratio with a denominator below 2^26. *)
Definition detect_script (t : text) : string :=
  match t with
  | [] => "english"%string
  | _ =>
      let kana := count (in_range 12352 12543) t in
      let kanji := count (in_range 19968 40959) t in
      let hangul := count (in_range 44032 55203) t in
      let latin := count is_ascii_alpha t in
      let total := count (fun c => negb (isspace c)) t in
      if total =? 0 then "english"%string
      else if 3 * total <? 10 * (kana + kanji) then "japanese"%string
      else if 3 * total <? 10 * hangul then "korean"%string
      else if 3 * total <? 10 * kanji then "sim_chinese"%string
      else if 7 * total <? 10 * latin then "english"%string
      else if 0 <? kana then "japanese"%string
      else if 0 <? hangul then "korean"%string
      else if 0 <? kanji then "sim_chinese"%string
      else "english"%string
  end.

(** ** Concrete fonts

    [const_font] has no extent; [mono_font] is a monospaced font whose
    characters are [s] wide at size [s], with lines [s + 2] high. *)
Definition const_font (size : Z) : Font := fun _ => (0, 0).

Definition mono_font (size : Z) : Font := fun t => (size * Z.of_nat (length t), size + 2).

(** ** Wrapping CJK text *)

Section CjkWrap.
Variable f : Font.
Variable tw : Z.

(** A line of the result: not empty, and within the width unless it is a
    single character too wide on its own. *)
Definition good_line (l : text) : Prop := l <> [] /\ (text_width f l <= tw \/ length l = 1%nat).

Lemma cjk_fold_concat t lines cur :
  concat (fold_left (cjk_step f tw) t (lines, cur)).1 ++
    (fold_left (cjk_step f tw) t (lines, cur)).2 = concat lines ++ cur ++ t.
Proof.
  revert lines cur. induction t as [|c t IH]; intros lines cur; cbn [fold_left fst snd];
    [by rewrite app_nil_r|].
  destruct (cjk_step f tw (lines, cur) c) as [l' c'] eqn:E. rewrite IH.
  unfold cjk_step in E. case_match; injection E as <- <-.
  - by rewrite <- !app_assoc.
  - destruct cur as [|d cur]; simpl; [done|]. rewrite concat_app. simpl.
    by rewrite app_nil_r, <- !app_assoc.
Qed.

Lemma cjk_fold_good t lines cur :
  Forall good_line lines -> (cur = [] \/ good_line cur) ->
  Forall good_line (fold_left (cjk_step f tw) t (lines, cur)).1 /\
  ((fold_left (cjk_step f tw) t (lines, cur)).2 = [] \/
   good_line (fold_left (cjk_step f tw) t (lines, cur)).2).
Proof.
  revert lines cur. induction t as [|c t IH]; intros lines cur Hl Hc; cbn [fold_left fst snd];
    [done|].
  destruct (cjk_step f tw (lines, cur) c) as [l' c'] eqn:E. apply IH;
    unfold cjk_step in E; case_match eqn:Hw; injection E as <- <-.
  - done.
  - destruct cur as [|d cur]; [done|]. apply Forall_app; split; [done|].
    constructor; [|done]. by destruct Hc.
  - right. split; [by destruct cur|left; by apply Z.leb_le].
  - right. split; [done|by right].
Qed.

Lemma flush_concat st : concat (flush st) = concat st.1 ++ st.2.
Proof.
  destruct st as [lines [|c cur]]; simpl; [by rewrite app_nil_r|].
  by rewrite concat_app; simpl; rewrite app_nil_r.
Qed.

Lemma flush_good st :
  Forall good_line st.1 -> (st.2 = [] \/ good_line st.2) -> Forall good_line (flush st).
Proof.
  destruct st as [lines [|c cur]]; simpl; intros Hl Hc; [done|].
  apply Forall_app. split; [done|]. constructor; [|done]. by destruct Hc.
Qed.

End CjkWrap.

(** ** Wrapping Latin text never raises *)

Definition nonblank (l : text) : Prop := is_blank l = false.

Lemma Forall_last {A} (P : A -> Prop) (l : list A) d :
  Forall P l -> l <> [] -> P (last l d).
Proof.
  induction l as [|x l IH]; intros Hl Hne; [done|]. inversion Hl; subst.
  destruct l as [|y l]; [done|]. simpl. apply IH; done.
Qed.

Lemma Forall_removelast {A} (P : A -> Prop) (l : list A) :
  Forall P l -> Forall P (removelast l).
Proof.
  induction l as [|x l IH]; intros Hl; [done|]. inversion Hl; subst.
  destruct l as [|y l]; [done|]. simpl. constructor; auto.
Qed.

Lemma nonspace_nonblank (l : text) :
  Forall (fun c => isspace c = false) l -> l <> [] -> nonblank l.
Proof.
  intros Hl Hne. destruct l as [|c l]; [done|]. unfold nonblank. simpl.
  apply Forall_cons_1 in Hl as [-> _]. done.
Qed.

Lemma app_nonblank_r (a b : text) : nonblank b -> nonblank (a ++ b).
Proof. unfold nonblank. rewrite is_blank_app. intros ->. apply andb_false_r. Qed.

Lemma hyphen_nonblank (p : text) : nonblank (p ++ [hyphen]).
Proof. by apply app_nonblank_r. Qed.

Section LatinWrap.
Variable f : Font.
Variable tw : Z.

Lemma break_fold_inv word parts cur :
  Forall (fun c => isspace c = false) word -> Forall nonblank parts ->
  Forall (fun c => isspace c = false) cur ->
  Forall nonblank (fold_left (break_step f tw) word (parts, cur)).1 /\
  Forall (fun c => isspace c = false) (fold_left (break_step f tw) word (parts, cur)).2.
Proof.
  revert parts cur. induction word as [|c word IH]; intros parts cur Hw Hp Hc;
    cbn [fold_left fst snd]; [done|].
  apply Forall_cons_1 in Hw as [Hsp Hw].
  destruct (break_step f tw (parts, cur) c) as [p' c'] eqn:E. apply IH; [done| |];
    unfold break_step in E; case_match; injection E as <- <-; try done.
  - destruct cur; [done|]. apply Forall_app. split; [done|]. constructor; [|done].
    apply hyphen_nonblank.
  - apply Forall_app. by split; [|constructor].
  - by constructor.
Qed.

Lemma break_long_word_nonblank word : ws_word word -> Forall nonblank (break_long_word f tw word).
Proof.
  intros Hw. unfold break_long_word.
  destruct (break_fold_inv word [] [] (proj2 Hw) (Forall_nil_2 _) (Forall_nil_2 _)) as [Hp Hc].
  destruct (fold_left (break_step f tw) word ([], [])) as [parts cur]. cbn [fst snd] in *.
  assert (Hf : Forall nonblank (flush (parts, cur))).
  { destruct cur as [|c cur]; simpl; [done|]. apply Forall_app. split; [done|].
    constructor; [|done]. by apply nonspace_nonblank. }
  destruct (flush (parts, cur)) eqn:E; [|done].
  constructor; [|done]. by apply ws_word_not_blank.
Qed.

Lemma break_long_word_nonempty word : break_long_word f tw word <> [].
Proof. unfold break_long_word. by case_match. Qed.

Lemma latin_fold_inv words lines cur :
  Forall ws_word words -> Forall nonblank lines -> (cur = [] \/ nonblank cur) ->
  Forall nonblank (fold_left (latin_step f tw) words (lines, cur)).1 /\
  ((fold_left (latin_step f tw) words (lines, cur)).2 = [] \/
   nonblank (fold_left (latin_step f tw) words (lines, cur)).2).
Proof.
  revert lines cur. induction words as [|w words IH]; intros lines cur Hw Hl Hc;
    cbn [fold_left fst snd]; [done|].
  apply Forall_cons_1 in Hw as [Hw1 Hw].
  pose proof (ws_word_not_blank w Hw1) as Hwb.
  assert (Hcl : Forall nonblank (match cur with [] => lines | _ => lines ++ [cur] end)).
  { destruct cur; [done|]. apply Forall_app. split; [done|]. constructor; [|done].
    by destruct Hc. }
  assert (Htest : nonblank (strip (cur ++ [space] ++ w))).
  { unfold nonblank. rewrite is_blank_strip, !is_blank_app, Hwb. by rewrite !andb_false_r. }
  destruct (latin_step f tw (lines, cur) w) as [l' c'] eqn:E. apply IH; [done| |];
    unfold latin_step in E; repeat case_match; injection E as <- <-;
    first [ done
          | apply Forall_app; split; [done|apply Forall_removelast, break_long_word_nonblank, Hw1]
          | right; exact Htest
          | right; apply Forall_last; [by apply break_long_word_nonblank
                                      |apply break_long_word_nonempty]
          | right; by apply ws_word_not_blank ].
Qed.

Lemma bottom_line_rule_ok lines :
  Forall nonblank lines -> exists ls, bottom_line_rule lines = Ok ls.
Proof.
  intros Hl. unfold bottom_line_rule. case_match eqn:Hlen; [|eauto].
  apply Nat.ltb_lt in Hlen.
  assert (Hlast : nonblank (last lines []))
    by (apply Forall_last; [done|intros ->; simpl in Hlen; lia]).
  destruct (split_ws (last lines [])) eqn:E; [by apply split_ws_nonempty in Hlast|].
  repeat case_match; eauto.
Qed.

End LatinWrap.

(** [wrap_text_for_size] never raises: the [IndexError] of the
    bottom-line rule needs a blank last line, and every line is built
    from words. *)
Lemma wrap_text_for_size_ok f tw t lang : exists ls, wrap_text_for_size f tw t lang = Ok ls.
Proof.
  unfold wrap_text_for_size. case_match; [eauto|]. case_match; [eauto|].
  unfold wrap_latin_text. apply bottom_line_rule_ok.
  destruct (latin_fold_inv f tw (split_ws t) [] [] (split_ws_words t) (Forall_nil_2 _)
              (or_introl eq_refl)) as [Hl Hc].
  destruct (fold_left (latin_step f tw) (split_ws t) ([], [])) as [ls cur]. simpl in *.
  destruct cur as [|c cur]; simpl; [done|]. apply Forall_app. split; [done|].
  constructor; [|done]. by destruct Hc.
Qed.

(** ** The binary search *)

(** ** Breaking a long word *)

Section BreakPieces.
Variable f : Font.
Variable mw : Z.

Lemma break_step_eq parts cur c :
  break_step f mw (parts, cur) c =
  if text_width f ((cur ++ [c]) ++ [hyphen]) <=? mw then (parts, cur ++ [c])
  else (match cur with [] => parts | _ => parts ++ [cur ++ [hyphen]] end, [c]).
Proof. reflexivity. Qed.

Lemma break_fold_pieces word : forall pieces cur,
  Forall (fun p => p <> []) pieces ->
  exists pieces',
    (fold_left (break_step f mw) word (map (fun p => p ++ [hyphen]) pieces, cur)).1 =
      map (fun p => p ++ [hyphen]) pieces' /\
    concat pieces' ++ (fold_left (break_step f mw) word (map (fun p => p ++ [hyphen]) pieces, cur)).2 =
      concat pieces ++ cur ++ word /\
    Forall (fun p => p <> []) pieces' /\
    (cur <> [] \/ word <> [] -> (fold_left (break_step f mw) word (map (fun p => p ++ [hyphen]) pieces, cur)).2 <> []).
Proof.
  induction word as [|c word IH]; intros pieces cur Hp.
  { exists pieces. cbn [fold_left fst snd]. rewrite app_nil_r. split_and!; auto. by intros [?|?]. }
  cbn [fold_left]. rewrite break_step_eq.
  destruct (text_width f ((cur ++ [c]) ++ [hyphen]) <=? mw).
  - destruct (IH pieces (cur ++ [c]) Hp) as (ps & H1 & H2 & H3 & H4).
    exists ps. rewrite H1, H2, <- !app_assoc. split_and!; auto.
    intros _. apply H4. left. by destruct cur.
  - destruct cur as [|d cur].
    + destruct (IH pieces [c] Hp) as (ps & H1 & H2 & H3 & H4).
      exists ps. rewrite H1, H2. split_and!; auto.
    + assert (Hmap : map (fun p => p ++ [hyphen]) pieces ++ [(d :: cur) ++ [hyphen]] =
                     map (fun p => p ++ [hyphen]) (pieces ++ [d :: cur])) by (by rewrite map_app).
      rewrite Hmap.
      destruct (IH (pieces ++ [d :: cur]) [c]) as (ps & H1 & H2 & H3 & H4);
        [by apply Forall_app; split; [|constructor]|].
      exists ps. rewrite H1, H2, concat_app. cbn [concat]. rewrite app_nil_r, <- !app_assoc.
      split_and!; auto.
Qed.

(** [_break_long_word_with_hyphen] is undone by dropping its
    hyphens: a non-empty word comes back as pieces that each end with a
    hyphen, followed by a last piece without one, and the pieces without
    their hyphens concatenate to the word. *)
Theorem break_long_word_roundtrip word :
  word <> [] ->
  exists pieces last_piece,
    break_long_word f mw word = map (fun p => p ++ [hyphen]) pieces ++ [last_piece] /\
    concat pieces ++ last_piece = word /\
    Forall (fun p => p <> []) pieces /\ last_piece <> [].
Proof.
  intros Hw. destruct (break_fold_pieces word [] [] (Forall_nil_2 _)) as (ps & H1 & H2 & H3 & H4).
  unfold break_long_word. cbn [map] in *.
  destruct (fold_left (break_step f mw) word ([], [])) as [parts cur]. cbn [fst snd] in *.
  assert (Hc : cur <> []) by (apply H4; by right).
  exists ps, cur. unfold flush.
  destruct cur as [|c cur]; [done|]. rewrite H1.
  destruct (map _ ps ++ _) eqn:E; [by apply app_nil in E as [_ ?]|].
  rewrite <- E. split_and!; done.
Qed.

End BreakPieces.

(** ** The words of the wrapped lines *)

Section LatinWords.
Variable f : Font.
Variable tw : Z.

Lemma split_ws_flush lines cur :
  concat (map split_ws (flush (lines, cur))) = concat (map split_ws lines) ++ split_ws cur.
Proof.
  unfold flush. destruct cur as [|c cur]; [by rewrite app_nil_r|].
  by rewrite map_app, concat_app; simpl; rewrite app_nil_r.
Qed.

Lemma split_ws_test cur word :
  ws_word word -> split_ws (strip (cur ++ [space] ++ word)) = split_ws cur ++ [word].
Proof.
  intros Hw. rewrite split_ws_strip. unfold split_ws. cbn [app].
  rewrite split_ws_go_app_space by reflexivity. fold (split_ws word). by rewrite split_ws_word.
Qed.

(** When every word fits, each step appends its word to the words seen. *)
Lemma latin_fold_words ws : forall lines cur,
  Forall ws_word ws -> Forall (fun w => text_width f w <= tw) ws ->
  let '(lines', cur') := fold_left (latin_step f tw) ws (lines, cur) in
  concat (map split_ws lines') ++ split_ws cur' = concat (map split_ws lines) ++ split_ws cur ++ ws.
Proof.
  induction ws as [|w ws IH]; intros lines cur Hw Hfit; [by rewrite app_nil_r|].
  apply Forall_cons_1 in Hw as [Hw Hws]. apply Forall_cons_1 in Hfit as [Hf Hfs].
  cbn [fold_left]. unfold latin_step at 2.
  destruct (text_width f (strip (cur ++ [space] ++ w)) <=? tw).
  - pose proof (IH lines (strip (cur ++ [space] ++ w)) Hws Hfs) as IH'.
    destruct (fold_left _ ws _) as [l' c']. rewrite IH', split_ws_test by done.
    by rewrite <- !app_assoc.
  - replace (tw <? text_width f w) with false by lia.
    set (lines1 := match cur with [] => lines | _ => lines ++ [cur] end).
    pose proof (IH lines1 w Hws Hfs) as IH'.
    destruct (fold_left _ ws _) as [l' c']. rewrite IH', split_ws_word by done.
    assert (H1 : concat (map split_ws lines1) = concat (map split_ws lines) ++ split_ws cur).
    { subst lines1. destruct cur as [|c cur]; [by rewrite app_nil_r|].
      by rewrite map_app, concat_app; simpl; rewrite app_nil_r. }
    rewrite H1. by rewrite <- !app_assoc.
Qed.

Lemma bottom_line_rule_words lines lines' :
  bottom_line_rule lines = Ok lines' -> concat (map split_ws lines') = concat (map split_ws lines).
Proof.
  unfold bottom_line_rule. destruct (1 <? length lines)%nat eqn:Hlen; [|by intros [= <-]].
  apply Nat.ltb_lt in Hlen.
  assert (Hne : lines <> []) by (intros ->; simpl in Hlen; lia).
  assert (Hlines : concat (map split_ws lines) =
                   concat (map split_ws (removelast lines)) ++ split_ws (last lines [])).
  { rewrite (app_removelast_last [] Hne) at 1. by rewrite map_app, concat_app; simpl; rewrite app_nil_r. }
  pose proof (split_ws_words (last lines [])) as Hws.
  destruct (split_ws (last lines [])) as [|w0 ws0] eqn:Ews; [done|].
  set (ws := w0 :: ws0) in *.
  assert (Hsplit : ws = removelast ws ++ [last ws []]) by (apply app_removelast_last; done).
  assert (Hwsne : ws <> []) by done. clearbody ws.
  assert (Hlast : split_ws (last ws []) = [last ws []]).
  { apply split_ws_word. apply (Forall_last _ _ _ Hws). done. }
  assert (Hrest : split_ws (join [space] (removelast ws)) = removelast ws).
  { apply split_ws_join. by apply Forall_removelast. }
  assert (Hw : concat (map split_ws lines) =
               concat (map split_ws (removelast lines)) ++ removelast ws ++ [last ws []]).
  { rewrite Hlines. f_equal. exact Hsplit. }
  destruct (_ && _); [|by intros [= <-]].
  destruct (is_blank (join [space] (removelast ws))) eqn:Hb; intros [= <-];
    rewrite Hw, map_app, concat_app; simpl; rewrite ?Hlast, ?Hrest, ?app_nil_r.
  - unfold split_ws in Hrest. rewrite split_ws_go_blank in Hrest by done.
    by rewrite <- Hrest.
  - by rewrite <- ?app_assoc.
Qed.

(** C39. When every word of the text fits the width, [_wrap_latin_text]
    neither loses, duplicates nor reorders words: the words of its lines,
    read in order, are the words of the text. *)
Theorem wrap_latin_text_words t lines :
  (forall w, w ∈ split_ws t -> text_width f w <= tw) ->
  wrap_latin_text f tw t = Ok lines -> concat (map split_ws lines) = split_ws t.
Proof.
  intros Hfit. unfold wrap_latin_text. intros Hb%bottom_line_rule_words. rewrite Hb.
  pose proof (latin_fold_words (split_ws t) [] [] (split_ws_words t)
                (proj2 (Forall_forall _ _) (fun w Hw => Hfit w (proj2 (list_elem_of_In _ _) Hw)))) as H.
  destruct (fold_left _ _ _) as [l' c']. by rewrite split_ws_flush, H.
Qed.

End LatinWords.

Section BsearchLemmas.
Variable p : Z -> res bool.

Lemma mid_bounds l r : l <= r -> l <= (l + r) / 2 <= r.
Proof.
  intros Hlr. split.
  - apply Z.div_le_lower_bound; lia.
  - apply Z.div_le_upper_bound; lia.
Qed.

(** The result is the initial [best] or a size of the interval that
    passed the test. *)
Lemma bsearch_result fuel l r best z :
  bsearch p fuel l r best = Ok z -> z = best \/ (l <= z <= r /\ p z = Ok true).
Proof.
  revert l r best. induction fuel as [|n IH]; intros l r best; simpl; [intros [= <-]; by left|].
  destruct (l <=? r) eqn:Hlr; [|intros [= <-]; by left].
  apply Z.leb_le in Hlr. pose proof (mid_bounds l r Hlr) as Hm.
  destruct (p ((l + r) / 2)) as [[|]|e] eqn:Hp; [| |discriminate]; intros E;
    destruct (IH _ _ _ E) as [->|[Hz Hq]]; auto with lia.
Qed.

(** Fuel beyond the length of the interval does not change the result:
    the loop has ended by then. *)
Lemma bsearch_fuel n m l r best :
  (Z.to_nat (r - l + 1) < n)%nat -> (Z.to_nat (r - l + 1) < m)%nat ->
  bsearch p n l r best = bsearch p m l r best.
Proof.
  revert m l r best. induction n as [|n IH]; intros m l r best Hn Hm; [lia|].
  destruct m as [|m]; [lia|]. simpl.
  destruct (l <=? r) eqn:Hlr; [|done]. apply Z.leb_le in Hlr.
  pose proof (mid_bounds l r Hlr).
  destruct (p ((l + r) / 2)) as [[|]|e]; [apply IH..|done]; lia.
Qed.

(** The loop only ever tests sizes of the interval: a test that does not
    raise there gives a search that does not raise. *)
Lemma bsearch_no_raise fuel l r best e :
  (forall s, l <= s <= r -> exists b, p s = Ok b) ->
  bsearch p fuel l r best <> Raise e.
Proof.
  revert l r best. induction fuel as [|n IH]; intros l r best Hp; simpl; [done|].
  destruct (l <=? r) eqn:Hlr; [|done]. apply Z.leb_le in Hlr.
  pose proof (mid_bounds l r Hlr) as Hm. destruct (Hp _ Hm) as [[|] ->];
    apply IH; intros s Hs; apply Hp; lia.
Qed.

End BsearchLemmas.

Lemma bsearch_ext p p' fuel l r best :
  (forall s, p s = p' s) -> bsearch p fuel l r best = bsearch p' fuel l r best.
Proof.
  intros Hp. revert l r best. induction fuel as [|n IH]; intros l r best; simpl; [done|].
  rewrite Hp. case_match; [|done]. destruct (p' _) as [[|]|]; auto.
Qed.

(** The reference: scan the sizes from [l] upwards and keep the last
    one that passes. *)
Fixpoint zrange (l : Z) (n : nat) : list Z :=
  match n with O => [] | S n => l :: zrange (l + 1) n end.

Definition largest_fit (q : Z -> bool) (l r best : Z) : Z :=
  fold_left (fun b s => if q s then s else b) (zrange l (Z.to_nat (r - l + 1))) best.

Section BsearchRefinement.
Variable q : Z -> bool.
(** A larger font never fits where a smaller one does not. *)
Hypothesis q_antitone : forall s s', s' <= s -> q s = true -> q s' = true.

Lemma zrange_app l a b : zrange l (a + b) = zrange l a ++ zrange (l + Z.of_nat a) b.
Proof.
  revert l. induction a as [|a IH]; intros l; simpl; [by rewrite Z.add_0_r|].
  rewrite IH. do 3 f_equal. lia.
Qed.

Lemma fold_fit_last l n b :
  q (l + Z.of_nat n) = true ->
  fold_left (fun b s => if q s then s else b) (zrange l (S n)) b = l + Z.of_nat n.
Proof.
  replace (S n) with (n + 1)%nat by lia. rewrite zrange_app, fold_left_app. simpl.
  by intros ->.
Qed.

Lemma fold_nofit l n b :
  (forall s, l <= s -> q s = false) ->
  fold_left (fun b s => if q s then s else b) (zrange l n) b = b.
Proof.
  revert l. induction n as [|n IH]; intros l Hq; simpl; [done|].
  rewrite Hq by lia. apply IH. intros s Hs. apply Hq. lia.
Qed.

Lemma largest_fit_true l r best :
  l <= (l + r) / 2 <= r -> q ((l + r) / 2) = true ->
  largest_fit q l r best = largest_fit q ((l + r) / 2 + 1) r ((l + r) / 2).
Proof.
  intros Hm Hq. unfold largest_fit. set (m := (l + r) / 2) in *.
  replace (Z.to_nat (r - l + 1)) with (S (Z.to_nat (m - l)) + Z.to_nat (r - m))%nat by lia.
  rewrite zrange_app, fold_left_app, fold_fit_last by (rewrite Z2Nat.id by lia;
    replace (l + (m - l)) with m by lia; exact Hq).
  replace (l + Z.of_nat (S (Z.to_nat (m - l)))) with (m + 1) by lia.
  replace (Z.to_nat (r - (m + 1) + 1)) with (Z.to_nat (r - m)) by lia.
  rewrite Z2Nat.id by lia. by replace (l + (m - l)) with m by lia.
Qed.

Lemma largest_fit_false l r best :
  l <= (l + r) / 2 <= r -> q ((l + r) / 2) = false ->
  largest_fit q l r best = largest_fit q l ((l + r) / 2 - 1) best.
Proof.
  intros Hm Hq. unfold largest_fit. set (m := (l + r) / 2) in *.
  replace (Z.to_nat (r - l + 1)) with (Z.to_nat (m - 1 - l + 1) + Z.to_nat (r - m + 1))%nat
    by lia.
  rewrite zrange_app, fold_left_app. apply fold_nofit.
  intros s Hs. destruct (q s) eqn:E; [|done]. rewrite <- Hq. symmetry.
  apply (q_antitone s); [lia|done].
Qed.

Lemma bsearch_largest_fit fuel l r best :
  (Z.to_nat (r - l + 1) < fuel)%nat ->
  bsearch (fun s => Ok (q s)) fuel l r best = Ok (largest_fit q l r best).
Proof.
  revert l r best. induction fuel as [|n IH]; intros l r best Hf; [lia|]. simpl.
  destruct (l <=? r) eqn:Hlr.
  - apply Z.leb_le in Hlr. pose proof (mid_bounds l r Hlr) as Hm.
    destruct (q ((l + r) / 2)) eqn:Hq.
    + rewrite largest_fit_true by done. apply IH. lia.
    + rewrite largest_fit_false by done. apply IH. lia.
  - apply Z.leb_gt in Hlr. unfold largest_fit.
    by replace (Z.to_nat (r - l + 1)) with 0%nat by lia.
Qed.

End BsearchRefinement.

(** ** Theorems *)

(** C29. [_wrap_cjk_text] keeps the text: its lines concatenate to the
    input, none is empty, and each fits the target width unless it is a
    single character that is too wide on its own. *)
Theorem wrap_cjk_text_spec f tw t :
  concat (wrap_cjk_text f tw t) = t /\ Forall (good_line f tw) (wrap_cjk_text f tw t).
Proof.
  unfold wrap_cjk_text. split.
  - by rewrite flush_concat, cjk_fold_concat.
  - destruct (cjk_fold_good f tw t [] [] (Forall_nil_2 _) (or_introl eq_refl)).
    by apply flush_good.
Qed.

Section SearchTheorems.
Variable font_at : Z -> Font.

(** C30. [find_optimal_font_size] returns a size between
    [font_size_min] and [font_size_max], and any size above the minimum
    it returns fits the box: the wrapped lines are no taller than the
    target height. *)
Theorem find_optimal_font_size_bounds t tw th lang z :
  find_optimal_font_size font_at t tw th lang = Ok z ->
  font_size_min <= z <= font_size_max /\
  (z = font_size_min \/ fits_height font_at t tw th lang z = Ok true).
Proof.
  unfold find_optimal_font_size, font_size_min, font_size_max. intros E.
  apply bsearch_result in E as [->|[Hz Hf]]; [lia|].
  split; [destruct (is_cjk_language lang); lia|auto].
Qed.

(** C31. When the test of a size is total and a size that fits implies
    that every smaller one fits, the binary search returns exactly the
    largest size that fits, found by scanning every size upwards from
    the lower bound ([12] for CJK, [6] otherwise), and [6] when none
    does. *)
Theorem find_optimal_font_size_largest t tw th lang q :
  (forall s, fits_height font_at t tw th lang s = Ok (q s)) ->
  (forall s s', s' <= s -> q s = true -> q s' = true) ->
  find_optimal_font_size font_at t tw th lang =
    Ok (largest_fit q (if is_cjk_language lang then 12 else 6) 30 6).
Proof.
  intros Hq Hanti. unfold find_optimal_font_size.
  erewrite bsearch_ext by exact Hq.
  destruct (is_cjk_language lang); apply bsearch_largest_fit; auto; simpl; lia.
Qed.

(** C32. For CJK text that fits at no size from 12 to 30 the search
    returns 6, below the lower bound of 12 it applies to CJK text:
    [best_size] is initialised before that bound is set. *)
Theorem find_optimal_font_size_cjk_fallback t tw th lang :
  is_cjk_language lang = true ->
  (forall s, 12 <= s <= 30 -> fits_height font_at t tw th lang s = Ok false) ->
  find_optimal_font_size font_at t tw th lang = Ok 6.
Proof.
  intros Hc Hn. unfold find_optimal_font_size. rewrite Hc.
  destruct (bsearch _ _ _ _ _) as [z|e] eqn:E.
  - apply bsearch_result in E as [->|[Hz Hf]]; [done|].
    rewrite Hn in Hf by (unfold font_size_min, font_size_max in Hz; cbn in Hz; lia).
    discriminate.
  - exfalso. revert E. generalize (search_fuel (Z.max font_size_min 12) font_size_max).
    intros n. apply bsearch_no_raise. intros s Hs.
    rewrite Hn by (unfold font_size_min, font_size_max in Hs; cbn in Hs; lia). by eexists.
Qed.

(** C33. The search loop ends: running it with more rounds than the
    [search_fuel] of its interval gives the same result. *)
Theorem find_optimal_font_size_terminates t tw th lang n :
  (search_fuel 6 30 <= n)%nat ->
  bsearch (fits_height font_at t tw th lang) n
    (if is_cjk_language lang then Z.max font_size_min 12 else font_size_min) font_size_max
    font_size_min = find_optimal_font_size font_at t tw th lang.
Proof.
  intros Hn. unfold find_optimal_font_size, search_fuel in *.
  unfold font_size_min, font_size_max in *.
  destruct (is_cjk_language lang); apply bsearch_fuel; cbn in *; lia.
Qed.

End SearchTheorems.

(** ** Concrete runs *)

Lemma find_optimal_font_size_bounds_witness :
  exists z, find_optimal_font_size mono_font (str "hello world") 60 40 "english"%string = Ok z /\
    6 <= z <= 30 /\ (z = 6 \/ fits_height mono_font (str "hello world") 60 40 "english"%string z = Ok true).
Proof.
  destruct (find_optimal_font_size mono_font (str "hello world") 60 40 "english"%string)
    as [z|e] eqn:E; [|vm_compute in E; discriminate].
  exists z. split; [reflexivity|]. exact (find_optimal_font_size_bounds _ _ _ _ _ _ E).
Defined.

Lemma find_optimal_font_size_largest_witness :
  find_optimal_font_size const_font (str "ab") 40 10 "english"%string = Ok 30.
Proof.
  exact (find_optimal_font_size_largest const_font (str "ab") 40 10 "english"%string
           (fun _ => true) (fun s => eq_refl) (fun _ _ _ H => H)).
Defined.

Lemma find_optimal_font_size_cjk_fallback_witness :
  find_optimal_font_size const_font (str "ab") 40 (-100) "japanese"%string = Ok 6.
Proof.
  apply find_optimal_font_size_cjk_fallback; [reflexivity|]. intros s _. reflexivity.
Defined.

Lemma find_optimal_font_size_terminates_witness :
  bsearch (fits_height mono_font (str "hello world") 60 40 "english"%string) 100
    font_size_min font_size_max font_size_min
  = find_optimal_font_size mono_font (str "hello world") 60 40 "english"%string.
Proof. exact (find_optimal_font_size_terminates mono_font _ _ _ "english"%string 100
  ltac:(unfold search_fuel; cbn; lia)). Defined.

(** ** The search never raises *)

Lemma fits_height_ok font_at t tw th lang s :
  exists b, fits_height font_at t tw th lang s = Ok b.
Proof.
  unfold fits_height. destruct (wrap_text_for_size_ok (font_at s) tw t lang) as [ls ->]. eauto.
Qed.

Lemma find_optimal_font_size_ok font_at t tw th lang :
  exists z, find_optimal_font_size font_at t tw th lang = Ok z.
Proof.
  destruct (find_optimal_font_size font_at t tw th lang) as [z|e] eqn:E; [eauto|].
  exfalso. revert E. unfold find_optimal_font_size. apply bsearch_no_raise.
  intros s _. apply fits_height_ok.
Qed.

Lemma wrap_latin_text_words_witness :
  exists lines, wrap_latin_text (mono_font 10) 80 (str "the cat sat on the mat") = Ok lines /\
    concat (map split_ws lines) = split_ws (str "the cat sat on the mat").
Proof.
  assert (Hfit : forall w, w ∈ split_ws (str "the cat sat on the mat") -> text_width (mono_font 10) w <= 80).
  { intros w Hw. vm_compute in Hw.
    repeat (apply elem_of_cons in Hw as [->|Hw]; [vm_compute; discriminate|]).
    by apply not_elem_of_nil in Hw. }
  destruct (wrap_latin_text (mono_font 10) 80 (str "the cat sat on the mat")) as [lines|e] eqn:E.
  - exists lines. split; [reflexivity | exact (wrap_latin_text_words _ _ _ _ Hfit E)].
  - vm_compute in E. discriminate.
Defined.

Lemma break_long_word_roundtrip_witness :
  str "abcdefgh" <> [] /\
  exists pieces last_piece,
    break_long_word (mono_font 10) 40 (str "abcdefgh") = map (fun p => p ++ [hyphen]) pieces ++ [last_piece] /\
    concat pieces ++ last_piece = str "abcdefgh" /\
    Forall (fun p => p <> []) pieces /\ last_piece <> [].
Proof.
  assert (Hw : str "abcdefgh" <> []) by discriminate.
  split; [exact Hw | exact (break_long_word_roundtrip (mono_font 10) 40 _ Hw)].
Defined.
