(* ===== verification/FontCache.v ===== *)
(** * FontCache: the font files and the font cache of [FontManager]

    services/render/font_manager.py: [_get_font_paths] (run by the
    constructor), [_get_font_path_for_language] with its language-family
    fall-back, [get_font] with its cache keyed by
    [f"{language}_{size}"], and [get_best_font_for_text].  Which font
    files exist, the directory of the sources and what
    [ImageFont.truetype] loads are inputs; the cache is a finite map. *)

From Stdlib Require Import NArith ZArith String Ascii.
From stdpp Require Import base list decidable gmap countable.
From S2P Require Import Prelude Schemas FontManager.

Local Open Scope Z_scope.

(** [str(size)] of a Python int. *)
Definition str_of_Z (z : Z) : text :=
  if z <? 0 then 45%N :: str_of_nat (Z.to_nat (- z)) else str_of_nat (Z.to_nat z).

(** [f"{language}_{size}"]. *)
Definition cache_key (language : string) (size : Z) : text :=
  str language ++ [95%N] ++ str_of_Z size.

(** The language families [_get_font_path_for_language] falls back on. *)
Definition lang_families : list (string * string) :=
  [("ja", "japanese"); ("jp", "japanese"); ("jpn", "japanese");
   ("zh", "sim_chinese"); ("zh-cn", "sim_chinese");
   ("zh-tw", "trad_chinese"); ("zh-hk", "trad_chinese");
   ("cn", "sim_chinese"); ("tw", "trad_chinese"); ("hk", "trad_chinese");
   ("chi", "sim_chinese");
   ("ko", "korean"); ("kr", "korean"); ("kor", "korean");
   ("en", "english"); ("eng", "english");
   ("vi", "vietnamese"); ("vie", "vietnamese")]%string.

(** The state of a [FontManager]. *)
Record FMState (FontObj : Type) : Type := mkFMState {
  font_paths : dict text;
  fonts_cache : gmap text FontObj
}.
Arguments mkFMState {FontObj} font_paths fonts_cache.
Arguments font_paths {FontObj} f.
Arguments fonts_cache {FontObj} f.

Section Fonts.
Context `{UnicodeDB}.
(** The directory three levels above font_manager.py, and which files
    exist. *)
Variable root : text.
Variable file_exists : text -> bool.
(** [ImageFont.truetype(path, size)]; it may raise. *)
Context {FontObj : Type}.
Variable truetype : text -> Z -> res FontObj.

(** [_get_font_paths]: every font of [settings.font_mappings] must exist,
    else [FileNotFoundError]. *)
Fixpoint get_font_paths_go (ms : dict string) (acc : dict text) : res (dict text) :=
  match ms with
  | [] => Ok acc
  | (lang, rel) :: ms' =>
      let full := root ++ [47%N] ++ str rel in
      if file_exists full then get_font_paths_go ms' (dict_set acc lang full)
      else Raise FileNotFoundError
  end.

Definition get_font_paths : res (dict text) := get_font_paths_go font_mappings [].

(** [FontManager()]. *)
Definition new_font_manager : res (FMState FontObj) :=
  match get_font_paths with
  | Ok fp => Ok (mkFMState fp ∅)
  | Raise e => Raise e
  end.

(** [_get_font_path_for_language]. *)
Definition get_font_path_for_language (fp : dict text) (language : string) : option text :=
  match dict_get fp language with
  | Some p => Some p
  | None =>
      match List.find (fun kv => bool_decide (str kv.1 = lower (str language))) lang_families with
      | Some (_, fam) => dict_get fp fam
      | None => None
      end
  end.

(** Loading the font without a cache: what [get_font] must return. *)
Definition load_font (fp : dict text) (language : string) (size : Z) : res FontObj :=
  match get_font_path_for_language fp language with
  | None => Raise ValueError
  | Some p => truetype p size
  end.

(** [get_font]. *)
Definition get_font (fm : FMState FontObj) (language : string) (size : Z)
  : FMState FontObj * res FontObj :=
  let k := cache_key language size in
  match fonts_cache fm !! k with
  | Some f => (fm, Ok f)
  | None =>
      match get_font_path_for_language (font_paths fm) language with
      | None => (fm, Raise ValueError)
      | Some p =>
          match truetype p size with
          | Ok f => (mkFMState (font_paths fm) (<[k := f]> (fonts_cache fm)), Ok f)
          | Raise e => (fm, Raise e)
          end
      end
  end.

(** [get_best_font_for_text]. *)
Definition get_best_font_for_text (fm : FMState FontObj) (t : text) (size : Z)
  : FMState FontObj * res FontObj :=
  get_font fm (detect_script t) size.

(** A sequence of [get_font] calls on one manager. *)
Fixpoint get_fonts (fm : FMState FontObj) (calls : list (string * Z))
  : FMState FontObj * list (res FontObj) :=
  match calls with
  | [] => (fm, [])
  | (l, s) :: calls' =>
      let '(fm', r) := get_font fm l s in
      let '(fm'', rs) := get_fonts fm' calls' in
      (fm'', r :: rs)
  end.

(** The cache holds, under the key of a language and a size, the font
    loading would give. *)
Definition cache_ok (fm : FMState FontObj) : Prop :=
  forall l s f, fonts_cache fm !! cache_key l s = Some f -> load_font (font_paths fm) l s = Ok f.

End Fonts.

(** ** The cache key *)

Lemma str_inj (s1 s2 : string) : str s1 = str s2 -> s1 = s2.
Proof.
  unfold str. intros E. apply (f_equal (map ascii_of_N)) in E.
  rewrite !map_map in E. setoid_rewrite ascii_N_embedding in E. rewrite !map_id in E.
  rewrite <- (string_of_list_ascii_of_string s1), <- (string_of_list_ascii_of_string s2). by rewrite E.
Qed.

Lemma str_of_nat_inj `{UnicodeDB} n m : str_of_nat n = str_of_nat m -> n = m.
Proof. intros E. by rewrite <- (int_of_str_of_nat n), <- (int_of_str_of_nat m), E. Qed.

(** Neither ['_'] nor ['-'] is a decimal digit. *)
Lemma not_in_str_of_nat `{UnicodeDB} (c : char) n : (c < 128)%N -> (c < 48 \/ 57 < c)%N -> c ∉ str_of_nat n.
Proof.
  intros Hc Hd Hin. pose proof (str_of_nat_decimal n) as Hdec.
  rewrite Forall_forall in Hdec. apply list_elem_of_In in Hin.
  specialize (Hdec c Hin). by rewrite (isdecimal_ascii_other c Hc Hd) in Hdec.
Qed.

Lemma underscore_not_in_str_of_Z `{UnicodeDB} z : 95%N ∉ str_of_Z z.
Proof.
  unfold str_of_Z. destruct (z <? 0).
  - intros [[=]|Hin]%elem_of_cons. revert Hin. apply not_in_str_of_nat; lia.
  - apply not_in_str_of_nat; lia.
Qed.

Lemma str_of_Z_inj `{UnicodeDB} a b : str_of_Z a = str_of_Z b -> a = b.
Proof.
  unfold str_of_Z. destruct (Z.ltb_spec a 0), (Z.ltb_spec b 0); intros E.
  - injection E as E. apply str_of_nat_inj in E. lia.
  - exfalso. apply (not_in_str_of_nat 45%N (Z.to_nat b)); [lia | lia |]. rewrite <- E. by left.
  - exfalso. apply (not_in_str_of_nat 45%N (Z.to_nat a)); [lia | lia |]. rewrite E. by left.
  - apply str_of_nat_inj in E. lia.
Qed.

(** Splitting at a separator that occurs in neither right part. *)
Lemma app_sep_inj (a a' b b' : text) (c : char) :
  c ∉ b -> c ∉ b' -> a ++ [c] ++ b = a' ++ [c] ++ b' -> a = a' /\ b = b'.
Proof.
  intros Hb Hb'. revert a'. induction a as [|x a IH]; intros [|y a'] E; cbn in E.
  - by injection E.
  - injection E as <- ->. exfalso. apply Hb. apply list_elem_of_In, in_app_iff. right. by left.
  - injection E as -> <-. exfalso. apply Hb'. apply list_elem_of_In, in_app_iff. right. by left.
  - injection E as -> E. destruct (IH _ E) as [-> ->]. done.
Qed.

(** [f"{language}_{size}"] determines the language and the size: the
    size's digits hold no ['_'], so the last one separates them. *)
Lemma cache_key_inj `{UnicodeDB} l1 s1 l2 s2 : cache_key l1 s1 = cache_key l2 s2 -> l1 = l2 /\ s1 = s2.
Proof.
  unfold cache_key. intros E.
  destruct (app_sep_inj _ _ _ _ _ (underscore_not_in_str_of_Z s1) (underscore_not_in_str_of_Z s2) E)
    as [El Es].
  split; [by apply str_inj | by apply str_of_Z_inj].
Qed.

(** ** The cache *)

Section CacheProofs.
Context `{UnicodeDB} {FontObj : Type}.
Variable truetype : text -> Z -> res FontObj.

Lemma cache_ok_empty fp : cache_ok truetype (mkFMState fp ∅).
Proof. intros l s f Hf. cbn in Hf. by rewrite lookup_empty in Hf. Qed.

(** One [get_font]: it returns what loading gives, keeps the paths and
    keeps the cache right. *)
Lemma get_font_ok fm l s fm' r :
  cache_ok truetype fm -> get_font truetype fm l s = (fm', r) ->
  r = load_font truetype (font_paths fm) l s /\ font_paths fm' = font_paths fm /\ cache_ok truetype fm'.
Proof.
  intros Hok. unfold get_font.
  destruct (fonts_cache fm !! cache_key l s) as [f|] eqn:Hc.
  - intros [= <- <-]. by rewrite (Hok _ _ _ Hc).
  - unfold load_font. destruct (get_font_path_for_language (font_paths fm) l) as [p|] eqn:Hp;
      [|intros [= <- <-]; auto].
    destruct (truetype p s) as [f|e] eqn:Ht; intros [= <- <-]; [|auto].
    split_and!; [done..|]. intros l' s' f' Hf'. cbn in *.
    destruct (decide (cache_key l s = cache_key l' s')) as [E|Hne].
    + rewrite E, lookup_insert_eq in Hf'. injection Hf' as <-.
      destruct (cache_key_inj _ _ _ _ E) as [<- <-]. unfold load_font. by rewrite Hp.
    + rewrite lookup_insert_ne in Hf' by done. by apply Hok.
Qed.

(** A second call with the same language and size hits the cache. *)
Lemma get_font_cached fm l s fm' f :
  get_font truetype fm l s = (fm', Ok f) -> get_font truetype fm' l s = (fm', Ok f).
Proof.
  unfold get_font. destruct (fonts_cache fm !! cache_key l s) as [f0|] eqn:Hc.
  - intros [= <- <-]. by rewrite Hc.
  - destruct (get_font_path_for_language _ l) as [p|]; [|discriminate].
    destruct (truetype p s) as [f0|]; intros [= <- <-]; cbn. by rewrite lookup_insert_eq.
Qed.

Lemma get_fonts_ok fm calls :
  cache_ok truetype fm ->
  (get_fonts truetype fm calls).2 = map (fun '(l, s) => load_font truetype (font_paths fm) l s) calls.
Proof.
  revert fm. induction calls as [|[l s] calls IH]; intros fm Hok; [done|]. cbn.
  destruct (get_font truetype fm l s) as [fm' r] eqn:E.
  destruct (get_font_ok _ _ _ _ _ Hok E) as (-> & Hp & Hok').
  destruct (get_fonts truetype fm' calls) as [fm'' rs] eqn:E'. cbn.
  f_equal. rewrite <- Hp. specialize (IH fm' Hok'). by rewrite E' in IH.
Qed.

End CacheProofs.

(** C34. Whatever fonts exist and whatever [ImageFont.truetype] loads, a
    [FontManager] that [FontManager()] built answers every sequence of
    [get_font] calls exactly as loading each font afresh would: the
    cache never returns a font for another language or size, because
    [f"{language}_{size}"] determines both. *)
Theorem get_font_cache_refines `{UnicodeDB} {FontObj} root file_exists
    (truetype : text -> Z -> res FontObj) fm calls :
  new_font_manager root file_exists = Ok fm ->
  (get_fonts truetype fm calls).2 = map (fun '(l, s) => load_font truetype (font_paths fm) l s) calls.
Proof.
  unfold new_font_manager. destruct (get_font_paths root file_exists) as [fp|e]; [|discriminate].
  intros [= <-]. apply get_fonts_ok, cache_ok_empty.
Qed.

(** ** Witnesses *)

Lemma get_font_cache_refines_witness :
  let fp := match get_font_paths [] (fun _ => true) with Ok fp => fp | Raise _ => [] end in
  let truetype := fun (_ : text) (s : Z) => if s <? 0 then Raise ValueError else Ok s in
  let calls := [("ja", 20); ("japanese", 20); ("zh-TW", 20); ("fr", 12); ("ja", -1)]%string in
  new_font_manager (FontObj := Z) [] (fun _ => true) = Ok (mkFMState fp ∅) /\
  (get_fonts truetype (mkFMState fp ∅) calls).2
    = map (fun '(l, s) => load_font truetype fp l s) calls.
Proof.
  intros fp truetype calls.
  assert (E : new_font_manager (FontObj := Z) [] (fun _ => true) = Ok (mkFMState fp ∅)) by reflexivity.
  split; [exact E | exact (get_font_cache_refines [] (fun _ => true) truetype _ calls E)].
Defined.
