(* ===== verification/Layout.v ===== *)
(** * Layout: [LayoutCalculator] and [TextRenderer]

    services/render/layout_calculator.py and text_renderer.py.  A PIL
    font is seen through [FontManager.measure_text(s, font, language)],
    which depends on the language the caller names ([PilFont]); the
    renderer's result is the list of [draw.text] calls it makes, in order,
    with their position, string and colour (white outline or black text),
    which is what the image receives. *)

From Stdlib Require Import NArith ZArith String Ascii.
From stdpp Require Import base list decidable.
From S2P Require Import Prelude Schemas Config FontManager.

Local Open Scope Z_scope.

(** [measure_text(·, font, language)] for each [language]. *)
Definition PilFont : Type := string -> Font.

(** ** LayoutCalculator *)

Section LayoutCalculator.
(** [font_manager.get_font(language, size)] for the language at hand. *)
Variable font_at : Z -> PilFont.

(** [calculate_optimal_font_size] with the direction given (the
    renderer always passes one).  A blank text returns
    [settings.default_font_size], which [Settings] does not declare.  With the default
    [font_size_multiplier] of 1.0, [int(s * 1.0 * 1.1)] is
    [11 s / 10] rounded down: [1.1] is stored above [11/10]. *)
Definition calculate_optimal_font_size (t : text) (b : BoundingBox) (lang : string)
    (dir : TextDirection) : res Z :=
  if is_blank t then getattr_int settings_fields "default_font_size"
  else
    let tw := width b - 4 in
    let th := height b - 4 in
    let '(tw, th) := match dir with
                     | TTB => if is_cjk_language lang then (tw, th) else (th, tw)
                     | LTR => (tw, th)
                     end in
    match find_optimal_font_size (fun s => font_at s lang) t tw th lang with
    | Raise e => Raise e
    | Ok s =>
        let s := if is_cjk_language lang then Z.quot (11 * s) 10 else s in
        Ok (Z.max font_size_min (Z.min s font_size_max))
    end.

(** [calculate_text_position]. *)
Definition calculate_text_position (t : text) (b : BoundingBox) (f : PilFont)
    (dir : TextDirection) (alignment lang : string) : Z * Z :=
  let '(tw, th) := f lang t in
  match dir with
  | LTR =>
      let x := if String.eqb alignment "left" then x1 b + 2
               else if String.eqb alignment "right" then x2 b - tw - 2
               else x1 b + (width b - tw) / 2 in
      (x, y1 b + (height b - th) / 2)
  | TTB =>
      let y_default := if is_cjk_language lang then y1 b + 2 else y1 b + (height b - th) / 2 in
      let y := if String.eqb alignment "top" then y1 b + 2
               else if String.eqb alignment "bottom" then y2 b - th - 2
               else y_default in
      let x := if is_cjk_language lang then x2 b - tw - 2 else x1 b + (width b - tw) / 2 in
      (x, y)
  end.

(** [wrap_text_to_fit]. *)
Definition wrap_text_to_fit (t : text) (b : BoundingBox) (f : PilFont) (dir : TextDirection)
    (lang : string) : res (list text) :=
  if is_blank t then Ok []
  else match dir with
       | TTB => if is_cjk_language lang then Ok [t]
                else wrap_text_for_size (f lang) (width b - 4) t lang
       | LTR => wrap_text_for_size (f lang) (width b - 4) t lang
       end.

(** [calculate_multiline_position]. *)
Definition calculate_multiline_position (lines : list text) (b : BoundingBox) (f : PilFont)
    (dir : TextDirection) (lang : string) : list (Z * Z) :=
  match lines with
  | [] => []
  | _ =>
      if bool_decide (dir = TTB) && is_cjk_language lang then [(x2 b - 4, y1 b + 4)]
      else
        let lh := text_height (f lang) latin_probe in
        let sp := if is_cjk_language lang then Z.max 8 (int_mul_04 lh) else Z.max 5 (int_mul_04 lh) in
        let start_y := y1 b + (height b - total_height (length lines) lh sp) / 2 in
        imap (fun i line => (x1 b + (width b - text_width (f lang) line) / 2,
                             start_y + Z.of_nat i * (lh + sp))) lines
  end.

End LayoutCalculator.

(** [text[i:i + n] for i in range(0, len(text), n)], for [n >= 1]; the
    fuel is the length of the text. *)
Fixpoint chunks_fuel (fuel n : nat) (t : text) : list text :=
  match fuel with
  | O => []
  | S k => match t with [] => [] | _ => take n t :: chunks_fuel k n (drop n t) end
  end.

Definition chunks (n : nat) (t : text) : list text := chunks_fuel (length t) n t.

(** [calculate_vertical_text_layout]: columns of characters from the
    right edge leftwards, keeping those whose [x] is inside the box.
    A zero character height makes [//] raise [ZeroDivisionError]. *)
Definition calculate_vertical_text_layout (t : text) (b : BoundingBox) (f : PilFont)
    (lang : string) : res (list (text * Z * Z)) :=
  if negb (is_cjk_language lang) then Ok [(t, x1 b, y1 b)]
  else
    let '(cw, ch) := f lang cjk_probe in
    if ch =? 0 then Raise ZeroDivisionError
    else
      let cpc := Z.max 1 ((height b - 8) / ch) in
      let columns := chunks (Z.to_nat cpc) t in
      let aw := width b - 8 in
      let spacing := if (1 <? length columns)%nat
                     then Z.min (cw + 10) (aw / Z.of_nat (length columns)) else cw in
      let start_x := x2 b - 4 - cw in
      Ok (filter (fun c => x1 b <= c.1.2)
            (imap (fun i col => (col, start_x - Z.of_nat i * spacing, y1 b + 4)) columns)).

(** [_boxes_overlap]. *)
Definition boxes_overlap (b1 b2 : BoundingBox) : bool :=
  negb ((x2 b1 <? x1 b2) || (x2 b2 <? x1 b1) || (y2 b1 <? y1 b2) || (y2 b2 <? y1 b1)).

Definition shift_box (b : BoundingBox) (dx dy : Z) : BoundingBox :=
  mkBox (x1 b + dx) (y1 b + dy) (x2 b + dx) (y2 b + dy).

Definition inside_image (b : BoundingBox) (w h : Z) : bool :=
  (0 <=? x1 b) && (x2 b <=? w) && (0 <=? y1 b) && (y2 b <=? h).

(** [_resolve_overlap]: the first of the four moves (below, above,
    right, left of [b2], 5 pixels apart) that stays in the image. *)
Definition resolve_overlap (b1 b2 : BoundingBox) (w h : Z) : BoundingBox :=
  let moves := [(0, y2 b2 - y1 b1 + 5); (0, y1 b2 - y2 b1 - 5);
                (x2 b2 - x1 b1 + 5, 0); (x1 b2 - x2 b1 - 5, 0)] in
  match List.find (fun m => inside_image (shift_box b1 m.1 m.2) w h) moves with
  | Some m => shift_box b1 m.1 m.2
  | None => b1
  end.

(** [optimize_text_layout]: each box is moved away from every box placed
    before it that it overlaps, in turn. *)
Definition optimize_text_layout (boxes : list TextBox) (w h : Z) : list TextBox :=
  match boxes with
  | [] | [_] => boxes
  | _ =>
      fold_left (fun placed tb =>
        let bb := fold_left (fun bb ex => if boxes_overlap bb (tb_bbox ex)
                                          then resolve_overlap bb (tb_bbox ex) w h else bb)
                            placed (tb_bbox tb) in
        placed ++ [mkTextBox (tb_text tb) bb (translated_text tb)]) boxes []
  end.

(** ** TextRenderer *)

(** One [draw.text((x, y), s, font=font, fill=...)] call: [true] for the
    black text, [false] for the white outline. *)
Record Draw : Type := mkDraw { dx : Z; dy : Z; dtext : text; dblack : bool }.

(** The four white offsets and the black text at [(x, y)]. *)
Definition outlined (x y : Z) (s : text) : list Draw :=
  [mkDraw (x - 1) (y - 1) s false; mkDraw (x + 1) (y - 1) s false;
   mkDraw (x - 1) (y + 1) s false; mkDraw (x + 1) (y + 1) s false; mkDraw x y s true].

(** The probe of [_render_vertical_text]: the UTF-8 bytes of ["测"] read
    as Latin-1 and cp1252, the three characters [æ], [µ], [‹]. *)
Definition mojibake_probe : text := [230%N; 181%N; 8249%N].

(** [_render_horizontal_text]: [calculate_multiline_position] is called
    without its [language] argument, so it measures in ['english']. *)
Definition render_horizontal_text (tb : TextBox) (f : PilFont) (lang : string)
  : res (list Draw) :=
  match wrap_text_for_size (f lang) (width (tb_bbox tb) - 4) (translated_text tb) lang with
  | Raise e => Raise e
  | Ok lines =>
      let pos := calculate_multiline_position lines (tb_bbox tb) f LTR "english" in
      Ok (concat (zip_with (fun line xy => outlined xy.1 xy.2 line) lines pos))
  end.

(** The characters of one column, from [y] down, until the next one
    would cross the bottom of the box. *)
Fixpoint column_draws (x y step ch bottom : Z) (col : text) : list Draw :=
  match col with
  | [] => []
  | c :: col' =>
      let d := if isspace c then [] else outlined x y [c] in
      let y' := y + step in
      d ++ (if bottom <? y' + ch then [] else column_draws x y' step ch bottom col')
  end.

(** The columns from the right, until one would start left of the box. *)
Fixpoint columns_draws (start_x spacing y ch step bottom left : Z) (i : nat) (cols : list text)
  : list Draw :=
  match cols with
  | [] => []
  | col :: cols' =>
      let x := start_x - Z.of_nat i * spacing in
      if x <? left then []
      else column_draws x y step ch bottom col ++
           columns_draws start_x spacing y ch step bottom left (S i) cols'
  end.

(** [_render_vertical_text]. *)
Definition render_vertical_text (tb : TextBox) (f : PilFont) (lang : string) : res (list Draw) :=
  let t := translated_text tb in
  let b := tb_bbox tb in
  let '(cw, ch) := f lang mojibake_probe in
  if ch =? 0 then Raise ZeroDivisionError
  else
    let cpc := Z.max 1 ((height b - 8) / ch) in
    let columns := chunks (Z.to_nat cpc) t in
    let aw := width b - 8 in
    let base := if String.eqb lang "japanese" then cw + 20
                else if bool_decide (lang ∈ ["sim_chinese"; "trad_chinese"]%string) then cw + 14
                else cw + 10 in
    let spacing := if (1 <? length columns)%nat
                   then Z.min base (aw / Z.of_nat (length columns)) else base in
    let block := Z.of_nat (length columns) * spacing in
    let start_x := x1 b + width b - (width b - block) / 2 - cw in
    let step := if String.eqb lang "japanese" then ch + 2 else ch - 1 in
    Ok (columns_draws start_x spacing (y1 b + 4) ch step (y2 b) (x1 b) 0 columns).

Section Renderer.
Variable font_at : Z -> PilFont.

(** [TextRenderer.render_text]: the draws it adds to the image. *)
Definition render_text (tb : TextBox) (l : Language) : res (list Draw) :=
  let lang := language_value l in
  match get_text_direction_for_language l with
  | Raise e => Raise e
  | Ok dir =>
      match calculate_optimal_font_size font_at (translated_text tb) (tb_bbox tb) lang dir with
      | Raise e => Raise e
      | Ok size =>
          let f := font_at size in
          if bool_decide (dir = TTB) && is_cjk_language lang
          then render_vertical_text tb f lang
          else render_horizontal_text tb f lang
      end
  end.

End Renderer.

(** ** Concrete fonts and boxes

    [mono_pil s]: every character [s] wide, lines [s + 2] high ([s + 4]
    when measured as CJK, as [measure_text] uses ascent plus descent). *)
Definition mono_pil (size : Z) : PilFont :=
  fun l t => (size * Z.of_nat (length t), if is_cjk_language l then size + 4 else size + 2).

Definition example_bubble : BoundingBox := mkBox 10 10 90 130.

Definition kana_text : text := [12354%N; 12356%N; 12358%N; 12360%N; 12362%N; 12363%N; 12365%N].

(** ** Lemmas *)

Lemma chunks_fuel_concat fuel n t :
  (1 <= n)%nat -> (length t <= fuel)%nat -> concat (chunks_fuel fuel n t) = t.
Proof.
  revert t. induction fuel as [|k IH]; intros t Hn Hl; simpl.
  - by destruct t; [|simpl in Hl; lia].
  - destruct t as [|c t]; [done|]. simpl.
    rewrite IH; [by rewrite take_drop|done|]. rewrite length_drop. simpl in *. lia.
Qed.

Lemma chunks_concat n t : (1 <= n)%nat -> concat (chunks n t) = t.
Proof. intros Hn. by apply chunks_fuel_concat. Qed.

Lemma filter_imap_sublist {A B} (P : A * Z * Z -> Prop) `{!forall x, Decision (P x)}
    (g : nat -> B -> A * Z * Z) (l : list B) (h : A * Z * Z -> B) :
  (forall i x, h (g i x) = x) ->
  map h (filter P (imap g l)) `sublist_of` l.
Proof.
  intros Hh. revert g Hh. induction l as [|x l IH]; intros g Hh; simpl; [done|].
  rewrite filter_cons. case_decide; simpl.
  - rewrite Hh. apply sublist_skip. apply (IH (fun i => g (S i))). intros; apply Hh.
  - apply sublist_cons. apply (IH (fun i => g (S i))). intros; apply Hh.
Qed.

Lemma column_draws_x x y step ch bottom col :
  Forall (fun d => x - 1 <= dx d /\ (dblack d = true -> dx d = x))
         (column_draws x y step ch bottom col).
Proof.
  revert y. induction col as [|c col IH]; intros y; simpl; [done|].
  apply Forall_app. split.
  - destruct (isspace c); [done|]. repeat constructor; simpl; lia || discriminate || done.
  - case_match; [done|apply IH].
Qed.

Lemma columns_draws_x start_x spacing y ch step bottom left i cols :
  Forall (fun d => left - 1 <= dx d /\ (dblack d = true -> left <= dx d))
         (columns_draws start_x spacing y ch step bottom left i cols).
Proof.
  revert i. induction cols as [|col cols IH]; intros i; simpl; [done|].
  destruct (start_x - Z.of_nat i * spacing <? left) eqn:E; [done|].
  apply Z.ltb_ge in E. apply Forall_app. split; [|apply IH].
  pose proof (column_draws_x (start_x - Z.of_nat i * spacing) y step ch bottom col) as Hc.
  rewrite Forall_forall in *. intros d Hd. destruct (Hc d Hd) as [H1 H2]. split; [lia|].
  intros Hb. rewrite (H2 Hb). lia.
Qed.

Lemma outlined_black x y s : filter (fun d => dblack d = true) (outlined x y s) = [mkDraw x y s true].
Proof. reflexivity. Qed.

Lemma zip_outlined_black lines pos :
  length pos = length lines ->
  map dtext (filter (fun d => dblack d = true)
                    (concat (zip_with (fun line xy => outlined xy.1 xy.2 line) lines pos))) = lines.
Proof.
  revert pos. induction lines as [|l lines IH]; intros [|p pos] Hl; try done;
    cbn [zip_with concat length] in *; try lia.
  rewrite stdpp.list_basics.list.filter_app, map_app, outlined_black, IH by lia. done.
Qed.

Lemma zip_outlined_length lines pos :
  length pos = length lines ->
  length (concat (zip_with (fun line xy => outlined xy.1 xy.2 line) lines pos)) = (5 * length lines)%nat.
Proof.
  revert pos. induction lines as [|l lines IH]; intros [|p pos] Hl; try done;
    cbn [zip_with concat length] in *; try lia.
  rewrite length_app, IH by lia. simpl. lia.
Qed.

Lemma multiline_position_length lines b f lang :
  length (calculate_multiline_position lines b f LTR lang) = length lines.
Proof.
  unfold calculate_multiline_position. destruct lines as [|l lines]; [done|].
  rewrite (bool_decide_eq_false_2 (LTR = TTB)) by discriminate. cbn [andb]. apply length_imap.
Qed.

(** ** Theorems *)

Section LayoutTheorems.
Variable font_at : Z -> PilFont.

(** [TextRenderer.render_text] raises [AttributeError] on a box whose
    translated text is blank: [calculate_optimal_font_size] returns the
    nonexistent [settings.default_font_size] for blank text. *)
Theorem render_text_blank tb l :
  is_blank (translated_text tb) = true -> render_text font_at tb l = Raise AttributeError.
Proof.
  intros Hb. unfold render_text, get_text_direction_for_language, calculate_optimal_font_size.
  rewrite Hb. by destruct l.
Qed.

(** For non-blank text [calculate_optimal_font_size] never raises
    and returns a size between [font_size_min] and [font_size_max]. *)
Theorem calculate_optimal_font_size_range t b lang dir :
  is_blank t = false ->
  exists s, calculate_optimal_font_size font_at t b lang dir = Ok s /\
            font_size_min <= s <= font_size_max.
Proof.
  intros Hb. unfold calculate_optimal_font_size. rewrite Hb.
  destruct dir; [|destruct (is_cjk_language lang)];
  match goal with |- context [find_optimal_font_size ?fa ?t ?tw ?th ?l] =>
    destruct (find_optimal_font_size_ok fa t tw th l) as [z ->] end;
  eexists; (split; [reflexivity|]); unfold font_size_min, font_size_max; lia.
Qed.

End LayoutTheorems.

(** [calculate_vertical_text_layout] cuts CJK text into columns of
    equal height that concatenate back to it, and returns some of those
    columns, in order, each starting inside the box. *)
Theorem vertical_layout_columns t b f lang cols :
  is_cjk_language lang = true ->
  calculate_vertical_text_layout t b f lang = Ok cols ->
  exists n, (1 <= n)%nat /\ concat (chunks n t) = t /\
    map (fun c => c.1.1) cols `sublist_of` chunks n t /\
    Forall (fun c => x1 b <= c.1.2) cols.
Proof.
  intros Hc. unfold calculate_vertical_text_layout. rewrite Hc. simpl.
  destruct (f lang cjk_probe) as [cw ch]. case_match; [discriminate|]. intros [= <-].
  exists (Z.to_nat (Z.max 1 ((height b - 8) / ch))).
  assert (Hn : (1 <= Z.to_nat (Z.max 1 ((height b - 8) / ch)))%nat) by lia.
  split; [done|]. split; [by apply chunks_concat|]. split.
  - apply filter_imap_sublist. done.
  - apply Forall_forall. intros c Hin. rewrite <- list_elem_of_In in Hin.
    apply list_elem_of_filter in Hin. apply Hin.
Qed.

(** Vertical rendering never draws left of the box: each column
    starts at or right of [x1], so the black text is inside and its white
    outline at most one pixel to the left. *)
Theorem render_vertical_text_inside tb f lang ds :
  render_vertical_text tb f lang = Ok ds ->
  Forall (fun d => x1 (tb_bbox tb) - 1 <= dx d /\ (dblack d = true -> x1 (tb_bbox tb) <= dx d)) ds.
Proof.
  unfold render_vertical_text. destruct (f lang mojibake_probe) as [cw ch].
  case_match; [discriminate|]. intros [= <-]. apply columns_draws_x.
Qed.

(** A box moved by [resolve_overlap]: inside the image by the test, and
    clear of the other box by the size of the move. *)
Local Ltac moved_box :=
  right; split; [done|];
  unfold boxes_overlap, shift_box, width, height; cbn [x1 x2 y1 y2 fst snd];
  split; [apply negb_false_iff; rewrite !orb_true_iff, !Z.ltb_lt; lia|split; lia].

(** C35. [_resolve_overlap] either leaves the box where it is, or moves
    it, keeping its size, to a place inside the image where it no longer
    overlaps the other box. *)
Theorem resolve_overlap_spec b1 b2 w h :
  let r := resolve_overlap b1 b2 w h in
  r = b1 \/ (inside_image r w h = true /\ boxes_overlap r b2 = false /\
             width r = width b1 /\ height r = height b1).
Proof.
  cbv zeta. unfold resolve_overlap. cbn [List.find fst snd].
  repeat match goal with |- context [if inside_image ?bb w h then _ else _] =>
    destruct (inside_image bb w h) eqn:?; cbn iota end; [moved_box..|by left].
Qed.

(** Horizontal rendering draws each wrapped line once in black, in
    order, each with four white outline copies. *)
Theorem render_horizontal_text_lines tb f lang ds :
  render_horizontal_text tb f lang = Ok ds ->
  exists lines, wrap_text_for_size (f lang) (width (tb_bbox tb) - 4) (translated_text tb) lang = Ok lines /\
    map dtext (filter (fun d => dblack d = true) ds) = lines /\ length ds = (5 * length lines)%nat.
Proof.
  unfold render_horizontal_text.
  destruct (wrap_text_for_size (f lang) _ _ lang) as [lines|e] eqn:E; [|discriminate].
  intros [= <-]. exists lines. split; [done|].
  split; [apply zip_outlined_black|apply zip_outlined_length]; apply multiline_position_length.
Qed.

(** ** Concrete runs *)

Lemma render_text_blank_witness :
  render_text mono_pil (mkTextBox (str "x") example_bubble (str "  ")) ENGLISH = Raise AttributeError.
Proof. apply render_text_blank. reflexivity. Defined.

Lemma calculate_optimal_font_size_range_witness :
  exists s, calculate_optimal_font_size mono_pil (str "Hello there") example_bubble "english"%string LTR
              = Ok s /\ font_size_min <= s <= font_size_max.
Proof. apply calculate_optimal_font_size_range. reflexivity. Defined.

Lemma vertical_layout_columns_witness :
  exists cols, calculate_vertical_text_layout kana_text example_bubble (mono_pil 20) "japanese"%string
                 = Ok cols /\
    exists n, (1 <= n)%nat /\ concat (chunks n kana_text) = kana_text /\
      map (fun c => c.1.1) cols `sublist_of` chunks n kana_text /\
      Forall (fun c => x1 example_bubble <= c.1.2) cols.
Proof.
  destruct (calculate_vertical_text_layout kana_text example_bubble (mono_pil 20) "japanese"%string)
    as [cols|e] eqn:E; [|vm_compute in E; discriminate].
  exists cols. split; [reflexivity|].
  exact (vertical_layout_columns kana_text example_bubble _ "japanese"%string _ eq_refl E).
Defined.

Lemma render_vertical_text_inside_witness :
  exists ds, render_vertical_text (mkTextBox [] example_bubble kana_text) (mono_pil 20) "japanese"%string
               = Ok ds /\
    Forall (fun d => 9 <= dx d /\ (dblack d = true -> 10 <= dx d)) ds.
Proof.
  destruct (render_vertical_text (mkTextBox [] example_bubble kana_text) (mono_pil 20) "japanese"%string)
    as [ds|e] eqn:E; [|vm_compute in E; discriminate].
  exists ds. split; [reflexivity|]. exact (render_vertical_text_inside _ _ _ _ E).
Defined.

Lemma render_horizontal_text_lines_witness :
  exists ds lines, render_horizontal_text (mkTextBox [] example_bubble (str "Hello there friend"))
                     (mono_pil 5) "english"%string = Ok ds /\
    wrap_text_for_size (mono_pil 5 "english"%string) 76 (str "Hello there friend") "english"%string
      = Ok lines /\
    map dtext (filter (fun d => dblack d = true) ds) = lines /\ length ds = (5 * length lines)%nat.
Proof.
  destruct (render_horizontal_text (mkTextBox [] example_bubble (str "Hello there friend"))
              (mono_pil 5) "english"%string) as [ds|e] eqn:E; [|vm_compute in E; discriminate].
  destruct (render_horizontal_text_lines _ _ _ _ E) as (lines & Hw & Hb & Hl).
  exists ds, lines. split; [reflexivity|]. split; [exact Hw|]. split; [exact Hb|exact Hl].
Defined.
