(* ===== verification/Ocr.v ===== *)
(** * Ocr: the OCR services' box handling and the service choice

    services/ocr/base.py ([OCRService._boxes_nearby],
    [_merge_nearby_boxes], [_merge_text_boxes]), easy_ocr.py and
    manga_ocr.py ([extract_text] after recognition) and ocr_manager.py
    ([initialize], [get_ocr_service]).  The recognisers are oracles: what
    [reader.readtext] and [MangaOcr] return for the image is an input. *)

From Stdlib Require Import NArith ZArith String Ascii Sorting.Sorted.
From stdpp Require Import base list decidable.
From S2P Require Import Prelude Schemas Exceptions.

Local Open Scope Z_scope.
Local Open Scope st_scope.

(** ** Merging nearby boxes *)

(** [_boxes_nearby]: [sqrt(dx^2 + dy^2) <= threshold].  For an integer
    threshold [t >= 0] and a squared distance [n] below 2^52 the
    (correctly rounded) root is at most [t] exactly when [n <= t^2]; a
    negative threshold is never reached. *)
Definition boxes_nearby (b1 b2 : BoundingBox) (threshold : Z) : bool :=
  let dx := center_x b1 - center_x b2 in
  let dy := center_y b1 - center_y b2 in
  (0 <=? threshold) && (dx * dx + dy * dy <=? threshold * threshold).

(** [_merge_text_boxes]: a group of one box is returned as it is; for a
    larger group the average of [b.confidence] is computed, and
    [TextBox] has no [confidence] field, so the call raises
    [AttributeError] ([min] of an empty group raises [ValueError]). *)
Definition merge_text_boxes (group : list TextBox) : res TextBox :=
  match group with
  | [b] => Ok b
  | [] => Raise ValueError
  | _ => Raise AttributeError
  end.

(** [_boxes_nearby(box1.bbox, boxes[j].bbox, threshold)]. *)
Definition nearby_at (t : Z) (boxes : list TextBox) (b : TextBox) (j : nat) : bool :=
  match boxes !! j with
  | Some bj => boxes_nearby (tb_bbox b) (tb_bbox bj) t
  | None => false
  end.

(** The loop of [_merge_nearby_boxes] from position [i] on ([todo] is
    [boxes[i:]]), with the set [used] of positions already grouped. *)
Fixpoint merge_go (t : Z) (boxes : list TextBox) (i : nat) (todo : list TextBox) (used : list nat)
  : res (list TextBox) :=
  match todo with
  | [] => Ok []
  | b :: todo' =>
      if bool_decide (i ∈ used) then merge_go t boxes (S i) todo' used
      else
        let js := filter (fun j => (j ∉ used) /\ (nearby_at t boxes b j = true))
                         (seq (S i) (length todo')) in
        let group := b :: omap (fun j => boxes !! j) js in
        let merged := if (1 <? length group)%nat then merge_text_boxes group else Ok b in
        match merged with
        | Raise e => Raise e
        | Ok m =>
            match merge_go t boxes (S i) todo' (used ++ i :: js) with
            | Ok r => Ok (m :: r)
            | Raise e => Raise e
            end
        end
  end.

(** [_merge_nearby_boxes] (the default threshold is 20). *)
Definition merge_nearby_boxes (boxes : list TextBox) (t : Z) : res (list TextBox) :=
  match boxes with
  | [] => Ok []
  | _ => merge_go t boxes 0 boxes []
  end.

(** The reference: does some box have a nearby box after it? *)
Fixpoint any_nearby_pair (t : Z) (l : list TextBox) : bool :=
  match l with
  | [] => false
  | b :: l' => existsb (fun b' => boxes_nearby (tb_bbox b) (tb_bbox b') t) l' || any_nearby_pair t l'
  end.

(** ** The recognisers' results *)

(** [settings.merge_nearby_textboxes]. *)
Definition merge_nearby_textboxes : bool := true.

(** [points.min(axis=0)], [points.max(axis=0)] of the corners of one
    detection; [min] of no points raises [ValueError]. *)
Definition bbox_of_points (pts : list (Z * Z)) : res BoundingBox :=
  match pts with
  | [] => Raise ValueError
  | (x, y) :: rest =>
      let '(a, b, c, d) := fold_left (fun '(a, b, c, d) p =>
                                        (Z.min a p.1, Z.min b p.2, Z.max c p.1, Z.max d p.2))
                                     rest (x, y, x, y) in
      Ok (mkBox a b c d)
  end.

(** The boxes of a list of detections, skipping those [keep] refuses. *)
Fixpoint boxes_of (dets : list (list (Z * Z) * text)) : res (list TextBox) :=
  match dets with
  | [] => Ok []
  | (pts, txt) :: dets' =>
      if is_blank txt then boxes_of dets'
      else match bbox_of_points pts, boxes_of dets' with
           | Ok bb, Ok bs => Ok (new_text_box (strip txt) bb :: bs)
           | Raise e, _ | _, Raise e => Raise e
           end
  end.

(** [EasyOCRService.extract_text], given the languages that have a
    reader and the result of [reader.readtext(image, paragraph=True)]. *)
Definition easy_extract_text (readers : list string) (lang : string)
    (results : list (list (Z * Z) * text)) : res (list TextBox) :=
  if negb (bool_decide (lang ∈ readers)) then Raise ValueError
  else match boxes_of results with
       | Raise e => Raise e
       | Ok boxes => if merge_nearby_textboxes then merge_nearby_boxes boxes 20 else Ok boxes
       end.

(** The loop of [MangaOCRService.extract_text], given for each EasyOCR
    detection its corners and what MangaOCR recognises in the crop
    ([None] when it raises, which the code turns into [""]).
    Coordinates are inside the image, so a crop is empty exactly when
    [x2 <= x1] or [y2 <= y1]. *)
Fixpoint manga_boxes_of (dets : list (list (Z * Z) * option text)) : res (list TextBox) :=
  match dets with
  | [] => Ok []
  | (pts, r) :: dets' =>
      match bbox_of_points pts with
      | Raise e => Raise e
      | Ok bb =>
          if (x2 bb <=? x1 bb) || (y2 bb <=? y1 bb) then manga_boxes_of dets'
          else
            let txt := strip (default [] r) in
            match manga_boxes_of dets' with
            | Raise e => Raise e
            | Ok bs => Ok (match txt with [] => bs | _ => new_text_box txt bb :: bs end)
            end
      end
  end.

(** [MangaOCRService.extract_text]. *)
Definition manga_extract_text (dets : list (list (Z * Z) * option text)) : res (list TextBox) :=
  match manga_boxes_of dets with
  | Raise e => Raise e
  | Ok boxes => if merge_nearby_textboxes then merge_nearby_boxes boxes 20 else Ok boxes
  end.

(** ** The OCR manager *)

(** A loaded service, as the languages of its [get_supported_languages]. *)
Definition OcrService : Type := list string.

Definition easy_languages : list string :=
  ["english"; "korean"; "vietnamese"; "japanese"; "sim_chinese"; "trad_chinese"]%string.
Definition manga_languages : list string := ["japanese"; "sim_chinese"; "trad_chinese"]%string.

(** [OCRManager]'s fields [services] and [_initialized]. *)
Record OcrManager : Type := mkOcrManager {
  services : dict OcrService;
  initialized : bool
}.

(** A service class of [ocr_services]: its key, its languages, and what
    its constructor does: raise, or give a service whose
    [is_available()] is the boolean.  [EasyOCRService()] catches every
    reader failure and is available when a reader was made;
    [MangaOCRService()] raises when [MangaOcr()] or [easyocr.Reader]
    does. *)
Definition OcrCtor : Type := string * OcrService * res bool.

Definition ocr_ctors (easy_readers : list string) (manga : res bool) : list OcrCtor :=
  [("easy", easy_languages, Ok (negb (bool_decide (easy_readers = []))));
   ("manga", manga_languages, manga)]%string.

Definition load_service (c : OcrCtor) : st OcrManager unit :=
  let '(name, langs, made) := c in
  match made with
  | Raise e => throw e
  | Ok avail =>
      if avail then modify (fun m => mkOcrManager (dict_set (services m) name langs) (initialized m))
      else ret tt
  end.

(** [OCRManager.initialize]: a raising constructor leaves the services
    loaded before it and [_initialized] false, and the error propagates. *)
Definition ocr_initialize (ctors : list OcrCtor) : st OcrManager unit :=
  m <- get ;;
  if initialized m then ret tt
  else st_iter load_service ctors ;;;
       modify (fun m => mkOcrManager (services m) true).

(** The choice of [get_ocr_service] among the loaded services, for a
    language already normalised ([Language.value]). *)
Definition find_ocr_service (svcs : dict OcrService) (lang : string) : res string :=
  let manga_first :=
    if bool_decide (lang ∈ ["japanese"; "sim_chinese"; "trad_chinese"]%string) then
      match dict_get svcs "manga"%string with
      | Some langs => if bool_decide (lang ∈ langs) then Some "manga"%string else None
      | None => None
      end
    else None in
  match manga_first with
  | Some n => Ok n
  | None =>
      match List.find (fun s => bool_decide (lang ∈ s.2)) svcs with
      | Some s => Ok s.1
      | None => Raise RuntimeError
      end
  end.

(** [OCRManager.get_ocr_service]: the key of the service returned. *)
Definition get_ocr_service (ctors : list OcrCtor) (lang : string) : st OcrManager string :=
  ocr_initialize ctors ;;;
  m <- get ;;
  match find_ocr_service (services m) lang with
  | Ok n => ret n
  | Raise e => throw e
  end.

(** [OCRManager.is_available]: [len(self.services) > 0]. *)
Definition ocr_is_available (m : OcrManager) : bool := (0 <? length (services m))%nat.

(** [OCRManager.close]: the services' own [close] releases their
    models, and its errors are logged. *)
Definition ocr_close : st OcrManager unit := modify (fun _ => mkOcrManager [] false).

(** [sorted(set(langs))] on service names: insertion into a strictly
    increasing list; [String.compare] orders ASCII names by code point,
    as Python does. *)
Fixpoint insert_uniq (x : string) (l : list string) : list string :=
  match l with
  | [] => [x]
  | y :: l' =>
      match String.compare x y with
      | Lt => x :: l
      | Eq => l
      | Gt => y :: insert_uniq x l'
      end
  end.

Definition sorted_set (l : list string) : list string := fold_right insert_uniq [] l.

(** [OCRManager.get_available_languages]. *)
Definition ocr_get_available_languages (m : OcrManager) : list string :=
  sorted_set (concat (map snd (services m))).

(** [OCRManager.get_service_status]: a loaded service passed
    [is_available()] when it was loaded, and neither service changes
    its readers afterwards. *)
Definition ocr_get_service_status (m : OcrManager) : dict PyVal :=
  map (fun '(name, langs) =>
         (name, VDict [("available"%string, VBool true);
                       ("languages"%string, VList (map (fun l => VStr (str l)) langs))]))
      (services m).

(** ** Concrete inputs *)

Definition fresh_ocr_manager : OcrManager := mkOcrManager [] false.

(** Two detections whose centres are 10 pixels apart. *)
Definition adjacent_boxes : list TextBox :=
  [new_text_box [12371%N] (mkBox 10 10 30 30); new_text_box [12356%N] (mkBox 20 10 40 30)].

Definition loaded_ocr_manager : OcrManager :=
  mkOcrManager [("easy", easy_languages); ("manga", manga_languages)]%string true.

(** ** Merging *)

(** ** The shape of the boxes

    The data model's [TextBox] invariant ([x1 < x2], [y1 < y2]) and the
    weaker shape every [min]/[max] box has. *)
Definition bbox_valid (b : BoundingBox) : bool := (x1 b <? x2 b) && (y1 b <? y2 b).

Definition bbox_ordered (b : BoundingBox) : bool := (x1 b <=? x2 b) && (y1 b <=? y2 b).

(** One EasyOCR paragraph whose corners lie on a vertical line. *)
Definition thin_detection : list (list (Z * Z) * text) := [([(5, 5); (5, 40)], [97%N])].

Section MergeLemmas.
Variable t : Z.
Variable boxes : list TextBox.

Lemma drop_succ i b todo' : drop i boxes = b :: todo' -> drop (S i) boxes = todo'.
Proof. intros Hd. by rewrite <- (Nat.add_1_r i), <- drop_drop, Hd. Qed.

Lemma lookup_after i b todo' :
  drop i boxes = b :: todo' -> forall n, boxes !! (S i + n)%nat = todo' !! n.
Proof.
  intros Hd n. replace (S i + n)%nat with (i + S n)%nat by lia.
  by rewrite <- lookup_drop, Hd.
Qed.

(** The group of a box is empty exactly when no later box is nearby. *)
Lemma merge_group_nil b (used : list nat) todo' : forall k,
  (forall n, boxes !! (k + n)%nat = todo' !! n) -> (forall u, u ∈ used -> (u < k)%nat) ->
  filter (fun j => (j ∉ used) /\ (nearby_at t boxes b j = true)) (seq k (length todo')) = [] <->
  existsb (fun b' => boxes_nearby (tb_bbox b) (tb_bbox b') t) todo' = false.
Proof.
  induction todo' as [|b' todo' IH]; intros k Hk Hu; [done|].
  cbn [length seq existsb].
  assert (Hat : nearby_at t boxes b k = boxes_nearby (tb_bbox b) (tb_bbox b') t).
  { unfold nearby_at. by rewrite <- (Nat.add_0_r k), Hk. }
  assert (Hnu : k ∉ used) by (intros Hin; specialize (Hu _ Hin); lia).
  destruct (boxes_nearby (tb_bbox b) (tb_bbox b') t) eqn:E.
  - rewrite filter_cons_True by done. done.
  - rewrite filter_cons_False by (intros [_ ?]; congruence). simpl.
    apply IH; [intros n; replace (S k + n)%nat with (k + S n)%nat by lia; by rewrite Hk
              | intros u Hin; specialize (Hu _ Hin); lia].
Qed.

Lemma nearby_at_some b j : nearby_at t boxes b j = true -> exists bj, boxes !! j = Some bj.
Proof. unfold nearby_at. destruct (boxes !! j); [eauto | done]. Qed.

Lemma merge_go_spec : forall todo i (used : list nat),
  drop i boxes = todo -> (forall u, u ∈ used -> (u < i)%nat) ->
  merge_go t boxes i todo used = if any_nearby_pair t todo then Raise AttributeError else Ok todo.
Proof.
  induction todo as [|b todo' IH]; intros i used Hd Hu; [done|].
  cbn [merge_go any_nearby_pair].
  rewrite bool_decide_false by (intros Hin; specialize (Hu _ Hin); lia).
  pose proof (merge_group_nil b used todo' (S i) (lookup_after i b todo' Hd)
                (fun u Hin => Nat.lt_lt_succ_r _ _ (Hu u Hin))) as Hnil.
  destruct (filter _ (seq (S i) (length todo'))) as [|j js] eqn:Hjs.
  - rewrite (proj1 Hnil eq_refl). simpl.
    rewrite IH; [| by eapply drop_succ
                | intros u [Hin | ->%list_elem_of_singleton]%elem_of_app;
                  [specialize (Hu _ Hin) |]; lia].
    by destruct (any_nearby_pair t todo').
  - assert (Hj : nearby_at t boxes b j = true).
    { assert (Hin : j ∈ filter (fun j => (j ∉ used) /\ (nearby_at t boxes b j = true))
                              (seq (S i) (length todo'))) by (rewrite Hjs; left).
      by apply list_elem_of_filter in Hin as [[_ ?] _]. }
    destruct (nearby_at_some b j Hj) as [bj Hbj].
    assert (Hex : existsb (fun b' => boxes_nearby (tb_bbox b) (tb_bbox b') t) todo' = true).
    { apply not_false_iff_true. intros Hf. by apply Hnil in Hf. }
    rewrite Hex. simpl. rewrite Hbj. done.
Qed.

End MergeLemmas.

(** C15. [_merge_nearby_boxes] returns the boxes unchanged when no box
    has a nearby box after it, and raises [AttributeError] as soon as
    two boxes have centres within the threshold (the merge reads the
    missing field [TextBox.confidence]). *)
Theorem merge_nearby_boxes_spec boxes t :
  merge_nearby_boxes boxes t = if any_nearby_pair t boxes then Raise AttributeError else Ok boxes.
Proof.
  destruct boxes as [|b bs]; [done|].
  apply merge_go_spec; [done | intros u Hu; by apply not_elem_of_nil in Hu].
Qed.

(** ** Choosing the service *)

Lemma dict_get_elem {V} (d : dict V) k v : dict_get d k = Some v -> (k, v) ∈ d.
Proof.
  unfold dict_get. destruct (List.find _ d) as [[k' v']|] eqn:E; [|done].
  intros [= ->]. apply find_some in E as [Hin Hk]. simpl in Hk.
  apply String.eqb_eq in Hk as ->. by apply list_elem_of_In.
Qed.

Lemma find_ocr_service_sound svcs lang n :
  find_ocr_service svcs lang = Ok n -> exists langs, (n, langs) ∈ svcs /\ lang ∈ langs.
Proof.
  unfold find_ocr_service.
  destruct (bool_decide (lang ∈ _)); [destruct (dict_get svcs "manga"%string) as [langs|] eqn:Hm|].
  1: destruct (bool_decide (lang ∈ langs)) eqn:Hl;
       [intros [= <-]; exists langs; split; [by apply dict_get_elem | by apply bool_decide_eq_true in Hl]|].
  all: destruct (List.find _ svcs) as [[n' ls]|] eqn:E; [|done];
       intros [= <-]; apply find_some in E as [Hin Hl']; apply bool_decide_eq_true in Hl';
       exists ls; split; [by apply list_elem_of_In | done].
Qed.

Lemma ocr_initialize_done ctors m m' :
  ocr_initialize ctors m = (m', Ok tt) -> initialized m' = true.
Proof.
  unfold ocr_initialize. st_unfold. destruct (initialized m) eqn:Hi; [by intros [= <-]|].
  destruct (st_iter load_service ctors m) as [m1 [[]|e]]; [|done]. by intros [= <-].
Qed.

(** When [get_ocr_service] returns, the manager is initialised and
    the key returned names a loaded service that supports the language. *)
Theorem get_ocr_service_sound ctors lang m m' n :
  get_ocr_service ctors lang m = (m', Ok n) ->
  initialized m' = true /\ exists langs, (n, langs) ∈ services m' /\ lang ∈ langs.
Proof.
  unfold get_ocr_service. st_unfold.
  destruct (ocr_initialize ctors m) as [m1 [[]|e]] eqn:Hi; [|done].
  destruct (find_ocr_service (services m1) lang) as [n'|e] eqn:Hf; [|done].
  intros [= <- <-]. split; [by eapply ocr_initialize_done | by apply find_ocr_service_sound].
Qed.

(** On a fresh manager, a language EasyOCR lists goes to MangaOCR
    when that is a Japanese or Chinese language and MangaOCR loaded, to
    EasyOCR otherwise when one of its readers was made, and otherwise
    fails with [RuntimeError]. *)
Theorem get_ocr_service_choice readers ma lang :
  lang ∈ easy_languages ->
  (get_ocr_service (ocr_ctors readers (Ok ma)) lang fresh_ocr_manager).2 =
  if ma && bool_decide (lang ∈ manga_languages) then Ok "manga"%string
  else if bool_decide (readers = []) then Raise RuntimeError else Ok "easy"%string.
Proof.
  intros Hl. unfold easy_languages in Hl.
  repeat (apply elem_of_cons in Hl as [->|Hl]); [..|by apply not_elem_of_nil in Hl].
  all: destruct ma, readers; vm_compute; reflexivity.
Qed.

(** C36. When the MangaOCR constructor raises, [get_ocr_service] raises
    that error for every language, English included, and leaves the
    manager uninitialised, so every later call raises it again. *)
Theorem get_ocr_service_manga_failure readers e lang m :
  initialized m = false ->
  exists m', get_ocr_service (ocr_ctors readers (Raise e)) lang m = (m', Raise e) /\
             initialized m' = false.
Proof.
  intros Hi. unfold get_ocr_service, ocr_initialize, ocr_ctors. st_unfold. rewrite Hi.
  cbn. destruct (negb _); eexists; split; reflexivity || done.
Qed.

(** ** Extraction with adjacent detections *)

Lemma merge_raises_of_pair boxes t :
  any_nearby_pair t boxes = true -> merge_nearby_boxes boxes t = Raise AttributeError.
Proof.
  intros Hp. destruct boxes as [|b bs]; [done|].
  unfold merge_nearby_boxes. rewrite merge_go_spec; [by rewrite Hp | done | intros u Hu; by apply not_elem_of_nil in Hu].
Qed.

Lemma easy_extract_text_pair readers lang results bs :
  lang ∈ readers -> boxes_of results = Ok bs -> any_nearby_pair 20 bs = true ->
  easy_extract_text readers lang results = Raise AttributeError.
Proof.
  intros Hl Hb Hp. unfold easy_extract_text. rewrite bool_decide_true by done. simpl.
  rewrite Hb. by apply merge_raises_of_pair.
Qed.

Lemma manga_extract_text_pair dets bs :
  manga_boxes_of dets = Ok bs -> any_nearby_pair 20 bs = true ->
  manga_extract_text dets = Raise AttributeError.
Proof. intros Hb Hp. unfold manga_extract_text. rewrite Hb. by apply merge_raises_of_pair. Qed.

Lemma language_value_easy l : language_value l ∈ easy_languages.
Proof. apply (bool_decide_unpack _). destruct l; vm_compute; exact I. Qed.

(** With a reader made, a fresh manager hands every language to EasyOCR
    or to MangaOCR. *)
Lemma get_ocr_service_fresh readers ma l :
  readers <> [] ->
  (get_ocr_service (ocr_ctors readers (Ok ma)) (language_value l) fresh_ocr_manager).2 = Ok "easy"%string \/
  (get_ocr_service (ocr_ctors readers (Ok ma)) (language_value l) fresh_ocr_manager).2 = Ok "manga"%string.
Proof.
  intros Hr. destruct readers as [|r rs]; [done|].
  destruct l, ma; vm_compute; tauto.
Qed.


(** ** Shape of the recognisers' boxes *)

Lemma bbox_fold_ordered rest : forall a b c d,
  a <= c -> b <= d ->
  let '(a', b', c', d') := fold_left (fun '(a, b, c, d) (p : Z * Z) =>
                             (Z.min a p.1, Z.min b p.2, Z.max c p.1, Z.max d p.2)) rest (a, b, c, d) in
  a' <= c' /\ b' <= d'.
Proof. induction rest as [|[px py] rest IH]; intros a b c d Hac Hbd; [done|]. apply IH; lia. Qed.

Lemma bbox_of_points_ordered pts bb : bbox_of_points pts = Ok bb -> bbox_ordered bb = true.
Proof.
  destruct pts as [|[x y] rest]; [done|]. cbn [bbox_of_points].
  pose proof (bbox_fold_ordered rest x y x y (Z.le_refl _) (Z.le_refl _)) as Hf.
  destruct (fold_left _ rest _) as [[[a b] c] d]. intros [= <-].
  unfold bbox_ordered. cbn. apply andb_true_iff. lia.
Qed.

Lemma merge_nearby_boxes_ok boxes t r : merge_nearby_boxes boxes t = Ok r -> r = boxes.
Proof.
  destruct boxes as [|b bs]; [by intros [= <-]|]. unfold merge_nearby_boxes.
  rewrite merge_go_spec; [| done | intros u Hu; by apply not_elem_of_nil in Hu].
  destruct (any_nearby_pair t (b :: bs)); [done | by intros [= <-]].
Qed.

Lemma boxes_of_shape dets : forall bs, boxes_of dets = Ok bs ->
  Forall (fun b => bbox_ordered (tb_bbox b) = true /\ tb_text b <> []) bs.
Proof.
  induction dets as [|[pts txt] dets IH]; intros bs; cbn [boxes_of]; [by intros [= <-]|].
  destruct (is_blank txt) eqn:Hb; [apply IH|].
  destruct (bbox_of_points pts) as [bb|e] eqn:Hp, (boxes_of dets) as [bs'|e'];
    try discriminate. intros [= <-]. constructor; [|by apply IH].
  split; [by eapply bbox_of_points_ordered | cbn; rewrite strip_nil_iff; congruence].
Qed.

Lemma manga_boxes_of_shape dets : forall bs, manga_boxes_of dets = Ok bs ->
  Forall (fun b => bbox_valid (tb_bbox b) = true /\ tb_text b <> []) bs.
Proof.
  induction dets as [|[pts r] dets IH]; intros bs; cbn [manga_boxes_of]; [by intros [= <-]|].
  destruct (bbox_of_points pts) as [bb|e]; [|done].
  destruct ((x2 bb <=? x1 bb) || (y2 bb <=? y1 bb)) eqn:Hd; [apply IH|].
  destruct (manga_boxes_of dets) as [bs'|e]; [|done]. intros [= <-].
  destruct (strip (default [] r)) as [|ch t] eqn:Ht; [by apply IH|].
  constructor; [|by apply IH]. split; [|done].
  unfold bbox_valid; cbn. apply orb_false_iff in Hd as [? ?]. apply andb_true_iff. lia.
Qed.

(** C16. Every box the OCR services return has a non-empty text and
    corners in order; the boxes of [MangaOCRService.extract_text] also
    have an area ([x1 < x2], [y1 < y2]), as the data model requires,
    while EasyOCR's only have [x1 <= x2] and [y1 <= y2]. *)
Theorem ocr_boxes_well_formed readers lang results dets bs bs' :
  (easy_extract_text readers lang results = Ok bs ->
     Forall (fun b => bbox_ordered (tb_bbox b) = true /\ tb_text b <> []) bs) /\
  (manga_extract_text dets = Ok bs' ->
     Forall (fun b => bbox_valid (tb_bbox b) = true /\ tb_text b <> []) bs').
Proof.
  split.
  - unfold easy_extract_text. destruct (negb _); [done|].
    destruct (boxes_of results) as [bs0|e] eqn:Hb; [|done]. cbn.
    intros ->%merge_nearby_boxes_ok. by apply (boxes_of_shape results).
  - unfold manga_extract_text. destruct (manga_boxes_of dets) as [bs0|e] eqn:Hb; [|done]. cbn.
    intros ->%merge_nearby_boxes_ok. by apply (manga_boxes_of_shape dets).
Qed.

(** ** Concrete runs *)

Example merge_adjacent_raises : merge_nearby_boxes adjacent_boxes 20 = Raise AttributeError.
Proof. reflexivity. Qed.

(** ** The manager's reports *)

Definition str_lt (a b : string) : Prop := String.compare a b = Lt.

Lemma string_compare_refl a : String.compare a a = Eq.
Proof. induction a as [|x a IH]; [done|]. cbn. unfold Ascii.compare. by rewrite N.compare_refl. Qed.

Lemma string_lt_trans a b c : str_lt a b -> str_lt b c -> str_lt a c.
Proof.
  unfold str_lt. revert b c. induction a as [|x a IH]; intros [|y b] [|z c]; cbn; try congruence.
  unfold Ascii.compare.
  destruct (N.compare_spec (N_of_ascii x) (N_of_ascii y));
  destruct (N.compare_spec (N_of_ascii y) (N_of_ascii z)); try congruence; intros H1 H2;
  destruct (N.compare_spec (N_of_ascii x) (N_of_ascii z)); try reflexivity; try lia; eauto.
Qed.

#[export] Instance str_lt_strict : StrictOrder str_lt.
Proof.
  split; [intros a Ha; unfold str_lt in Ha; by rewrite string_compare_refl in Ha | intros a b c; apply string_lt_trans].
Qed.






Lemma get_ocr_service_sound_witness :
  initialized loaded_ocr_manager = true /\
  exists langs, ("manga"%string, langs) ∈ services loaded_ocr_manager /\ "japanese"%string ∈ langs.
Proof.
  exact (get_ocr_service_sound (ocr_ctors ["english"]%string (Ok true)) "japanese" fresh_ocr_manager
           loaded_ocr_manager "manga" eq_refl).
Defined.

Lemma get_ocr_service_choice_witness :
  "japanese"%string ∈ easy_languages /\
  (get_ocr_service (ocr_ctors [] (Ok true)) "japanese" fresh_ocr_manager).2 = Ok "manga"%string.
Proof.
  assert (H : "japanese"%string ∈ easy_languages) by (apply (bool_decide_unpack _); vm_compute; exact I).
  split; [exact H | exact (get_ocr_service_choice [] true "japanese" H)].
Defined.

Lemma get_ocr_service_manga_failure_witness :
  initialized fresh_ocr_manager = false /\
  exists m', get_ocr_service (ocr_ctors ["english"]%string (Raise RuntimeError)) "english"
               fresh_ocr_manager = (m', Raise RuntimeError) /\ initialized m' = false.
Proof.
  split; [reflexivity | exact (get_ocr_service_manga_failure ["english"]%string RuntimeError "english" fresh_ocr_manager eq_refl)].
Defined.

Lemma ocr_boxes_well_formed_witness :
  easy_extract_text ["english"]%string "english" thin_detection = Ok [new_text_box [97%N] (mkBox 5 5 5 40)] /\
  Forall (fun b => bbox_ordered (tb_bbox b) = true /\ tb_text b <> []) [new_text_box [97%N] (mkBox 5 5 5 40)].
Proof.
  assert (H : easy_extract_text ["english"]%string "english" thin_detection =
              Ok [new_text_box [97%N] (mkBox 5 5 5 40)]) by reflexivity.
  split; [exact H | exact (proj1 (ocr_boxes_well_formed ["english"]%string "english" thin_detection [] _ [] ) H)].
Defined.

(** EasyOCR turns a paragraph whose corners lie on one vertical line
    into a box of width 0, which breaks the data model's invariant. *)
Example easy_extract_text_thin :
  easy_extract_text ["english"]%string "english" thin_detection = Ok [new_text_box [97%N] (mkBox 5 5 5 40)] /\
  bbox_valid (mkBox 5 5 5 40) = false.
Proof. split; reflexivity. Qed.

(** Both services loaded: six languages, in code-point order. *)
Example loaded_available_languages :
  ocr_get_available_languages loaded_ocr_manager =
    ["english"; "japanese"; "korean"; "sim_chinese"; "trad_chinese"; "vietnamese"]%string.
Proof. reflexivity. Qed.
