(* ===== verification/Inpaint.v ===== *)
(** * Inpaint: [MaskGenerator] and [OpenCVInpainter] (services/inpaint/)

    The pixel algorithms (Otsu thresholding and the morphology of
    [create_smart_mask], [cv2.inpaint], the statistics of
    [_choose_inpaint_method]) are the operations of the class [CvOps]; a
    mask is the set of pixels it marks, as a boolean function of the row
    and the column.  What is modelled is the code around them: the
    slicing of the region of interest with numpy's rules, the rectangular
    masks, the fall-backs of each [try], and the loops over the boxes. *)

From Stdlib Require Import NArith ZArith String Ascii QArith.
From stdpp Require Import base list decidable.
From S2P Require Import Prelude Schemas Config.

Local Open Scope Z_scope.

(** ** Images, masks and the OpenCV operations *)

(** A single-channel mask ([np.uint8], 255 where marked). *)
Definition Mask : Type := Z -> Z -> bool.

Definition zero_mask : Mask := fun _ _ => false.

(** [cv2.bitwise_or] of two masks. *)
Definition mask_or (m1 m2 : Mask) : Mask := fun r c => m1 r c || m2 r c.

(** The two algorithms of [cv2.inpaint]. *)
Inductive InpaintFlag : Type := INPAINT_TELEA | INPAINT_NS.

(** The OpenCV and numpy operations the inpainter calls on an image. *)
Class CvOps (Img : Type) := {
  img_height : Img -> Z;                         (** [image.shape[0]] *)
  img_width : Img -> Z;                          (** [image.shape[1]] *)
  (** Thresholding, closing and dilation of [create_smart_mask] on the
      region of a box; it may raise. *)
  smart_threshold : Img -> BoundingBox -> res Mask;
  (** [cv2.inpaint(image, mask, radius, flag)]; it may raise. *)
  cv_inpaint : Img -> Mask -> Z -> InpaintFlag -> res Img;
  (** [np.var(gray_roi)], the number of edge pixels of [cv2.Canny] and
      [edges.size] for a non-empty region; it may raise. *)
  roi_stats : Img -> BoundingBox -> res (Q * Z * Z)
}.

(** ** numpy slices *)

(** The bound [i] of a slice of an axis of length [L]: a negative bound
    counts from the end, and both are clipped to [[0, L]]. *)
Definition slice_bound (L i : Z) : Z :=
  if i <? 0 then Z.max 0 (i + L) else Z.min i L.

Definition in_slice (L a b i : Z) : bool :=
  (slice_bound L a <=? i) && (i <? slice_bound L b).

Definition slice_len (L a b : Z) : Z := Z.max 0 (slice_bound L b - slice_bound L a).

Section Masks.
Context {Img : Type} `{CvOps Img}.

(** [image[y1:y2, x1:x2].size == 0]. *)
Definition roi_empty (img : Img) (b : BoundingBox) : bool :=
  (slice_len (img_height img) (y1 b) (y2 b) =? 0) || (slice_len (img_width img) (x1 b) (x2 b) =? 0).

(** [MaskGenerator.create_text_mask]: without a padding it reads
    [settings.inpaint_padding], which [Settings] does not declare (it
    has [mask_padding]), and raises [AttributeError]. *)
Definition create_text_mask (img : Img) (tb : TextBox) (padding : option Z) : res Mask :=
  match match padding with
        | None => getattr_int settings_fields "inpaint_padding"
        | Some p => Ok p
        end with
  | Raise e => Raise e
  | Ok p =>
      let b := tb_bbox tb in
      let bx1 := Z.max 0 (x1 b - p) in
      let by1 := Z.max 0 (y1 b - p) in
      let bx2 := Z.min (img_width img) (x2 b + p) in
      let by2 := Z.min (img_height img) (y2 b + p) in
      Ok (fun r c => in_slice (img_height img) by1 by2 r && in_slice (img_width img) bx1 bx2 c)
  end.

(** [MaskGenerator.create_combined_mask]. *)
Fixpoint combine_masks (img : Img) (acc : Mask) (tbs : list TextBox) : res Mask :=
  match tbs with
  | [] => Ok acc
  | tb :: tbs' =>
      match create_text_mask img tb None with
      | Raise e => Raise e
      | Ok m => combine_masks img (mask_or acc m) tbs'
      end
  end.

Definition create_combined_mask (img : Img) (tbs : list TextBox) : res Mask :=
  combine_masks img zero_mask tbs.

(** [MaskGenerator.create_smart_mask]: an empty region and any failure
    of the thresholding fall back to [create_text_mask] with the default
    padding, inside the [try] for the first and in the handler for
    every failure. *)
Definition create_smart_mask (img : Img) (tb : TextBox) : res Mask :=
  let attempt :=
    if roi_empty img (tb_bbox tb) then create_text_mask img tb None
    else smart_threshold img (tb_bbox tb) in
  match attempt with
  | Ok m => Ok m
  | Raise _ => create_text_mask img tb None
  end.

End Masks.

(** ** The inpainter *)

Section Inpainter.
Context `{UnicodeDB}.
Context {Img : Type} `{CvOps Img}.

(** [method.lower() == "ns"] chooses Navier-Stokes with radius 10,
    anything else Telea with radius 8. *)
Definition inpaint_params (method : text) : InpaintFlag * Z :=
  if bool_decide (lower method = str "ns") then (INPAINT_NS, 10) else (INPAINT_TELEA, 8).

(** [OpenCVInpainter.inpaint_textbox]: any failure returns the image. *)
Definition inpaint_textbox (img : Img) (tb : TextBox) (method : text) : Img :=
  match create_smart_mask img tb with
  | Raise _ => img
  | Ok m =>
      let '(flag, radius) := inpaint_params method in
      match cv_inpaint img m radius flag with
      | Ok img' => img'
      | Raise _ => img
      end
  end.

(** [OpenCVInpainter.inpaint_multiple_textboxes]. *)
Definition inpaint_multiple_textboxes (img : Img) (tbs : list TextBox) (method : text) : Img :=
  fold_left (fun acc tb => inpaint_textbox acc tb method) tbs img.

(** [OpenCVInpainter.inpaint_combined_mask]: a failure falls back to
    inpainting the boxes one by one. *)
Definition inpaint_combined_mask (img : Img) (tbs : list TextBox) (method : text) : Img :=
  let attempt :=
    match create_combined_mask img tbs with
    | Raise e => Raise e
    | Ok m => let '(flag, radius) := inpaint_params method in cv_inpaint img m radius flag
    end in
  match attempt with
  | Ok img' => img'
  | Raise _ => inpaint_multiple_textboxes img tbs method
  end.

(** [OpenCVInpainter._choose_inpaint_method]: the region's variance
    above 1000 or an edge density above 0.1 chooses ["ns"].  The density
    [count / size] is compared exactly: a quotient of two integers below
    2^50 is within half an ulp of 0.1 only when it equals it. *)
Definition choose_inpaint_method (img : Img) (tb : TextBox) : text :=
  if roi_empty img (tb_bbox tb) then str "telea"
  else match roi_stats img (tb_bbox tb) with
       | Raise _ => str "telea"
       | Ok (variance, edges, size) =>
           if Qlt_le_dec (inject_Z 1000) variance then str "ns"
           else if 10 * edges >? size then str "ns" else str "telea"
       end.

(** [OpenCVInpainter.inpaint_adaptive]: the method of each box is chosen
    on the original image, and applied to the image inpainted so far. *)
Definition inpaint_adaptive (img : Img) (tbs : list TextBox) : Img :=
  fold_left (fun acc tb => inpaint_textbox acc tb (choose_inpaint_method img tb)) tbs img.

End Inpainter.

(** ** Adaptive masks, refinement, enhancement and preview *)

(** The OpenCV calls of [create_adaptive_mask], [refine_mask],
    [enhance_inpainting_result] and [preview_inpainting_mask] whose pixel
    algorithms are not modelled; each may raise. *)
Class CvMaskOps (Img : Type) := {
  (** The grey conversion, [cv2.adaptiveThreshold] (Gaussian, block 11,
      [C = 2]) and the 5x5 closing and opening of the region
      [image[y1:y2, x1:x2]], indexed from the region's corner. *)
  adaptive_roi : Img -> BoundingBox -> res Mask;
  (** The grey conversion and [cv2.Canny(gray, 50, 150)] of an image. *)
  canny_edges : Img -> res Mask;
  (** The Gaussian blur of a box's region of [result] blended with the
      soft mask of the [original] region's shape, written back into
      [result]. *)
  blend_region : Img -> Img -> BoundingBox -> res Img;
  (** The mask turned red and [cv2.addWeighted(preview, 0.7, mask, 0.3, 0)]. *)
  overlay_mask : Img -> Mask -> res Img
}.

Definition in_image (h w r c : Z) : bool := (0 <=? r) && (r <? h) && (0 <=? c) && (c <? w).

(** The offsets of the rows (or columns) of a [k]-wide rectangular
    kernel from its anchor [k / 2]. *)
Definition kernel_offsets (k : Z) : list Z := map (fun i => Z.of_nat i - k / 2) (seq 0 (Z.to_nat k)).

(** [cv2.dilate] with a [k x k] rectangular kernel on an [h x w] mask:
    [dst(r, c)] is the maximum of [src(r + dr, c + dc)] over the kernel's
    offsets; pixels outside the image do not count. *)
Definition dilate (h w k : Z) (m : Mask) : Mask :=
  fun r c => in_image h w r c &&
    existsb (fun dr => existsb (fun dc => in_image h w (r + dr) (c + dc) && m (r + dr) (c + dc))
                               (kernel_offsets k))
            (kernel_offsets k).

Section MoreMasks.
Context {Img : Type} `{CvOps Img} `{CvMaskOps Img}.

(** [full_mask[y1:y2, x1:x2] = roi] on a zero mask of the image's shape. *)
Definition place_roi (img : Img) (b : BoundingBox) (roi : Mask) : Mask :=
  fun r c => in_slice (img_height img) (y1 b) (y2 b) r && in_slice (img_width img) (x1 b) (x2 b) c &&
             roi (r - slice_bound (img_height img) (y1 b)) (c - slice_bound (img_width img) (x1 b)).

(** [MaskGenerator.create_adaptive_mask]: an empty region returns
    [create_text_mask] outside the [try], and a failure returns it from
    the handler; otherwise the placed region is dilated twice
    ([iterations=2]) with a 10x10 kernel. *)
Definition create_adaptive_mask (img : Img) (tb : TextBox) : res Mask :=
  let b := tb_bbox tb in
  if roi_empty img b then create_text_mask img tb None
  else match adaptive_roi img b with
       | Ok roi =>
           let h := img_height img in
           let w := img_width img in
           Ok (dilate h w 10 (dilate h w 10 (place_roi img b roi)))
       | Raise _ => create_text_mask img tb None
       end.

(** [MaskGenerator.refine_mask]: the mask without the edges dilated once
    by a 3x3 kernel; a failure returns the mask. *)
Definition refine_mask (m : Mask) (img : Img) : Mask :=
  match canny_edges img with
  | Raise _ => m
  | Ok e =>
      let e' := dilate (img_height img) (img_width img) 3 e in
      fun r c => m r c && negb (e' r c)
  end.

(** The loop of [OpenCVInpainter.enhance_inpainting_result] on
    [result = inpainted.copy()]: a box whose region is empty in either
    image is skipped. *)
Fixpoint enhance_go (original result : Img) (tbs : list TextBox) : res Img :=
  match tbs with
  | [] => Ok result
  | tb :: tbs' =>
      if roi_empty original (tb_bbox tb) || roi_empty result (tb_bbox tb) then enhance_go original result tbs'
      else match blend_region original result (tb_bbox tb) with
           | Ok result' => enhance_go original result' tbs'
           | Raise e => Raise e
           end
  end.

(** [OpenCVInpainter.enhance_inpainting_result]: any failure returns
    [inpainted], without the boxes blended before it. *)
Definition enhance_inpainting_result (original inpainted : Img) (tbs : list TextBox) : Img :=
  match enhance_go original inpainted tbs with
  | Ok r => r
  | Raise _ => inpainted
  end.

(** [OpenCVInpainter.preview_inpainting_mask]: no [try]. *)
Fixpoint preview_go (img preview : Img) (tbs : list TextBox) : res Img :=
  match tbs with
  | [] => Ok preview
  | tb :: tbs' =>
      match create_smart_mask img tb with
      | Raise e => Raise e
      | Ok m =>
          match overlay_mask preview m with
          | Raise e => Raise e
          | Ok p => preview_go img p tbs'
          end
      end
  end.

Definition preview_inpainting_mask (img : Img) (tbs : list TextBox) : res Img :=
  preview_go img img tbs.

End MoreMasks.

(** ** A concrete image

    A page of the given height and width that counts the inpainting
    passes applied to it; the thresholding marks the region of the box,
    and the statistics are those of a flat region. *)
Definition PageImg : Type := Z * Z * nat.

#[export] Instance page_cv : CvOps PageImg := {
  img_height := fun i => i.1.1;
  img_width := fun i => i.1.2;
  smart_threshold := fun _ b => Ok (fun r c => (y1 b <=? r) && (r <? y2 b) && (x1 b <=? c) && (c <? x2 b));
  cv_inpaint := fun i _ _ _ => Ok (i.1, S i.2);
  roi_stats := fun _ b => Ok (0%Q, 0, width b * height b)
}.

(** The adaptive thresholding marks the whole region, no edge is found,
    and blending and the preview overlay count as passes too. *)
#[export] Instance page_mask_ops : CvMaskOps PageImg := {
  adaptive_roi := fun _ _ => Ok (fun _ _ => true);
  canny_edges := fun _ => Ok zero_mask;
  blend_region := fun _ i _ => Ok (i.1, S i.2);
  overlay_mask := fun i _ => Ok (i.1, S i.2)
}.

Definition page : PageImg := (100, 80, 0%nat).

Definition page_box : TextBox := new_text_box (str "A") (mkBox 10 10 30 30).

(** ** Lemmas on slices *)

Lemma in_slice_range L a b i : 0 <= L -> in_slice L a b i = true -> 0 <= i < L.
Proof.
  unfold in_slice, slice_bound. intros HL.
  destruct (Z.ltb_spec a 0), (Z.ltb_spec b 0); rewrite andb_true_iff, Z.leb_le, Z.ltb_lt; lia.
Qed.

Lemma in_slice_nonneg L a b i :
  0 <= a -> 0 <= b <= L -> in_slice L a b i = true <-> Z.min a L <= i < b.
Proof.
  unfold in_slice, slice_bound. intros Ha Hb.
  destruct (Z.ltb_spec a 0), (Z.ltb_spec b 0); rewrite andb_true_iff, Z.leb_le, Z.ltb_lt; lia.
Qed.

Section InpaintTheorems.
Context `{UnicodeDB}.
Context {Img : Type} `{CvOps Img}.

(** [create_text_mask] with an explicit padding [p >= 0], on a box
    inside the image, marks exactly the box grown by [p] on every side
    and clipped to the image. *)
Theorem create_text_mask_rect img tb p m r c :
  0 <= p ->
  0 <= x1 (tb_bbox tb) <= x2 (tb_bbox tb) -> x2 (tb_bbox tb) <= img_width img ->
  0 <= y1 (tb_bbox tb) <= y2 (tb_bbox tb) -> y2 (tb_bbox tb) <= img_height img ->
  create_text_mask img tb (Some p) = Ok m ->
  m r c = true <->
    (Z.max 0 (y1 (tb_bbox tb) - p) <= r < Z.min (img_height img) (y2 (tb_bbox tb) + p) /\
     Z.max 0 (x1 (tb_bbox tb) - p) <= c < Z.min (img_width img) (x2 (tb_bbox tb) + p)).
Proof.
  intros Hp Hx Hw Hy Hh [= <-]. rewrite andb_true_iff, !in_slice_nonneg by lia. lia.
Qed.

(** [inpaint_combined_mask] never uses its combined mask: for any
    non-empty list of boxes [create_combined_mask] raises, and the result
    is that of inpainting the boxes one at a time. *)
Theorem inpaint_combined_mask_fallback img tbs method :
  tbs <> [] -> inpaint_combined_mask img tbs method = inpaint_multiple_textboxes img tbs method.
Proof. intros Hne. destruct tbs as [|tb tbs]; [done|]. reflexivity. Qed.

(** C37. [inpaint_textbox] never raises and changes the image only by
    [cv2.inpaint] with the thresholded mask of a non-empty region: a box
    whose region is empty, or whose thresholding or inpainting fails, is
    left as it is, because the rectangular fall-back raises too. *)
Theorem inpaint_textbox_cases img tb method :
  inpaint_textbox img tb method = img \/
  (roi_empty img (tb_bbox tb) = false /\
   exists m, smart_threshold img (tb_bbox tb) = Ok m /\
             cv_inpaint img m (inpaint_params method).2 (inpaint_params method).1 =
               Ok (inpaint_textbox img tb method)).
Proof.
  unfold inpaint_textbox, create_smart_mask.
  destruct (roi_empty img (tb_bbox tb)) eqn:Hr; [by left|].
  destruct (smart_threshold img (tb_bbox tb)) as [m|e] eqn:Hs; [|by left].
  destruct (inpaint_params method) as [flag radius].
  destruct (cv_inpaint img m radius flag) as [img'|e] eqn:Hc; [|by left].
  right. split; [done|]. by exists m.
Qed.

End InpaintTheorems.

(** ** Dilation *)

Lemma in_image_iff h w r c : in_image h w r c = true <-> 0 <= r < h /\ 0 <= c < w.
Proof. unfold in_image. rewrite !andb_true_iff, !Z.leb_le, !Z.ltb_lt. lia. Qed.

Lemma kernel_offsets_In k d : 0 <= k -> In d (kernel_offsets k) <-> - (k / 2) <= d < k - k / 2.
Proof.
  intros Hk. unfold kernel_offsets. rewrite in_map_iff. split.
  - intros (i & <- & Hi). apply in_seq in Hi. lia.
  - intros Hd. exists (Z.to_nat (d + k / 2)). split; [lia | apply in_seq; lia].
Qed.

(** A [k x k] rectangular dilation marks a pixel of the image exactly
    when a marked pixel of the image lies at an offset of the kernel. *)
Lemma dilate_spec h w k m r c :
  0 <= k ->
  dilate h w k m r c = true <->
    in_image h w r c = true /\
    exists dr dc, - (k / 2) <= dr < k - k / 2 /\ - (k / 2) <= dc < k - k / 2 /\
                  in_image h w (r + dr) (c + dc) = true /\ m (r + dr) (c + dc) = true.
Proof.
  intros Hk. unfold dilate. rewrite andb_true_iff, existsb_exists. split.
  - intros [Hi (dr & Hdr & Hc)]. apply existsb_exists in Hc as (dc & Hdc & Hc).
    apply andb_true_iff in Hc as [Hi' Hm]. apply kernel_offsets_In in Hdr, Hdc; [|done..].
    split; [done|]. by exists dr, dc.
  - intros [Hi (dr & dc & Hdr & Hdc & Hi' & Hm)]. split; [done|].
    exists dr. split; [by apply kernel_offsets_In|].
    apply existsb_exists. exists dc. split; [by apply kernel_offsets_In|]. by rewrite Hi', Hm.
Qed.

(** Two 10x10 dilations ([iterations=2]) reach the pixels at row and
    column offsets from [-10] to [8]: the kernel's anchor is at [5]. *)
Lemma dilate_10_twice h w m r c :
  dilate h w 10 (dilate h w 10 m) r c = true <->
    in_image h w r c = true /\
    exists dr dc, -10 <= dr <= 8 /\ -10 <= dc <= 8 /\
                  in_image h w (r + dr) (c + dc) = true /\ m (r + dr) (c + dc) = true.
Proof.
  rewrite dilate_spec by lia. change (10 / 2) with 5. split.
  - intros [Hi (dr & dc & Hdr & Hdc & _ & Hm)].
    apply dilate_spec in Hm as [_ (dr' & dc' & Hdr' & Hdc' & Hi' & Hm)]; [|lia]. change (10 / 2) with 5 in *.
    split; [done|]. exists (dr + dr'), (dc + dc').
    rewrite !Z.add_assoc. split_and!; first [lia | done].
  - intros [Hi (dr & dc & Hdr & Hdc & Hi' & Hm)]. split; [done|].
    apply in_image_iff in Hi, Hi'.
    (* the intermediate pixel lies between the two, one kernel step away *)
    set (sr := Z.max (-5) (Z.min 4 dr)). set (sc := Z.max (-5) (Z.min 4 dc)).
    exists sr, sc. split_and!; [lia.. | apply in_image_iff; lia |].
    apply dilate_spec; [lia|]. change (10 / 2) with 5. split; [apply in_image_iff; lia|].
    exists (dr - sr), (dc - sc).
    replace (r + sr + (dr - sr)) with (r + dr) by lia.
    replace (c + sc + (dc - sc)) with (c + dc) by lia.
    split_and!; [lia.. | apply in_image_iff; lia | done].
Qed.

Section MoreMaskTheorems.
Context {Img : Type} `{CvOps Img} `{CvMaskOps Img}.

(** Without a padding, [create_text_mask] raises: [settings] has no
    [inpaint_padding]. *)
Lemma create_text_mask_default img tb : create_text_mask img tb None = Raise AttributeError.
Proof. reflexivity. Qed.

Lemma create_smart_mask_ok img tb m :
  create_smart_mask img tb = Ok m -> roi_empty img (tb_bbox tb) = false /\ smart_threshold img (tb_bbox tb) = Ok m.
Proof.
  unfold create_smart_mask. rewrite create_text_mask_default.
  destruct (roi_empty img (tb_bbox tb)); [done|].
  by destruct (smart_threshold img (tb_bbox tb)).
Qed.

(** C38. [create_adaptive_mask] returns a mask only for a box with a
    non-empty region whose thresholding succeeds, and otherwise raises
    [AttributeError] (its rectangular fall-back reads the missing
    [settings.inpaint_padding]); the mask it returns marks only pixels of
    the image within 8 rows or columns before the region and 10 after it,
    the reach of two dilations by a 10x10 kernel anchored at its centre. *)
Theorem create_adaptive_mask_spec img tb :
  let b := tb_bbox tb in
  let sy1 := slice_bound (img_height img) (y1 b) in let sy2 := slice_bound (img_height img) (y2 b) in
  let sx1 := slice_bound (img_width img) (x1 b) in let sx2 := slice_bound (img_width img) (x2 b) in
  (create_adaptive_mask img tb = Raise AttributeError /\
     (roi_empty img b = true \/ exists e, adaptive_roi img b = Raise e)) \/
  (roi_empty img b = false /\ exists roi m, adaptive_roi img b = Ok roi /\ create_adaptive_mask img tb = Ok m /\
     forall r c, m r c = true ->
       0 <= r < img_height img /\ 0 <= c < img_width img /\
       sy1 - 8 <= r < sy2 + 10 /\ sx1 - 8 <= c < sx2 + 10).
Proof.
  intros b sy1 sy2 sx1 sx2. unfold create_adaptive_mask. fold b. rewrite create_text_mask_default.
  destruct (roi_empty img b) eqn:Hr; [left; split; [done | by left]|].
  destruct (adaptive_roi img b) as [roi|e] eqn:Ha; [|left; split; [done | right; by exists e]].
  right. split; [done|]. eexists _, _. split; [done|]. split; [done|].
  intros r c Hm. apply dilate_10_twice in Hm as [Hi (dr & dc & Hdr & Hdc & _ & Hp)].
  apply in_image_iff in Hi. unfold place_roi, in_slice in Hp.
  rewrite !andb_true_iff, !Z.leb_le, !Z.ltb_lt in Hp. lia.
Qed.

(** [refine_mask] keeps a marked pixel exactly when no edge lies in its
    3x3 neighbourhood; when the edge detection fails it returns the mask. *)
Lemma refine_mask_spec m img r c :
  refine_mask m img r c = true <->
    m r c = true /\
    match canny_edges img with
    | Raise _ => True
    | Ok e => ~ (in_image (img_height img) (img_width img) r c = true /\
                 exists dr dc, -1 <= dr <= 1 /\ -1 <= dc <= 1 /\
                   in_image (img_height img) (img_width img) (r + dr) (c + dc) = true /\ e (r + dr) (c + dc) = true)
    end.
Proof.
  unfold refine_mask. destruct (canny_edges img) as [e|e]; [|tauto].
  rewrite andb_true_iff, negb_true_iff, <- not_true_iff_false, dilate_spec by lia. change (3 / 2) with 1.
  split; intros [Hm Hn]; split; [done | | done |]; intros [Hi (dr & dc & Hdr & Hdc & Hx)]; apply Hn;
    (split; [done|]); exists dr, dc; split_and!; try lia; tauto.
Qed.

(** [preview_inpainting_mask] has no [try]: it returns a preview only
    when every box has a non-empty region whose thresholding succeeds;
    any other box makes it raise, since [create_smart_mask] falls back
    on [create_text_mask] without a padding. *)
Theorem preview_requires_smart_masks img tbs p :
  preview_inpainting_mask img tbs = Ok p ->
  Forall (fun tb => roi_empty img (tb_bbox tb) = false /\ exists m, smart_threshold img (tb_bbox tb) = Ok m) tbs.
Proof.
  unfold preview_inpainting_mask. generalize img at 2 as pv.
  induction tbs as [|tb tbs IH]; intros pv Hp; [constructor|]. cbn in Hp.
  destruct (create_smart_mask img tb) as [m|e] eqn:Hs; [|discriminate].
  destruct (overlay_mask pv m) as [pv'|e]; [|discriminate].
  apply create_smart_mask_ok in Hs as [Hr Hs]. constructor; [split; [done | by exists m] | exact (IH _ Hp)].
Qed.

End MoreMaskTheorems.

Lemma create_text_mask_rect_witness :
  exists m, create_text_mask page page_box (Some 3) = Ok m /\
    (m 8 8 = true <->
       (Z.max 0 (y1 (tb_bbox page_box) - 3) <= 8 < Z.min (img_height page) (y2 (tb_bbox page_box) + 3) /\
        Z.max 0 (x1 (tb_bbox page_box) - 3) <= 8 < Z.min (img_width page) (x2 (tb_bbox page_box) + 3))).
Proof.
  eexists. split; [reflexivity|].
  apply (create_text_mask_rect page page_box 3); [lia | simpl; lia | simpl; lia | simpl; lia | simpl; lia | reflexivity].
Defined.

Lemma inpaint_combined_mask_fallback_witness :
  [page_box] <> [] /\
  inpaint_combined_mask page [page_box] (str "telea") = inpaint_multiple_textboxes page [page_box] (str "telea").
Proof.
  assert (Hne : [page_box] <> []) by discriminate.
  split; [exact Hne | exact (inpaint_combined_mask_fallback page [page_box] (str "telea") Hne)].
Defined.

Lemma preview_requires_smart_masks_witness :
  preview_inpainting_mask page [page_box] = Ok (100, 80, 1%nat) /\
  Forall (fun tb => roi_empty page (tb_bbox tb) = false /\ exists m, smart_threshold page (tb_bbox tb) = Ok m)
         [page_box].
Proof.
  assert (E : preview_inpainting_mask page [page_box] = Ok (100, 80, 1%nat)) by reflexivity.
  split; [exact E | exact (preview_requires_smart_masks page [page_box] _ E)].
Defined.

(** A box outside the page stops the preview with [AttributeError]. *)
Example preview_outside_box :
  preview_inpainting_mask page [page_box; new_text_box (str "B") (mkBox 90 120 95 130)] = Raise AttributeError.
Proof. reflexivity. Qed.

(** The adaptive mask of the page's box reaches 8 pixels before it and
    10 after it. *)
Example adaptive_mask_reach :
  match create_adaptive_mask page page_box with
  | Ok m => (m 2 2, m 1 2, m 39 39, m 40 39)
  | Raise _ => (false, false, false, false)
  end = (true, false, true, false).
Proof. vm_compute. reflexivity. Qed.
