(* ===== verification/Base64.v ===== *)
(** * Base64: the codec [ImageUtils.image_to_base64] and [base64_to_image] call

    [base64.b64encode] is [binascii.b2a_base64(s, newline=False)], which
    encodes three bytes into four characters of the standard alphabet and
    pads the tail with ['=']; [base64.b64decode(s)] is
    [binascii.a2b_base64(s, strict_mode=False)] after [s.encode('ascii')]:
    it skips every character outside the alphabet, stops at a complete
    padding, and raises [binascii.Error] (a [ValueError]) when the data
    characters leave one or two or three sextets over without padding.
    The decoder follows the loop of CPython's [a2b_base64]: the position
    in the quad, the bits left over and the pads seen.  Bytes and
    characters are [N]s. *)

From Stdlib Require Import NArith ZArith String Ascii.
From stdpp Require Import base list decidable.
From S2P Require Import Prelude.

Local Open Scope N_scope.

(** ** The alphabet *)

Definition b64_alphabet : text :=
  str "ABCDEFGHIJKLMNOPQRSTUVWXYZabcdefghijklmnopqrstuvwxyz0123456789+/".

(** [BASE64_PAD]. *)
Definition b64_pad : N := 61.

(** [table_b2a_base64[v]] for a sextet [v]. *)
Definition table_b2a (v : N) : N := nth (N.to_nat v) b64_alphabet b64_pad.

(** [table_a2b_base64[c]]: the sextet of a character of the alphabet,
    and 64 (invalid) for any other. *)
Definition table_a2b (c : N) : N :=
  if (65 <=? c) && (c <=? 90) then c - 65
  else if (97 <=? c) && (c <=? 122) then c - 71
  else if (48 <=? c) && (c <=? 57) then c + 4
  else if c =? 43 then 62
  else if c =? 47 then 63
  else 64.

(** ** Encoding *)

(** [binascii.b2a_base64]. *)
Fixpoint b2a_base64 (bs : list N) : text :=
  match bs with
  | a :: b :: c :: rest =>
      table_b2a (N.shiftr a 2) ::
      table_b2a (N.lor (N.shiftl (N.land a 3) 4) (N.shiftr b 4)) ::
      table_b2a (N.lor (N.shiftl (N.land b 15) 2) (N.shiftr c 6)) ::
      table_b2a (N.land c 63) :: b2a_base64 rest
  | [a; b] =>
      [table_b2a (N.shiftr a 2);
       table_b2a (N.lor (N.shiftl (N.land a 3) 4) (N.shiftr b 4));
       table_b2a (N.shiftl (N.land b 15) 2); b64_pad]
  | [a] => [table_b2a (N.shiftr a 2); table_b2a (N.shiftl (N.land a 3) 4); b64_pad; b64_pad]
  | [] => []
  end.

(** ** Decoding *)

(** The loop of [a2b_base64] (non-strict) from position [quad_pos] with
    [leftchar] and [pads]; [acc] holds the bytes written, last first.  A
    pad counts only from the third position of a quad on, and completes
    the input when the quad is full; a data character resets [pads]. *)
Fixpoint a2b_go (s : text) (quad_pos : nat) (leftchar : N) (pads : nat) (acc : list N)
  : res (list N) :=
  match s with
  | [] => match quad_pos with 0%nat => Ok (rev acc) | _ => Raise ValueError end
  | c :: s' =>
      if c =? b64_pad then
        if (2 <=? quad_pos)%nat then
          if (4 <=? quad_pos + S pads)%nat then Ok (rev acc)
          else a2b_go s' quad_pos leftchar (S pads) acc
        else a2b_go s' quad_pos leftchar pads acc
      else
        let v := table_a2b c in
        if 64 <=? v then a2b_go s' quad_pos leftchar pads acc
        else match quad_pos with
             | 0%nat => a2b_go s' 1 v 0 acc
             | 1%nat => a2b_go s' 2 (N.land v 15) 0 (N.lor (N.shiftl leftchar 2) (N.shiftr v 4) :: acc)
             | 2%nat => a2b_go s' 3 (N.land v 3) 0 (N.lor (N.shiftl leftchar 4) (N.shiftr v 2) :: acc)
             | _ => a2b_go s' 0 0 0 (N.lor (N.shiftl leftchar 6) v :: acc)
             end
  end.

(** [base64.b64decode] of a [str]: a non-ASCII character makes
    [s.encode('ascii')] raise. *)
Definition b64decode (s : text) : res (list N) :=
  if forallb (fun c => c <? 128) s then a2b_go s 0 0 0 [] else Raise ValueError.

(** [base64.b64encode(b).decode('utf-8')]. *)
Definition b64encode (bs : list N) : text := b2a_base64 bs.

Definition is_byte (b : N) : bool := b <? 256.

(** ** Finite checks *)

(** A sextet made of [x] above [k] low bits [y], and its two parts. *)
Definition sextet_ok (k : N) (x y : N) : bool :=
  let s := N.lor (N.shiftl x k) y in (s <? 64) && (N.shiftr s k =? x) && (N.land s (2 ^ k - 1) =? y).


Lemma forall_below (P : N -> bool) n :
  forallb P (map N.of_nat (seq 0 n)) = true -> forall x, x < N.of_nat n -> P x = true.
Proof.
  rewrite forallb_forall. intros HP x Hx. apply HP. apply in_map_iff.
  exists (N.to_nat x). split; [lia|]. apply in_seq. lia.
Qed.

Lemma table_a2b_b2a v : v < 64 -> table_a2b (table_b2a v) = v.
Proof.
  intros Hv. apply N.eqb_eq.
  exact (forall_below (fun v => table_a2b (table_b2a v) =? v) 64 eq_refl v Hv).
Qed.

Lemma table_b2a_not_pad v : v < 64 -> (table_b2a v =? b64_pad) = false.
Proof.
  intros Hv. apply (forall_below (fun v => negb (table_b2a v =? b64_pad)) 64 eq_refl v) in Hv.
  by destruct (table_b2a v =? b64_pad).
Qed.

Lemma table_b2a_ascii v : v < 64 -> (table_b2a v <? 128) = true.
Proof. exact (forall_below (fun v => table_b2a v <? 128) 64 eq_refl v). Qed.

(** The identities of one byte cut into its high and low bits. *)
Lemma byte_split2 a : a < 256 -> N.lor (N.shiftl (N.shiftr a 2) 2) (N.land a 3) = a.
Proof. intros Ha. apply N.eqb_eq. exact (forall_below (fun a => N.lor (N.shiftl (N.shiftr a 2) 2) (N.land a 3) =? a) 256 eq_refl a Ha). Qed.

Lemma byte_split4 a : a < 256 -> N.lor (N.shiftl (N.shiftr a 4) 4) (N.land a 15) = a.
Proof. intros Ha. apply N.eqb_eq. exact (forall_below (fun a => N.lor (N.shiftl (N.shiftr a 4) 4) (N.land a 15) =? a) 256 eq_refl a Ha). Qed.

Lemma byte_split6 a : a < 256 -> N.lor (N.shiftl (N.shiftr a 6) 6) (N.land a 63) = a.
Proof. intros Ha. apply N.eqb_eq. exact (forall_below (fun a => N.lor (N.shiftl (N.shiftr a 6) 6) (N.land a 63) =? a) 256 eq_refl a Ha). Qed.

(** The parts of a byte, as bounds. *)
Lemma byte_parts a : a < 256 ->
  N.shiftr a 2 < 64 /\ N.land a 3 < 4 /\ N.shiftr a 4 < 16 /\ N.land a 15 < 16 /\
  N.shiftr a 6 < 4 /\ N.land a 63 < 64.
Proof.
  intros Ha. pose proof (forall_below (fun a => (N.shiftr a 2 <? 64) && (N.land a 3 <? 4) &&
    (N.shiftr a 4 <? 16) && (N.land a 15 <? 16) && (N.shiftr a 6 <? 4) && (N.land a 63 <? 64))
    256 eq_refl a Ha) as H. cbn beta in H. rewrite !andb_true_iff, !N.ltb_lt in H. tauto.
Qed.


Lemma sextet_parts k x y :
  sextet_ok k x y = true ->
  N.lor (N.shiftl x k) y < 64 /\ N.shiftr (N.lor (N.shiftl x k) y) k = x /\
  N.land (N.lor (N.shiftl x k) y) (2 ^ k - 1) = y.
Proof. unfold sextet_ok. rewrite !andb_true_iff, N.ltb_lt, !N.eqb_eq. tauto. Qed.

Lemma sextet_4 x y : x < 4 -> y < 16 -> sextet_ok 4 x y = true.
Proof.
  intros Hx Hy.
  pose proof (forall_below (fun x => forallb (fun y => sextet_ok 4 x y) (map N.of_nat (seq 0 16))) 4 eq_refl x Hx) as H.
  exact (forall_below _ 16 H y Hy).
Qed.

Lemma sextet_2 x y : x < 16 -> y < 4 -> sextet_ok 2 x y = true.
Proof.
  intros Hx Hy.
  pose proof (forall_below (fun x => forallb (fun y => sextet_ok 2 x y) (map N.of_nat (seq 0 4))) 16 eq_refl x Hx) as H.
  exact (forall_below _ 4 H y Hy).
Qed.

(** One character of the alphabet read by the decoder. *)
Lemma a2b_sextet v s q lc p acc : v < 64 ->
  a2b_go (table_b2a v :: s) q lc p acc =
  match q with
  | 0%nat => a2b_go s 1 v 0 acc
  | 1%nat => a2b_go s 2 (N.land v 15) 0 (N.lor (N.shiftl lc 2) (N.shiftr v 4) :: acc)
  | 2%nat => a2b_go s 3 (N.land v 3) 0 (N.lor (N.shiftl lc 4) (N.shiftr v 2) :: acc)
  | _ => a2b_go s 0 0 0 (N.lor (N.shiftl lc 6) v :: acc)
  end.
Proof.
  intros Hv. cbn [a2b_go]. rewrite table_b2a_not_pad, table_a2b_b2a by done.
  replace (64 <=? v) with false by (symmetry; apply N.leb_gt; lia). done.
Qed.



Lemma table_b2a_ascii_any v : (table_b2a v <? 128) = true.
Proof.
  unfold table_b2a. destruct (nth_in_or_default (N.to_nat v) b64_alphabet b64_pad) as [Hin| ->]; [|done].
  assert (Hall : forallb (fun c => c <? 128) b64_alphabet = true) by reflexivity.
  rewrite forallb_forall in Hall. by apply Hall.
Qed.

(** Strong induction along the triples the encoder consumes. *)
Lemma triples_ind (P : list N -> Prop) :
  P [] -> (forall a, P [a]) -> (forall a b, P [a; b]) ->
  (forall a b c rest, P rest -> P (a :: b :: c :: rest)) -> forall bs, P bs.
Proof.
  intros H0 H1 H2 H3 bs. remember (length bs) as n eqn:Hn.
  revert bs Hn. induction n as [n IH] using lt_wf_ind. intros [|a [|b [|c rest]]] Hn; auto.
  apply H3, (IH (length rest)); cbn in Hn; [lia | done].
Qed.

Lemma b2a_base64_ascii bs : forallb (fun c => c <? 128) (b2a_base64 bs) = true.
Proof.
  induction bs using triples_ind; cbn [b2a_base64 forallb]; rewrite ?table_b2a_ascii_any; try done.
Qed.

Lemma b2a_base64_length bs : length (b2a_base64 bs) = (4 * ((length bs + 2) / 3))%nat.
Proof.
  induction bs as [| | |a b c rest IH] using triples_ind; try done.
  cbn [b2a_base64 length]. rewrite IH.
  replace (S (S (S (length rest))) + 2)%nat with (length rest + 2 + 1 * 3)%nat by lia.
  rewrite Nat.div_add by lia. lia.
Qed.

(** The decoder reads back what the encoder wrote, three bytes at a
    time, and stops at the padding of the tail. *)
Lemma a2b_b2a_go bs : forall acc, forallb is_byte bs = true ->
  a2b_go (b2a_base64 bs) 0 0 0 acc = Ok (rev acc ++ bs).
Proof.
  induction bs as [| a | a b | a b c rest IH] using triples_ind; intros acc Hb;
    cbn [forallb] in Hb; unfold is_byte in Hb;
    rewrite ?andb_true_iff, ?N.ltb_lt in Hb.
  - cbn. by rewrite app_nil_r.
  - destruct Hb as [Ha _]. destruct (byte_parts a Ha) as (Ha2 & Ha3 & _).
    destruct (sextet_parts 4 _ _ (sextet_4 (N.land a 3) 0 Ha3 ltac:(lia))) as (Hs & Hs1 & _).
    rewrite N.lor_0_r in Hs, Hs1. cbn [b2a_base64].
    rewrite a2b_sextet, a2b_sextet by done. cbn. rewrite Hs1, byte_split2 by done. done.
  - destruct Hb as (Ha & Hb & _). destruct (byte_parts a Ha) as (Ha2 & Ha3 & _).
    destruct (byte_parts b Hb) as (_ & _ & Hb4 & Hb15 & _).
    destruct (sextet_parts 4 _ _ (sextet_4 _ _ Ha3 Hb4)) as (Hs & Hs1 & Hs2).
    destruct (sextet_parts 2 _ _ (sextet_2 (N.land b 15) 0 Hb15 ltac:(lia))) as (Ht & Ht1 & _).
    rewrite N.lor_0_r in Ht, Ht1. change (2 ^ 4 - 1) with 15 in Hs2. cbn [b2a_base64].
    rewrite !a2b_sextet by done. cbn. rewrite Hs1, Hs2, Ht1, byte_split2, byte_split4 by done. by rewrite <- app_assoc.
  - destruct Hb as (Ha & Hb & Hc & Hr). destruct (byte_parts a Ha) as (Ha2 & Ha3 & _).
    destruct (byte_parts b Hb) as (_ & _ & Hb4 & Hb15 & _).
    destruct (byte_parts c Hc) as (_ & _ & _ & _ & Hc6 & Hc63).
    destruct (sextet_parts 4 _ _ (sextet_4 _ _ Ha3 Hb4)) as (Hs & Hs1 & Hs2).
    destruct (sextet_parts 2 _ _ (sextet_2 _ _ Hb15 Hc6)) as (Ht & Ht1 & Ht2).
    change (2 ^ 4 - 1) with 15 in Hs2. change (2 ^ 2 - 1) with 3 in Ht2. cbn [b2a_base64].
    rewrite !a2b_sextet by done. cbn -[a2b_go].
    rewrite Hs1, Hs2, Ht1, Ht2, byte_split2, byte_split4, byte_split6 by done.
    rewrite IH by done. cbn. by rewrite <- !app_assoc.
Qed.

(** [base64.b64decode] reads back every byte string
    [base64.b64encode] writes: the encoder's output is ASCII, and the
    decoder recovers the bytes, tail and padding included. *)
Theorem b64_roundtrip bs : forallb is_byte bs = true -> b64decode (b64encode bs) = Ok bs.
Proof.
  intros Hb. unfold b64decode, b64encode. rewrite b2a_base64_ascii.
  by rewrite a2b_b2a_go.
Qed.

(** ** Concrete runs *)

(** ["YWJ"]: three data characters and no padding, [Incorrect padding]. *)
Example b64decode_incorrect_padding : b64decode (str "YWJ") = Raise ValueError.
Proof. reflexivity. Qed.

(** Five data characters: one more than a multiple of four. *)
Example b64decode_one_over : b64decode (str "YWJjZ") = Raise ValueError.
Proof. reflexivity. Qed.

(** Characters outside the alphabet are skipped, and a complete padding
    ends the input. *)
Example b64decode_lenient : b64decode (str "YW*Jj") = Ok [97; 98; 99] /\ b64decode (str "YQ==YWJj") = Ok [97].
Proof. split; reflexivity. Qed.

Example b64encode_abc : b64encode [97; 98; 99; 100] = str "YWJjZA==".
Proof. reflexivity. Qed.

Lemma b64_roundtrip_witness :
  forallb is_byte [0; 255; 128; 7] = true /\ b64decode (b64encode [0; 255; 128; 7]) = Ok [0; 255; 128; 7].
Proof.
  assert (H : forallb is_byte [0; 255; 128; 7] = true) by reflexivity.
  split; [exact H | exact (b64_roundtrip _ H)].
Defined.
