(* ===== verification/ImageUtils.v ===== *)
(** * ImageUtils: the image helpers of utils/image_utils.py

    [ImageUtils] is a class of static methods around OpenCV and PIL.  The
    library calls are the operations of the class [ImageOps] (decoding,
    encoding, reading and writing files, [cv2.resize], numpy slicing, the
    drawing and filtering calls), with the laws [ImageOpsLaws] on the
    shapes they produce; what is modelled is the code around them: the
    arithmetic of [resize_image] in IEEE double precision, the clipping
    of [crop_region], the labels of [draw_text_boxes], and the [try]
    blocks that turn a failure into the input image or into a
    [ProcessingError].  [validate_image] and [validate_text_box_bounds]
    are in [Http]. *)

From Stdlib Require Import NArith ZArith String Ascii Floats.
From stdpp Require Import base list decidable.
From S2P Require Import Prelude Schemas Inpaint Base64.

Local Open Scope Z_scope.

(** ** Python floats *)

(** [float(z)] for an integer below 2^53 in absolute value, exact. *)
Definition float_of_Z (z : Z) : float :=
  if z <? 0 then PrimFloat.opp (PrimFloat.of_uint63 (Uint63.of_Z (- z)))
  else PrimFloat.of_uint63 (Uint63.of_Z z).

(** [int(x)] for a float: truncation toward zero; [int(inf)] raises
    [OverflowError] and [int(nan)] [ValueError]. *)
Definition py_int_of_float (f : float) : res Z :=
  match Prim2SF f with
  | S754_zero _ => Ok 0
  | S754_finite s m e =>
      let v := if 0 <=? e then Z.pos m * 2 ^ e else Z.pos m / 2 ^ (- e) in
      Ok (if s then - v else v)
  | S754_infinity _ => Raise OverflowError
  | S754_nan => Raise ValueError
  end.

(** [a / b] on two integers: [ZeroDivisionError] for [b = 0]. *)
Definition py_true_div (a b : Z) : res float :=
  if b =? 0 then Raise ZeroDivisionError else Ok (PrimFloat.div (float_of_Z a) (float_of_Z b)).

(** [min(a, b, c)]: the first of the smallest. *)
Definition py_min3 (a b c : float) : float :=
  let m := if PrimFloat.ltb b a then b else a in
  if PrimFloat.ltb c m then c else m.

Definition py_inf : float := PrimFloat.infinity.

(** ** The image operations *)

(** One drawing call of [draw_text_boxes] on the image. *)
Inductive DrawOp : Type :=
  | Rectangle (p1 p2 : Z * Z) (color : Z * Z * Z) (thickness : Z)  (** [cv2.rectangle] *)
  | PutText (label : text) (org : Z * Z) (color : Z * Z * Z).      (** [cv2.putText], scale 0.5, width 1 *)

Class ImageOps (Img : Type) := {
  (** [image.shape[:2]], as (height, width) *)
  shape2 : Img -> Z * Z;
  (** [len(image.shape) == 3], and [image.shape[2]] *)
  is_color : Img -> bool;
  img_depth : Img -> Z;
  (** [image[y1:y2, x1:x2]] *)
  np_slice : Img -> Z -> Z -> Z -> Z -> Img;
  (** [cv2.resize(image, (w, h), interpolation=cv2.INTER_AREA)] *)
  cv_resize : Img -> Z -> Z -> res Img;
  (** [Image.open(io.BytesIO(b))] converted to RGB then to BGR *)
  pil_decode : list N -> res Img;
  (** BGR to RGB, [Image.fromarray] and [save(format=...)] *)
  pil_encode : Img -> string -> res (list N);
  (** [cv2.imread(path)], [None] when the file cannot be read *)
  cv_imread : string -> res (option Img);
  (** [cv2.imwrite(path, image)] *)
  cv_imwrite : Img -> string -> res bool;
  (** [cv2.getTextSize(label, FONT_HERSHEY_SIMPLEX, 0.5, 1)[0]] *)
  text_size : text -> res (Z * Z);
  cv_draw : Img -> DrawOp -> res Img;
  (** grayscale, [CLAHE(2.0, (8, 8)).apply], [bilateralFilter(5, 50, 50)],
      and back to BGR *)
  cv_gray : Img -> res Img;
  cv_clahe : Img -> res Img;
  cv_bilateral : Img -> res Img;
  cv_gray2bgr : Img -> res Img;
  (** [str(image.dtype)] and [image.nbytes] *)
  img_dtype : Img -> string;
  img_nbytes : Img -> Z
}.

(** The shapes numpy and OpenCV give. *)
Class ImageOpsLaws (Img : Type) `{ImageOps Img} := {
  np_slice_shape : forall img a b c d,
    shape2 (np_slice img a b c d) =
      (slice_len (shape2 img).1 a b, slice_len (shape2 img).2 c d);
  cv_resize_shape : forall img w h img', cv_resize img w h = Ok img' -> shape2 img' = (h, w);
  (** [dsize] must have a positive area ([cv2.error] otherwise) *)
  cv_resize_nonpos : forall img w h, (w <= 0 \/ h <= 0) -> exists e, cv_resize img w h = Raise e
}.

Section ImageUtils.
Context {Img : Type} `{ImageOps Img}.

(** [load_image_from_bytes]: any failure is [ImageValidationError]. *)
Definition load_image_from_bytes (bs : list N) : res Img :=
  match pil_decode bs with
  | Ok img => Ok img
  | Raise _ => Raise ImageValidationError
  end.

(** [load_image_from_file]: [None] and any failure are
    [ImageValidationError] (the one raised inside the [try] is caught and
    raised again). *)
Definition load_image_from_file (path : string) : res Img :=
  match cv_imread path with
  | Ok (Some img) => Ok img
  | Ok None | Raise _ => Raise ImageValidationError
  end.

(** [save_image_to_bytes]: any failure is [ProcessingError]. *)
Definition save_image_to_bytes (img : Img) (format : string) : res (list N) :=
  match pil_encode img format with
  | Ok bs => Ok bs
  | Raise _ => Raise ProcessingError
  end.

(** [save_image_to_file]. *)
Definition save_image_to_file (img : Img) (path : string) : res unit :=
  match cv_imwrite img path with
  | Ok true => Ok tt
  | Ok false | Raise _ => Raise ProcessingError
  end.

(** The scale of one side: [max_side / side if max_side else inf]. *)
Definition side_scale (max_side : option Z) (side : Z) : res float :=
  match max_side with
  | Some m => if m =? 0 then Ok py_inf else py_true_div m side
  | None => Ok py_inf
  end.

(** The target size [resize_image] computes, as (width, height). *)
Definition resize_dims (h w : Z) (max_width max_height : option Z) (maintain_aspect : bool)
  : res (Z * Z) :=
  if maintain_aspect then
    match side_scale max_width w, side_scale max_height h with
    | Raise e, _ | _, Raise e => Raise e
    | Ok sw, Ok sh =>
        let scale := py_min3 sw sh 1%float in
        match py_int_of_float (PrimFloat.mul (float_of_Z w) scale),
              py_int_of_float (PrimFloat.mul (float_of_Z h) scale) with
        | Ok nw, Ok nh => Ok (nw, nh)
        | Raise e, _ | _, Raise e => Raise e
        end
    end
  else
    Ok (match max_width with Some m => if m =? 0 then w else m | None => w end,
        match max_height with Some m => if m =? 0 then h else m | None => h end).

(** [resize_image]: every failure returns the image unchanged. *)
Definition resize_image (img : Img) (max_width max_height : option Z) (maintain_aspect : bool) : Img :=
  let '(h, w) := shape2 img in
  match max_width, max_height with
  | None, None => img
  | _, _ =>
      match resize_dims h w max_width max_height maintain_aspect with
      | Raise _ => img
      | Ok (nw, nh) =>
          if (nw =? w) && (nh =? h) then img
          else match cv_resize img nw nh with Ok r => r | Raise _ => img end
      end
  end.

(** [draw_text_boxes]: per box a rectangle, the label's filled
    background and the label [f"{i}: {text[:20]}..."]; any failure
    returns the input, untouched since the drawing is on a copy. *)
Definition box_label (i : nat) (tb : TextBox) : text :=
  str_of_nat i ++ str ": " ++ take 20 (tb_text tb) ++ str "...".

(** One box, in the order of the calls. *)
Definition draw_one (color : Z * Z * Z) (thickness : Z) (i : nat) (img : Img) (tb : TextBox) : res Img :=
  let b := tb_bbox tb in
  match cv_draw img (Rectangle (x1 b, y1 b) (x2 b, y2 b) color thickness) with
  | Raise e => Raise e
  | Ok r1 =>
      let label := box_label i tb in
      match text_size label with
      | Raise e => Raise e
      | Ok (lw, lh) =>
          match cv_draw r1 (Rectangle (x1 b, y1 b - lh - 5) (x1 b + lw, y1 b) color (-1)) with
          | Raise e => Raise e
          | Ok r2 => cv_draw r2 (PutText label (x1 b, y1 b - 5) (255, 255, 255))
          end
      end
  end.

Fixpoint draw_boxes_from (i : nat) (color : Z * Z * Z) (thickness : Z) (img : Img) (tbs : list TextBox)
  : res Img :=
  match tbs with
  | [] => Ok img
  | tb :: tbs' =>
      match draw_one color thickness i img tb with
      | Ok img' => draw_boxes_from (S i) color thickness img' tbs'
      | Raise e => Raise e
      end
  end.

Definition draw_text_boxes (img : Img) (tbs : list TextBox) (color : Z * Z * Z) (thickness : Z) : Img :=
  match draw_boxes_from 0 color thickness img tbs with Ok r => r | Raise _ => img end.

(** [crop_region]: the padded box clipped to the image, sliced with
    numpy's rules; nothing in it raises. *)
Definition crop_region (img : Img) (b : BoundingBox) (padding : Z) : Img :=
  let '(h, w) := shape2 img in
  let cx1 := Z.max 0 (x1 b - padding) in
  let cy1 := Z.max 0 (y1 b - padding) in
  let cx2 := Z.min w (x2 b + padding) in
  let cy2 := Z.min h (y2 b + padding) in
  np_slice img cy1 cy2 cx1 cx2.

(** [enhance_image_for_ocr]: any failure returns the input. *)
Definition enhance_image_for_ocr (img : Img) : Img :=
  let run :=
    match (if is_color img then cv_gray img else Ok img) with
    | Raise e => Raise e
    | Ok gray =>
        match cv_clahe gray with
        | Raise e => Raise e
        | Ok e1 =>
            match cv_bilateral e1 with
            | Raise e => Raise e
            | Ok e2 => if is_color img then cv_gray2bgr e2 else Ok e2
            end
        end
    end in
  match run with Ok r => r | Raise _ => img end.

(** [image_to_base64] and [base64_to_image]: every failure is
    [ProcessingError]. *)
Definition image_to_base64 (img : Img) (format : string) : res text :=
  match save_image_to_bytes img format with
  | Ok bs => Ok (b64encode bs)
  | Raise _ => Raise ProcessingError
  end.

Definition base64_to_image (s : text) : res Img :=
  match b64decode s with
  | Raise _ => Raise ProcessingError
  | Ok bs => match load_image_from_bytes bs with Ok img => Ok img | Raise _ => Raise ProcessingError end
  end.

(** [get_image_info]: [None] stands for the [{}] returned when the
    aspect ratio divides by a zero height. *)
Record ImageInfo : Type := mkImageInfo {
  info_width : Z;
  info_height : Z;
  info_channels : Z;
  info_dtype : string;
  info_size_bytes : Z;
  info_aspect_ratio : float
}.

Definition get_image_info (img : Img) : option ImageInfo :=
  let '(h, w) := shape2 img in
  match py_true_div w h with
  | Ok ar => Some (mkImageInfo w h (if is_color img then img_depth img else 1)
                              (img_dtype img) (img_nbytes img) ar)
  | Raise _ => None
  end.

End ImageUtils.

(** ** A concrete image: its shape only

    Enough to run the helpers: slicing and resizing compute the shape,
    and the codec writes the two sides as two bytes. *)
Definition shape_encode (img : Z * Z) : res (list N) :=
  if (0 <=? img.1) && (img.1 <? 256) && (0 <=? img.2) && (img.2 <? 256)
  then Ok [Z.to_N img.1; Z.to_N img.2] else Raise ValueError.

Definition shape_decode (bs : list N) : res (Z * Z) :=
  match bs with [h; w] => Ok (Z.of_N h, Z.of_N w) | _ => Raise ValueError end.

#[export] Instance shape_ops : ImageOps (Z * Z) := {
  shape2 img := img;
  is_color _ := true;
  img_depth _ := 3;
  np_slice img a b c d := (slice_len img.1 a b, slice_len img.2 c d);
  cv_resize _ w h := if (0 <? w) && (0 <? h) then Ok (h, w) else Raise RuntimeError;
  pil_decode := shape_decode;
  pil_encode img _ := shape_encode img;
  cv_imread _ := Ok None;
  cv_imwrite _ _ := Ok false;
  text_size l := Ok (Z.of_nat (length l) * 9, 12);
  cv_draw img _ := Ok img;
  cv_gray := Ok; cv_clahe := Ok; cv_bilateral := Ok; cv_gray2bgr := Ok;
  img_dtype _ := "uint8"%string;
  img_nbytes img := img.1 * img.2 * 3
}.

(** ** Theorems *)

#[export] Instance shape_laws : ImageOpsLaws (Z * Z).
Proof.
  split.
  - done.
  - intros [h0 w0] w h img'. cbn. destruct ((0 <? w) && (0 <? h)); [by intros [= <-] | done].
  - intros i w h Hn. cbn. exists RuntimeError.
    by replace ((0 <? w) && (0 <? h)) with false by lia.
Qed.

(** ** Float comparisons and [min] *)

(** [<] on doubles is a strict order on the non-NaN values; a NaN
    compares false with everything. *)
Lemma SFltb_irrefl x : SFltb x x = false.
Proof.
  unfold SFltb, SFcompare. destruct x as [s|s| |s m e]; try destruct s; try reflexivity;
    change (Pos.compare_cont Eq) with Pos.compare; by rewrite Z.compare_refl, Pos.compare_refl.
Qed.

Lemma SFltb_asym x y : SFltb x y = true -> SFltb y x = false.
Proof.
  unfold SFltb, SFcompare.
  destruct x as [sx|sx| |sx mx ex], y as [sy|sy| |sy my ey];
    try destruct sx; try destruct sy; try discriminate; try reflexivity;
    change (Pos.compare_cont Eq) with Pos.compare;
    repeat match goal with
    | |- context [Z.compare ?a ?b] => destruct (Z.compare_spec a b)
    | |- context [Pos.compare ?a ?b] => destruct (Pos.compare_spec a b)
    end; intros; try reflexivity; try discriminate; try lia.
Qed.

Lemma SFltb_trans x y z : SFltb x y = true -> SFltb y z = true -> SFltb x z = true.
Proof.
  unfold SFltb, SFcompare.
  destruct x as [sx|sx| |sx mx ex], y as [sy|sy| |sy my ey], z as [sz|sz| |sz mz ez];
    try destruct sx; try destruct sy; try destruct sz; try discriminate; try reflexivity;
    change (Pos.compare_cont Eq) with Pos.compare;
    repeat match goal with
    | |- context [Z.compare ?a ?b] => destruct (Z.compare_spec a b)
    | |- context [Pos.compare ?a ?b] => destruct (Pos.compare_spec a b)
    end; intros; try reflexivity; try discriminate; try lia.
Qed.

(** [min(a, b, c)] is one of its arguments, and none of them is below it. *)
Lemma py_min3_spec a b c :
  let r := py_min3 a b c in
  (r = a \/ r = b \/ r = c) /\
  PrimFloat.ltb a r = false /\ PrimFloat.ltb b r = false /\ PrimFloat.ltb c r = false.
Proof.
  unfold py_min3. rewrite !ltb_spec.
  pose proof (SFltb_irrefl (Prim2SF a)). pose proof (SFltb_irrefl (Prim2SF b)).
  pose proof (SFltb_irrefl (Prim2SF c)).
  destruct (SFltb (Prim2SF b) (Prim2SF a)) eqn:Eba; rewrite ?ltb_spec, ?Eba.
  - destruct (SFltb (Prim2SF c) (Prim2SF b)) eqn:Ecb; rewrite ?ltb_spec.
    + split_and!; [by right; right | | by apply SFltb_asym | done].
      destruct (SFltb (Prim2SF a) (Prim2SF c)) eqn:Eac; [|done].
      pose proof (SFltb_asym _ _ Eba). by rewrite (SFltb_trans _ _ _ Eac Ecb) in *.
    + split_and!; [by right; left | by apply SFltb_asym | done | done].
  - destruct (SFltb (Prim2SF c) (Prim2SF a)) eqn:Eca; rewrite ?ltb_spec.
    + split_and!; [by right; right | by apply SFltb_asym | | done].
      destruct (SFltb (Prim2SF b) (Prim2SF c)) eqn:Ebc; [|done].
      by rewrite (SFltb_trans _ _ _ Ebc Eca) in Eba.
    + split_and!; [by left | done | done | done].
Qed.

Section Laws.
Context {Img : Type} `{ImageOpsLaws Img}.

Lemma cv_resize_ok img w h r :
  cv_resize img w h = Ok r -> 0 < w /\ 0 < h /\ shape2 r = (h, w).
Proof.
  intros Hr. split_and!; [| | by eapply cv_resize_shape].
  all: apply Z.nle_gt; intros Hn; destruct (cv_resize_nonpos img w h ltac:(lia)); congruence.
Qed.

(** The size [resize_dims] computes: without [maintain_aspect], each
    limit or, when it is missing or 0, the side itself; with it, both
    sides scaled by one factor that is [max_width / w], [max_height / h]
    or [1.0] and is below none of them ([min(scale_w, scale_h, 1.0)]: the
    image is never enlarged), truncated by [int()]. *)
Lemma resize_dims_spec h w max_width max_height maintain_aspect nw nh :
  resize_dims h w max_width max_height maintain_aspect = Ok (nw, nh) ->
  if maintain_aspect then
    exists sw sh s, side_scale max_width w = Ok sw /\ side_scale max_height h = Ok sh /\
      (s = sw \/ s = sh \/ s = 1%float) /\
      PrimFloat.ltb sw s = false /\ PrimFloat.ltb sh s = false /\ PrimFloat.ltb 1 s = false /\
      py_int_of_float (PrimFloat.mul (float_of_Z w) s) = Ok nw /\
      py_int_of_float (PrimFloat.mul (float_of_Z h) s) = Ok nh
  else
    nw = match max_width with Some m => if m =? 0 then w else m | None => w end /\
    nh = match max_height with Some m => if m =? 0 then h else m | None => h end.
Proof.
  unfold resize_dims. destruct maintain_aspect; [|by intros [= <- <-]].
  destruct (side_scale max_width w) as [sw|e], (side_scale max_height h) as [sh|e']; try discriminate.
  destruct (py_min3_spec sw sh 1%float) as (Hin & Hw & Hh & H1).
  cbv zeta. set (sc := py_min3 sw sh 1%float) in *.
  destruct (py_int_of_float (PrimFloat.mul (float_of_Z w) sc)) as [x|e] eqn:Ex,
           (py_int_of_float (PrimFloat.mul (float_of_Z h) sc)) as [y|e'] eqn:Ey; try discriminate.
  intros [= <- <-]. by exists sw, sh, sc.
Qed.

(** C19. [resize_image] returns its input or an image of exactly the
    positive size [resize_dims] computed, and it does resize whenever a
    limit is given, that size differs from the image's and [cv2.resize]
    succeeds; the size keeps the aspect by one factor, the minimum of
    the two limits' scales and [1.0], so the image is never enlarged
    (or, without [maintain_aspect], it is the limits themselves). *)
Theorem resize_image_result img max_width max_height maintain_aspect :
  let h := (shape2 img).1 in
  let w := (shape2 img).2 in
  let out := resize_image img max_width max_height maintain_aspect in
  (out = img \/
   exists nw nh, resize_dims h w max_width max_height maintain_aspect = Ok (nw, nh) /\
     0 < nw /\ 0 < nh /\ shape2 out = (nh, nw)) /\
  (forall nw nh r, (max_width, max_height) <> (None, None) ->
     resize_dims h w max_width max_height maintain_aspect = Ok (nw, nh) -> (nw, nh) <> (w, h) ->
     cv_resize img nw nh = Ok r -> out = r) /\
  (forall nw nh, resize_dims h w max_width max_height maintain_aspect = Ok (nw, nh) ->
     if maintain_aspect then
       exists sw sh s, side_scale max_width w = Ok sw /\ side_scale max_height h = Ok sh /\
         (s = sw \/ s = sh \/ s = 1%float) /\
         PrimFloat.ltb sw s = false /\ PrimFloat.ltb sh s = false /\ PrimFloat.ltb 1 s = false /\
         py_int_of_float (PrimFloat.mul (float_of_Z w) s) = Ok nw /\
         py_int_of_float (PrimFloat.mul (float_of_Z h) s) = Ok nh
     else
       nw = match max_width with Some m => if m =? 0 then w else m | None => w end /\
       nh = match max_height with Some m => if m =? 0 then h else m | None => h end).
Proof.
  intros h w out. split_and!; [| |intros nw nh; apply resize_dims_spec].
  - subst out. unfold resize_image. subst h w. destruct (shape2 img) as [h w] eqn:Hs. cbn [fst snd].
    destruct max_width, max_height; try (left; reflexivity);
      (destruct (resize_dims h w _ _ maintain_aspect) as [[nw nh]|e] eqn:Hd; [|left; reflexivity]);
      (destruct ((nw =? w) && (nh =? h)); [left; reflexivity|]);
      (destruct (cv_resize img nw nh) as [r|e] eqn:Hr; [|left; reflexivity]);
      right; exists nw, nh; (split; [done|]); by apply (cv_resize_ok img).
  - intros nw nh r Hm Hd Hne Hr. subst out h w. unfold resize_image.
    destruct (shape2 img) as [h w]. cbn [fst snd] in Hd, Hne.
    destruct ((nw =? w) && (nh =? h)) eqn:Heq.
    + apply andb_true_iff in Heq as [E1 E2]. apply Z.eqb_eq in E1, E2. by subst.
    + destruct max_width, max_height; try congruence; by rewrite Hd, Heq, Hr.
Qed.

(** A size computed as zero or less leaves the image as it is. *)
Lemma resize_image_nonpos img max_width max_height maintain_aspect nw nh :
  (max_width, max_height) <> (None, None) ->
  resize_dims (shape2 img).1 (shape2 img).2 max_width max_height maintain_aspect = Ok (nw, nh) ->
  (nw <= 0 \/ nh <= 0) -> resize_image img max_width max_height maintain_aspect = img.
Proof.
  intros Hm Hd Hn. unfold resize_image. destruct (shape2 img) as [h w]. cbn [fst snd] in Hd.
  destruct (cv_resize_nonpos img nw nh Hn) as [e He].
  destruct max_width, max_height; try congruence; rewrite Hd, He;
    by destruct ((nw =? w) && (nh =? h)).
Qed.

Lemma slice_len_bounds L a b : 0 <= L -> 0 <= slice_len L a b <= L.
Proof. intros HL. unfold slice_len, slice_bound. destruct (Z.ltb_spec a 0), (Z.ltb_spec b 0); lia. Qed.

(** [crop_region] never leaves the image: each side of the crop is
    between 0 and the image's. *)
Lemma crop_region_within img b padding :
  0 <= (shape2 img).1 -> 0 <= (shape2 img).2 ->
  0 <= (shape2 (crop_region img b padding)).1 <= (shape2 img).1 /\
  0 <= (shape2 (crop_region img b padding)).2 <= (shape2 img).2.
Proof.
  intros Hh Hw. unfold crop_region. destruct (shape2 img) as [h w] eqn:Hs.
  rewrite np_slice_shape, Hs. cbn in *. split; apply slice_len_bounds; lia.
Qed.

End Laws.

(** ** The codec around base64 *)

Section Roundtrip.
Context {Img : Type} `{ImageOps Img}.

(** PNG is lossless: the bytes of an encoded image decode back to it. *)
Hypothesis png_lossless : forall img bs,
  pil_encode img "PNG" = Ok bs -> forallb is_byte bs = true /\ pil_decode bs = Ok img.

(** C18. [base64_to_image] inverts [image_to_base64] in PNG: the image
    comes back from the base64 text of its PNG bytes. *)
Theorem image_base64_roundtrip img s :
  image_to_base64 img "PNG" = Ok s -> base64_to_image s = Ok img.
Proof.
  unfold image_to_base64, save_image_to_bytes.
  destruct (pil_encode img "PNG") as [bs|e] eqn:He; [|done]. intros [= <-].
  destruct (png_lossless img bs He) as [Hb Hd].
  unfold base64_to_image, b64decode, b64encode. rewrite b2a_base64_ascii, a2b_b2a_go by done.
  cbn. unfold load_image_from_bytes. by rewrite Hd.
Qed.

End Roundtrip.

Lemma get_image_info_zero_height {Img} `{ImageOps Img} img :
  (shape2 img).1 = 0 -> get_image_info img = None.
Proof. unfold get_image_info. destruct (shape2 img) as [h w]. cbn. intros ->. reflexivity. Qed.

Lemma shape_png_lossless img bs :
  pil_encode img "PNG" = Ok bs -> forallb is_byte bs = true /\ pil_decode bs = Ok img.
Proof.
  destruct img as [h w]. cbn. unfold shape_encode. cbn.
  destruct (Z.leb_spec 0 h), (Z.ltb_spec h 256), (Z.leb_spec 0 w), (Z.ltb_spec w 256); cbn; try done.
  intros [= <-]. unfold is_byte. cbn. rewrite !Z2N.id by lia. split; [|done].
  rewrite !andb_true_iff, !N.ltb_lt. lia.
Qed.

(** ** Concrete runs *)

(** A page 1000 wide and 4 high limited to a width of 100: the height
    becomes [int(4 * 0.1) = 0], [cv2.resize] refuses the size, and the
    image comes back 1000 wide. *)
Example resize_thin_unchanged :
  resize_dims 4 1000 (Some 100) None true = Ok (100, 0) /\
  resize_image ((4, 1000) : Z * Z) (Some 100) None true = (4, 1000).
Proof. split; reflexivity. Qed.

(** In double precision [49 * (1 / 49)] is [0.9999999999999999]: the
    width truncates to 0 where the exact product is 1. *)
Example resize_dims_rounding : resize_dims 49 49 (Some 1) None true = Ok (0, 0).
Proof. vm_compute. reflexivity. Qed.

Example resize_page : resize_image ((600, 800) : Z * Z) (Some 400) (Some 400) true = (300, 400).
Proof. vm_compute. reflexivity. Qed.

(** A box wholly above and left of a 100 x 100 image: the clipped end
    [-10] counts from the end of the axis, and the crop is 90 x 90. *)
Example crop_region_negative_box :
  crop_region ((100, 100) : Z * Z) (mkBox (-50) (-50) (-10) (-10)) 0 = (90, 90).
Proof. reflexivity. Qed.

Lemma image_base64_roundtrip_witness :
  image_to_base64 ((3, 4) : Z * Z) "PNG" = Ok (b64encode [3%N; 4%N]) /\
  base64_to_image (b64encode [3%N; 4%N]) = Ok ((3, 4) : Z * Z).
Proof.
  assert (He : image_to_base64 ((3, 4) : Z * Z) "PNG" = Ok (b64encode [3%N; 4%N])) by reflexivity.
  split; [exact He | exact (image_base64_roundtrip shape_png_lossless _ _ He)].
Defined.

Lemma resize_image_result_witness :
  let img := ((600, 800) : Z * Z) in
  let h := (shape2 img).1 in
  let w := (shape2 img).2 in
  let out := resize_image img (Some 400) (Some 400) true in
  (out = img \/
   exists nw nh, resize_dims h w (Some 400) (Some 400) true = Ok (nw, nh) /\
     0 < nw /\ 0 < nh /\ shape2 out = (nh, nw)) /\
  (forall nw nh r, (Some 400, Some 400) <> (None, None) ->
     resize_dims h w (Some 400) (Some 400) true = Ok (nw, nh) -> (nw, nh) <> (w, h) ->
     cv_resize img nw nh = Ok r -> out = r) /\
  (forall nw nh, resize_dims h w (Some 400) (Some 400) true = Ok (nw, nh) ->
     exists sw sh s, side_scale (Some 400) w = Ok sw /\ side_scale (Some 400) h = Ok sh /\
       (s = sw \/ s = sh \/ s = 1%float) /\
       PrimFloat.ltb sw s = false /\ PrimFloat.ltb sh s = false /\ PrimFloat.ltb 1 s = false /\
       py_int_of_float (PrimFloat.mul (float_of_Z w) s) = Ok nw /\
       py_int_of_float (PrimFloat.mul (float_of_Z h) s) = Ok nh).
Proof. exact (resize_image_result ((600, 800) : Z * Z) (Some 400) (Some 400) true). Defined.
