(* ===== verification/ServiceStatus.v ===== *)
(** * ServiceStatus: what the translators and their manager report

    The reporting methods of services/translate/: [get_usage_info],
    [get_usage_stats] and [reset_quota_status] of [DeepLTranslator],
    [get_usage_stats] and [reset_rate_limit] of [GoogleTranslator], and
    [get_service_status] and [get_language_support_matrix] of
    [TranslationManager].  Reports are dicts of [PyVal]; what the DeepL
    client's [get_usage()] answers is an input. *)

From Stdlib Require Import NArith ZArith String Floats.
From stdpp Require Import base list decidable.
From S2P Require Import Prelude Schemas Exceptions TextHeuristics Translator TranslationManager ImageUtils.

Local Open Scope Z_scope.
Local Open Scope st_scope.

(** What [self.translator.get_usage()] answers: the characters used and
    the limit ([None] when the account has none), or [None] when the
    query raises. *)
Definition DeepLUsage : Type := option (Z * option Z).

(** [dict.update]: existing keys keep their place, new ones are added at
    the end. *)
Definition dict_update {V} (d u : dict V) : dict V :=
  fold_left (fun acc kv => dict_set acc kv.1 kv.2) u d.

Section Reports.
Context `{UnicodeDB}.
Variable net : Net.
Variable usage : DeepLUsage.

(** [DeepLTranslator.get_usage_info]: [{}] without a client, and when
    the query or the arithmetic raises ([limit - count] on [None], a
    division by a zero limit), which the [except] swallows. *)
Definition deepl_get_usage_info (t : TState) : dict PyVal :=
  if negb (client_ready t) then []
  else match usage with
       | Some (count, Some limit) =>
           if limit =? 0 then []
           else [("characters_used"%string, VInt count); ("character_limit"%string, VInt limit);
                 ("characters_remaining"%string, VInt (limit - count));
                 ("usage_percentage"%string,
                   VFloat (PrimFloat.mul (PrimFloat.div (float_of_Z count) (float_of_Z limit))
                                         (float_of_Z 100)))]
       | _ => []
       end.

(** What [get_source_languages()] and [get_target_languages()] answer,
    as [(code, name)] pairs, or [None] when either query raises. *)
Variable deepl_langs : option (list (text * text) * list (text * text)).

(** [DeepLTranslator.get_supported_languages_info]: [{}] without a
    client or when a query raises. *)
Definition deepl_get_supported_languages_info (t : TState) : dict PyVal :=
  let entries := map (fun '(code, name) => VDict [("code"%string, VStr code); ("name"%string, VStr name)]) in
  if negb (client_ready t) then []
  else match deepl_langs with
       | Some (src, tgt) =>
           [("source_languages"%string, VList (entries src)); ("target_languages"%string, VList (entries tgt))]
       | None => []
       end.

Definition deepl_get_usage_stats (t : TState) : dict PyVal :=
  [("service"%string, VStr (str "DeepL")); ("requests_made"%string, VInt (Z.of_nat (request_count t)));
   ("quota_exceeded"%string, VBool (quota_exceeded t)); ("auth_failed"%string, VBool (auth_failed t));
   ("available"%string, VBool (is_available (ops_of net DeepL) t))] ++ deepl_get_usage_info t.

Definition google_get_usage_stats (t : TState) : dict PyVal :=
  [("service"%string, VStr (str "Google Translate")); ("requests_made"%string, VInt (Z.of_nat (request_count t)));
   ("rate_limited"%string, VBool (rate_limited t));
   ("available"%string, VBool (is_available (ops_of net Google) t))].

(** [translator.get_usage_stats()]: both classes define it. *)
Definition get_usage_stats (t : TState) : dict PyVal :=
  match kind t with
  | DeepL => deepl_get_usage_stats t
  | Google => google_get_usage_stats t
  end.

(** The entry [get_service_status] builds for one translator. *)
Definition service_status (t : TState) : dict PyVal :=
  dict_update [("available"%string, VBool (is_available (ops_of net (kind t)) t));
               ("requests_made"%string, VInt (Z.of_nat (request_count t)))]
              (get_usage_stats t).

(** [_LANGUAGE_CODE_MAP.keys()] as both lists of the matrix. *)
Definition support_entry (t : TState) : dict PyVal :=
  let langs := VList (map (fun k => VStr (str k)) (map fst (LANGUAGE_CODE_MAP (ops_of net (kind t))))) in
  [("source_languages"%string, langs); ("target_languages"%string, langs)].

Variable deepl_init : DeepLInit.

(** [TranslationManager.get_service_status]. *)
Definition get_service_status : st MW (dict PyVal) :=
  ensure_initialized deepl_init ;;;
  s <- get ;;
  ret (fold_left (fun status t => dict_set status (class_name (kind t)) (VDict (service_status t)))
                 (translators s.2) []).

(** [TranslationManager.get_language_support_matrix]. *)
Definition get_language_support_matrix : st MW (dict PyVal) :=
  ensure_initialized deepl_init ;;;
  s <- get ;;
  ret (fold_left (fun matrix t => dict_set matrix (class_name (kind t)) (VDict (support_entry t)))
                 (translators s.2) []).

End Reports.

(** [DeepLTranslator.reset_quota_status]. *)
Definition reset_quota_status (t : TState) : TState :=
  mkTState (kind t) (last_request_ts t) (request_count t) (rate_limited t) false
           (auth_failed t) (client_ready t).

(** [GoogleTranslator.reset_rate_limit]. *)
Definition reset_rate_limit (t : TState) : TState :=
  mkTState (kind t) (last_request_ts t) (request_count t) false (quota_exceeded t)
           (auth_failed t) (client_ready t).

(** ** Theorems *)

#[export] Instance class_name_inj : Inj eq eq class_name.
Proof. by intros [] []. Qed.

Section Folds.
Context {A V : Type} (key : A -> string) (f : A -> V).

Definition fold_set (l : list A) (acc : dict V) : dict V :=
  fold_left (fun d x => dict_set d (key x) (f x)) l acc.

Lemma fold_set_other l acc n :
  Forall (fun x => key x <> n) l -> dict_get (fold_set l acc) n = dict_get acc n.
Proof.
  revert acc. induction l as [|x l IH]; intros acc Hl; [done|].
  apply Forall_cons_iff in Hl as [Hx Hl].
  change (fold_set (x :: l) acc) with (fold_set l (dict_set acc (key x) (f x))). rewrite (IH _ Hl). by apply dict_get_set_ne.
Qed.

Lemma fold_set_unique l acc x :
  NoDup (key <$> l) -> x ∈ l -> dict_get (fold_set l acc) (key x) = Some (f x).
Proof.
  revert acc. induction l as [|y l IH]; intros acc Hn Hx; [by apply elem_of_nil in Hx|].
  cbn in Hn. pose proof (NoDup_cons_1_1 _ _ Hn) as Hy. apply NoDup_cons_1_2 in Hn.
  apply elem_of_cons in Hx as [->|Hx]; [|by apply IH].
  change (fold_set (y :: l) acc) with (fold_set l (dict_set acc (key y) (f y))).
  rewrite fold_set_other; [apply dict_get_set_eq|].
  apply Forall_forall. intros z Hz%list_elem_of_In Heq. apply Hy. rewrite <- Heq.
  by apply list_elem_of_fmap_2.
Qed.

Lemma fold_set_lookup l acc n v :
  dict_get (fold_set l acc) n = Some v -> (exists x, x ∈ l /\ key x = n /\ v = f x) \/ dict_get acc n = Some v.
Proof.
  revert acc. induction l as [|y l IH]; intros acc Hv; [by right|].
  destruct (IH _ Hv) as [(x & Hx & Hk & ->)|Hs]; [left; exists x; split_and!; [by right|done..]|].
  destruct (String.eqb_spec (key y) n) as [<-|Hne].
  - rewrite dict_get_set_eq in Hs. injection Hs as <-. left. exists y. split_and!; [by left|done..].
  - right. by rewrite dict_get_set_ne in Hs.
Qed.

End Folds.

(** The ["available"] entry of a translator's status is [is_available()],
    whatever the usage report: [get_usage_stats] repeats it. *)
Lemma service_status_available_entry `{UnicodeDB} net usage t :
  dict_get (service_status net usage t) "available" = Some (VBool (is_available (ops_of net (kind t)) t)).
Proof.
  unfold service_status, get_usage_stats, dict_update.
  destruct (kind t); [|reflexivity].
  unfold deepl_get_usage_stats, deepl_get_usage_info.
  destruct (client_ready t); [|reflexivity].
  destruct usage as [[c [l|]]|]; [destruct (l =? 0)|..]; reflexivity.
Qed.

Lemma class_names_nodup (ts : list TState) :
  NoDup (kind <$> ts) -> NoDup ((fun t => class_name (kind t)) <$> ts).
Proof.
  intros Hn. change (fun t => class_name (kind t)) with (class_name ∘ kind).
  rewrite list_fmap_compose. exact (NoDup_fmap_2 class_name _ Hn).
Qed.

(** C28. On a manager state with at most one translator of each class
    (every reachable state, C27), [get_service_status] and
    [get_available_services] leave the same state and agree: a service
    is listed as available exactly when its status entry says
    ["available": True]. *)
Theorem service_status_available `{UnicodeDB} net usage di s n :
  manager_wf s.2 ->
  exists s' names status,
    get_available_services net di s = (s', Ok names) /\
    get_service_status net usage di s = (s', Ok status) /\
    (n ∈ names <-> exists d, dict_get status n = Some (VDict d) /\ dict_get d "available" = Some (VBool true)).
Proof.
  destruct s as [w m]. intros Hwf.
  destruct (initialize_sync_wf di m Hwf) as [_ Hn]. apply class_names_nodup in Hn.
  do 3 eexists. split; [reflexivity|]. split; [reflexivity|]. cbn.
  set (ts := translators (initialize_sync di m)) in *.
  set (key := fun t : TState => class_name (kind t)) in *.
  change (fold_left _ ts []) with (fold_set key (fun t => VDict (service_status net usage t)) ts []).
  rewrite list_elem_of_In, in_map_iff. split.
  - intros (t & <- & Ht). apply list_elem_of_In, list_elem_of_filter in Ht as [Ha Ht].
    exists (service_status net usage t).
    split; [exact (fold_set_unique key (fun t => VDict (service_status net usage t)) ts [] t Hn Ht)|].
    by rewrite service_status_available_entry, Ha.
  - intros (d & Hd & Hav). apply fold_set_lookup in Hd as [(t & Ht & <- & [= ->])|[=]].
    exists t. split; [done|]. apply list_elem_of_In, list_elem_of_filter. split; [|done].
    rewrite service_status_available_entry in Hav. by injection Hav.
Qed.

(** Every pair of languages the support matrix lists for a service is
    accepted by that service's [supports_languages]. *)
Lemma support_matrix_sound `{UnicodeDB} net t k1 k2 :
  k1 ∈ map fst (LANGUAGE_CODE_MAP (ops_of net (kind t))) ->
  k2 ∈ map fst (LANGUAGE_CODE_MAP (ops_of net (kind t))) ->
  supports_languages (ops_of net (kind t)) k1 k2 false = Ok true.
Proof.
  intros H1 H2. destruct (kind t);
    repeat (apply elem_of_cons in H1 as [->|H1]; [repeat (apply elem_of_cons in H2 as [->|H2]; [reflexivity|]);
                                                 by apply elem_of_nil in H2|]);
    by apply elem_of_nil in H1.
Qed.

(** ** Witnesses *)

Lemma service_status_available_witness :
  manager_wf (start_world, new_manager "key"%string).2 /\
  exists s' names status,
    get_available_services echo_net DInitOk (start_world, new_manager "key"%string) = (s', Ok names) /\
    get_service_status echo_net (Some (100, Some 500000)) DInitOk (start_world, new_manager "key"%string)
      = (s', Ok status) /\
    ("DeepL"%string ∈ names <->
     exists d, dict_get status "DeepL" = Some (VDict d) /\ dict_get d "available" = Some (VBool true)).
Proof.
  assert (Hwf : manager_wf (start_world, new_manager "key"%string).2) by (split; [done | constructor]).
  split; [exact Hwf|].
  exact (service_status_available echo_net (Some (100, Some 500000)) DInitOk _ "DeepL"%string Hwf).
Defined.
