(* ===== verification/Orchestrator.v ===== *)
(** * Orchestrator: the four-stage pipeline (services/orchestrator.py)

    [TranslationOrchestrator.process_manga_translation] and its helpers.
    The text boxes are one list whose elements the translation stage
    updates in place: the reading-order sort is an argsort (a list of
    positions in the original list), and every assignment through the
    sorted view writes the box at its original position, as the Python
    code writes through the shared [TextBox] objects.  The OCR engine,
    the inpainter and the text renderer are a [Collaborators] record:
    the pipeline's theorems hold for every implementation of it.  The
    state is the translation manager's (with the process-wide [World])
    and the list of status events sent to the callback.  [ocr_collaborator]
    fills the OCR slot with the services of [Ocr], chosen by a fresh
    [OCRManager] as the orchestrator's own is at its first call. *)

From Stdlib Require Import NArith ZArith String Ascii Arith.
From stdpp Require Import base list strings decidable gmap.
From S2P Require Import Prelude Schemas TextHeuristics Translator TranslationManager Ocr.

Local Open Scope st_scope.

(** ** Reading order *)

(** [hasattr(text_box, 'language')]: [TextBox] declares no [language]
    field (it is commented out in models/schemas.py), so the attribute
    is never present. *)
Definition language_attr (b : TextBox) : option string := None.

(** [get_sort_key] in [_sort_text_boxes_reading_order]. *)
Definition get_sort_key (b : TextBox) : Z * Z :=
  let y := y1 (tb_bbox b) in
  let x := x1 (tb_bbox b) in
  match language_attr b with
  | Some l => if bool_decide (l ∈ ["japanese"; "trad_chinese"; "sim_chinese"]%string)
              then (y, (- x)%Z) else (y, x)
  | None => (y, x)
  end.

Definition key_lt (a b : Z * Z) : bool :=
  (a.1 <? b.1)%Z || ((a.1 =? b.1)%Z && (a.2 <? b.2)%Z).

(** Insertion keeping equal keys in arrival order: [sorted] is stable. *)
Fixpoint insert_stable (x : nat * (Z * Z)) (l : list (nat * (Z * Z))) : list (nat * (Z * Z)) :=
  match l with
  | [] => [x]
  | y :: l' => if key_lt x.2 y.2 then x :: y :: l' else y :: insert_stable x l'
  end.

Definition sort_stable (l : list (nat * (Z * Z))) : list (nat * (Z * Z)) :=
  fold_left (fun acc x => insert_stable x acc) l [].

(** [sorted(text_boxes, key=get_sort_key)], as the list of the original
    positions of the boxes in sorted order. *)
Definition sort_text_boxes_reading_order (boxes : list TextBox) : list nat :=
  map fst (sort_stable (imap (fun i b => (i, get_sort_key b)) boxes)).

(** ** Marker packing *)

Definition open_marker (i : nat) : text := [91%N] ++ str_of_nat i ++ [93%N].
Definition close_marker (i : nat) : text := [91%N; 47%N] ++ str_of_nat i ++ [93%N].

(** [f"[{i}]{text}[/{i}]"]. *)
Definition marker (i : nat) (t : text) : text := open_marker i ++ t ++ close_marker i.

(** [_combine_text_for_context]: [i] is the position in sorted order,
    and blank boxes are skipped without renumbering. *)
Definition combine_text_for_context (boxes : list TextBox) : text :=
  join [32%N] (omap id (imap (fun i j =>
    match boxes !! j with
    | Some b => if is_blank (tb_text b) then None else Some (marker i (tb_text b))
    | None => None
    end) (sort_text_boxes_reading_order boxes))).

(** ** Marker unpacking: [re.findall(r'\[(\d+)\](.*?)\[/\1\]', s, re.DOTALL)] *)

Section Unpack.
Context `{UnicodeDB}.

(** The first occurrence of [close] in [s]: the text before it and the
    text after it ([.*?] is lazy). *)
Fixpoint find_close (close s acc : text) : option (text * text) :=
  if starts_with close s then Some (rev acc, drop (length close) s)
  else match s with
       | [] => None
       | c :: s' => find_close close s' (c :: acc)
       end.

(** The scan of [findall]: at a [\[] followed by digits and [\]], the
    match runs to the first matching closing tag and the scan resumes
    after it; otherwise the scan moves one character on.  [fuel] bounds
    the number of characters visited (the length of [s] is enough). *)
Fixpoint findall_markers (fuel : nat) (s : text) : list (text * text) :=
  match fuel with
  | O => []
  | S f =>
      match s with
      | [] => []
      | c :: s' =>
          let next := findall_markers f s' in
          if (c =? 91)%N then
            let '(d, r) := span_while isdecimal s' in
            match d, r with
            | _ :: _, 93%N :: r' =>
                match find_close ([91%N; 47%N] ++ d ++ [93%N]) r' [] with
                | Some (content, after) => (d, content) :: findall_markers f after
                | None => next
                end
            | _, _ => next
            end
          else next
      end
  end.

Definition marker_matches (s : text) : list (text * text) := findall_markers (S (length s)) s.

(** [{int(idx): text.strip() for idx, text in matches}]: a later match
    with the same index overwrites an earlier one. *)
Definition marker_translations (s : text) : gmap nat text :=
  fold_left (fun m dc => <[int_of_decimal dc.1 := strip dc.2]> m) (marker_matches s) ∅.

(** [box.translated_text = f(i, box)] for the box [j] of each pair
    [(i, j)], in turn. *)
Definition assign_pairs (l : list (nat * nat)) (f : nat -> TextBox -> TextBox)
    (boxes : list TextBox) : list TextBox :=
  fold_left (fun bs ij => match bs !! ij.2 with
                          | Some b => <[ij.2 := f ij.1 b]> bs
                          | None => bs
                          end) l boxes.

(** [for i, text_box in enumerate(sorted_boxes)]: the box at [order[i]]
    is written with [f(i, box)]. *)
Definition assign_in_order (order : list nat) (f : nat -> TextBox -> TextBox)
    (boxes : list TextBox) : list TextBox :=
  assign_pairs (imap pair order) f boxes.

(** [s.strip('.')]. *)
Definition strip_dots (s : text) : text :=
  let drop_dots := fix go (l : text) := match l with c :: l' => if (c =? 46)%N then go l' else l | [] => [] end in
  rev (drop_dots (rev (drop_dots s))).

(** [_simple_text_distribution]; [None.split] raises [AttributeError]. *)
Definition simple_text_distribution (boxes : list TextBox) (translated : option text)
  : res (list TextBox) :=
  match translated with
  | None => Raise AttributeError
  | Some s =>
      let sentences := map (fun x => strip x ++ [46%N])
                           (filter (fun x => is_blank x = false) (split_on 46%N s)) in
      Ok (imap (fun i b => set_translated b (match sentences !! i with
                                              | Some se => strip_dots se
                                              | None => tb_text b
                                              end)) boxes)
  end.

(** [_distribute_translated_text]: with [None] (every service failed),
    [re.findall] raises [TypeError] and the handler's fallback raises in
    turn. *)
Definition distribute_translated_text (boxes : list TextBox) (translated : option text)
  : res (list TextBox) :=
  match translated with
  | None => simple_text_distribution boxes None
  | Some s =>
      let trs := marker_translations s in
      Ok (assign_in_order (sort_text_boxes_reading_order boxes)
            (fun i b => match trs !! i with
                        | Some t => if bool_decide (t = []) then set_translated b (tb_text b)
                                    else set_translated b t
                        | None => set_translated b (tb_text b)
                        end) boxes)
  end.

End Unpack.

(** ** The pipeline *)

Record TranslationRequest : Type := mkRequest {
  source_language : Language;
  target_language : Language
}.

(** The services the pipeline calls and does not model: the OCR engine
    chosen for the language ([_extract_text]), the inpainting of one box
    ([OpenCVInpainter.inpaint_textbox], which catches its own errors and
    so always returns an image) and the drawing of one box
    ([TextRenderer.render_text], which may raise). *)
Record Collaborators (Img : Type) : Type := {
  ocr_extract : Img -> Language -> res (list TextBox);
  erase_box : Img -> TextBox -> Img;
  draw_box : Img -> TextBox -> Language -> res Img
}.
Arguments ocr_extract {Img} c _ _.
Arguments erase_box {Img} c _ _.
Arguments draw_box {Img} c _ _ _.

Record OState : Type := mkOState {
  o_world : World;
  o_manager : MState;
  o_events : list ProcessingStage     (** status callback calls, oldest first *)
}.

(** [status_callback(ProcessingStatus(stage=s, ...))]. *)
Definition emit (s : ProcessingStage) : st OState unit :=
  modify (fun o => mkOState (o_world o) (o_manager o) (o_events o ++ [s])).

(** Run a translation-manager operation on the orchestrator's manager. *)
Definition on_manager {A} (m : st MW A) : st OState A :=
  fun o => let '((w, ms), r) := m (o_world o, o_manager o) in
           (mkOState w ms (o_events o), r).

Section Pipeline.
Context `{UnicodeDB}.
Variable net : Net.
Variable deepl_init : DeepLInit.
Context {Img : Type}.
Variable env : Collaborators Img.

(** [_extract_text]: any failure becomes [ProcessingError]. *)
Definition extract_text (img : Img) (l : Language) : st OState (list TextBox) :=
  match ocr_extract env img l with
  | Ok bs => ret bs
  | Raise _ => throw ProcessingError
  end.

(** [if not hasattr(...) or not text_box.translated_text:
    text_box.translated_text = text_box.text]. *)
Definition keep_original (b : TextBox) : TextBox :=
  if bool_decide (translated_text b = []) then set_translated b (tb_text b) else b.

(** [_translate_text_boxes].  The handler sees the boxes unchanged: the
    only exceptions come from the manager call and from the first
    statement of [_distribute_translated_text], before any assignment. *)
Definition translate_text_boxes (boxes : list TextBox) (req : TranslationRequest)
  : st OState (list TextBox) :=
  try_catch
    (let combined := combine_text_for_context boxes in
     tr <- on_manager (manager_translate net deepl_init combined
                        (language_value (source_language req))
                        (language_value (target_language req))) ;;
     match distribute_translated_text boxes tr with
     | Ok bs => ret bs
     | Raise e => throw e
     end)
    (fun _ => ret (map keep_original boxes)).

(** [_inpaint_text_regions]: each box is erased from the result so far. *)
Definition inpaint_text_regions (img : Img) (boxes : list TextBox) : Img :=
  fold_left (erase_box env) boxes img.

Fixpoint render_boxes (acc : Img) (boxes : list TextBox) (l : Language) : res Img :=
  match boxes with
  | [] => Ok acc
  | b :: bs =>
      if negb (is_blank (translated_text b)) then
        match draw_box env acc b l with
        | Ok acc' => render_boxes acc' bs l
        | Raise e => Raise e
        end
      else render_boxes acc bs l
  end.

(** [_render_translated_text]: a failure on any box returns the image it
    was given, without the boxes drawn before the failure. *)
Definition render_translated_text (img : Img) (boxes : list TextBox) (l : Language) : Img :=
  match render_boxes img boxes l with
  | Ok img' => img'
  | Raise _ => img
  end.

(** [process_manga_translation] with a status callback. *)
Definition process_manga_translation (img : Img) (req : TranslationRequest)
  : st OState (Img * list TextBox) :=
  try_catch
    (emit INITIALIZED ;;;
     emit OCR ;;;
     boxes <- extract_text img (source_language req) ;;
     match boxes with
     | [] => throw ProcessingError
     | _ =>
         emit TRANSLATION ;;;
         boxes' <- translate_text_boxes boxes req ;;
         emit INPAINTING ;;;
         let img1 := inpaint_text_regions img boxes' in
         emit RENDERING ;;;
         let img2 := render_translated_text img1 boxes' (target_language req) in
         emit COMPLETED ;;;
         ret (img2, boxes')
     end)
    (fun _ => emit ERROR ;;; throw ProcessingError).

End Pipeline.

(** ** The status events as a state machine *)

(** The transitions of [ProcessingStage] the spec gives (§4.1): the five
    stages in sequence, and [ERROR] from any non-terminal stage. *)
Inductive stage_step : ProcessingStage -> ProcessingStage -> Prop :=
  | step_ocr : stage_step INITIALIZED OCR
  | step_translation : stage_step OCR TRANSLATION
  | step_inpainting : stage_step TRANSLATION INPAINTING
  | step_rendering : stage_step INPAINTING RENDERING
  | step_completed : stage_step RENDERING COMPLETED
  | step_error s : s <> COMPLETED -> s <> ERROR -> stage_step s ERROR.

(** A sequence of events in which each one follows from the previous by
    [stage_step]. *)
Inductive stage_path : list ProcessingStage -> Prop :=
  | path_one s : stage_path [s]
  | path_cons s s' l : stage_step s s' -> stage_path (s' :: l) -> stage_path (s :: s' :: l).

#[export] Hint Constructors stage_step stage_path : ink.

Definition success_trace : list ProcessingStage :=
  [INITIALIZED; OCR; TRANSLATION; INPAINTING; RENDERING; COMPLETED].

Definition ocr_failure_trace : list ProcessingStage := [INITIALIZED; OCR; ERROR].

(** The example of the specification (§8): two boxes [A] and [B] on one
    line, answered with [[0]あ[/0] [1]び[/1]]. *)
Definition example_boxes : list TextBox :=
  [new_text_box (str "A") (mkBox 10 10 40 30); new_text_box (str "B") (mkBox 50 10 80 30)].

(** ** Concrete runs

    A page image is a counter of the drawing operations applied to it;
    OCR finds the two boxes of [example_boxes]; the renderer refuses the
    box whose text is [B]; every request to a translation service fails. *)
Definition failing_net : Net :=
  {| net_reply := fun _ _ _ _ _ => NetFailure; net_latency := fun _ => 0%N |}.

Definition example_env : Collaborators nat :=
  {| ocr_extract := fun _ _ => Ok example_boxes;
     erase_box := fun n _ => S n;
     draw_box := fun n b _ =>
       if bool_decide (tb_text b = str "B") then Raise ValueError else Ok (n + 100) |}.

Definition example_request : TranslationRequest := mkRequest JAPANESE ENGLISH.

Definition example_state : OState :=
  mkOState (mkWorld 0 0 []) (new_manager ""%string) [].

Definition example_run : OState * res (nat * list TextBox) :=
  process_manga_translation failing_net DInitOk example_env 0 example_request example_state.

(** ** The OCR services of services/ocr/ as the OCR collaborator

    [_extract_text] on the orchestrator's own [OCRManager], fresh as
    [TranslationOrchestrator.__init__] makes it: [get_ocr_service]
    initialises it and names the service, whose [extract_text] runs on
    what its recogniser reports for the image ([easy_results] for
    [reader.readtext(image, paragraph=True)], [manga_dets] for the
    detections and MangaOCR's readings). *)
Definition ocr_collaborator {Img} (readers : list string) (manga : res bool)
    (easy_results : Img -> list (list (Z * Z) * text))
    (manga_dets : Img -> list (list (Z * Z) * option text)) (img : Img) (l : Language)
  : res (list TextBox) :=
  match (get_ocr_service (ocr_ctors readers manga) (language_value l) fresh_ocr_manager).2 with
  | Raise e => Raise e
  | Ok n => if String.eqb n "easy" then easy_extract_text readers (language_value l) (easy_results img)
            else manga_extract_text (manga_dets img)
  end.

Definition with_ocr {Img} (env : Collaborators Img) (ocr : Img -> Language -> res (list TextBox))
  : Collaborators Img :=
  {| ocr_extract := ocr; erase_box := erase_box env; draw_box := draw_box env |}.

(** EasyOCR reads two words ten pixels apart on a page. *)
Definition adjacent_results (img : nat) : list (list (Z * Z) * text) :=
  [([(10, 10); (30, 10); (30, 30); (10, 30)]%Z, str "Hi");
   ([(20, 10); (40, 10); (40, 30); (20, 30)]%Z, str "there")].

(** The same regions as EasyOCR detects them for MangaOCR, which reads
    them alike. *)
Definition adjacent_dets (img : nat) : list (list (Z * Z) * option text) :=
  map (fun '(pts, t) => (pts, Some t)) (adjacent_results img).


(** ** The reading order is a permutation of the boxes *)

Lemma insert_stable_perm x l : insert_stable x l ≡ₚ x :: l.
Proof.
  induction l as [|y l IH]; simpl; [done|].
  destruct (key_lt x.2 y.2); [done|]. rewrite IH. apply perm_swap.
Qed.

Lemma sort_stable_perm l : sort_stable l ≡ₚ l.
Proof.
  unfold sort_stable. rewrite <- (app_nil_l l) at 2. generalize (@nil (nat * (Z * Z))).
  induction l as [|x l IH]; intros acc; simpl; [by rewrite app_nil_r|].
  rewrite IH, insert_stable_perm. apply Permutation_middle.
Qed.

Lemma map_fst_imap {B} (l : list B) n (g : nat -> B -> nat * (Z * Z)) :
  (forall i b, (g i b).1 = n + i) -> map fst (imap g l) = seq n (length l).
Proof.
  revert n g. induction l as [|b l IH]; intros n g Hg; [done|].
  rewrite imap_cons. simpl. f_equal; [rewrite Hg; lia|].
  apply IH. intros i b'. simpl. rewrite Hg. lia.
Qed.

(** [sorted] returns every box once: the argsort is a permutation of
    the positions. *)
Lemma sort_order_perm boxes :
  sort_text_boxes_reading_order boxes ≡ₚ seq 0 (length boxes).
Proof.
  unfold sort_text_boxes_reading_order. rewrite sort_stable_perm.
  by rewrite (map_fst_imap _ 0).
Qed.

Lemma sort_order_nodup boxes : NoDup (sort_text_boxes_reading_order boxes).
Proof. rewrite sort_order_perm. apply NoDup_seq. Qed.

Lemma sort_order_bound boxes j :
  j ∈ sort_text_boxes_reading_order boxes -> j < length boxes.
Proof. rewrite sort_order_perm, elem_of_seq. lia. Qed.

(** ** Writing through the sorted view *)

Section Assign.
Variable f : nat -> TextBox -> TextBox.

Lemma assign_pairs_notin l boxes j :
  (forall i, (i, j) ∉ l) -> assign_pairs l f boxes !! j = boxes !! j.
Proof.
  unfold assign_pairs. revert boxes.
  induction l as [|[i0 j0] l IH]; intros boxes Hn; simpl; [done|].
  rewrite IH by (intros i Hi; apply (Hn i); by right).
  destruct (boxes !! j0); [|done].
  apply list_lookup_insert_ne. intros ->. apply (Hn i0). by left.
Qed.

Lemma assign_pairs_lookup l boxes i j :
  NoDup (snd <$> l) -> (i, j) ∈ l -> (forall ij, ij ∈ l -> ij.2 < length boxes) ->
  assign_pairs l f boxes !! j = f i <$> boxes !! j.
Proof.
  unfold assign_pairs. revert boxes.
  induction l as [|[i0 j0] l IH]; intros boxes Hnd Hin Hb; [by apply not_elem_of_nil in Hin|].
  simpl. simpl in Hnd. apply NoDup_cons in Hnd as [Hj0 Hnd].
  assert (j0 < length boxes) as Hlt by (apply (Hb (i0, j0)); left).
  destruct (lookup_lt_is_Some_2 boxes j0 Hlt) as [b0 Hb0]. rewrite Hb0.
  apply elem_of_cons in Hin as [[= -> ->]|Hin].
  - fold (assign_pairs l f (<[j0:=f i0 b0]> boxes)).
    rewrite assign_pairs_notin.
    + rewrite list_lookup_insert_eq by done. by rewrite Hb0.
    + intros i' Hi'. apply Hj0. apply list_elem_of_fmap. by exists (i', j0).
  - assert (j <> j0) as Hne.
    { intros ->. apply Hj0. apply list_elem_of_fmap. by exists (i, j0). }
    rewrite IH; [| done | done |].
    + by rewrite list_lookup_insert_ne by congruence.
    + intros ij Hij. rewrite length_insert. apply Hb. by right.
Qed.

Lemma snd_imap_pair (order : list nat) : snd <$> imap pair order = order.
Proof.
  rewrite fmap_imap. rewrite (imap_ext _ (const id)) by done.
  rewrite imap_const. apply list_fmap_id.
Qed.

(** The box at [order[i]] receives [f(i, box)]. *)
Lemma assign_in_order_lookup order boxes i j b :
  NoDup order -> (forall k, k ∈ order -> k < length boxes) ->
  order !! i = Some j -> boxes !! j = Some b ->
  assign_in_order order f boxes !! j = Some (f i b).
Proof.
  intros Hnd Hb Hi Hj. unfold assign_in_order.
  rewrite (assign_pairs_lookup _ _ i j).
  - by rewrite Hj.
  - by rewrite snd_imap_pair.
  - apply elem_of_lookup_imap. eauto.
  - intros [i' j'] Hij. apply elem_of_lookup_imap in Hij as (k & y & [= -> ->] & Hk).
    apply Hb. by eapply list_elem_of_lookup_2.
Qed.

End Assign.

(** ** The marker scanner *)

Section Scanner.
Context `{UnicodeDB}.

Lemma starts_with_app (p r : text) : starts_with p (p ++ r) = true.
Proof. induction p as [|c p IH]; simpl; [done|]. by rewrite N.eqb_refl, IH. Qed.

Lemma find_close_length close s acc c a :
  find_close close s acc = Some (c, a) -> length a <= length s.
Proof.
  revert acc. induction s as [|x s IH]; intros acc; simpl.
  - destruct (starts_with close []); [|discriminate].
    intros [= _ <-]. rewrite length_drop. simpl. lia.
  - destruct (starts_with close (x :: s)).
    + intros [= _ <-]. rewrite length_drop. simpl. lia.
    + intros Hf. apply IH in Hf. lia.
Qed.

Lemma span_while_length p s d r : span_while p s = (d, r) -> length r <= length s.
Proof.
  revert d r. induction s as [|c s IH]; intros d r; simpl.
  - intros [= <- <-]. done.
  - destruct (p c); [|intros [= <- <-]; done].
    specialize (IH (span_while p s).1 (span_while p s).2 ltac:(by destruct (span_while p s))).
    destruct (span_while p s) as [d' r']. intros [= <- <-]. simpl in IH. lia.
Qed.

(** The scan visits each character at most once: any fuel at least the
    length of the string gives the same matches. *)
Lemma findall_markers_fuel n m s :
  length s <= n -> length s <= m -> findall_markers n s = findall_markers m s.
Proof.
  revert m s. induction n as [|n IH]; intros m s Hn Hm.
  - destruct s; [|simpl in Hn; lia]. by destruct m.
  - destruct s as [|c s]; [by destruct m|]. destruct m as [|m]; [simpl in Hm; lia|].
    simpl in Hn, Hm. simpl.
    destruct (c =? 91)%N; [|apply IH; lia].
    destruct (span_while isdecimal s) as [d r] eqn:Hs.
    pose proof (span_while_length _ _ _ _ Hs) as Hr.
    destruct d as [|x d]; [apply IH; lia|].
    destruct r as [|y r]; [apply IH; lia|].
    destruct (decide (y = 93%N)) as [->|Hy].
    + destruct (find_close _ r []) as [[content after]|] eqn:Hf; [|apply IH; lia].
      apply find_close_length in Hf. simpl in Hr. f_equal. apply IH; lia.
    + destruct y as [|y]; [apply IH; lia|].
      destruct y; try (apply IH; lia).
      all: repeat (match goal with |- context [match ?p with _ => _ end] =>
                     is_var p; destruct p end); try (apply IH; lia).
      all: exfalso; apply Hy; reflexivity.
Qed.

Lemma starts_with_cons_ne (p c : char) q s :
  (p =? c)%N = false -> starts_with (p :: q) (c :: s) = false.
Proof. simpl. by intros ->. Qed.

Lemma find_close_unfold close s acc :
  find_close close s acc =
  if starts_with close s then Some (rev acc, drop (length close) s)
  else match s with [] => None | c :: s' => find_close close s' (c :: acc) end.
Proof. by destruct s. Qed.

Lemma find_close_app close t rest acc :
  head close = Some 91%N -> 91%N ∉ t ->
  find_close close (t ++ close ++ rest) acc = Some (rev acc ++ t, rest).
Proof.
  intros Hc. revert acc. induction t as [|c t IH]; intros acc Ht; simpl;
    rewrite find_close_unfold.
  - rewrite starts_with_app, app_nil_r. f_equal. f_equal. by rewrite drop_app_length.
  - destruct close as [|c0 close]; [discriminate|]. injection Hc as ->.
    destruct (N.eqb_spec 91 c) as [<-|Hne]; [by destruct Ht; left|].
    apply N.eqb_neq in Hne. rewrite starts_with_cons_ne by done. cbv beta iota.
    specialize (IH (c :: acc) ltac:(intros Hin; apply Ht; by right)). simpl in IH.
    rewrite <- find_close_unfold. refine (eq_trans IH _). by rewrite <- app_assoc.
Qed.

Lemma span_decimal d r :
  Forall (fun c => isdecimal c = true) d ->
  match r with c :: _ => isdecimal c = false | [] => True end ->
  span_while isdecimal (d ++ r) = (d, r).
Proof.
  intros Hd Hr. induction Hd as [|c d Hc Hd IH]; simpl.
  - destruct r as [|c r]; simpl; [done|]. by rewrite Hr.
  - rewrite Hc, IH. done.
Qed.

Lemma findall_skip f c rest :
  (c =? 91)%N = false -> findall_markers (S f) (c :: rest) = findall_markers f rest.
Proof. simpl. by intros ->. Qed.

(** One marker block is one match, with its own index and text. *)
Lemma findall_marker_step f i t rest :
  91%N ∉ t ->
  findall_markers (S f) (marker i t ++ rest) = (str_of_nat i, t) :: findall_markers f rest.
Proof.
  intros Ht. unfold marker, open_marker, close_marker. simpl.
  rewrite <- !app_assoc. simpl.
  rewrite span_decimal.
  - destruct (str_of_nat i) as [|x d] eqn:E; [by apply str_of_nat_nonempty in E|].
    rewrite <- E.
    pose proof (find_close_app ([91%N; 47%N] ++ str_of_nat i ++ [93%N]) t rest [] eq_refl Ht)
      as Hf.
    rewrite <- !app_assoc in Hf. simpl in Hf. rewrite <- !app_assoc. simpl. rewrite Hf. done.
  - apply str_of_nat_decimal.
  - apply isdecimal_ascii_other; lia.
Qed.

(** The scan of a payload [[0]t0[/0] [1]t1[/1] ...] finds exactly the
    blocks, in order. *)
Lemma findall_payload ts k fuel :
  Forall (fun t => 91%N ∉ t) ts ->
  length (join [32%N] (imap (fun i t => marker (k + i) t) ts)) <= fuel ->
  findall_markers fuel (join [32%N] (imap (fun i t => marker (k + i) t) ts)) =
  imap (fun i t => (str_of_nat (k + i), t)) ts.
Proof.
  revert k fuel. induction ts as [|t ts IH]; intros k fuel Hts Hlen.
  - simpl. by destruct fuel.
  - inversion Hts as [|? ? Ht Hts']; subst.
    rewrite !imap_cons. rewrite imap_cons in Hlen.
    rewrite (imap_ext ((fun i t => marker (k + i) t) ∘ S) (fun i t => marker (S k + i) t))
      in Hlen |- * by (intros; simpl; f_equal; lia).
    rewrite (imap_ext ((fun i t => (str_of_nat (k + i), t)) ∘ S)
                      (fun i t => (str_of_nat (S k + i), t)))
      by (intros; simpl; do 2 f_equal; lia).
    destruct ts as [|t' ts].
    + simpl in *. destruct fuel as [|f].
      { unfold marker, open_marker in Hlen. simpl in Hlen. lia. }
      rewrite <- (app_nil_r (marker (k + 0) t)), findall_marker_step by done.
      by destruct f.
    + rewrite join_cons in * by (rewrite imap_cons; discriminate).
      set (J := join [32%N] (imap (fun i t => marker (S k + i) t) (t' :: ts))) in *.
      assert (1 <= length (marker (k + 0) t)) by (unfold marker, open_marker; simpl; lia).
      rewrite !length_app in Hlen. simpl in Hlen.
      destruct fuel as [|f]; [lia|].
      rewrite findall_marker_step by done. f_equal.
      destruct f as [|f]; [lia|]. change ([32%N] ++ J) with (32%N :: J).
      rewrite findall_skip by done.
      apply IH; [done|]. change (length J <= f). lia.
Qed.

Lemma fold_marker_translations ts k (m0 : gmap nat text) j :
  fold_left (fun m dc => <[int_of_decimal dc.1 := strip dc.2]> m)
            (imap (fun i t => (str_of_nat (k + i), t)) ts) m0 !! j =
  if decide (k <= j < k + length ts) then strip <$> ts !! (j - k) else m0 !! j.
Proof.
  revert k m0. induction ts as [|t ts IH]; intros k m0.
  - simpl. case_decide; [lia|done].
  - rewrite imap_cons. simpl.
    rewrite (imap_ext ((fun i t => (str_of_nat (k + i), t)) ∘ S)
                      (fun i t => (str_of_nat (S k + i), t)))
      by (intros; simpl; do 2 f_equal; lia).
    rewrite IH, Nat.add_0_r, int_of_str_of_nat.
    repeat case_decide; try lia.
    + by replace (j - k) with (S (j - S k)) by lia.
    + assert (j = k) as -> by lia. rewrite Nat.sub_diag. simpl.
      apply lookup_insert_eq.
    + apply lookup_insert_ne. lia.
Qed.

(** The translations read back from a payload of marker blocks. *)
Lemma marker_translations_payload ts i :
  Forall (fun t => 91%N ∉ t) ts ->
  marker_translations (join [32%N] (imap marker ts)) !! i = strip <$> ts !! i.
Proof.
  intros Hts. unfold marker_translations, marker_matches.
  assert (Hp : imap marker ts = imap (fun i t => marker (0 + i) t) ts)
    by (by apply imap_ext).
  rewrite Hp, findall_payload by (done || lia).
  rewrite (fold_marker_translations ts 0). simpl.
  case_decide.
  - by rewrite Nat.sub_0_r.
  - rewrite lookup_empty. symmetry. apply fmap_None, lookup_ge_None_2. lia.
Qed.

End Scanner.

(** ** Unpacking the provider's answer *)

Section DistributeTheorems.
Context `{UnicodeDB}.

Lemma assign_in_order_length order f boxes :
  length (assign_in_order order f boxes) = length boxes.
Proof.
  unfold assign_in_order, assign_pairs. generalize (imap pair order) as l.
  intros l. revert boxes. induction l as [|[i j] l IH]; intros boxes; simpl; [done|].
  rewrite IH. destruct (boxes !! j); [apply length_insert|done].
Qed.

Lemma simple_text_distribution_length boxes tr bs :
  simple_text_distribution boxes tr = Ok bs -> length bs = length boxes.
Proof. destruct tr; simpl; [|discriminate]. intros [= <-]. apply length_imap. Qed.

Lemma distribute_length boxes tr bs :
  distribute_translated_text boxes tr = Ok bs -> length bs = length boxes.
Proof.
  unfold distribute_translated_text. intros E.
  repeat case_match; simplify_eq;
    eauto using simple_text_distribution_length, assign_in_order_length.
Qed.


Lemma findall_no_bracket fuel s : 91%N ∉ s -> findall_markers fuel s = [].
Proof.
  revert s. induction fuel as [|f IH]; intros s Hs; [done|].
  destruct s as [|c s]; [done|].
  rewrite findall_skip.
  - apply IH. intros Hin. apply Hs. by right.
  - apply N.eqb_neq. intros ->. apply Hs. by left.
Qed.

Lemma order_lookup_exists boxes j :
  j < length boxes -> exists i, sort_text_boxes_reading_order boxes !! i = Some j.
Proof.
  intros Hj. apply list_elem_of_lookup.
  rewrite sort_order_perm, elem_of_seq. lia.
Qed.

(** C11. Marker round trip: when the provider answers with the marker
    blocks [[i]t_i[/i]] (each [t_i] stripped, non-empty and free of [\[]),
    the box at position [i] of the reading order receives exactly [t_i],
    and a box whose index has no block keeps its original text. *)
Theorem distribute_roundtrip boxes ts :
  Forall (fun t => t <> [] /\ strip t = t /\ 91%N ∉ t) ts ->
  exists bs, distribute_translated_text boxes (Some (join [32%N] (imap marker ts))) = Ok bs /\
    forall i j b, sort_text_boxes_reading_order boxes !! i = Some j -> boxes !! j = Some b ->
      bs !! j = Some (set_translated b (default (tb_text b) (ts !! i))).
Proof.
  intros Hts. eexists. split; [reflexivity|]. intros i j b Hi Hb.
  rewrite (assign_in_order_lookup _ _ _ i j b); auto using sort_order_nodup, sort_order_bound.
  f_equal. rewrite marker_translations_payload
    by (eapply Forall_impl; [exact Hts|]; by intros ? (_ & _ & ?)).
  destruct (ts !! i) as [t|] eqn:E; simpl; [|done].
  destruct (Forall_lookup_1 _ _ _ _ Hts E) as (Hne & Hst & _).
  rewrite Hst. by rewrite bool_decide_eq_false_2.
Qed.


(** C12. When the provider drops the markers, every box keeps its
    original text: the sentence-splitting fallback
    ([_simple_text_distribution]) is never reached with a string. *)
Theorem distribute_without_markers boxes s :
  91%N ∉ s ->
  distribute_translated_text boxes (Some s) =
  Ok (map (fun b => set_translated b (tb_text b)) boxes).
Proof.
  intros Hs. simpl. f_equal. apply list_eq. intros j.
  assert (Htr : forall i, marker_translations s !! i = None).
  { intros i. unfold marker_translations, marker_matches.
    by rewrite findall_no_bracket. }
  rewrite list_lookup_fmap.
  destruct (decide (j < length boxes)) as [Hj|Hj].
  - destruct (order_lookup_exists boxes j Hj) as [i Hi].
    destruct (lookup_lt_is_Some_2 boxes j Hj) as [b Hb].
    rewrite (assign_in_order_lookup _ _ _ i j b); auto using sort_order_nodup, sort_order_bound.
    by rewrite Htr, Hb.
  - rewrite !lookup_ge_None_2; [done| lia |].
    rewrite assign_in_order_length. lia.
Qed.


End DistributeTheorems.

Lemma distribute_roundtrip_witness :
  combine_text_for_context example_boxes = str "[0]A[/0] [1]B[/1]" /\
  exists bs,
    distribute_translated_text example_boxes
      (Some (join [32%N] (imap marker [[12354%N]; [12403%N]]))) = Ok bs /\
    bs !! 0 = Some (set_translated (new_text_box (str "A") (mkBox 10 10 40 30)) [12354%N]) /\
    bs !! 1 = Some (set_translated (new_text_box (str "B") (mkBox 50 10 80 30)) [12403%N]).
Proof.
  split; [reflexivity|].
  destruct (distribute_roundtrip example_boxes [[12354%N]; [12403%N]]) as (bs & Hd & Hbs).
  - repeat constructor; try discriminate; set_solver.
  - exists bs. split; [exact Hd|]. split.
    + apply (Hbs 0 0); reflexivity.
    + apply (Hbs 1 1); reflexivity.
Defined.

Lemma distribute_without_markers_witness :
  (91%N ∉ str "Hello. World.") /\
  distribute_translated_text example_boxes (Some (str "Hello. World.")) =
  Ok (map (fun b => set_translated b (tb_text b)) example_boxes).
Proof.
  assert (H91 : 91%N ∉ str "Hello. World.") by (vm_compute; set_solver).
  split; [exact H91|]. apply (distribute_without_markers example_boxes _ H91).
Defined.

Section PipelineTheorems.
Context `{UnicodeDB}.
Variable net : Net.
Variable deepl_init : DeepLInit.
Context {Img : Type}.
Variable env : Collaborators Img.

(** The translation stage never raises, keeps the callback untouched
    and returns one box per box. *)
Lemma translate_text_boxes_ok boxes req o :
  exists o' bs, translate_text_boxes net deepl_init boxes req o = (o', Ok bs)
                /\ o_events o' = o_events o /\ length bs = length boxes.
Proof.
  unfold translate_text_boxes, on_manager. st_unfold.
  destruct (manager_translate net deepl_init _ _ _ _) as [[w ms] [tr|e]].
  - destruct (distribute_translated_text boxes tr) eqn:E; simpl;
      do 2 eexists; (split; [reflexivity|]); simpl; split; try reflexivity.
    + by apply distribute_length in E.
    + apply length_map.
  - simpl. do 2 eexists. split; [reflexivity|]. split; [reflexivity|]. apply length_map.
Qed.

(** Whatever fails inside, the pipeline raises [ProcessingError]. *)
Lemma process_raise_processing_error img req o o' e :
  process_manga_translation net deepl_init env img req o = (o', Raise e) -> e = ProcessingError.
Proof.
  unfold process_manga_translation. intros (e1 & o1 & _ & Hh)%try_catch_raise_inv.
  unfold emit in Hh. st_unfold. by injection Hh.
Qed.

(** The run when OCR raises or finds no text: the callback sees
    [INITIALIZED], [OCR], [ERROR], the call raises [ProcessingError],
    and nothing else of the state changes. *)
Lemma process_ocr_failure img req o :
  (forall bs, ocr_extract env img (source_language req) = Ok bs -> bs = []) ->
  process_manga_translation net deepl_init env img req o =
    (mkOState (o_world o) (o_manager o) (o_events o ++ ocr_failure_trace), Raise ProcessingError).
Proof.
  intros Hocr. unfold process_manga_translation, extract_text, emit.
  destruct (ocr_extract env img (source_language req)) as [bs|e] eqn:E.
  - rewrite (Hocr bs eq_refl). st_unfold. simpl. by rewrite <- !app_assoc.
  - st_unfold. simpl. by rewrite <- !app_assoc.
Qed.

(** When OCR finds at least one box, the run completes: the callback
    sees the five stages and [COMPLETED], whatever the translation
    services, the inpainter and the renderer do. *)
Lemma process_ocr_success img req o b bs :
  ocr_extract env img (source_language req) = Ok (b :: bs) ->
  exists o' boxes',
    process_manga_translation net deepl_init env img req o =
      (o', Ok (render_translated_text env (inpaint_text_regions env img boxes') boxes'
                 (target_language req), boxes')) /\
    translate_text_boxes net deepl_init (b :: bs) req
      (mkOState (o_world o) (o_manager o) (o_events o ++ [INITIALIZED; OCR; TRANSLATION]))
      = (mkOState (o_world o') (o_manager o')
                  (o_events o ++ [INITIALIZED; OCR; TRANSLATION]), Ok boxes') /\
    o_events o' = o_events o ++ success_trace /\ length boxes' = length (b :: bs).
Proof.
  intros Hocr. unfold process_manga_translation, extract_text. rewrite Hocr.
  unfold emit. st_unfold. simpl.
  destruct (translate_text_boxes_ok (b :: bs) req
              (mkOState (o_world o) (o_manager o)
                 (((o_events o ++ [INITIALIZED]) ++ [OCR]) ++ [TRANSLATION])))
    as (o3 & bs' & Ht & He & Hl).
  rewrite Ht. simpl. exists (mkOState (o_world o3) (o_manager o3)
                                  (((o_events o3 ++ [INPAINTING]) ++ [RENDERING]) ++ [COMPLETED])).
  exists bs'. split; [reflexivity|]. split; [|split; [|exact Hl]].
  - rewrite <- !app_assoc in Ht. simpl in Ht. rewrite Ht.
    destruct o3 as [w3 m3 e3]. simpl in *. rewrite He. by rewrite <- !app_assoc.
  - rewrite He. simpl. by rewrite <- !app_assoc.
Qed.

(** C1. The status events of every run form a path of the stage
    machine from [INITIALIZED]: [COMPLETED] when the call returns, [ERROR]
    when it raises. *)
Theorem process_trace_valid img req o o' r :
  process_manga_translation net deepl_init env img req o = (o', r) ->
  exists tr, o_events o' = o_events o ++ tr /\ head tr = Some INITIALIZED /\
    stage_path tr /\
    last tr = Some (match r with Ok _ => COMPLETED | Raise _ => ERROR end).
Proof.
  intros Hp.
  destruct (ocr_extract env img (source_language req)) as [[|b bs]|e] eqn:E.
  2: { destruct (process_ocr_success img req o b bs E) as (o2 & bs' & Hp' & _ & He & _).
       rewrite Hp' in Hp. injection Hp as <- <-.
       exists success_trace. split; [exact He|]. split; [done|].
       split; [repeat constructor|done]. }
  all: rewrite process_ocr_failure in Hp by (intros ? Hbs; congruence);
       injection Hp as <- <-; exists ocr_failure_trace;
       split; [done|]; split; [done|]; split; [repeat constructor; discriminate|done].
Qed.

(** The translation stage when every service failed ([translate]
    returned [None]): each box gets its own text. *)
Lemma translate_text_boxes_outage boxes req o w' m' :
  manager_translate net deepl_init (combine_text_for_context boxes)
    (language_value (source_language req)) (language_value (target_language req))
    (o_world o, o_manager o) = ((w', m'), Ok None) ->
  translate_text_boxes net deepl_init boxes req o =
    (mkOState w' m' (o_events o), Ok (map keep_original boxes)).
Proof.
  intros Hm. unfold translate_text_boxes, on_manager. st_unfold. by rewrite Hm.
Qed.

(** C10. A translation outage is not fatal: when the translation manager
    answers [None] (every provider failed), the run still completes, and
    every box the OCR produced carries its original text as its
    translation. *)
Theorem process_translation_outage img req o b bs w' m' :
  ocr_extract env img (source_language req) = Ok (b :: bs) ->
  Forall (fun x => translated_text x = []) (b :: bs) ->
  manager_translate net deepl_init (combine_text_for_context (b :: bs))
    (language_value (source_language req)) (language_value (target_language req))
    (o_world o, o_manager o) = ((w', m'), Ok None) ->
  exists img',
    process_manga_translation net deepl_init env img req o =
      (mkOState w' m' (o_events o ++ success_trace),
       Ok (img', map (fun x => set_translated x (tb_text x)) (b :: bs))).
Proof.
  intros Hocr Hfresh Hm.
  assert (Hk : map keep_original (b :: bs) = map (fun x => set_translated x (tb_text x)) (b :: bs)).
  { apply map_ext_in. intros x Hx. unfold keep_original.
    rewrite bool_decide_eq_true_2; [done|].
    rewrite Forall_forall in Hfresh. apply Hfresh. by apply list_elem_of_In. }
  destruct (process_ocr_success img req o b bs Hocr) as (o2 & bs' & Hp & Ht & He & _).
  rewrite (translate_text_boxes_outage _ _ _ w' m') in Ht by exact Hm.
  destruct o2 as [w2 m2 e2]. simpl in *.
  injection Ht as -> -> <-. rewrite Hp, Hk, He. by eexists.
Qed.

Lemma render_boxes_fail acc boxes l bx e :
  bx ∈ boxes -> is_blank (translated_text bx) = false ->
  (forall a, draw_box env a bx l = Raise e) ->
  exists e', render_boxes env acc boxes l = Raise e'.
Proof.
  intros Hin Hnb Hr. revert acc. induction boxes as [|c boxes IH]; intros acc.
  - by apply not_elem_of_nil in Hin.
  - simpl. apply elem_of_cons in Hin as [->|Hin].
    + rewrite Hnb, Hr. simpl. eauto.
    + destruct (negb (is_blank (translated_text c))); [|by apply IH].
      destruct (draw_box env acc c l); [by apply IH|eauto].
Qed.

(** C13. A rendering failure on one box loses the whole rendering stage:
    the image returned is the inpainted image, without the boxes drawn
    before or after the failing one. *)
Theorem process_render_failure img req o b bs o' img' boxes' bx e :
  ocr_extract env img (source_language req) = Ok (b :: bs) ->
  process_manga_translation net deepl_init env img req o = (o', Ok (img', boxes')) ->
  bx ∈ boxes' -> is_blank (translated_text bx) = false ->
  (forall a, draw_box env a bx (target_language req) = Raise e) ->
  img' = inpaint_text_regions env img boxes'.
Proof.
  intros Hocr Hp Hin Hnb Hr.
  destruct (process_ocr_success img req o b bs Hocr) as (o2 & bs' & Hp' & _).
  rewrite Hp' in Hp. injection Hp as _ <- <-.
  unfold render_translated_text.
  destruct (render_boxes_fail (inpaint_text_regions env img bs') bs' (target_language req) bx e)
    as [e' ->]; done.
Qed.

End PipelineTheorems.

(** C14. With the OCR services of services/ocr/ as the collaborator,
    a page on which the recogniser reports two text regions whose
    centres are at most 20 pixels apart fails at the OCR stage: the
    merge of [_merge_nearby_boxes] raises, and the run reports
    [INITIALIZED], [OCR], [ERROR] and raises [ProcessingError]. *)
Theorem process_adjacent_detections `{UnicodeDB} net deepl_init {Img} (env : Collaborators Img)
    readers ma easy_results manga_dets img req o bs bs' :
  language_value (source_language req) ∈ readers ->
  boxes_of (easy_results img) = Ok bs -> any_nearby_pair 20 bs = true ->
  manga_boxes_of (manga_dets img) = Ok bs' -> any_nearby_pair 20 bs' = true ->
  process_manga_translation net deepl_init
    (with_ocr env (ocr_collaborator readers (Ok ma) easy_results manga_dets)) img req o =
    (mkOState (o_world o) (o_manager o) (o_events o ++ ocr_failure_trace), Raise ProcessingError).
Proof.
  intros Hl Hb Hp Hb' Hp'. apply process_ocr_failure. intros bs0. cbn [ocr_extract with_ocr].
  assert (Hne : readers <> []) by (intros ->; by apply not_elem_of_nil in Hl).
  unfold ocr_collaborator.
  destruct (get_ocr_service_fresh readers ma (source_language req) Hne) as [E|E]; rewrite E; simpl.
  - by rewrite (easy_extract_text_pair _ _ _ bs Hl Hb Hp).
  - by rewrite (manga_extract_text_pair _ bs' Hb' Hp').
Qed.

Lemma process_trace_valid_witness :
  exists tr, o_events (fst example_run) = o_events example_state ++ tr /\
    head tr = Some INITIALIZED /\ stage_path tr /\ last tr = Some COMPLETED.
Proof.
  exact (process_trace_valid failing_net DInitOk example_env 0 example_request example_state
           (fst example_run) (snd example_run) eq_refl).
Defined.

Lemma process_translation_outage_witness :
  exists w' m' img',
    example_run = (mkOState w' m' success_trace,
                   Ok (img', map (fun x => set_translated x (tb_text x)) example_boxes)).
Proof.
  destruct (manager_translate failing_net DInitOk (combine_text_for_context example_boxes)
              "japanese"%string "english"%string (mkWorld 0 0 [], new_manager ""%string))
    as [[w' m'] r] eqn:Hm.
  assert (Hr : r = Ok None) by (vm_compute in Hm; congruence).
  subst r. exists w', m'.
  apply (process_translation_outage failing_net DInitOk example_env 0 example_request
           example_state _ _ w' m'); [reflexivity | repeat constructor | exact Hm].
Defined.

Lemma process_render_failure_witness :
  snd example_run = Ok (2, map (fun x => set_translated x (tb_text x)) example_boxes) /\
  2 = inpaint_text_regions example_env 0 (map (fun x => set_translated x (tb_text x)) example_boxes).
Proof.
  assert (Hr : example_run = (fst example_run,
            Ok (2, map (fun x => set_translated x (tb_text x)) example_boxes)))
    by (vm_compute; reflexivity).
  split; [by rewrite Hr at 1|].
  apply (process_render_failure failing_net DInitOk example_env 0 example_request
           example_state _ _ (fst example_run) 2 _
           (set_translated (new_text_box (str "B") (mkBox 50 10 80 30)) (str "B"))
           ValueError eq_refl Hr).
  - vm_compute. right. left.
  - reflexivity.
  - intros a. reflexivity.
Defined.

Lemma process_adjacent_detections_witness :
  process_manga_translation failing_net DInitOk
    (with_ocr example_env (ocr_collaborator ["japanese"]%string (Ok true) adjacent_results adjacent_dets))
    0 example_request example_state =
    (mkOState (o_world example_state) (o_manager example_state)
              (o_events example_state ++ ocr_failure_trace), Raise ProcessingError).
Proof.
  eapply (process_adjacent_detections failing_net DInitOk example_env ["japanese"]%string true
            adjacent_results adjacent_dets 0 example_request example_state).
  - apply (bool_decide_unpack _). vm_compute. exact I.
  - reflexivity.
  - vm_compute. reflexivity.
  - reflexivity.
  - vm_compute. reflexivity.
Defined.
