(* ===== verification/Http.v ===== *)
(** * Http: the request-level code around the pipeline

    routes/dependencies.py (client address, the sliding-window rate
    limiter and its per-endpoint wrappers, API-key and upload checks),
    the size limit of main.py, the upload validation and the
    [/translate] endpoint of routes/routers/translation.py with its
    status store, [validate_image] and [validate_text_box_bounds] of
    utils/image_utils.py, and the attribute lookups these make on the [Settings]
    object of config.py.  A request is its method, its headers (names in
    lower case, as Starlette compares them) and its client address; the
    limiter's [rate_limit_storage] is a finite map from client address to
    the times of the requests it kept, in milliseconds. *)

From Stdlib Require Import NArith ZArith String Ascii.
From stdpp Require Import base list decidable gmap countable.
From S2P Require Import Prelude Schemas Config TextHeuristics Translator TranslationManager Orchestrator.

Local Open Scope Z_scope.
Local Open Scope st_scope.

(** ** Requests *)

Record Request : Type := mkHttpRequest {
  req_method : string;
  req_headers : dict text;          (** lower-case names *)
  req_client : option text          (** [request.client.host] *)
}.

(** [request.headers.get(name)]. *)
Definition header (r : Request) (name : string) : option text := dict_get (req_headers r) name.

(** [get_client_ip]: the first address of [X-Forwarded-For], else
    [X-Real-IP], else the peer, else ["unknown"]; an empty header counts
    as absent. *)
Definition get_client_ip (r : Request) : text :=
  match header r "x-forwarded-for" with
  | Some (c :: cs) => strip (default [] (head (split_on 44 (c :: cs))))
  | _ =>
      match header r "x-real-ip" with
      | Some (c :: cs) => c :: cs
      | _ => default (str "unknown") (req_client r)
      end
  end.

(** ** The sliding-window rate limiter *)

(** [rate_limit_storage]: client address to the times kept for it. *)
Abbreviation Storage := (gmap text (list Z)).

(** The entries of one address newer than [window_start]. *)
Definition recent (window_start : Z) (l : list Z) : list Z :=
  filter (fun t => window_start < t) l.

(** The body of [rate_limit_dependency] once rate limiting is on, for
    a request from [ip] at time [now] (ms): the old entries are dropped
    and written back, then the request is refused with 429 when
    [max_requests] remain, and recorded otherwise. *)
Definition limit_step (ip : text) (now max_requests window_minutes : Z) : st Storage unit :=
  s <- get ;;
  let kept := match s !! ip with
              | Some l => recent (now - window_minutes * 60000) l
              | None => []
              end in
  put (<[ip := kept]> s) ;;;
  if max_requests <=? Z.of_nat (length kept) then throw (HTTPException 429)
  else put (<[ip := kept ++ [now]]> s).

(** [rate_limit_dependency] with the settings object [cfg]: it reads
    [settings.ENABLE_RATE_LIMITING]. *)
Definition rate_limit_dependency (cfg : dict SettingValue) (r : Request)
    (now max_requests window_minutes : Z) : st Storage unit :=
  match getattr_bool cfg "ENABLE_RATE_LIMITING" with
  | Raise e => throw e
  | Ok false => ret tt
  | Ok true => limit_step (get_client_ip r) now max_requests window_minutes
  end.

(** [RateLimiter.translation_rate_limit] and its siblings: the limits
    are read from [settings] before the call. *)
Definition endpoint_rate_limit (cfg : dict SettingValue) (requests_attr window_attr : string)
    (r : Request) (now : Z) : st Storage unit :=
  match getattr_int cfg requests_attr, getattr_int cfg window_attr with
  | Raise e, _ | _, Raise e => throw e
  | Ok mx, Ok wn => rate_limit_dependency cfg r now mx wn
  end.

Definition translation_rate_limit (cfg : dict SettingValue) :=
  endpoint_rate_limit cfg "TRANSLATION_RATE_LIMIT_REQUESTS" "TRANSLATION_RATE_LIMIT_WINDOW".
Definition preview_rate_limit (cfg : dict SettingValue) :=
  endpoint_rate_limit cfg "PREVIEW_RATE_LIMIT_REQUESTS" "PREVIEW_RATE_LIMIT_WINDOW".
Definition batch_rate_limit (cfg : dict SettingValue) :=
  endpoint_rate_limit cfg "BATCH_RATE_LIMIT_REQUESTS" "BATCH_RATE_LIMIT_WINDOW".

(** The limiter's contract, on the whole history of accepted requests
    of one address: a request is accepted when fewer than [max_requests]
    accepted ones are newer than the start of its window. *)
Definition spec_accepts (history : list Z) (now max_requests window_minutes : Z) : bool :=
  Z.of_nat (length (recent (now - window_minutes * 60000) history)) <? max_requests.

(** One request of the contract: accepted requests join the history. *)
Definition spec_step (h : gmap text (list Z)) (ip : text) (now max_requests window_minutes : Z)
  : gmap text (list Z) * bool :=
  let hist := default [] (h !! ip) in
  if spec_accepts hist now max_requests window_minutes
  then (<[ip := hist ++ [now]]> h, true) else (h, false).

Fixpoint spec_run (max_requests window_minutes : Z) (h : gmap text (list Z)) (calls : list (text * Z))
  : list bool :=
  match calls with
  | [] => []
  | (ip, now) :: calls' =>
      let '(h', b) := spec_step h ip now max_requests window_minutes in
      b :: spec_run max_requests window_minutes h' calls'
  end.

(** A sequence of requests to one limited endpoint, each answered
    ([true]) or refused with 429 ([false]). *)
Fixpoint limit_run (max_requests window_minutes : Z) (calls : list (text * Z)) : st Storage (list bool) :=
  match calls with
  | [] => ret []
  | (ip, now) :: calls' =>
      b <- try_catch (limit_step ip now max_requests window_minutes ;;; ret true) (fun _ => ret false) ;;
      bs <- limit_run max_requests window_minutes calls' ;;
      ret (b :: bs)
  end.

(** The times of the requests do not decrease ([time.time()] is read at
    each request). *)
Fixpoint times_from (t : Z) (l : list Z) : bool :=
  match l with
  | [] => true
  | x :: l' => (t <=? x) && times_from x l'
  end.

(** The storage keeps, for each address, the suffix of its accepted
    history newer than a cutoff no later than the current window start. *)
Definition limiter_sim (window_minutes t : Z) (s : Storage) (h : gmap text (list Z)) : Prop :=
  forall ip, exists c, c <= t - window_minutes * 60000 /\
    default [] (s !! ip) = recent c (default [] (h !! ip)).

(** ** Upload checks and the [/translate] endpoint *)

(** [settings.allowed_mime_types] and the others, read once when
    routes/routers/translation.py is imported. *)
Definition settings_texts (name : string) : list text :=
  match getattr_texts settings_fields name with Ok l => l | Raise _ => [] end.
Definition settings_int (name : string) : Z :=
  match getattr_int settings_fields name with Ok z => z | Raise _ => 0 end.

Definition MAX_FILE_SIZE : Z := settings_int "max_file_size_mb" * 1024 * 1024.
Definition ALLOWED_MIME_TYPES : list text := settings_texts "allowed_mime_types".
Definition ALLOWED_EXTENSIONS : list text := settings_texts "allowed_extensions".

(** An [UploadFile]: its declared type, its name and its bytes. *)
Record Upload : Type := mkUpload {
  content_type : option text;
  filename : option text;
  contents : list N
}.

(** The digits of [int(s)] after the sign: decimal digits, single
    underscores between them. *)
Fixpoint int_body_ok `{UnicodeDB} (prev_digit : bool) (s : text) : bool :=
  match s with
  | [] => prev_digit
  | c :: s' =>
      if (c =? 95)%N then prev_digit && int_body_ok false s'
      else isdecimal c && int_body_ok true s'
  end.

(** [int(s)] for a string: surrounding whitespace, an optional sign,
    then the digits; anything else raises [ValueError]. *)
Definition py_int `{UnicodeDB} (s : text) : res Z :=
  let t := strip s in
  let '(sign, body) := match t with
                       | c :: t' => if (c =? 45)%N then (-1, t') else if (c =? 43)%N then (1, t') else (1, t)
                       | [] => (1, [])
                       end in
  if int_body_ok false body then Ok (sign * Z.of_nat (int_of_decimal (filter (fun c => c <> 95%N) body)))
  else Raise ValueError.

(** [FileSizeLimitMiddleware.dispatch]: a POST whose [content-length]
    exceeds [max_size] gets a 413 answer ([false]) without reaching the
    route. *)
Definition size_limit_dispatch `{UnicodeDB} (max_size : Z) (r : Request) : res bool :=
  if String.eqb (req_method r) "POST" then
    match header r "content-length" with
    | Some (c :: cs) =>
        match py_int (c :: cs) with
        | Ok v => Ok (negb (max_size <? v))
        | Raise e => Raise e
        end
    | _ => Ok true
    end
  else Ok true.

(** [validate_file_upload]: the same check as a dependency, with 413
    raised. *)
Definition validate_file_upload `{UnicodeDB} (r : Request) (max_file_size : Z) : res unit :=
  match header r "content-length" with
  | Some (c :: cs) =>
      match py_int (c :: cs) with
      | Ok v => if max_file_size <? v then Raise (HTTPException 413) else Ok tt
      | Raise e => Raise e
      end
  | _ => Ok tt
  end.

(** [_is_valid_api_key]: no configured key lets every key through. *)
Definition is_valid_api_key (cfg : dict SettingValue) (api_key : text) : res bool :=
  match getattr_texts cfg "API_KEYS" with
  | Raise e => Raise e
  | Ok [] => Ok true
  | Ok keys => Ok (bool_decide (api_key ∈ keys))
  end.

(** [validate_api_key], given the bearer credentials of the request. *)
Definition validate_api_key (cfg : dict SettingValue) (credentials : option text) : res (option text) :=
  match getattr_bool cfg "ENABLE_API_KEY_AUTH" with
  | Raise e => Raise e
  | Ok false => Ok None
  | Ok true =>
      match credentials with
      | None => Raise (HTTPException 401)
      | Some k =>
          match is_valid_api_key cfg k with
          | Raise e => Raise e
          | Ok true => Ok (Some k)
          | Ok false => Raise (HTTPException 401)
          end
      end
  end.

(** [ImageUtils.validate_image]: its [try] turns every failure into
    [False]. *)
Definition validate_image (cfg : dict SettingValue) (ct : text) (file_size : Z) : bool :=
  match getattr_texts cfg "SUPPORTED_IMAGE_FORMATS" with
  | Raise _ => false
  | Ok formats =>
      if negb (bool_decide (ct ∈ formats)) then false
      else match getattr_int cfg "MAX_IMAGE_SIZE" with
           | Raise _ => false
           | Ok mx => negb (mx <? file_size)
           end
  end.

(** [ImageUtils.validate_text_box_bounds]. *)
Definition validate_text_box_bounds (tb : TextBox) (shape : Z * Z) : bool :=
  let '(h, w) := shape in
  let b := tb_bbox tb in
  (0 <=? x1 b) && (x1 b <? w) && (0 <=? y1 b) && (y1 b <? h) &&
  (0 <=? x2 b) && (x2 b <=? w) && (0 <=? y2 b) && (y2 b <=? h) &&
  (x1 b <? x2 b) && (y1 b <? y2 b).

Section Endpoint.
Context `{UnicodeDB}.

(** [validate_image_file]. *)
Definition validate_image_file (f : Upload) : res unit :=
  match content_type f with
  | Some ct =>
      if bool_decide (ct ∈ ALLOWED_MIME_TYPES) then
        match filename f with
        | Some (c :: cs) =>
            let ext := 46%N :: lower (last (split_on 46 (c :: cs)) []) in
            if bool_decide (ext ∈ ALLOWED_EXTENSIONS) then Ok tt else Raise (HTTPException 400)
        | _ => Ok tt
        end
      else Raise (HTTPException 400)
  | None => Raise (HTTPException 400)
  end.

Context {Img : Type}.
(** [ImageUtils.load_image_from_bytes] (it raises
    [ImageValidationError] on undecodable bytes) and [image.shape[:2]]. *)
Variable load_image : list N -> res Img.
Variable image_shape : Img -> Z * Z.
(** [cv2.imencode('.png', image)] succeeds. *)
Variable encode_ok : Img -> bool.

(** [validate_image_content]: every failure but the HTTP ones becomes
    400. *)
Definition validate_image_content (bytes : list N) : res Img :=
  if MAX_FILE_SIZE <? Z.of_nat (length bytes) then Raise (HTTPException 413)
  else match load_image bytes with
       | Raise _ => Raise (HTTPException 400)
       | Ok img =>
           let '(h, w) := image_shape img in
           if (w <? 50) || (h <? 50) then Raise (HTTPException 400) else Ok img
       end.

(** The endpoint's state: the orchestrator's (its translation manager
    and the process-wide world) and [processing_status]. *)
Record AppState : Type := mkApp {
  app_orch : OState;
  app_status : gmap text ProcessingStage
}.

Variable net : Net.
Variable deepl_init : DeepLInit.
Variable env : Collaborators Img.

(** [status_callback]: each status the pipeline reports overwrites the
    session's entry. *)
Definition record_statuses (sid : option text) (events : list ProcessingStage)
    (st0 : gmap text ProcessingStage) : gmap text ProcessingStage :=
  match sid with
  | Some (c :: cs) => fold_left (fun m e => <[c :: cs := e]> m) events st0
  | _ => st0
  end.

(** [translate_manga]: the upload and image checks, the language check
    against the keys of [settings.font_mappings], the request built from
    the two strings ([Language(...)] raises [ValueError]), the pipeline
    with the session's callback, and the encoding.  [ProcessingError]
    becomes 422, HTTP errors pass, anything else becomes 500.  The answer
    is the image and its [X-Text-Boxes-Count]. *)
Definition translate_manga (f : Upload) (source_language target_language : string)
    (session_id : option text) : st AppState (Img * nat) :=
  match validate_image_file f with
  | Raise e => throw e
  | Ok _ =>
      fun a =>
        let body : st AppState (Img * nat) :=
          fun a =>
            match validate_image_content (contents f) with
            | Raise e => (a, Raise e)
            | Ok img =>
                let supported := map fst font_mappings in
                if negb (bool_decide (source_language ∈ supported)) then (a, Raise (HTTPException 400))
                else if negb (bool_decide (target_language ∈ supported)) then (a, Raise (HTTPException 400))
                else match language_of_value source_language, language_of_value target_language with
                     | Raise e, _ | _, Raise e => (a, Raise e)
                     | Ok src, Ok dst =>
                         let st0 := record_statuses session_id [INITIALIZED] (app_status a) in
                         let o := app_orch a in
                         let '(o', r) := process_manga_translation net deepl_init env img (mkRequest src dst)
                                           (mkOState (o_world o) (o_manager o) []) in
                         let a' := mkApp (mkOState (o_world o') (o_manager o') (o_events o))
                                         (record_statuses session_id (o_events o') st0) in
                         match r with
                         | Raise e => (a', Raise e)
                         | Ok (img', boxes) =>
                             if encode_ok img' then (a', Ok (img', length boxes))
                             else (a', Raise (HTTPException 500))
                         end
                     end
            end in
        let '(a', r) := body a in
        match r with
        | Ok v => (a', Ok v)
        | Raise ProcessingError | Raise ImageValidationError => (a', Raise (HTTPException 422))
        | Raise (HTTPException c) => (a', Raise (HTTPException c))
        | Raise _ => (a', Raise (HTTPException 500))
        end
  end.

(** [get_processing_status]: 404 for an unknown or expired session. *)
Definition get_processing_status (sid : text) : st AppState ProcessingStage :=
  fun a => match app_status a !! sid with
           | Some stg => (a, Ok stg)
           | None => (a, Raise (HTTPException 404))
           end.

(** [cleanup_status], once its delay has passed. *)
Definition cleanup_status (sid : text) : st AppState unit :=
  modify (fun a => mkApp (app_orch a) (delete sid (app_status a))).

End Endpoint.

(** Concrete inputs. *)

Definition example_calls : list (text * Z) := [(str "a", 0); (str "a", 1000); (str "a", 2000)].

Definition example_upload : Upload := mkUpload (Some (str "image/png")) (Some (str "page.png")) [1%N; 2%N; 3%N].

Definition example_app : AppState := mkApp example_state ∅.

Definition example_storage : Storage := {[str "a" := [0]]}.

(** ** The limiter refines its contract *)

Lemma recent_recent c c' l : c <= c' -> recent c' (recent c l) = recent c' l.
Proof. intros Hc. unfold recent. rewrite list_filter_filter. apply list_filter_iff. lia. Qed.

Lemma recent_snoc c l x : c < x -> recent c (l ++ [x]) = recent c l ++ [x].
Proof. intros Hx. unfold recent. by rewrite stdpp.list_basics.list.filter_app, filter_cons_True. Qed.

Lemma limiter_sim_insert wn t s h ip kept :
  limiter_sim wn t s h ->
  (exists c, c <= t - wn * 60000 /\ kept = recent c (default [] (h !! ip))) ->
  limiter_sim wn t (<[ip := kept]> s) h.
Proof.
  intros Hs (c & Hc & Hk) ip'. destruct (decide (ip = ip')) as [<-|Hne].
  - exists c. by rewrite lookup_insert_eq.
  - rewrite lookup_insert_ne by done. apply Hs.
Qed.

Lemma limiter_sim_later wn t t' s h : t <= t' -> limiter_sim wn t s h -> limiter_sim wn t' s h.
Proof. intros Ht Hs ip. destruct (Hs ip) as (c & Hc & Hk). exists c. split; [lia | done]. Qed.

Section Limiter.
Variables max_requests window_minutes : Z.
Hypothesis window_pos : 0 < window_minutes.

(** One request: the limiter answers as the contract does, and the
    simulation carries over to the state after it. *)
Lemma limit_step_sim t s h ip now :
  t <= now -> limiter_sim window_minutes t s h ->
  exists s',
    limit_step ip now max_requests window_minutes s =
      (s', if (spec_step h ip now max_requests window_minutes).2 then Ok tt else Raise (HTTPException 429)) /\
    limiter_sim window_minutes now s' (spec_step h ip now max_requests window_minutes).1.
Proof.
  intros Ht Hsim. destruct (Hsim ip) as (c & Hc & HK).
  unfold limit_step, spec_step, spec_accepts. st_unfold.
  set (W := window_minutes * 60000) in *.
  assert (Hkept : match s !! ip with Some l => recent (now - W) l | None => [] end =
                  recent (now - W) (default [] (h !! ip))).
  { rewrite <- (recent_recent c (now - W)) by lia. rewrite <- HK.
    by destruct (s !! ip). }
  rewrite Hkept.
  destruct (max_requests <=? Z.of_nat (length (recent (now - W) (default [] (h !! ip))))) eqn:E;
    [replace (_ <? max_requests) with false by lia | replace (_ <? max_requests) with true by lia];
    eexists; (split; [reflexivity|]); cbn [fst snd].
  - apply limiter_sim_insert; [by apply (limiter_sim_later _ t) | exists (now - W); split; [lia|done]].
  - intros ip'. destruct (decide (ip = ip')) as [<-|Hne].
    + exists (now - W). rewrite !lookup_insert_eq. simpl. split; [lia|].
      rewrite recent_snoc by lia. done.
    + rewrite !lookup_insert_ne by done. destruct (Hsim ip') as (c' & Hc' & Hk'). exists c'. split; [lia|done].
Qed.

Lemma limit_run_sim calls : forall t s h,
  limiter_sim window_minutes t s h -> times_from t (map snd calls) = true ->
  (limit_run max_requests window_minutes calls s).2 = Ok (spec_run max_requests window_minutes h calls).
Proof.
  induction calls as [|[ip now] calls IH]; intros t s h Hsim Ht; [done|].
  cbn [map times_from] in Ht. apply andb_true_iff in Ht as [Hle Ht]. apply Z.leb_le in Hle.
  destruct (limit_step_sim t s h ip now Hle Hsim) as (s' & Hstep & Hsim').
  cbn [limit_run spec_run]. st_unfold.
  destruct (spec_step h ip now max_requests window_minutes) as [h' b] eqn:Hs. cbn [fst snd] in *.
  rewrite Hstep. destruct b; cbn;
    (destruct (limit_run max_requests window_minutes calls s') as [s'' [bs|e]] eqn:Hr;
     pose proof (IH now s' h' Hsim' Ht) as IH'; rewrite Hr in IH'; cbn in IH'; by inversion IH').
Qed.

End Limiter.

(** C3. The limiter implements its contract: for every sequence of
    requests whose times do not decrease, [rate_limit_dependency]'s body
    accepts exactly the requests that the contract on the whole history
    accepts, although it forgets the entries older than each window. *)
Theorem limiter_refines max_requests window_minutes calls t0 :
  0 < window_minutes -> times_from t0 (map snd calls) = true ->
  (limit_run max_requests window_minutes calls ∅).2 = Ok (spec_run max_requests window_minutes ∅ calls).
Proof.
  intros Hw Ht. apply (limit_run_sim _ _ Hw calls t0); [|done].
  intros ip. exists (t0 - window_minutes * 60000). rewrite !lookup_empty. split; [lia | done].
Qed.

Lemma recent_expired c l : (forall x, x ∈ l -> x <= c) -> recent c l = [].
Proof.
  induction l as [|x l IH]; intros Hl; [done|]. unfold recent in *.
  rewrite filter_cons_False by (assert (x ∈ x :: l) as Hx by left; specialize (Hl x Hx); lia).
  apply IH. intros y Hy. apply Hl. by right.
Qed.

(** C40. Waiting is enough: once every request kept for an address is
    at least a full window old, its next request is accepted (when the
    limit allows any request at all) and becomes the only one kept. *)
Theorem limit_step_after_window ip now max_requests window_minutes s :
  1 <= max_requests ->
  (forall x, x ∈ default [] (s !! ip) -> x <= now - window_minutes * 60000) ->
  limit_step ip now max_requests window_minutes s = (<[ip := [now]]> s, Ok tt).
Proof.
  intros Hm Hold. unfold limit_step. st_unfold.
  assert (Hk : match s !! ip with Some l => recent (now - window_minutes * 60000) l | None => [] end = []).
  { destruct (s !! ip) as [l|]; [by apply recent_expired | done]. }
  rewrite Hk. destruct (Z.leb_spec max_requests (Z.of_nat (length (@nil Z)))); [simpl in *; lia | reflexivity].
Qed.

(** With the real [Settings], whose fields are lower case, every
    per-endpoint limiter raises [AttributeError] before looking at the
    request, and so does [rate_limit_dependency] itself. *)
Lemma endpoint_rate_limits_raise r now s :
  translation_rate_limit settings_fields r now s = (s, Raise AttributeError) /\
  preview_rate_limit settings_fields r now s = (s, Raise AttributeError) /\
  batch_rate_limit settings_fields r now s = (s, Raise AttributeError).
Proof. split_and!; reflexivity. Qed.

Lemma rate_limit_dependency_raises r now mx wn s :
  rate_limit_dependency settings_fields r now mx wn s = (s, Raise AttributeError).
Proof. reflexivity. Qed.

(** [Settings] declares neither [ENABLE_API_KEY_AUTH] nor [API_KEYS],
    nor [SUPPORTED_IMAGE_FORMATS]: [validate_api_key] raises
    [AttributeError] whatever the credentials, and
    [ImageUtils.validate_image] refuses every image. *)
Lemma validate_api_key_raises creds : validate_api_key settings_fields creds = Raise AttributeError.
Proof. reflexivity. Qed.

Lemma validate_image_refuses ct size : validate_image settings_fields ct size = false.
Proof. reflexivity. Qed.

Lemma py_int_raise `{UnicodeDB} s e : py_int s = Raise e -> e = ValueError.
Proof. unfold py_int. repeat case_match; by intros [=]. Qed.

(** The middleware and the dependency make the same size decision on a
    POST: 413 from one exactly when the other answers 413. *)
Lemma size_checks_agree `{UnicodeDB} r m :
  req_method r = "POST"%string ->
  (size_limit_dispatch m r = Ok false <-> validate_file_upload r m = Raise (HTTPException 413)).
Proof.
  intros Hm. unfold size_limit_dispatch, validate_file_upload. rewrite Hm. cbn.
  destruct (header r "content-length") as [[|c cs]|]; [done| |done].
  destruct (py_int (c :: cs)) as [v|e] eqn:Hi; [|apply py_int_raise in Hi as ->; split; intros; by simplify_eq].
  destruct (m <? v); cbn; split; intros; by simplify_eq.
Qed.

(** ** The endpoint composed with the pipeline *)

Lemma record_statuses_last c cs l e st0 :
  list.last l = Some e -> record_statuses (Some (c :: cs)) l st0 !! (c :: cs) = Some e.
Proof.
  intros (l' & ->)%last_Some. cbn [record_statuses]. rewrite fold_left_app. cbn.
  by rewrite lookup_insert_eq.
Qed.

Lemma language_value_supported l : bool_decide (language_value l ∈ map fst font_mappings) = true.
Proof. by destruct l. Qed.

Lemma language_of_value_value l : language_of_value (language_value l) = Ok l.
Proof. by destruct l. Qed.

Lemma validate_image_file_raise `{UnicodeDB} f e :
  validate_image_file f = Raise e -> e = HTTPException 400.
Proof. unfold validate_image_file. repeat case_match; by intros [=]. Qed.

Section EndpointProofs.
Context `{UnicodeDB} {Img : Type}.
Variables (load_image : list N -> res Img) (image_shape : Img -> Z * Z) (encode_ok : Img -> bool)
  (net : Net) (deepl_init : DeepLInit) (env : Collaborators Img).

(** C2. The endpoint on a valid upload in two supported languages runs the
    pipeline once: OCR that finds text gives 200 with the number of boxes
    (or 500 when the PNG encoding fails) and leaves the session at
    [COMPLETED]; OCR that finds nothing gives 422 and leaves it at
    [ERROR]. *)
Theorem translate_manga_status f img l1 l2 c cs a :
  validate_image_file f = Ok tt ->
  validate_image_content load_image image_shape (contents f) = Ok img ->
  let '(a', r) := translate_manga load_image image_shape encode_ok net deepl_init env
                    f (language_value l1) (language_value l2) (Some (c :: cs)) a in
  match ocr_extract env img l1 with
  | Ok (b :: bs) =>
      app_status a' !! (c :: cs) = Some COMPLETED /\
      (r = Raise (HTTPException 500) \/ exists img', r = Ok (img', S (length bs)))
  | _ => app_status a' !! (c :: cs) = Some ERROR /\ r = Raise (HTTPException 422)
  end.
Proof.
  intros Hf Hc. unfold translate_manga. rewrite Hf, Hc, !language_value_supported, !language_of_value_value.
  cbn [negb]. set (o0 := mkOState (o_world (app_orch a)) (o_manager (app_orch a)) []).
  destruct (ocr_extract env img l1) as [[|b bs]|e] eqn:E.
  2: { destruct (process_ocr_success net deepl_init env img (mkRequest l1 l2) o0 b bs E)
         as (o' & bs' & Hp & _ & He & Hl).
       rewrite Hp. cbn -[record_statuses]. rewrite He.
       destruct (encode_ok _); cbn -[record_statuses]; rewrite (record_statuses_last _ _ _ COMPLETED) by done;
         (split; [done|]); [right; eexists; by rewrite Hl | by left]. }
  all: rewrite process_ocr_failure by (cbn; intros ? Hbs; congruence); cbn -[record_statuses];
       by rewrite (record_statuses_last _ _ _ ERROR).
Qed.

(** [translate_manga] accepts ["default"], a key of [font_mappings],
    as a language; [Language("default")] then raises [ValueError], which
    the endpoint answers with 500 rather than 400. *)
Lemma translate_manga_default_language f img t sid a :
  validate_image_file f = Ok tt ->
  validate_image_content load_image image_shape (contents f) = Ok img ->
  translate_manga load_image image_shape encode_ok net deepl_init env f "default" t sid a =
    (a, Raise (HTTPException (if bool_decide (t ∈ map fst font_mappings) then 500 else 400))).
Proof.
  intros Hf Hc. unfold translate_manga. rewrite Hf, Hc. cbn [negb].
  assert (HD : bool_decide ("default"%string ∈ map fst font_mappings) = true) by (vm_compute; reflexivity).
  rewrite HD.
  cbn [negb]. by destruct (bool_decide (t ∈ map fst font_mappings)).
Qed.

Lemma validate_image_content_raise bytes e :
  validate_image_content load_image image_shape bytes = Raise e ->
  e = HTTPException 413 \/ e = HTTPException 400.
Proof. unfold validate_image_content. repeat case_match; intros [=]; auto. Qed.

Lemma language_of_value_raise s e : language_of_value s = Raise e -> e = ValueError.
Proof. unfold language_of_value. case_match; by intros [=]. Qed.

End EndpointProofs.

(** ** Concrete runs *)

Lemma limiter_refines_witness :
  0 < 5 /\ times_from 0 (map snd example_calls) = true /\
  (limit_run 2 5 example_calls ∅).2 = Ok (spec_run 2 5 ∅ example_calls).
Proof.
  assert (Hw : 0 < 5) by lia. assert (Ht : times_from 0 (map snd example_calls) = true) by reflexivity.
  split; [exact Hw | split; [exact Ht | exact (limiter_refines 2 5 example_calls 0 Hw Ht)]].
Defined.

Lemma limit_step_after_window_witness :
  1 <= 1 /\ (forall x, x ∈ default [] (example_storage !! str "a") -> x <= 400000 - 5 * 60000) /\
  limit_step (str "a") 400000 1 5 example_storage = (<[str "a" := [400000]]> example_storage, Ok tt).
Proof.
  assert (Hm : 1 <= 1) by lia.
  assert (Ho : forall x, x ∈ default [] (example_storage !! str "a") -> x <= 400000 - 5 * 60000).
  { intros x. unfold example_storage. rewrite lookup_singleton_eq. cbn. intros ->%list_elem_of_singleton. lia. }
  split; [exact Hm | split; [exact Ho | exact (limit_step_after_window _ _ _ _ _ Hm Ho)]].
Defined.

Lemma translate_manga_status_witness :
  validate_image_file example_upload = Ok tt /\
  validate_image_content (fun _ => Ok 100%nat) (fun n => (Z.of_nat n, Z.of_nat n)) (contents example_upload) = Ok 100%nat /\
  let '(a', r) := translate_manga (fun _ => Ok 100%nat) (fun n => (Z.of_nat n, Z.of_nat n)) (fun _ => true)
                    failing_net DInitOk example_env example_upload (language_value JAPANESE)
                    (language_value ENGLISH) (Some [115%N]) example_app in
  match ocr_extract example_env 100%nat JAPANESE with
  | Ok (b :: bs) =>
      app_status a' !! [115%N] = Some COMPLETED /\
      (r = Raise (HTTPException 500) \/ exists img', r = Ok (img', S (length bs)))
  | _ => app_status a' !! [115%N] = Some ERROR /\ r = Raise (HTTPException 422)
  end.
Proof.
  assert (Hf : validate_image_file example_upload = Ok tt) by reflexivity.
  assert (Hc : validate_image_content (fun _ => Ok 100%nat) (fun n => (Z.of_nat n, Z.of_nat n))
                 (contents example_upload) = Ok 100%nat) by reflexivity.
  split; [exact Hf | split; [exact Hc |]].
  exact (translate_manga_status _ _ (fun _ => true) failing_net DInitOk example_env example_upload 100%nat
           JAPANESE ENGLISH 115%N [] example_app Hf Hc).
Defined.
