(* ===== verification/Health.v ===== *)
(** * Health: the [/health] route and the application's exception handlers

    routes/routers/health.py ([_check_system_resources],
    [_check_ocr_services], [_check_translation_services], [health_check])
    with the [HealthSettings] thresholds of config.py and the
    [HealthResponse] of models/responses.py, and the exception handlers
    of main.py that turn what a route raises into a status code.  What
    [psutil] measures is an input ([None] when the package is missing);
    percentages are the rationals psutil's floats denote. *)

From Stdlib Require Import NArith ZArith QArith String Ascii.
From stdpp Require Import base list decidable.
From S2P Require Import Prelude Schemas Translator TranslationManager Ocr Orchestrator Http.

Local Open Scope Z_scope.

(** ** Settings and measurements *)

(** [HealthSettings] with its defaults. *)
Record HealthSettings : Type := mkHealthSettings {
  max_memory_percent : Z;
  max_disk_percent : Z;
  max_cpu_percent : Z;
  min_memory_gb : Z;
  min_disk_gb : Z
}.

Definition health_defaults : HealthSettings := mkHealthSettings 90 90 90 1 1.

(** What [psutil.virtual_memory()], [psutil.disk_usage("/")] and
    [psutil.cpu_percent(interval=1)] report: percentages, and free bytes. *)
Record SystemMetrics : Type := mkMetrics {
  memory_percent : Q;
  disk_percent : Q;
  cpu_percent : Q;
  memory_available : Z;
  disk_free : Z
}.

(** The messages [_check_system_resources] appends, by their cause. *)
Inductive ResourceIssue : Type :=
  | MemoryHigh | DiskHigh | CpuHigh | MemoryLow | DiskLow.

#[export] Instance ResourceIssue_eq_dec : EqDecision ResourceIssue.
Proof. solve_decision. Defined.

(** [x < y] on the rationals. *)
Definition Qltb (x y : Q) : bool := negb (Qle_bool y x).

Definition GiB : Q := inject_Z (1024 ^ 3).

(** [_check_system_resources]: [healthy] turns false exactly when a
    message is appended; a missing [psutil] gives [False]. *)
Definition check_system_resources (hs : HealthSettings) (probe : option SystemMetrics)
  : bool * list ResourceIssue :=
  match probe with
  | None => (false, [])
  | Some m =>
      let issue (c : bool) (i : ResourceIssue) := if c then [i] else [] in
      let msgs :=
        issue (Qltb (inject_Z (max_memory_percent hs)) (memory_percent m)) MemoryHigh ++
        issue (Qltb (inject_Z (max_disk_percent hs)) (disk_percent m)) DiskHigh ++
        issue (Qltb (inject_Z (max_cpu_percent hs)) (cpu_percent m)) CpuHigh ++
        issue (Qltb (inject_Z (memory_available m) / GiB) (inject_Z (min_memory_gb hs))) MemoryLow ++
        issue (Qltb (inject_Z (disk_free m) / GiB) (inject_Z (min_disk_gb hs))) DiskLow in
      (match msgs with [] => true | _ => false end, msgs)
  end.

(** The second value the two service checks return. *)
Inductive CheckInfo : Type :=
  | InfoMsg (s : string)
  | InfoOcr (status : dict OcrService)
  | InfoServices (names : list string).

(** [_check_ocr_services] on the manager it builds: [is_available()] is
    [len(self.services) > 0], and [get_service_status()] has one entry
    per loaded service. *)
Definition check_ocr_services (m : OcrManager) : bool * CheckInfo :=
  if negb (ocr_is_available m) then (false, InfoMsg "OCR manager not available")
  else match services m with
       | [] => (false, InfoMsg "No OCR services available")
       | svcs => (true, InfoOcr svcs)
       end.

Section Checks.
Context `{UnicodeDB}.
Variable net : Net.
Variable deepl_init : DeepLInit.

(** [_check_translation_services] on a new [TranslationManager()] (no
    DeepL key), whose [get_available_services] initialises it. *)
Definition check_translation_services (w : World) : bool * CheckInfo :=
  match (get_available_services net deepl_init (w, new_manager "")).2 with
  | Ok [] => (false, InfoMsg "No translation services available")
  | Ok names => (true, InfoServices names)
  | Raise _ => (false, InfoMsg "error")
  end.

(** [HealthResponse]. *)
Record HealthResponse : Type := mkHealthResponse {
  hr_status : string;
  hr_version : string;
  ocr_models_loaded : Z;
  translation_services_available : list string;
  uptime_seconds : Q
}.

(** [settings.app_version]. *)
Definition app_version : string := "0.0.0".

(** [health_check]: the three checks in order, each on objects of its
    own ([OCRManager()] is [fresh_ocr_manager]), then 500 unless all
    three pass. *)
Definition health_check (hs : HealthSettings) (probe : option SystemMetrics) (w : World)
    (uptime : Q) : res HealthResponse :=
  let '(system_ok, _) := check_system_resources hs probe in
  let '(ocr_ok, ocr_info) := check_ocr_services fresh_ocr_manager in
  let '(trans_ok, trans_info) := check_translation_services w in
  if negb (system_ok && ocr_ok && trans_ok) then Raise (HTTPException 500)
  else Ok (mkHealthResponse "healthy" app_version 0
             (match trans_info with InfoServices l => l | _ => [] end) uptime).

End Checks.

(** ** The application's exception handlers *)

(** The status code of the response main.py sends for an exception that
    escapes a route: [http_exception_handler] answers an [HTTPException]
    with its code, and everything else ends as 500: the
    [general_exception_handler], and also [processing_error_handler],
    which raises [AttributeError] on [exc.detail] so that the server-error
    handler answers instead (module [App] derives this from the handler
    table and the middleware stack). *)
Definition exception_status (e : exn) : Z :=
  match e with
  | HTTPException c => c
  | _ => 500
  end.

(** The status of a route's outcome. *)
Definition response_status {A} (r : res A) : Z :=
  match r with Ok _ => 200 | Raise e => exception_status e end.

(** ** Start-up and shut-down: [lifespan] of main.py *)

(** [obj.name()] for an object whose class defines the methods [methods]
    (the ones that take no argument, by name): a missing name raises
    [AttributeError]. *)
Definition method_call {S} (methods : dict (S -> S)) (name : string) (s : S) : res S :=
  match dict_get methods name with
  | Some f => Ok (f s)
  | None => Raise AttributeError
  end.

Section Lifespan.
Context `{UnicodeDB}.
Variable net : Net.
Variable deepl_init : DeepLInit.
(** The OCR service classes as [OCRManager.initialize] finds them. *)
Variable ctors : list OcrCtor.

(** The methods without arguments of [TranslationManager] and
    [OCRManager]. *)
Definition translation_manager_methods : dict (MW -> MW) :=
  [("initialize", fun s => (manager_initialize deepl_init s).1);
   ("close", fun s => (manager_close s).1)]%string.

Definition ocr_manager_methods : dict (OcrManager -> OcrManager) :=
  [("initialize", fun m => (ocr_initialize ctors m).1);
   ("close", fun m => (ocr_close m).1)]%string.

(** The start-up half of [lifespan]: a new [OCRManager] and a new
    [TranslationManager] (no DeepL key), each initialised; a failure
    is re-raised and stops the application. *)
Definition lifespan_startup (w : World) : res (OcrManager * MW) :=
  match ocr_initialize ctors fresh_ocr_manager with
  | (_, Raise e) => Raise e
  | (om, Ok _) =>
      match manager_initialize deepl_init (w, new_manager "") with
      | (tm, Ok _) => Ok (om, tm)
      | (_, Raise e) => Raise e
      end
  end.

(** The shut-down half: [translation_manager.cleanup()] then
    [ocr_manager.cleanup()] in one [try], whose handler logs the error. *)
Definition lifespan_shutdown (om : OcrManager) (tm : MW) : OcrManager * MW * option exn :=
  match method_call translation_manager_methods "cleanup" tm with
  | Raise e => (om, tm, Some e)
  | Ok tm' =>
      match method_call ocr_manager_methods "cleanup" om with
      | Raise e => (om, tm', Some e)
      | Ok om' => (om', tm', None)
      end
  end.

End Lifespan.

(** ** Theorems *)

Lemma check_ocr_services_fresh : check_ocr_services fresh_ocr_manager = (false, InfoMsg "OCR manager not available").
Proof. reflexivity. Qed.

Lemma check_translation_services_fresh `{UnicodeDB} net di w :
  check_translation_services net di w = (true, InfoServices ["Google"%string]).
Proof. reflexivity. Qed.

Lemma Qltb_false x y : Qltb x y = false <-> (y <= x)%Q.
Proof. unfold Qltb. rewrite negb_false_iff. apply Qle_bool_iff. Qed.

(** The resource check passes exactly when every measurement is within
    its threshold. *)
Lemma check_system_resources_healthy hs m :
  (check_system_resources hs (Some m)).1 = true <->
  (memory_percent m <= inject_Z (max_memory_percent hs))%Q /\
  (disk_percent m <= inject_Z (max_disk_percent hs))%Q /\
  (cpu_percent m <= inject_Z (max_cpu_percent hs))%Q /\
  (inject_Z (min_memory_gb hs) <= inject_Z (memory_available m) / GiB)%Q /\
  (inject_Z (min_disk_gb hs) <= inject_Z (disk_free m) / GiB)%Q.
Proof.
  cbn. rewrite <- !Qltb_false.
  destruct (Qltb _ (memory_percent m)), (Qltb _ (disk_percent m)), (Qltb _ (cpu_percent m)),
    (Qltb (_ / GiB) _), (Qltb (_ / GiB) (inject_Z (min_disk_gb hs))); cbn; intuition congruence.
Qed.

(** C5. [/health] answers 500 whatever the thresholds, the
    machine's measurements, the DeepL start-up, the network and the
    uptime: [_check_ocr_services] asks a new [OCRManager()], which has
    never been initialised and has no service, so the OCR check always
    fails, although the translation check passes. *)
Theorem health_check_always_500 `{UnicodeDB} net di hs probe w uptime :
  response_status (health_check net di hs probe w uptime) = 500.
Proof.
  unfold health_check. destruct (check_system_resources hs probe) as [ok ?].
  rewrite check_ocr_services_fresh, check_translation_services_fresh.
  by rewrite andb_false_r.
Qed.

(** What [/translate] raises ends as 400, 413, 422 or 500. *)
Lemma translate_manga_raise_status `{UnicodeDB} {Img} load_image image_shape (encode_ok : Img -> bool)
    net di env f src dst sid a e :
  (translate_manga load_image image_shape encode_ok net di env f src dst sid a).2 = Raise e ->
  exception_status e ∈ [400; 413; 422; 500].
Proof.
  unfold translate_manga.
  destruct (validate_image_file f) as [[]|e'] eqn:Hf;
    [|cbn; intros [= <-]; apply validate_image_file_raise in Hf as ->; by apply (bool_decide_unpack _)].
  repeat case_match; simplify_eq; cbn; intros; simplify_eq; try by apply (bool_decide_unpack _).
  all: match goal with
       | Hc : validate_image_content _ _ _ = Raise _ |- _ =>
           apply validate_image_content_raise in Hc as [[= ->]|[= ->]]; by apply (bool_decide_unpack _)
       | Hp : process_manga_translation _ _ _ _ _ _ = (_, Raise _) |- _ =>
           apply process_raise_processing_error in Hp; discriminate
       | Hl : language_of_value _ = Raise _ |- _ => apply language_of_value_raise in Hl; discriminate
       end.
Qed.

(** Whatever the upload, the languages, the session, the decoder, the
    collaborators and the network, [/translate] answers with one of 200,
    400, 413, 422 and 500. *)
Lemma translate_manga_codes `{UnicodeDB} {Img} load_image image_shape (encode_ok : Img -> bool)
    net di env f src dst sid a :
  response_status (translate_manga load_image image_shape encode_ok net di env f src dst sid a).2
    ∈ [200; 400; 413; 422; 500].
Proof.
  destruct (translate_manga _ _ _ _ _ _ _ _ _ _ _).2 as [v|e] eqn:He; [by apply (bool_decide_unpack _)|].
  apply elem_of_cons. right. by eapply translate_manga_raise_status.
Qed.

(** [lifespan] never closes the managers it started: neither class has
    a [cleanup] method, the first lookup raises [AttributeError], and
    the handler only logs it. *)
Lemma lifespan_shutdown_noop `{UnicodeDB} di ctors om tm :
  lifespan_shutdown di ctors om tm = (om, tm, Some AttributeError).
Proof. reflexivity. Qed.

(** With every OCR service loaded, start-up gives an initialised OCR
    manager and a translation manager holding Google only. *)
Lemma lifespan_startup_ok `{UnicodeDB} di w :
  exists om tm, lifespan_startup di (ocr_ctors ["english"%string] (Ok true)) w = Ok (om, tm) /\
    initialized om = true /\ service_priority tm.2 = ["Google"%string].
Proof. do 2 eexists. split_and!; reflexivity. Qed.
