(* ===== verification/App.v ===== *)
(** * App: the FastAPI application of main.py

    The exception handlers main.py registers, the middleware it adds
    ([CORSMiddleware], [FileSizeLimitMiddleware], [log_requests]) and the
    root route, run inside the stack FastAPI builds for them:
    [ServerErrorMiddleware] (holding the handler for [Exception]), the
    user middleware in reverse order of addition, then
    [ExceptionMiddleware] (holding the other handlers, chosen along the
    raised object's [__mro__]) around the router.  A layer's result is a
    response or a raised exception object; what leaves the stack is the
    response sent and the exception reported to the server.  The stack
    code itself belongs to Starlette and FastAPI and is modelled from
    their behaviour; CORS is modelled for its preflight answer and its
    [Access-Control-Allow-Origin] header. *)

From Stdlib Require Import NArith ZArith QArith String Floats.
From stdpp Require Import base list decidable.
From S2P Require Import Prelude Schemas Exceptions Translator TranslationManager Orchestrator Http Health ImageUtils.

Import Cls (PyClass).

Local Open Scope Z_scope.

(** ** Responses and outcomes *)

(** A response: status, JSON content and headers (lower-case names, as
    Starlette's [MutableHeaders] stores them). *)
Record Response : Type := mkResponse {
  resp_status : Z;
  resp_content : dict PyVal;
  resp_headers : dict text
}.

(** What a layer of the stack gives back. *)
Inductive outcome : Type :=
  | Returned (r : Response)
  | Raised (e : PyExc).

Definition json_response (status : Z) (content : dict PyVal) : Response :=
  mkResponse status content [].

Definition set_header (r : Response) (name : string) (v : text) : Response :=
  mkResponse (resp_status r) (resp_content r) (dict_set (resp_headers r) name v).

(** The [AttributeError] that [obj.name] raises for a missing name. *)
Definition attribute_error (e : PyExc) (name : string) : PyExc :=
  exception_init Cls.AttributeError
    [str ("'" ++ type_name (exc_type e) ++ "' object has no attribute '" ++ name ++ "'")].

(** [fastapi.HTTPException(status_code, detail)]: Starlette's
    [__init__] keeps both, and no headers. *)
Definition HTTPException_init (status_code : Z) (detail : text) : PyExc :=
  mkPyExc Cls.HTTPException [] [("status_code"%string, VInt status_code); ("detail"%string, VStr detail); ("headers"%string, VNone)].

(** The object a route raises for an exception of the development, with
    the message [msg] it was raised with. *)
Definition exn_object (e : exn) (msg : text) : PyExc :=
  match e with
  | ProcessingError | ImageValidationError => MangaTranslatorException_init (exn_class e) msg None
  | HTTPException c => HTTPException_init c msg
  | _ => exception_init (exn_class e) [msg]
  end.

(** ** The handlers of main.py *)

Definition processing_error_handler (exc : PyExc) : outcome :=
  match exc_getattr exc "detail" with
  | Raise _ => Raised (attribute_error exc "detail")
  | Ok d => Returned (json_response 422
      [("error"%string, VStr (str "processing_error")); ("detail"%string, d); ("type"%string, VStr (str "ProcessingError"))])
  end.

(** [exc.errors()] is the list the validation error was built with. *)
Definition validation_exception_handler (exc : PyExc) : outcome :=
  match exc_getattr exc "_errors" with
  | Raise _ => Raised (attribute_error exc "_errors")
  | Ok errs => Returned (json_response 422
      [("error"%string, VStr (str "validation_error")); ("detail"%string, VStr (str "Invalid request parameters"));
       ("errors"%string, errs)])
  end.

Definition http_exception_handler (exc : PyExc) : outcome :=
  match exc_getattr exc "status_code", exc_getattr exc "detail" with
  | Raise _, _ => Raised (attribute_error exc "status_code")
  | _, Raise _ => Raised (attribute_error exc "detail")
  | Ok (VInt c), Ok d => Returned (json_response c
      [("error"%string, VStr (str "http_error")); ("detail"%string, d); ("status_code"%string, VInt c)])
  | Ok _, Ok _ => Raised (exception_init Cls.TypeError [])
  end.

Definition general_exception_handler (exc : PyExc) : outcome :=
  Returned (json_response 500
    [("error"%string, VStr (str "internal_server_error")); ("detail"%string, VStr (str "An unexpected error occurred"));
     ("type"%string, VStr (str (type_name (exc_type exc))))]).

(** FastAPI's own [http_exception_handler], which [FastAPI.__init__]
    registers for Starlette's [HTTPException]: [{"detail": ...}], and no
    body for the statuses that forbid one. *)
Definition fastapi_http_exception_handler (exc : PyExc) : outcome :=
  match exc_getattr exc "status_code", exc_getattr exc "detail" with
  | Ok (VInt c), Ok d =>
      if (c <? 200) || (c =? 204) || (c =? 205) || (c =? 304) then Returned (json_response c [])
      else Returned (json_response c [("detail"%string, d)])
  | Raise _, _ => Raised (attribute_error exc "status_code")
  | _, Raise _ => Raised (attribute_error exc "detail")
  | Ok _, Ok _ => Raised (exception_init Cls.TypeError [])
  end.

(** [app.exception_handlers] after main.py's four [@app.exception_handler]
    registrations, on top of FastAPI's defaults (the one for
    [RequestValidationError] replaced). *)
Definition exception_handlers : list (PyClass * (PyExc -> outcome)) :=
  [(Cls.StarletteHTTPException, fastapi_http_exception_handler);
   (Cls.RequestValidationError, validation_exception_handler);
   (Cls.ProcessingError, processing_error_handler);
   (Cls.HTTPException, http_exception_handler);
   (Cls.Exception, general_exception_handler)].

(** ** The stack *)

Fixpoint assoc_cls {V} (l : list (PyClass * V)) (c : PyClass) : option V :=
  match l with
  | [] => None
  | (k, v) :: l' => if decide (k = c) then Some v else assoc_cls l' c
  end.

Fixpoint first_some {A B} (f : A -> option B) (l : list A) : option B :=
  match l with
  | [] => None
  | x :: l' => match f x with Some y => Some y | None => first_some f l' end
  end.

(** [build_middleware_stack]: the handler for [Exception] goes to
    [ServerErrorMiddleware], the others to [ExceptionMiddleware]. *)
Definition error_handler (hs : list (PyClass * (PyExc -> outcome))) : option (PyExc -> outcome) :=
  assoc_cls hs Cls.Exception.

Definition middleware_handlers (hs : list (PyClass * (PyExc -> outcome)))
  : list (PyClass * (PyExc -> outcome)) :=
  filter (fun kv => negb (bool_decide (kv.1 = Cls.Exception))) hs.

(** [_lookup_exception_handler]: the first class of [type(exc).__mro__]
    with a handler. *)
Definition lookup_exception_handler (hs : list (PyClass * (PyExc -> outcome))) (c : PyClass)
  : option (PyExc -> outcome) :=
  first_some (assoc_cls hs) (mro c).

(** [ExceptionMiddleware]: a raised object with a handler is handed to
    it (what the handler raises propagates); others propagate. *)
Definition exception_middleware (hs : list (PyClass * (PyExc -> outcome))) (o : outcome) : outcome :=
  match o with
  | Returned r => Returned r
  | Raised e => match lookup_exception_handler hs (exc_type e) with
                | Some h => h e
                | None => Raised e
                end
  end.

(** What the server sends when an exception leaves the application. *)
Definition server_internal_error : Response :=
  mkResponse 500 [] [("content-type"%string, str "text/plain; charset=utf-8")].

(** [ServerErrorMiddleware]: the error handler's response is sent and
    the exception re-raised to the server; without a handler, or when
    the handler raises, the plain 500. *)
Definition server_error_middleware (handler : option (PyExc -> outcome)) (o : outcome)
  : Response * option PyExc :=
  match o with
  | Returned r => (r, None)
  | Raised e =>
      match handler with
      | Some h => match h e with
                  | Returned r => (r, Some e)
                  | Raised e' => (server_internal_error, Some e')
                  end
      | None => (server_internal_error, Some e)
      end
  end.

(** ** The middleware of main.py *)

Section Middleware.
Context `{UnicodeDB}.
(** The state the routes change. *)
Variable S : Type.

(** A layer's view of the rest of the application. *)
Definition app_m : Type := S -> S * outcome.

(** [f"{n / d:.1f}"] for [0 <= n] and [0 < d] with [n / d] exact as a
    double: the quotient rounded to one decimal, ties to even. *)
Definition fmt_1f (n d : Z) : text :=
  let q := (10 * n) / d in
  let r := (10 * n) mod d in
  let q := if (d <? 2 * r) || ((2 * r =? d) && Z.odd q) then q + 1 else q in
  str_of_nat (Z.to_nat (q / 10)) ++ str "." ++ str_of_nat (Z.to_nat (q mod 10)).

(** The 413 answer of [FileSizeLimitMiddleware.dispatch]. *)
Definition file_too_large (max_size : Z) : Response :=
  json_response 413
    [("error"%string, VStr (str "file_too_large"));
     ("detail"%string, VStr (str "File size exceeds " ++ fmt_1f max_size (1024 * 1024) ++ str "MB limit"));
     ("max_size_mb"%string, VFloat (PrimFloat.div (float_of_Z max_size) (float_of_Z (1024 * 1024))))].

(** [FileSizeLimitMiddleware]: the size check of [size_limit_dispatch];
    the rest of the application runs only when it passes. *)
Definition file_size_limit (max_size : Z) (r : Request) (call_next : app_m) : app_m :=
  fun s => match size_limit_dispatch max_size r with
           | Ok true => call_next s
           | Ok false => (s, Returned (file_too_large max_size))
           | Raise e => (s, Raised (exception_init (exn_class e) []))
           end.

(** [log_requests]: [call_next] re-raises what the inner application
    raised, so only a response gets the [X-Process-Time] header. *)
Definition log_requests (process_time : text) (call_next : app_m) : app_m :=
  fun s => let '(s', o) := call_next s in
           (s', match o with
                | Returned r => Returned (set_header r "x-process-time" process_time)
                | Raised e => Raised e
                end).

(** The [CORSMiddleware] configuration of main.py. *)
Definition cors_allow_origins : list text :=
  [str "http://localhost:3000"; str "http://127.0.0.1:3000"; str "https://your-frontend-domain.com"].

Definition cors_allow_methods : list string := ["GET"; "POST"; "PUT"; "DELETE"]%string.

(** [CORSMiddleware]: a request without [Origin] passes; a preflight
    ([OPTIONS] with [Access-Control-Request-Method]) is answered here,
    400 for a refused origin or method; other responses get the
    credentials header, and the origin header when the origin is
    allowed.  Any header is allowed ([allow_headers=["*"]]). *)
Definition preflight_method (r : Request) : option text :=
  if String.eqb (req_method r) "OPTIONS" then header r "access-control-request-method" else None.

Definition cors_middleware (r : Request) (call_next : app_m) : app_m :=
  fun s =>
    match header r "origin" with
    | None => call_next s
    | Some origin =>
        let allowed := bool_decide (origin ∈ cors_allow_origins) in
        match preflight_method r with
        | Some m =>
            let ok := allowed && bool_decide (m ∈ map str cors_allow_methods) in
            let hs := if allowed then [("access-control-allow-origin"%string, origin)] else [] in
            (s, Returned (mkResponse (if ok then 200 else 400) [] hs))
        | None =>
            let '(s', o) := call_next s in
            (s', match o with
                 | Returned resp =>
                     let resp := set_header resp "access-control-allow-credentials" (str "true") in
                     Returned (if allowed then set_header resp "access-control-allow-origin" origin else resp)
                 | Raised e => Raised e
                 end)
        end
    end.

(** The two exception layers on what the router gives back. *)
Definition handle_exceptions (o : outcome) : Response * option PyExc :=
  server_error_middleware (error_handler exception_handlers)
    (exception_middleware (middleware_handlers exception_handlers) o).

(** The application: [ServerErrorMiddleware], then [log_requests],
    [FileSizeLimitMiddleware] and [CORSMiddleware] (Starlette puts the
    middleware added last outermost), then [ExceptionMiddleware] around
    the router. *)
Definition app_stack (max_size : Z) (process_time : text) (r : Request) (router : app_m)
  : S -> S * (Response * option PyExc) :=
  fun s =>
    let inner : app_m := fun s => let '(s', o) := router s in
                                  (s', exception_middleware (middleware_handlers exception_handlers) o) in
    let '(s', o) := log_requests process_time (file_size_limit max_size r (cors_middleware r inner)) s in
    (s', server_error_middleware (error_handler exception_handlers) o).

End Middleware.

(** ** Routing *)

(** The endpoints of the application: FastAPI's documentation routes,
    the routers of routes/routers/ under [/api/v1], and [root]. *)
Inductive Endpoint : Type :=
  | OpenAPIJson | SwaggerUI | SwaggerOAuth2Redirect | ReDoc
  | TranslateEP | SupportedLanguagesEP | StatusEP (session_id : text) | HealthEP | RootEP.

(** A segment of a path template: a literal, or a [{param}]. *)
Inductive Seg : Type := Lit (s : text) | Param.

(** A route: its template, its methods ([None]: every method, as
    [add_route] leaves it) and its endpoint given the path parameters. *)
Record Route : Type := mkRoute {
  route_segs : list Seg;
  route_methods : option (list string);
  route_endpoint : list text -> Endpoint
}.

(** The segments of a template, split at ['/']. *)
Definition path_segs (template : string) : list Seg :=
  map (fun w => match w with 123%N :: _ => Param | _ => Lit w end) (split_on 47 (str template)).

(** The path parameters when the path matches the template ([{name}]
    matches a non-empty segment). *)
Fixpoint match_segs (pat : list Seg) (p : list text) : option (list text) :=
  match pat, p with
  | [], [] => Some []
  | Lit w :: pat', x :: p' => if bool_decide (w = x) then match_segs pat' p' else None
  | Param :: pat', (c :: cs) :: p' => option_map (cons (c :: cs)) (match_segs pat' p')
  | _, _ => None
  end.

Inductive Match : Type := Full (ep : Endpoint) | Partial | NoMatch.

(** [Route.matches]: the path decides, then the method. *)
Definition route_matches (rt : Route) (method : string) (path : text) : Match :=
  match match_segs (route_segs rt) (split_on 47 path) with
  | None => NoMatch
  | Some ps =>
      match route_methods rt with
      | Some ms => if bool_decide (method ∈ ms) then Full (route_endpoint rt ps) else Partial
      | None => Full (route_endpoint rt ps)
      end
  end.

(** [app.routes] in the order they are added: the documentation routes
    of [FastAPI.setup], the two routers included with prefix [/api/v1],
    then [@app.get("/")].  FastAPI's [APIRoute] does not add [HEAD]. *)
Definition app_routes : list Route :=
  [mkRoute (path_segs "/openapi.json") None (fun _ => OpenAPIJson);
   mkRoute (path_segs "/docs") None (fun _ => SwaggerUI);
   mkRoute (path_segs "/docs/oauth2-redirect") None (fun _ => SwaggerOAuth2Redirect);
   mkRoute (path_segs "/redoc") None (fun _ => ReDoc);
   mkRoute (path_segs "/api/v1/translate") (Some ["POST"%string]) (fun _ => TranslateEP);
   mkRoute (path_segs "/api/v1/supported-languages") (Some ["GET"%string]) (fun _ => SupportedLanguagesEP);
   mkRoute (path_segs "/api/v1/status/{session_id}") (Some ["GET"%string])
     (fun ps => StatusEP (default [] (head ps)));
   mkRoute (path_segs "/api/v1/health") (Some ["GET"%string]) (fun _ => HealthEP);
   mkRoute (path_segs "/") (Some ["GET"%string]) (fun _ => RootEP)].

Inductive RouteResult : Type :=
  | Found (ep : Endpoint)
  | NotAllowed
  | RedirectTo (path : text)
  | NotFound.

Fixpoint first_full (rts : list Route) (method : string) (path : text) : option Endpoint :=
  match rts with
  | [] => None
  | rt :: rts' => match route_matches rt method path with
                  | Full ep => Some ep
                  | _ => first_full rts' method path
                  end
  end.

Definition any_partial (rts : list Route) (method : string) (path : text) : bool :=
  existsb (fun rt => match route_matches rt method path with Partial => true | _ => false end) rts.

Definition any_match (rts : list Route) (method : string) (path : text) : bool :=
  existsb (fun rt => match route_matches rt method path with NoMatch => false | _ => true end) rts.

(** [path.rstrip("/")]. *)
Fixpoint lstrip_slash (p : text) : text :=
  match p with
  | 47%N :: p' => lstrip_slash p'
  | _ => p
  end.

Definition rstrip_slash (p : text) : text := rev (lstrip_slash (rev p)).

(** [Router.app]: the first full match; else 405 when some route has
    the path; else, with [redirect_slashes], a redirect to the path with
    its trailing slashes removed or one added, when that matches; else
    404. *)
Definition resolve (rts : list Route) (method : string) (path : text) : RouteResult :=
  match first_full rts method path with
  | Some ep => Found ep
  | None =>
      if any_partial rts method path then NotAllowed
      else if bool_decide (path = str "/") then NotFound
      else
        let alt := if bool_decide (list.last path = Some 47%N) then rstrip_slash path else path ++ [47%N] in
        if any_match rts method alt then RedirectTo alt else NotFound
  end.

(** ** The endpoints *)

(** [ProcessingStage(...).value]. *)
Definition stage_value (s : ProcessingStage) : string :=
  match s with
  | INITIALIZED => "initialized" | OCR => "ocr" | TRANSLATION => "translation"
  | INPAINTING => "inpainting" | RENDERING => "rendering" | COMPLETED => "completed"
  | ERROR => "error"
  end.

(** The [HTTPException] Starlette's router raises for 404 and 405; the
    [Allow] header of a 405 lists a set, in no fixed order, and is left
    out. *)
Definition starlette_http_exception (status_code : Z) (detail : string) : PyExc :=
  mkPyExc Cls.StarletteHTTPException []
    [("status_code"%string, VInt status_code); ("detail"%string, VStr (str detail)); ("headers"%string, VNone)].

(** The [RequestValidationError] FastAPI raises for a missing form field. *)
Definition missing_field_error (field : string) : PyExc :=
  mkPyExc Cls.RequestValidationError []
    [("_errors"%string, VList [VDict [("type"%string, VStr (str "missing"));
                                      ("loc"%string, VList [VStr (str "body"); VStr (str field)]);
                                      ("msg"%string, VStr (str "Field required"))]])].

(** [root]. *)
Definition root_response : Response :=
  json_response 200
    [("message"%string, VStr (str "Ink Translation API")); ("version"%string, VStr (str app_version));
     ("status"%string, VStr (str "running")); ("docs"%string, VStr (str "/docs"));
     ("health"%string, VStr (str "/api/v1/health"))].

(** The [(code, name)] pairs [get_supported_languages] lists, none of
    them source-only. *)
Definition advertised_languages : list (string * string) :=
  [("english", "English"); ("sim_chinese", "Simplified Chinese");
   ("trad_chinese", "Traditional Chinese"); ("korean", "Korean");
   ("japanese", "Japanese"); ("vietnamese", "Vietnamese")]%string.

Definition supported_languages_response : Response :=
  json_response 200
    [("languages"%string,
       VList (map (fun '(c, n) => VDict [("code"%string, VStr (str c)); ("name"%string, VStr (str n));
                                         ("source_only"%string, VBool false)]) advertised_languages));
     ("max_file_size_mb"%string, VInt (settings_int "max_file_size_mb"));
     ("allowed_formats"%string, VList (map VStr ALLOWED_MIME_TYPES))].

(** The [StreamingResponse] of a translated image with [n] boxes. *)
Definition translate_response (f : Upload) (n : nat) : Response :=
  mkResponse 200 []
    [("content-disposition"%string, str "inline; filename=translated_" ++ default (str "None") (filename f));
     ("x-text-boxes-count"%string, str_of_nat n);
     ("cache-control"%string, str "no-cache");
     ("content-type"%string, str "image/png")].

(** The [HealthResponse] as JSON ([uptime_seconds], a float of the
    clock, left out). *)
Definition health_json (hr : HealthResponse) : Response :=
  json_response 200
    [("status"%string, VStr (str (hr_status hr))); ("version"%string, VStr (str (hr_version hr)));
     ("ocr_models_loaded"%string, VInt (ocr_models_loaded hr));
     ("translation_services_available"%string,
        VList (map (fun s => VStr (str s)) (translation_services_available hr)))].

(** The size limit main.py installs. *)
Definition main_max_size : Z := 10 * 1024 * 1024.

(** A request as the application sees it: its path, its method and
    headers, and the form fields of [/translate] ([None] when absent). *)
Record AppRequest : Type := mkAppRequest {
  ar_path : text;
  ar_http : Request;
  ar_file : option Upload;
  ar_source_language : option string;
  ar_target_language : option string;
  ar_session_id : option text
}.

Section Application.
Context `{UnicodeDB} {Img : Type}.
Variables (load_image : list N -> res Img) (image_shape : Img -> Z * Z) (encode_ok : Img -> bool)
  (net : Net) (deepl_init : DeepLInit) (env : Collaborators Img).
(** What [psutil] measures and the uptime when [/health] runs. *)
Variables (probe : option SystemMetrics) (uptime : Q).
(** The message each exception was raised with. *)
Variable exn_msg : exn -> text.

Definition raised_exn (e : exn) : outcome := Raised (exn_object e (exn_msg e)).

(** The endpoint with the request's parameters, on the application
    state; FastAPI's form defaults are ["japanese"] and ["english"]. *)
Definition run_endpoint (req : AppRequest) (ep : Endpoint) : app_m AppState :=
  fun a =>
    match ep with
    | TranslateEP =>
        match ar_file req with
        | None => (a, Raised (missing_field_error "file"))
        | Some f =>
            let '(a', r) := translate_manga load_image image_shape encode_ok net deepl_init env f
                              (default "japanese"%string (ar_source_language req))
                              (default "english"%string (ar_target_language req))
                              (ar_session_id req) a in
            (a', match r with
                 | Ok (_, n) => Returned (translate_response f n)
                 | Raise e => raised_exn e
                 end)
        end
    | StatusEP sid =>
        let '(a', r) := get_processing_status sid a in
        (a', match r with
             | Ok stg => Returned (json_response 200
                           [("job_id"%string, VStr sid); ("status"%string, VStr (str (stage_value stg)))])
             | Raise e => raised_exn e
             end)
    | HealthEP =>
        (a, match health_check net deepl_init health_defaults probe (o_world (app_orch a)) uptime with
            | Ok hr => Returned (health_json hr)
            | Raise e => raised_exn e
            end)
    | SupportedLanguagesEP => (a, Returned supported_languages_response)
    | RootEP => (a, Returned root_response)
    | OpenAPIJson | SwaggerUI | SwaggerOAuth2Redirect | ReDoc => (a, Returned (json_response 200 []))
    end.

(** The router: an endpoint, 405, a 307 redirect or 404. *)
Definition router_app (req : AppRequest) : app_m AppState :=
  fun a =>
    match resolve app_routes (req_method (ar_http req)) (ar_path req) with
    | Found ep => run_endpoint req ep a
    | NotAllowed => (a, Raised (starlette_http_exception 405 "Method Not Allowed"))
    | RedirectTo p => (a, Returned (mkResponse 307 [] [("location"%string, p)]))
    | NotFound => (a, Raised (starlette_http_exception 404 "Not Found"))
    end.

(** One request through the whole application: the response sent, the
    exception reported to the server, and the new state. *)
Definition app (process_time : text) (req : AppRequest) : AppState -> AppState * (Response * option PyExc) :=
  app_stack AppState main_max_size process_time (ar_http req) (router_app req).

End Application.

(** ** Theorems *)

Lemma lookup_processing_handler c :
  issubclass c Cls.ProcessingError = true ->
  lookup_exception_handler (middleware_handlers exception_handlers) c = Some processing_error_handler.
Proof. destruct c; (discriminate || reflexivity). Qed.

Lemma error_handler_general : error_handler exception_handlers = Some general_exception_handler.
Proof. reflexivity. Qed.

(** The exception layers on an exception of the development: its
    [HTTPException] status, else 500 reported to the server. *)
Lemma handle_exn_object e msg :
  resp_status (handle_exceptions (Raised (exn_object e msg))).1 = exception_status e /\
  ((handle_exceptions (Raised (exn_object e msg))).2 = None <-> exists c, e = HTTPException c).
Proof.
  destruct e; (split; [reflexivity | split]);
    try (intros Hn; discriminate Hn); try (intros [? [=]]); eauto.
Qed.

(** An exception object without attributes always ends as 500. *)
Lemma handle_plain_exception c args :
  resp_status (handle_exceptions (Raised (exception_init c args))).1 = 500.
Proof. by destruct c. Qed.

Lemma log_requests_returned {S} pt (f : app_m S) s s' r :
  log_requests S pt f s = (s', Returned r) -> dict_get (resp_headers r) "x-process-time" = Some pt.
Proof.
  unfold log_requests. destruct (f s) as [s0 [r0|e0]]; intros [= <- <-]. apply dict_get_set_eq.
Qed.

Lemma log_requests_raised {S} pt (f : app_m S) s s' e :
  log_requests S pt f s = (s', Raised e) -> exists s0, f s = (s0, Raised e).
Proof. unfold log_requests. destruct (f s) as [s0 [r0|e0]]; intros [= <- <-]. eauto. Qed.

Lemma set_header_status r k v : resp_status (set_header r k v) = resp_status r.
Proof. done. Qed.

(** When the size check passes and the request is no preflight, the
    application is the router followed by the exception layers, up to
    the headers the middleware adds. *)
Lemma app_stack_passes `{UnicodeDB} {S} max pt r (rt : app_m S) s s' o :
  size_limit_dispatch max r = Ok true -> preflight_method r = None -> rt s = (s', o) ->
  (app_stack S max pt r rt s).1 = s' /\
  resp_status (app_stack S max pt r rt s).2.1 = resp_status (handle_exceptions o).1 /\
  (app_stack S max pt r rt s).2.2 = (handle_exceptions o).2.
Proof.
  intros Hs Hp Hr. unfold app_stack, log_requests, file_size_limit, cors_middleware, handle_exceptions.
  rewrite Hs. destruct (header r "origin") as [origin|]; [rewrite Hp|]; rewrite Hr;
    destruct (exception_middleware _ o) as [resp|e]; cbn; auto.
  by case_bool_decide.
Qed.

(** C6. Whatever the router answers for a request that passes the size
    check and is no CORS preflight, an exception of the development that
    it raises ends with the status of [exception_status]: an
    [HTTPException] its own code, handled below the middleware; every
    other exception 500, reported to the server as well. *)
Theorem app_exception_status `{UnicodeDB} {S} max pt r (rt : app_m S) s s' e msg :
  size_limit_dispatch max r = Ok true -> preflight_method r = None ->
  rt s = (s', Raised (exn_object e msg)) ->
  resp_status (app_stack S max pt r rt s).2.1 = exception_status e /\
  ((app_stack S max pt r rt s).2.2 = None <-> exists c, e = HTTPException c).
Proof.
  intros Hs Hp Hr. destruct (app_stack_passes max pt r rt s s' _ Hs Hp Hr) as (_ & -> & ->).
  apply handle_exn_object.
Qed.

(** C7. An exception of [ProcessingError] or of any of its subclasses
    that reaches the exception layers is not answered 422:
    [processing_error_handler] reads [exc.detail], which the class does
    not have ([MangaTranslatorException] stores [details]), and the
    [AttributeError] it raises is answered 500 by
    [general_exception_handler] and reported to the server. *)
Theorem processing_error_answered_500 c m d :
  issubclass c Cls.ProcessingError = true ->
  handle_exceptions (Raised (MangaTranslatorException_init c m d)) =
  (json_response 500
     [("error"%string, VStr (str "internal_server_error"));
      ("detail"%string, VStr (str "An unexpected error occurred"));
      ("type"%string, VStr (str "AttributeError"))],
   Some (attribute_error (MangaTranslatorException_init c m d) "detail")).
Proof.
  intros Hc. unfold handle_exceptions, exception_middleware. cbn [exc_type MangaTranslatorException_init].
  by rewrite (lookup_processing_handler c Hc).
Qed.

(** C9. Every response the application sends carries the
    [X-Process-Time] header of [log_requests] exactly when no exception
    reached [ServerErrorMiddleware]: the 500 answers of
    [general_exception_handler] never have it. *)
Theorem process_time_header `{UnicodeDB} {S} max pt r (rt : app_m S) s :
  dict_get (resp_headers (app_stack S max pt r rt s).2.1) "x-process-time" = Some pt <->
  (app_stack S max pt r rt s).2.2 = None.
Proof.
  unfold app_stack.
  destruct (log_requests S pt _ s) as [s' [resp|e]] eqn:E; cbn.
  - apply log_requests_returned in E. by rewrite E.
  - split; discriminate.
Qed.

(** C8. A request from an allowed origin, no preflight, gets
    [Access-Control-Allow-Origin] exactly when it passes the size check
    and no exception reaches [ServerErrorMiddleware]: the 413 of
    [FileSizeLimitMiddleware], which sits outside [CORSMiddleware], and
    the 500 of the server-error handler reach the browser without it. *)
Theorem cors_header_allowed `{UnicodeDB} {S} max pt r (rt : app_m S) s origin :
  header r "origin" = Some origin -> origin ∈ cors_allow_origins -> preflight_method r = None ->
  (dict_get (resp_headers (app_stack S max pt r rt s).2.1) "access-control-allow-origin" = Some origin <->
   size_limit_dispatch max r = Ok true /\ (app_stack S max pt r rt s).2.2 = None).
Proof.
  intros Ho Hin Hp.
  unfold app_stack, log_requests, file_size_limit, cors_middleware.
  destruct (size_limit_dispatch max r) as [[]|e]; cbn; [|split; [discriminate | intros [[=] _]]..].
  rewrite Ho, Hp, (bool_decide_eq_true_2 _ Hin).
  destruct (rt s) as [s' o]. destruct (exception_middleware _ o) as [resp|e]; cbn -[dict_get dict_set].
  - rewrite dict_get_set_ne by done. rewrite dict_get_set_eq. tauto.
  - split; [discriminate | intros [_ [=]]].
Qed.

Lemma resolve_translate : resolve app_routes "POST" (str "/api/v1/translate") = Found TranslateEP.
Proof. reflexivity. Qed.

Lemma preflight_post r : req_method r = "POST"%string -> preflight_method r = None.
Proof. intros Hm. unfold preflight_method. by rewrite Hm. Qed.

Section ApplicationProofs.
Context `{UnicodeDB} {Img : Type}.
Variables (load_image : list N -> res Img) (image_shape : Img -> Z * Z) (encode_ok : Img -> bool)
  (net : Net) (deepl_init : DeepLInit) (env : Collaborators Img)
  (probe : option SystemMetrics) (uptime : Q) (exn_msg : exn -> text).

(** What the router answers for [POST /api/v1/translate]: 422 for a
    missing file, else the endpoint's 200 or the status of what it
    raises. *)
Lemma router_translate_status req a :
  ar_path req = str "/api/v1/translate" -> req_method (ar_http req) = "POST"%string ->
  resp_status (handle_exceptions
    (router_app load_image image_shape encode_ok net deepl_init env probe uptime exn_msg req a).2).1
    ∈ [200; 400; 413; 422; 500].
Proof.
  intros Hp Hm. unfold router_app. rewrite Hp, Hm, resolve_translate. cbn [run_endpoint].
  destruct (ar_file req) as [f|]; [|by apply (bool_decide_unpack _)].
  destruct (translate_manga _ _ _ _ _ _ _ _ _ _ _) as [a' [[img n]|e]] eqn:Ht;
    [by apply (bool_decide_unpack _)|].
  cbn [fst snd]. unfold raised_exn. rewrite (proj1 (handle_exn_object e _)).
  apply elem_of_cons. right. eapply translate_manga_raise_status. by rewrite Ht.
Qed.

(** C4. Whatever the upload, the form fields, the headers, the session,
    the decoder, the collaborators and the network, the application
    answers [POST /api/v1/translate] with one of 200, 400, 413, 422 and
    500: never 429 or 401, since no route uses the rate limiter or the
    API-key check. *)
Theorem app_translate_codes pt req a :
  ar_path req = str "/api/v1/translate" -> req_method (ar_http req) = "POST"%string ->
  resp_status (app load_image image_shape encode_ok net deepl_init env probe uptime exn_msg pt req a).2.1
    ∈ [200; 400; 413; 422; 500].
Proof.
  intros Hp Hm. unfold app.
  destruct (size_limit_dispatch main_max_size (ar_http req)) as [[]|e] eqn:Hs.
  - destruct (router_app load_image image_shape encode_ok net deepl_init env probe uptime exn_msg req a)
      as [a' o] eqn:Hr.
    destruct (app_stack_passes main_max_size pt _ _ a a' o Hs (preflight_post _ Hm) Hr) as (_ & -> & _).
    pose proof (router_translate_status req a Hp Hm) as Hc. by rewrite Hr in Hc.
  - unfold app_stack, log_requests, file_size_limit. rewrite Hs. by apply (bool_decide_unpack _).
  - unfold app_stack, log_requests, file_size_limit. rewrite Hs. by apply (bool_decide_unpack _).
Qed.

End ApplicationProofs.

(** ** Concrete requests *)

Definition post_request : Request := mkHttpRequest "POST" [] None.

Definition origin_request : Request :=
  mkHttpRequest "GET" [("origin"%string, str "http://localhost:3000")] None.

Definition raising_router (e : exn) : app_m unit := fun s => (s, Raised (exn_object e (str "failed"))).

Definition root_router : app_m unit := fun s => (s, Returned root_response).

Definition get_request (path : string) : AppRequest :=
  mkAppRequest (str path) (mkHttpRequest "GET" [] None) None None None None.

Definition translate_request : AppRequest :=
  mkAppRequest (str "/api/v1/translate") post_request (Some example_upload) None None (Some (str "s")).

(** A path no route has gets FastAPI's own 404 body, not the
    [{"error": "http_error", ...}] of main.py's [http_exception_handler]:
    Starlette's router raises Starlette's [HTTPException], and main.py
    registered its handler for FastAPI's subclass. *)
Example not_found_default_body :
  (app (fun _ => Ok 100%nat) (fun n => (Z.of_nat n, Z.of_nat n)) (fun _ => true) failing_net DInitOk
     example_env None 0%Q (fun _ => []) (str "0.1") (get_request "/api/v1/translation") example_app).2 =
  (mkResponse 404 [("detail"%string, VStr (str "Not Found"))] [("x-process-time"%string, str "0.1")], None).
Proof. reflexivity. Qed.

(** [HEAD] on a [GET] route is refused: FastAPI's [APIRoute] does not add
    [HEAD]. *)
Example head_health_not_allowed :
  resp_status (app (fun _ => Ok 100%nat) (fun n => (Z.of_nat n, Z.of_nat n)) (fun _ => true) failing_net DInitOk
     example_env None 0%Q (fun _ => []) (str "0.1")
     (mkAppRequest (str "/api/v1/health") (mkHttpRequest "HEAD" [] None) None None None None) example_app).2.1
  = 405.
Proof. reflexivity. Qed.

(** A trailing slash is redirected. *)
Example trailing_slash_redirect :
  (app (fun _ => Ok 100%nat) (fun n => (Z.of_nat n, Z.of_nat n)) (fun _ => true) failing_net DInitOk
     example_env None 0%Q (fun _ => []) (str "0.1") (get_request "/api/v1/status/abc/") example_app).2.1 =
  mkResponse 307 [] [("location"%string, str "/api/v1/status/abc"); ("x-process-time"%string, str "0.1")].
Proof. reflexivity. Qed.

(** Each language [/supported-languages] advertises passes the language
    check of [/translate] and names a [Language]. *)
Lemma advertised_languages_accepted c n :
  (c, n) ∈ advertised_languages ->
  c ∈ map fst font_mappings /\ exists l, language_of_value c = Ok l.
Proof.
  intros Hin. repeat (apply elem_of_cons in Hin as [[= -> ->]|Hin]; [split; [by apply (bool_decide_unpack _) | eexists; reflexivity]|]).
  by apply elem_of_nil in Hin.
Qed.

(** ** Witnesses *)

Lemma app_exception_status_witness :
  size_limit_dispatch main_max_size post_request = Ok true /\ preflight_method post_request = None /\
  raising_router ProcessingError tt = (tt, Raised (exn_object ProcessingError (str "failed"))) /\
  resp_status (app_stack unit main_max_size (str "0.1") post_request (raising_router ProcessingError) tt).2.1
    = exception_status ProcessingError /\
  ((app_stack unit main_max_size (str "0.1") post_request (raising_router ProcessingError) tt).2.2 = None <->
   exists c, ProcessingError = HTTPException c).
Proof.
  assert (Hs : size_limit_dispatch main_max_size post_request = Ok true) by reflexivity.
  assert (Hp : preflight_method post_request = None) by reflexivity.
  assert (Hr : raising_router ProcessingError tt = (tt, Raised (exn_object ProcessingError (str "failed"))))
    by reflexivity.
  split; [exact Hs | split; [exact Hp | split; [exact Hr |]]].
  exact (app_exception_status _ _ _ _ _ _ _ _ Hs Hp Hr).
Defined.

Lemma processing_error_answered_500_witness :
  issubclass Cls.OCRError Cls.ProcessingError = true /\
  handle_exceptions (Raised (MangaTranslatorException_init Cls.OCRError (str "OCR failed") None)) =
  (json_response 500
     [("error"%string, VStr (str "internal_server_error"));
      ("detail"%string, VStr (str "An unexpected error occurred"));
      ("type"%string, VStr (str "AttributeError"))],
   Some (attribute_error (MangaTranslatorException_init Cls.OCRError (str "OCR failed") None) "detail")).
Proof.
  assert (Hc : issubclass Cls.OCRError Cls.ProcessingError = true) by reflexivity.
  split; [exact Hc | exact (processing_error_answered_500 _ _ _ Hc)].
Defined.

Lemma cors_header_allowed_witness :
  header origin_request "origin" = Some (str "http://localhost:3000") /\
  str "http://localhost:3000" ∈ cors_allow_origins /\ preflight_method origin_request = None /\
  (dict_get (resp_headers (app_stack unit main_max_size (str "0.1") origin_request root_router tt).2.1)
     "access-control-allow-origin" = Some (str "http://localhost:3000") <->
   size_limit_dispatch main_max_size origin_request = Ok true /\
   (app_stack unit main_max_size (str "0.1") origin_request root_router tt).2.2 = None).
Proof.
  assert (Ho : header origin_request "origin" = Some (str "http://localhost:3000")) by reflexivity.
  assert (Hin : str "http://localhost:3000" ∈ cors_allow_origins) by (by apply (bool_decide_unpack _)).
  assert (Hp : preflight_method origin_request = None) by reflexivity.
  split; [exact Ho | split; [exact Hin | split; [exact Hp |]]].
  exact (cors_header_allowed _ _ _ _ _ _ Ho Hin Hp).
Defined.

Lemma app_translate_codes_witness :
  ar_path translate_request = str "/api/v1/translate" /\
  req_method (ar_http translate_request) = "POST"%string /\
  resp_status (app (fun _ => Ok 100%nat) (fun n => (Z.of_nat n, Z.of_nat n)) (fun _ => true) failing_net DInitOk
     example_env None 0%Q (fun _ => []) (str "0.1") translate_request example_app).2.1
    ∈ [200; 400; 413; 422; 500].
Proof.
  assert (Hp : ar_path translate_request = str "/api/v1/translate") by reflexivity.
  assert (Hm : req_method (ar_http translate_request) = "POST"%string) by reflexivity.
  split; [exact Hp | split; [exact Hm |]].
  exact (app_translate_codes _ _ _ _ _ _ _ _ _ _ _ _ Hp Hm).
Defined.
